(** * RTL8365MB switch driver: table access, VLAN reconciler, MIB counters, IRQ

    A shallow embedding of the control-plane core of the rtl8365mb DSA
    driver.  Driver functions that talk to the chip are written in a small
    state-and-error monad over a model of the chip behind the register
    transport; pure packing helpers are plain functions on [Z]. *)

From Stdlib Require Import ZArith Lia List Bool String.
From stdpp Require Import base gmap list.
From coqutil Require Import Z.bitblast.

Local Open Scope Z_scope.

(** ** Error numbers and bit-field helpers *)

Definition EIO : Z := 5.
Definition EINVAL : Z := 22.
Definition ETIMEDOUT : Z := 110.

Definition BIT (n : Z) : Z := Z.shiftl 1 n.
Definition GENMASK (h l : Z) : Z := Z.shiftl (Z.ones (h - l + 1)) l.

(** Position of the lowest set bit of a mask (the kernel's [__bf_shf]). *)
Definition bf_shf (mask : Z) : Z := Z.log2 (Z.land mask (- mask)).

Definition FIELD_GET (mask reg : Z) : Z := Z.shiftr (Z.land reg mask) (bf_shf mask).
Definition FIELD_PREP (mask val : Z) : Z := Z.land (Z.shiftl val (bf_shf mask)) mask.
Definition FIELD_MAX (mask : Z) : Z := Z.shiftr mask (bf_shf mask).
Definition FIELD_FIT (mask val : Z) : bool :=
  Z.land (Z.shiftl val (bf_shf mask)) (Z.lnot mask) =? 0.
Definition FIELD_WIDTH (mask : Z) : Z := Z.log2 (FIELD_MAX mask + 1).

(** Truncations of the C integer types the driver stores values in. *)
Definition u8 (x : Z) : Z := x mod 2 ^ 8.
Definition u16 (x : Z) : Z := x mod 2 ^ 16.
Definition u32 (x : Z) : Z := x mod 2 ^ 32.
Definition u64 (x : Z) : Z := x mod 2 ^ 64.

(** ** Register map *)

Definition RTL8365MB_MAX_NUM_PORTS : Z := 11.

Definition RTL8365MB_INTR_STATUS_REG : Z := 0x1102.
Definition RTL8365MB_INTR_LINK_CHANGE_MASK : Z := 0x0001.
Definition RTL8365MB_PORT_LINKDOWN_IND_REG : Z := 0x1106.
Definition RTL8365MB_PORT_LINKDOWN_IND_MASK : Z := 0x07FF.
Definition RTL8365MB_PORT_LINKUP_IND_REG : Z := 0x1107.
Definition RTL8365MB_PORT_LINKUP_IND_MASK : Z := 0x07FF.

Definition RTL8365MB_INDIRECT_ACCESS_CTRL_REG : Z := 0x1F00.
Definition RTL8365MB_INDIRECT_ACCESS_CTRL_RW_MASK : Z := 0x0002.
Definition RTL8365MB_INDIRECT_ACCESS_CTRL_RW_READ : Z := 0.
Definition RTL8365MB_INDIRECT_ACCESS_CTRL_RW_WRITE : Z := 1.
Definition RTL8365MB_INDIRECT_ACCESS_CTRL_CMD_MASK : Z := 0x0001.
Definition RTL8365MB_INDIRECT_ACCESS_CTRL_CMD_VALUE : Z := 1.
Definition RTL8365MB_INDIRECT_ACCESS_STATUS_REG : Z := 0x1F01.
Definition RTL8365MB_INDIRECT_ACCESS_ADDRESS_REG : Z := 0x1F02.
Definition RTL8365MB_INDIRECT_ACCESS_ADDRESS_OCPADR_5_1_MASK : Z := GENMASK 4 0.
Definition RTL8365MB_INDIRECT_ACCESS_ADDRESS_PHYNUM_MASK : Z := GENMASK 7 5.
Definition RTL8365MB_INDIRECT_ACCESS_ADDRESS_OCPADR_9_6_MASK : Z := GENMASK 11 8.
Definition RTL8365MB_PHY_BASE : Z := 0x2000.
Definition RTL8365MB_INDIRECT_ACCESS_WRITE_DATA_REG : Z := 0x1F03.
Definition RTL8365MB_INDIRECT_ACCESS_READ_DATA_REG : Z := 0x1F04.
Definition RTL8365MB_GPHY_OCP_MSB_0_REG : Z := 0x1D15.
Definition RTL8365MB_GPHY_OCP_MSB_0_CFG_CPU_OCPADR_MASK : Z := 0x0FC0.
Definition RTL8365MB_PHY_OCP_ADDR_PREFIX_MASK : Z := 0xFC00.

Definition RTL8365MB_MIB_COUNTER_BASE : Z := 0x1000.
Definition RTL8365MB_MIB_COUNTER_REG (x : Z) : Z := u32 (RTL8365MB_MIB_COUNTER_BASE + x).
Definition RTL8365MB_MIB_ADDRESS_REG : Z := 0x1004.
Definition RTL8365MB_MIB_ADDRESS_PORT_OFFSET : Z := 0x007C.
Definition RTL8365MB_MIB_ADDRESS (p x : Z) : Z :=
  Z.shiftr (u32 (RTL8365MB_MIB_ADDRESS_PORT_OFFSET * p + x)) 2.
Definition RTL8365MB_MIB_CTRL0_REG : Z := 0x1005.
Definition RTL8365MB_MIB_CTRL0_RESET_MASK : Z := 0x0002.
Definition RTL8365MB_MIB_CTRL0_BUSY_MASK : Z := 0x0001.

Definition RTL8365MB_TABLE_CONTROL_REG : Z := 0x0500.
Definition RTL8365MB_TABLE_CONTROL_TABLE_MASK : Z := GENMASK 2 0.
Definition RTL8365MB_TABLE_CONTROL_COMMAND_MASK : Z := GENMASK 3 3.
Definition RTL8365MB_TABLE_ACCESS_ADDR_REG : Z := 0x0501.
Definition RTL8365MB_TABLE_ACCESS_ADDR_REG_MASK : Z := GENMASK 13 0.
Definition RTL8365MB_TABLE_LUT_REG : Z := 0x0502.
Definition RTL8365MB_TABLE_LUT_BUSY_FLAG_MASK : Z := GENMASK 13 13.
Definition RTL8365MB_TABLE_WRITE_DATA_REG_BASE : Z := 0x0510.
Definition RTL8365MB_TABLE_READ_DATA_REG_BASE : Z := 0x0520.
Definition RTL8365MB_TABLE_10TH_DATA_REG_MASK : Z := GENMASK 3 0.

Definition RTL8365MB_VLAN_CTRL_REG : Z := 0x07A8.
Definition RTL8365MB_VLAN_CTRL_EN_VLAN_MASK : Z := GENMASK 0 0.
Definition RTL8365MB_MAX_4K_VID : Z := 0x0FFF.
Definition RTL8365MB_MAX_MC_VID : Z := 0x1FFF.

Definition RTL8365MB_VLAN_ACCEPT_FRAME_TYPE_BASE : Z := 0x07aa.
Definition RTL8365MB_VLAN_ACCEPT_FRAME_TYPE_REG (port : Z) : Z :=
  RTL8365MB_VLAN_ACCEPT_FRAME_TYPE_BASE + Z.shiftr port 3.
Definition RTL8365MB_VLAN_ACCEPT_FRAME_TYPE_OFFSET (port : Z) : Z :=
  Z.shiftl (Z.land port 0x7) 1.
Definition RTL8365MB_VLAN_ACCEPT_FRAME_TYPE_MASK (port : Z) : Z :=
  Z.shiftl 0x3 (RTL8365MB_VLAN_ACCEPT_FRAME_TYPE_OFFSET port).

Definition RTL8365MB_VLAN_PVID_CTRL_BASE : Z := 0x0700.
Definition RTL8365MB_VLAN_PVID_CTRL_REG (port : Z) : Z :=
  RTL8365MB_VLAN_PVID_CTRL_BASE + Z.shiftr port 1.
Definition RTL8365MB_VLAN_PVID_CTRL_OFFSET (port : Z) : Z :=
  Z.shiftl (Z.land port 1) 3.
Definition RTL8365MB_VLAN_PVID_CTRL_MASK (port : Z) : Z :=
  Z.shiftl 0xFF (RTL8365MB_VLAN_PVID_CTRL_OFFSET port).

Definition RTL8365MB_VLAN_4K_ENTRY_SIZE : Z := 3.
Definition RTL8365MB_VLAN_4K_CONF0_MEMBERS_LS_MASK : Z := GENMASK 7 0.
Definition RTL8365MB_VLAN_4K_CONF2_MEMBERS_MS_MASK : Z := GENMASK 2 0.
Definition RTL8365MB_VLAN_4K_CONF0_UNTAG_LS_MASK : Z := GENMASK 15 8.
Definition RTL8365MB_VLAN_4K_CONF2_UNTAG_MS_MASK : Z := GENMASK 5 3.
Definition RTL8365MB_VLAN_4K_CONF1_FID_MSI_MASK : Z := GENMASK 3 0.

Definition RTL8365MB_VLAN_MC_CONF_BASE : Z := 0x0728.
Definition RTL8365MB_VLAN_MC_CONF_ENTRY_SIZE : Z := 4.
Definition RTL8365MB_VLAN_MC_CONF_REG (index : Z) : Z :=
  RTL8365MB_VLAN_MC_CONF_BASE + RTL8365MB_VLAN_MC_CONF_ENTRY_SIZE * index.
Definition RTL8365MB_VLAN_MC_CONF_SIZE : Z := 32.
Definition RTL8365MB_VLAN_MC_CONF0_MEMBERS_MSK : Z := GENMASK 10 0.
Definition RTL8365MB_VLAN_MC_CONF1_FID_MSI_MSK : Z := GENMASK 3 0.
Definition RTL8365MB_VLAN_MC_CONF2_VBPRI_MSK : Z := GENMASK 3 1.
Definition RTL8365MB_VLAN_MC_CONF3_EVID_MSK : Z := GENMASK 12 0.

(** [enum rtl8365mb_table]: the enumerators start at 1. *)
Definition RTL8365MB_TABLE_ACL_RULE : Z := 1.
Definition RTL8365MB_TABLE_ACL_ACT : Z := 2.
Definition RTL8365MB_TABLE_CVLAN : Z := 3.
Definition RTL8365MB_TABLE_L2 : Z := 4.
Definition RTL8365MB_TABLE_IGMP_GROUP : Z := 5.
Definition RTL8365MB_NUM_TABLES : Z := 6.

(** [enum rtl8365mb_table_op] *)
Definition RTL8365MB_TABLE_READ : Z := 0.
Definition RTL8365MB_TABLE_WRITE : Z := 1.

(** The designated initialisers leave index 0 zero-initialised. *)
Definition rtl8365mb_table_entry_size (table : Z) : Z :=
  nth (Z.to_nat table) [0; 0; 0; 3; 0; 0] 0.

(** [enum rtl8365mb_frame_type] *)
Definition RTL8365MB_FRAME_TYPE_ANY_FRAME : Z := 0.
Definition RTL8365MB_FRAME_TYPE_TAGGED_ONLY : Z := 1.
Definition RTL8365MB_FRAME_TYPE_UNTAGGED_ONLY : Z := 2.

(** Bridge VLAN flags of the switchdev object. *)
Definition BRIDGE_VLAN_INFO_PVID : Z := 2.
Definition BRIDGE_VLAN_INFO_UNTAGGED : Z := 4.

(** ** The chip behind the register transport *)

(** One access that reached the chip. *)
Inductive access : Type :=
| Rd (addr : Z)
| Wr (addr val : Z)
| Upd (addr mask val : Z).

(** The chip: a file of 16-bit registers, the rows of its indexed tables
    keyed by (table id, address), the outcomes the transport will give to
    the coming accesses (0 lets the access through, anything else is the
    error the transport answers with; an exhausted list means no more
    failures), and the accesses made so far, oldest first. *)
Record chip : Type := mkChip {
  regs : gmap Z Z;
  tables : gmap (Z * Z) (list Z);
  faults : list Z;
  log : list access
}.

(** A register holds 16 bits; one never written reads as zero. *)
Definition reg (st : chip) (a : Z) : Z := u16 (default 0 (regs st !! a)).

(** A table row is ten 16-bit words; a row never written is all zero. *)
Definition table_row (st : chip) (table index : Z) : list Z :=
  map (fun k => u16 (nth k (default [] (tables st !! (table, index))) 0)) (seq 0 10).

Definition set_reg (a v : Z) (st : chip) : chip :=
  mkChip (<[a := v]> (regs st)) (tables st) (faults st) (log st).

Definition set_row (table index : Z) (row : list Z) (st : chip) : chip :=
  mkChip (regs st) (<[(table, index) := row]> (tables st)) (faults st) (log st).

Definition record (e : access) (st : chip) : chip :=
  mkChip (regs st) (tables st) (faults st) (log st ++ [e]).

Definition next_fault (st : chip) : Z * chip :=
  match faults st with
  | [] => (0, st)
  | f :: fs => (f, mkChip (regs st) (tables st) fs (log st))
  end.

(** Storing into registers [base .. base+n-1] from a list of words. *)
Fixpoint load_regs (base : Z) (ws : list Z) (st : chip) : chip :=
  match ws with
  | [] => st
  | w :: ws' => load_regs (base + 1) ws' (set_reg base w st)
  end.

(** The table engine runs when the control register is written: the
    command bit selects between committing the ten write-data registers to
    the addressed row and loading the addressed row into the ten read-data
    registers. *)
Definition table_engine (st : chip) : chip :=
  let ctl := reg st RTL8365MB_TABLE_CONTROL_REG in
  let table := FIELD_GET RTL8365MB_TABLE_CONTROL_TABLE_MASK ctl in
  let index := FIELD_GET RTL8365MB_TABLE_ACCESS_ADDR_REG_MASK
                 (reg st RTL8365MB_TABLE_ACCESS_ADDR_REG) in
  if FIELD_GET RTL8365MB_TABLE_CONTROL_COMMAND_MASK ctl =? RTL8365MB_TABLE_WRITE
  then set_row table index
         (map (fun i => reg st (RTL8365MB_TABLE_WRITE_DATA_REG_BASE + Z.of_nat i)) (seq 0 10)) st
  else load_regs RTL8365MB_TABLE_READ_DATA_REG_BASE (table_row st table index) st.

(** The interrupt status registers clear the bits written as one. *)
Definition write_one_to_clear (a : Z) : bool :=
  (a =? RTL8365MB_INTR_STATUS_REG) || (a =? RTL8365MB_PORT_LINKUP_IND_REG)
  || (a =? RTL8365MB_PORT_LINKDOWN_IND_REG).

Definition chip_store (a v : Z) (st : chip) : chip :=
  if a =? RTL8365MB_TABLE_CONTROL_REG then table_engine (set_reg a v st)
  else if write_one_to_clear a then set_reg a (Z.land (reg st a) (Z.lnot v)) st
  else set_reg a v st.

(** ** The register transport *)

Inductive result (A : Type) : Type :=
| Ok (a : A)
| Err (e : Z).
Arguments Ok {A} a.
Arguments Err {A} e.

Definition bus (A : Type) : Type := chip -> result A * chip.

Definition ret {A} (a : A) : bus A := fun st => (Ok a, st).
Definition fail {A} (e : Z) : bus A := fun st => (Err e, st).
Definition bind {A B} (m : bus A) (k : A -> bus B) : bus B :=
  fun st => match m st with
            | (Ok a, st') => k a st'
            | (Err e, st') => (Err e, st')
            end.

Notation "x <- m ;; k" := (bind m (fun x => k))
  (at level 100, m at next level, right associativity).
Notation "m ;;; k" := (bind m (fun _ => k))
  (at level 100, right associativity).

(** What a C function of type [int] hands back: 0 or the error. *)
Definition status {A} (r : result A) : Z :=
  match r with Ok _ => 0 | Err e => e end.

(** Modelled from the spec: the register transport (read16, write16,
    update16 of section 6).  Each call is one access; the transport either
    answers with its error and leaves the chip alone, or performs the
    access. *)
Definition regmap_read (a : Z) : bus Z := fun st =>
  let '(f, st1) := next_fault st in
  if f =? 0 then (Ok (reg st1 a), record (Rd a) st1) else (Err f, st1).

Definition regmap_write (a v : Z) : bus unit := fun st =>
  let '(f, st1) := next_fault st in
  if f =? 0 then (Ok tt, record (Wr a (u16 v)) (chip_store a (u16 v) st1))
  else (Err f, st1).

Definition regmap_update_bits (a mask v : Z) : bus unit := fun st =>
  let '(f, st1) := next_fault st in
  if f =? 0
  then (Ok tt, record (Upd a mask v)
                 (chip_store a (u16 (Z.lor (Z.land (reg st1 a) (Z.lnot mask)) (Z.land v mask))) st1))
  else (Err f, st1).

(** Bulk transfers go register by register, lowest address first. *)
Fixpoint regmap_bulk_read (a : Z) (count : nat) : bus (list Z) :=
  match count with
  | O => ret []
  | S n => v <- regmap_read a ;; vs <- regmap_bulk_read (a + 1) n ;; ret (v :: vs)
  end.

Fixpoint regmap_bulk_write (a : Z) (vals : list Z) : bus unit :=
  match vals with
  | [] => ret tt
  | v :: vs => regmap_write a v ;;; regmap_bulk_write (a + 1) vs
  end.

(** Modelled from the spec: the bounded busy-poll helper
    read_poll_timeout(addr, predicate, interval, timeout).  The register is
    read until the predicate holds; [tries] sleeps of one interval fit in
    the timeout, after which the register is read once more and the
    predicate decides between success and a timeout error.  The helper
    itself gives up on elapsed time, so how many reads a poll makes before
    it times out depends on how long each read takes: that number is the
    model's, the results and the registers read are the helper's. *)
Fixpoint poll_loop (tries : nat) (a : Z) (cond : Z -> bool) : bus Z :=
  v <- regmap_read a ;;
  if cond v then ret v
  else match tries with
       | O => v' <- regmap_read a ;; if cond v' then ret v' else fail (- ETIMEDOUT)
       | S n => poll_loop n a cond
       end.

Definition regmap_read_poll_timeout (a : Z) (cond : Z -> bool) (sleep_us timeout_us : Z) : bus Z :=
  poll_loop (Z.to_nat (timeout_us / sleep_us)) a cond.

(** Runs [m] and hands back its status instead of stopping at an error. *)
Definition attempt {A} (m : bus A) : bus Z := fun st =>
  let '(r, st') := m st in (Ok (status r), st').

(** ** PHY register access through the indirect (OCP) window *)

Definition rtl8365mb_phy_poll_busy : bus Z :=
  regmap_read_poll_timeout RTL8365MB_INDIRECT_ACCESS_STATUS_REG (fun val => val =? 0) 10 100.

Definition rtl8365mb_phy_ocp_prepare (phy ocp_addr : Z) : bus unit :=
  let val := FIELD_GET RTL8365MB_PHY_OCP_ADDR_PREFIX_MASK ocp_addr in
  regmap_update_bits RTL8365MB_GPHY_OCP_MSB_0_REG
    RTL8365MB_GPHY_OCP_MSB_0_CFG_CPU_OCPADR_MASK
    (FIELD_PREP RTL8365MB_GPHY_OCP_MSB_0_CFG_CPU_OCPADR_MASK val) ;;;
  let val := RTL8365MB_PHY_BASE in
  let val := Z.lor val (FIELD_PREP RTL8365MB_INDIRECT_ACCESS_ADDRESS_PHYNUM_MASK phy) in
  let val := Z.lor val (FIELD_PREP RTL8365MB_INDIRECT_ACCESS_ADDRESS_OCPADR_5_1_MASK
                          (Z.shiftr ocp_addr 1)) in
  let val := Z.lor val (FIELD_PREP RTL8365MB_INDIRECT_ACCESS_ADDRESS_OCPADR_9_6_MASK
                          (Z.shiftr ocp_addr 6)) in
  regmap_write RTL8365MB_INDIRECT_ACCESS_ADDRESS_REG val.

(** Everything between taking and releasing the bus lock in
    [rtl8365mb_phy_ocp_read]; every [goto out] is an error leaving it. *)
Definition phy_ocp_read_locked (phy ocp_addr : Z) : bus Z :=
  rtl8365mb_phy_poll_busy ;;;
  rtl8365mb_phy_ocp_prepare phy ocp_addr ;;;
  regmap_write RTL8365MB_INDIRECT_ACCESS_CTRL_REG
    (Z.lor (FIELD_PREP RTL8365MB_INDIRECT_ACCESS_CTRL_CMD_MASK
              RTL8365MB_INDIRECT_ACCESS_CTRL_CMD_VALUE)
           (FIELD_PREP RTL8365MB_INDIRECT_ACCESS_CTRL_RW_MASK
              RTL8365MB_INDIRECT_ACCESS_CTRL_RW_READ)) ;;;
  rtl8365mb_phy_poll_busy ;;;
  val <- regmap_read RTL8365MB_INDIRECT_ACCESS_READ_DATA_REG ;;
  ret (Z.land val 0xFFFF).

(** [return ret] after the [out] label: the status, and the data read. *)
Definition rtl8365mb_phy_ocp_read (phy ocp_addr : Z) (st : chip) : Z * option Z * chip :=
  match phy_ocp_read_locked phy ocp_addr st with
  | (Ok data, st') => (0, Some data, st')
  | (Err e, st') => (e, None, st')
  end.

(** Everything between taking and releasing the bus lock in
    [rtl8365mb_phy_ocp_write]. *)
Definition phy_ocp_write_locked (phy ocp_addr data : Z) : bus unit :=
  rtl8365mb_phy_poll_busy ;;;
  rtl8365mb_phy_ocp_prepare phy ocp_addr ;;;
  regmap_write RTL8365MB_INDIRECT_ACCESS_WRITE_DATA_REG data ;;;
  regmap_write RTL8365MB_INDIRECT_ACCESS_CTRL_REG
    (Z.lor (FIELD_PREP RTL8365MB_INDIRECT_ACCESS_CTRL_CMD_MASK
              RTL8365MB_INDIRECT_ACCESS_CTRL_CMD_VALUE)
           (FIELD_PREP RTL8365MB_INDIRECT_ACCESS_CTRL_RW_MASK
              RTL8365MB_INDIRECT_ACCESS_CTRL_RW_WRITE)) ;;;
  rtl8365mb_phy_poll_busy ;;;
  ret tt.

(** [return 0] after the [out] label, whatever [ret] holds. *)
Definition rtl8365mb_phy_ocp_write (phy ocp_addr data : Z) (st : chip) : Z * chip :=
  let '(_, st') := phy_ocp_write_locked phy ocp_addr data st in (0, st').

(** ** Table access *)

Section TableAccess.

(** The row width of each table, [rtl8365mb_table_entry_size] in the
    driver. *)
Variable entry_size : Z -> Z.

Definition table_busy_clear (lut : Z) : bool :=
  FIELD_PREP RTL8365MB_TABLE_LUT_BUSY_FLAG_MASK lut =? 0.

(** The two checks made before the table lock is taken. *)
Definition table_access_valid (table index : Z) : bool :=
  negb (table >=? RTL8365MB_NUM_TABLES)
  && FIELD_FIT RTL8365MB_TABLE_ACCESS_ADDR_REG_MASK index.

(** The part of the access done under the table lock.  [val] is the
    caller's buffer; a read hands it back with its first [val_size]
    words replaced. *)
Definition table_access_locked (table op index : Z) (val : list Z) : bus (list Z) :=
  let val_size := entry_size table in
  (if op =? RTL8365MB_TABLE_WRITE then
     regmap_bulk_write RTL8365MB_TABLE_WRITE_DATA_REG_BASE
       (firstn (Z.to_nat (if val_size =? 10 then 9 else val_size)) val) ;;;
     (if val_size =? 10 then
        regmap_update_bits (RTL8365MB_TABLE_WRITE_DATA_REG_BASE + 9)
          RTL8365MB_TABLE_10TH_DATA_REG_MASK
          (FIELD_PREP RTL8365MB_TABLE_10TH_DATA_REG_MASK (nth 9 val 0))
      else ret tt)
   else
     regmap_read_poll_timeout RTL8365MB_TABLE_LUT_REG table_busy_clear 10 100 ;;; ret tt) ;;;
  regmap_write RTL8365MB_TABLE_ACCESS_ADDR_REG
    (FIELD_PREP RTL8365MB_TABLE_ACCESS_ADDR_REG_MASK index) ;;;
  regmap_update_bits RTL8365MB_TABLE_CONTROL_REG
    (Z.lor RTL8365MB_TABLE_CONTROL_COMMAND_MASK RTL8365MB_TABLE_CONTROL_TABLE_MASK)
    (Z.lor (FIELD_PREP RTL8365MB_TABLE_CONTROL_COMMAND_MASK op)
           (FIELD_PREP RTL8365MB_TABLE_CONTROL_TABLE_MASK table)) ;;;
  if op =? RTL8365MB_TABLE_READ then
    attempt (regmap_read RTL8365MB_TABLE_LUT_REG) ;;;
    regmap_read_poll_timeout RTL8365MB_TABLE_LUT_REG table_busy_clear 10 100 ;;;
    words <- regmap_bulk_read RTL8365MB_TABLE_READ_DATA_REG_BASE (Z.to_nat val_size) ;;
    let val := words ++ skipn (Z.to_nat val_size) val in
    ret (if val_size =? 10
         then <[9%nat := Z.land (nth 9 val 0) RTL8365MB_TABLE_10TH_DATA_REG_MASK]> val
         else val)
  else ret val.

Definition table_access (table op index : Z) (val : list Z) : bus (list Z) :=
  if negb (table_access_valid table index) then fail (- EINVAL)
  else table_access_locked table op index val.

End TableAccess.

Definition rtl8365mb_table_access : Z -> Z -> Z -> list Z -> bus (list Z) :=
  table_access rtl8365mb_table_entry_size.

(** ** VLAN entries *)

(** Modelled from the spec: the VLAN-by-ID entry and the VLAN context slot
    of section 3, as the structs [rtl8366_vlan_4k] and [rtl8366_vlan_mc]
    of the shared Realtek header declare them: 16-bit VID and port
    bitmaps, 8-bit forwarding domain and priority. *)
Record rtl8366_vlan_4k : Type := mkVlan4k {
  vid4k : Z;
  untag4k : Z;
  member4k : Z;
  fid4k : Z
}.

Record rtl8366_vlan_mc : Type := mkVlanMc {
  vidmc : Z;
  untagmc : Z;
  membermc : Z;
  fidmc : Z;
  prioritymc : Z
}.

Definition vlan4k_zero : rtl8366_vlan_4k := mkVlan4k 0 0 0 0.
Definition vlanmc_zero : rtl8366_vlan_mc := mkVlanMc 0 0 0 0 0.

(** The switch as DSA describes it to the driver: the number of ports and
    the indices of the CPU ports. *)
Record dsa_switch : Type := mkSwitch {
  num_ports : Z;
  cpu_port_indices : list Z
}.

Definition dsa_cpu_ports (ds : dsa_switch) : Z :=
  fold_right (fun p mask => Z.lor (BIT p) mask) 0 (cpu_port_indices ds).

Definition rtl8365mb_buf_vlan4k (buf : list Z) (vlan4k : rtl8366_vlan_4k) : rtl8366_vlan_4k :=
  let member :=
    Z.lor (FIELD_GET RTL8365MB_VLAN_4K_CONF0_MEMBERS_LS_MASK (nth 0 buf 0))
          (Z.shiftl (FIELD_GET RTL8365MB_VLAN_4K_CONF2_MEMBERS_MS_MASK (nth 2 buf 0))
                    (FIELD_WIDTH RTL8365MB_VLAN_4K_CONF0_MEMBERS_LS_MASK)) in
  let untag :=
    Z.lor (FIELD_GET RTL8365MB_VLAN_4K_CONF0_UNTAG_LS_MASK (nth 0 buf 0))
          (Z.shiftl (FIELD_GET RTL8365MB_VLAN_4K_CONF2_UNTAG_MS_MASK (nth 2 buf 0))
                    (FIELD_WIDTH RTL8365MB_VLAN_4K_CONF0_UNTAG_LS_MASK)) in
  let fid := FIELD_GET RTL8365MB_VLAN_4K_CONF1_FID_MSI_MASK (nth 1 buf 0) in
  mkVlan4k (vid4k vlan4k) (u16 untag) (u16 member) (u8 fid).

Definition rtl8365mb_vlan4k_buf (vlan4k : rtl8366_vlan_4k) (buf : list Z) : list Z :=
  let clear (m w : Z) := u16 (Z.land w (Z.lnot m)) in
  let b0 := clear RTL8365MB_VLAN_4K_CONF0_MEMBERS_LS_MASK (nth 0 buf 0) in
  let b0 := u16 (Z.lor b0 (FIELD_PREP RTL8365MB_VLAN_4K_CONF0_MEMBERS_LS_MASK
                   (Z.land (member4k vlan4k) (FIELD_MAX RTL8365MB_VLAN_4K_CONF0_MEMBERS_LS_MASK)))) in
  let b2 := clear RTL8365MB_VLAN_4K_CONF2_MEMBERS_MS_MASK (nth 2 buf 0) in
  let b2 := u16 (Z.lor b2 (FIELD_PREP RTL8365MB_VLAN_4K_CONF2_MEMBERS_MS_MASK
                   (Z.shiftr (member4k vlan4k) (FIELD_WIDTH RTL8365MB_VLAN_4K_CONF0_MEMBERS_LS_MASK)))) in
  let b1 := clear RTL8365MB_VLAN_4K_CONF1_FID_MSI_MASK (nth 1 buf 0) in
  let b1 := u16 (Z.lor b1 (FIELD_PREP RTL8365MB_VLAN_4K_CONF1_FID_MSI_MASK (fid4k vlan4k))) in
  let b0 := clear RTL8365MB_VLAN_4K_CONF0_UNTAG_LS_MASK b0 in
  let b0 := u16 (Z.lor b0 (FIELD_PREP RTL8365MB_VLAN_4K_CONF0_UNTAG_LS_MASK
                   (Z.land (untag4k vlan4k) (FIELD_MAX RTL8365MB_VLAN_4K_CONF0_UNTAG_LS_MASK)))) in
  let b2 := clear RTL8365MB_VLAN_4K_CONF2_UNTAG_MS_MASK b2 in
  let b2 := u16 (Z.lor b2 (FIELD_PREP RTL8365MB_VLAN_4K_CONF2_UNTAG_MS_MASK
                   (Z.shiftr (untag4k vlan4k) (FIELD_WIDTH RTL8365MB_VLAN_4K_CONF0_UNTAG_LS_MASK)))) in
  <[2%nat := b2]> (<[1%nat := b1]> (<[0%nat := b0]> buf)).

Definition rtl8365mb_vlan4k_set (ds : dsa_switch) (port vid flags : Z) (include : bool)
  : bus unit :=
  if vid >? RTL8365MB_MAX_4K_VID then fail (- EINVAL)
  else
    vlan_entry <- rtl8365mb_table_access RTL8365MB_TABLE_CVLAN RTL8365MB_TABLE_READ vid [0; 0; 0] ;;
    let vlan4k := rtl8365mb_buf_vlan4k vlan_entry vlan4k_zero in
    let member := if include then u16 (Z.lor (member4k vlan4k) (BIT port))
                  else u16 (Z.land (member4k vlan4k) (Z.lnot (BIT port))) in
    let untag := if include && negb (Z.land flags BRIDGE_VLAN_INFO_UNTAGGED =? 0)
                 then u16 (Z.lor (untag4k vlan4k) (BIT port))
                 else u16 (Z.land (untag4k vlan4k) (Z.lnot (BIT port))) in
    let vlan4k := mkVlan4k (vid4k vlan4k) untag member (fid4k vlan4k) in
    let vlan_entry := rtl8365mb_vlan4k_buf vlan4k vlan_entry in
    rtl8365mb_table_access RTL8365MB_TABLE_CVLAN RTL8365MB_TABLE_WRITE vid vlan_entry ;;;
    ret tt.

Definition rtl8365mb_buf_vlanmc (buf : list Z) (vlanmc : rtl8366_vlan_mc) : rtl8366_vlan_mc :=
  mkVlanMc
    (u16 (FIELD_GET RTL8365MB_VLAN_MC_CONF3_EVID_MSK (nth 3 buf 0)))
    (untagmc vlanmc)
    (u16 (FIELD_GET RTL8365MB_VLAN_MC_CONF0_MEMBERS_MSK (nth 0 buf 0)))
    (u8 (FIELD_GET RTL8365MB_VLAN_MC_CONF1_FID_MSI_MSK (nth 1 buf 0)))
    (u8 (FIELD_GET RTL8365MB_VLAN_MC_CONF2_VBPRI_MSK (nth 2 buf 0))).

Definition rtl8365mb_vlanmc_buf (vlanmc : rtl8366_vlan_mc) (buf : list Z) : list Z :=
  let put (m v w : Z) := u16 (Z.lor (u16 (Z.land w (Z.lnot m))) (FIELD_PREP m v)) in
  let b0 := put RTL8365MB_VLAN_MC_CONF0_MEMBERS_MSK (membermc vlanmc) (nth 0 buf 0) in
  let b1 := put RTL8365MB_VLAN_MC_CONF1_FID_MSI_MSK (fidmc vlanmc) (nth 1 buf 0) in
  let b2 := put RTL8365MB_VLAN_MC_CONF2_VBPRI_MSK (prioritymc vlanmc) (nth 2 buf 0) in
  let b3 := put RTL8365MB_VLAN_MC_CONF3_EVID_MSK (vidmc vlanmc) (nth 3 buf 0) in
  <[3%nat := b3]> (<[2%nat := b2]> (<[1%nat := b1]> (<[0%nat := b0]> buf))).

(** The slot scan of [rtl8365mb_vlanmc_set]: [n] slots are still to be
    looked at, starting with [vlanmc_idx].  It stops at the slot holding
    [vid], and otherwise ends with the index one past the last slot;
    [vlan_entry] is the entry read last. *)
Fixpoint vlanmc_scan (n : nat) (vlanmc_idx first_unused : Z) (vlan_entry : list Z) (vid : Z)
  : bus (Z * Z * list Z) :=
  match n with
  | O => ret (vlanmc_idx, first_unused, vlan_entry)
  | S n' =>
      vlan_entry <- regmap_bulk_read (RTL8365MB_VLAN_MC_CONF_REG vlanmc_idx)
                      (Z.to_nat RTL8365MB_VLAN_MC_CONF_ENTRY_SIZE) ;;
      let evid := u16 (FIELD_GET RTL8365MB_VLAN_MC_CONF3_EVID_MSK (nth 3 vlan_entry 0)) in
      if evid =? vid then ret (vlanmc_idx, first_unused, vlan_entry)
      else
        let first_unused :=
          if (evid =? 0) && (first_unused <? 0) then vlanmc_idx else first_unused in
        vlanmc_scan n' (vlanmc_idx + 1) first_unused vlan_entry vid
  end.

(** [rtl8365mb_vlanmc_set] from the read of the port's PVID register on:
    the slot [vlanmc_idx] is chosen, [vlan_entry] is what the buffer holds
    and [vlan4k] what was decoded from the by-ID table (all zero unless a
    slot is being allocated). *)
Definition vlanmc_set_slot (ds : dsa_switch) (port vid flags : Z) (include : bool)
    (vlanmc_idx : Z) (vlan_entry : list Z) (vlan4k : rtl8366_vlan_4k) : bus unit :=
  data <- regmap_read (RTL8365MB_VLAN_PVID_CTRL_REG port) ;;
  let pvid_vlanmc_idx :=
    Z.shiftr (Z.land data (RTL8365MB_VLAN_PVID_CTRL_MASK port))
             (RTL8365MB_VLAN_PVID_CTRL_OFFSET port) in
  data <- regmap_read (RTL8365MB_VLAN_ACCEPT_FRAME_TYPE_REG port) ;;
  let accepted_frame :=
    Z.shiftr (Z.land data (RTL8365MB_VLAN_ACCEPT_FRAME_TYPE_MASK port))
             (RTL8365MB_VLAN_ACCEPT_FRAME_TYPE_OFFSET port) in
  let vlanmc := rtl8365mb_buf_vlanmc vlan_entry vlanmc_zero in
  let member := u16 (Z.lor (membermc vlanmc) (member4k vlan4k)) in
  let member := if include then u16 (Z.lor member (BIT port))
                else u16 (Z.land member (Z.lnot (BIT port))) in
  let vlanmc := mkVlanMc vid (untagmc vlanmc) member (fidmc vlanmc) (prioritymc vlanmc) in
  let vlan_entry :=
    if negb include && (Z.land (membermc vlanmc) (Z.lnot (dsa_cpu_ports ds)) =? 0)
    then [0; 0; 0; 0]
    else rtl8365mb_vlanmc_buf vlanmc vlan_entry in
  regmap_bulk_write (RTL8365MB_VLAN_MC_CONF_REG vlanmc_idx) vlan_entry ;;;
  adjusted <-
    (if negb include then
       ret (if (accepted_frame =? RTL8365MB_FRAME_TYPE_ANY_FRAME)
               && (pvid_vlanmc_idx =? vlanmc_idx)
            then (RTL8365MB_FRAME_TYPE_TAGGED_ONLY, true)
            else (accepted_frame, false))
     else if negb (Z.land flags BRIDGE_VLAN_INFO_PVID =? 0) then
       (if negb (vlanmc_idx =? pvid_vlanmc_idx)
        then regmap_update_bits (RTL8365MB_VLAN_PVID_CTRL_REG port)
               (RTL8365MB_VLAN_PVID_CTRL_MASK port)
               (Z.shiftl vlanmc_idx (RTL8365MB_VLAN_PVID_CTRL_OFFSET port))
        else ret tt) ;;;
       ret (if accepted_frame =? RTL8365MB_FRAME_TYPE_TAGGED_ONLY
            then (RTL8365MB_FRAME_TYPE_ANY_FRAME, true)
            else (accepted_frame, false))
     else ret (accepted_frame, false)) ;;
  let '(accepted_frame, accepted_frame_changed) := adjusted in
  if accepted_frame_changed : bool
  then regmap_update_bits (RTL8365MB_VLAN_ACCEPT_FRAME_TYPE_REG port)
         (RTL8365MB_VLAN_ACCEPT_FRAME_TYPE_MASK port)
         (Z.shiftl accepted_frame (RTL8365MB_VLAN_ACCEPT_FRAME_TYPE_OFFSET port))
  else ret tt.

Definition rtl8365mb_vlanmc_set (ds : dsa_switch) (port vid flags : Z) (include : bool)
  : bus unit :=
  if vid >? RTL8365MB_MAX_MC_VID then fail (- EINVAL)
  else
    found <- vlanmc_scan (Z.to_nat (RTL8365MB_VLAN_MC_CONF_SIZE - 1)) 1 (-1) [0; 0; 0; 0] vid ;;
    let '(vlanmc_idx, first_unused, vlan_entry) := found in
    if vlanmc_idx =? RTL8365MB_VLAN_MC_CONF_SIZE then
      let vlan_entry := [0; 0; 0; 0] in
      if Z.land flags BRIDGE_VLAN_INFO_PVID =? 0 then ret tt
      else if first_unused <? 0 then fail (- EINVAL)
      else if vid <=? RTL8365MB_MAX_4K_VID then
        vlan_entry <- rtl8365mb_table_access RTL8365MB_TABLE_CVLAN RTL8365MB_TABLE_READ
                        vid vlan_entry ;;
        vlanmc_set_slot ds port vid flags include first_unused vlan_entry
          (rtl8365mb_buf_vlan4k vlan_entry vlan4k_zero)
      else
        vlanmc_set_slot ds port vid flags include first_unused vlan_entry vlan4k_zero
    else
      vlanmc_set_slot ds port vid flags include vlanmc_idx vlan_entry vlan4k_zero.

(** A failing by-ID update is answered by taking the slot membership back;
    the error of the by-ID update is the one returned. *)
Definition rtl8365mb_vlan_add (ds : dsa_switch) (port vid flags : Z) : bus unit := fun st =>
  match rtl8365mb_vlanmc_set ds port vid flags true st with
  | (Err e, st1) => (Err e, st1)
  | (Ok _, st1) =>
      match rtl8365mb_vlan4k_set ds port vid flags true st1 with
      | (Err e, st2) =>
          let '(_, st3) := rtl8365mb_vlanmc_set ds port vid flags false st2 in (Err e, st3)
      | (Ok _, st2) => (Ok tt, st2)
      end
  end.

(** Both tables are cleaned whatever the first step answers; the value
    returned is the C truth value of [ret || ret2]. *)
Definition rtl8365mb_vlan_del (ds : dsa_switch) (port vid flags : Z) (st : chip) : Z * chip :=
  let '(r, st1) := rtl8365mb_vlan4k_set ds port vid flags false st in
  let '(r2, st2) := rtl8365mb_vlanmc_set ds port vid flags false st1 in
  (if negb (status r =? 0) || negb (status r2 =? 0) then 1 else 0, st2).

Definition rtl8365mb_vlan_init (ds : dsa_switch) : bus unit :=
  let vlanmc := mkVlanMc 0 0 0 0 0 in
  let vlanmc_idx := 0 in
  fold_right (fun cpu rest =>
                rtl8365mb_vlan4k_set ds cpu 0 BRIDGE_VLAN_INFO_UNTAGGED true ;;; rest)
             (ret tt) (cpu_port_indices ds) ;;;
  regmap_bulk_write (RTL8365MB_VLAN_MC_CONF_REG vlanmc_idx)
    (rtl8365mb_vlanmc_buf vlanmc [0; 0; 0; 0]) ;;;
  regmap_update_bits RTL8365MB_VLAN_CTRL_REG RTL8365MB_VLAN_CTRL_EN_VLAN_MASK
    (FIELD_PREP RTL8365MB_VLAN_CTRL_EN_VLAN_MASK 1).
(** ** MIB counters *)

Record rtl8365mb_mib_counter : Type := mkMib {
  mib_offset : Z;
  mib_length : Z;
  mib_name : string
}.

(** [enum rtl8365mb_mib_counter_index] *)
Definition RTL8365MB_MIB_ifInOctets : nat := 0.
Definition RTL8365MB_MIB_dot3StatsFCSErrors : nat := 1.
Definition RTL8365MB_MIB_dot3StatsSymbolErrors : nat := 2.
Definition RTL8365MB_MIB_dot3InPauseFrames : nat := 3.
Definition RTL8365MB_MIB_dot3ControlInUnknownOpcodes : nat := 4.
Definition RTL8365MB_MIB_etherStatsFragments : nat := 5.
Definition RTL8365MB_MIB_etherStatsJabbers : nat := 6.
Definition RTL8365MB_MIB_ifInUcastPkts : nat := 7.
Definition RTL8365MB_MIB_etherStatsDropEvents : nat := 8.
Definition RTL8365MB_MIB_ifInMulticastPkts : nat := 9.
Definition RTL8365MB_MIB_ifInBroadcastPkts : nat := 10.
Definition RTL8365MB_MIB_inMldChecksumError : nat := 11.
Definition RTL8365MB_MIB_inIgmpChecksumError : nat := 12.
Definition RTL8365MB_MIB_inMldSpecificQuery : nat := 13.
Definition RTL8365MB_MIB_inMldGeneralQuery : nat := 14.
Definition RTL8365MB_MIB_inIgmpSpecificQuery : nat := 15.
Definition RTL8365MB_MIB_inIgmpGeneralQuery : nat := 16.
Definition RTL8365MB_MIB_inMldLeaves : nat := 17.
Definition RTL8365MB_MIB_inIgmpLeaves : nat := 18.
Definition RTL8365MB_MIB_etherStatsOctets : nat := 19.
Definition RTL8365MB_MIB_etherStatsUnderSizePkts : nat := 20.
Definition RTL8365MB_MIB_etherOversizeStats : nat := 21.
Definition RTL8365MB_MIB_etherStatsPkts64Octets : nat := 22.
Definition RTL8365MB_MIB_etherStatsPkts65to127Octets : nat := 23.
Definition RTL8365MB_MIB_etherStatsPkts128to255Octets : nat := 24.
Definition RTL8365MB_MIB_etherStatsPkts256to511Octets : nat := 25.
Definition RTL8365MB_MIB_etherStatsPkts512to1023Octets : nat := 26.
Definition RTL8365MB_MIB_etherStatsPkts1024to1518Octets : nat := 27.
Definition RTL8365MB_MIB_ifOutOctets : nat := 28.
Definition RTL8365MB_MIB_dot3StatsSingleCollisionFrames : nat := 29.
Definition RTL8365MB_MIB_dot3StatsMultipleCollisionFrames : nat := 30.
Definition RTL8365MB_MIB_dot3StatsDeferredTransmissions : nat := 31.
Definition RTL8365MB_MIB_dot3StatsLateCollisions : nat := 32.
Definition RTL8365MB_MIB_etherStatsCollisions : nat := 33.
Definition RTL8365MB_MIB_dot3StatsExcessiveCollisions : nat := 34.
Definition RTL8365MB_MIB_dot3OutPauseFrames : nat := 35.
Definition RTL8365MB_MIB_ifOutDiscards : nat := 36.
Definition RTL8365MB_MIB_dot1dTpPortInDiscards : nat := 37.
Definition RTL8365MB_MIB_ifOutUcastPkts : nat := 38.
Definition RTL8365MB_MIB_ifOutMulticastPkts : nat := 39.
Definition RTL8365MB_MIB_ifOutBroadcastPkts : nat := 40.
Definition RTL8365MB_MIB_outOampduPkts : nat := 41.
Definition RTL8365MB_MIB_inOampduPkts : nat := 42.
Definition RTL8365MB_MIB_inIgmpJoinsSuccess : nat := 43.
Definition RTL8365MB_MIB_inIgmpJoinsFail : nat := 44.
Definition RTL8365MB_MIB_inMldJoinsSuccess : nat := 45.
Definition RTL8365MB_MIB_inMldJoinsFail : nat := 46.
Definition RTL8365MB_MIB_inReportSuppressionDrop : nat := 47.
Definition RTL8365MB_MIB_inLeaveSuppressionDrop : nat := 48.
Definition RTL8365MB_MIB_outIgmpReports : nat := 49.
Definition RTL8365MB_MIB_outIgmpLeaves : nat := 50.
Definition RTL8365MB_MIB_outIgmpGeneralQuery : nat := 51.
Definition RTL8365MB_MIB_outIgmpSpecificQuery : nat := 52.
Definition RTL8365MB_MIB_outMldReports : nat := 53.
Definition RTL8365MB_MIB_outMldLeaves : nat := 54.
Definition RTL8365MB_MIB_outMldGeneralQuery : nat := 55.
Definition RTL8365MB_MIB_outMldSpecificQuery : nat := 56.
Definition RTL8365MB_MIB_inKnownMulticastPkts : nat := 57.
Definition RTL8365MB_MIB_END : nat := 58.

Definition rtl8365mb_mib_counters : list rtl8365mb_mib_counter :=
  [
    mkMib 0 4 "ifInOctets"%string;
    mkMib 4 2 "dot3StatsFCSErrors"%string;
    mkMib 6 2 "dot3StatsSymbolErrors"%string;
    mkMib 8 2 "dot3InPauseFrames"%string;
    mkMib 10 2 "dot3ControlInUnknownOpcodes"%string;
    mkMib 12 2 "etherStatsFragments"%string;
    mkMib 14 2 "etherStatsJabbers"%string;
    mkMib 16 2 "ifInUcastPkts"%string;
    mkMib 18 2 "etherStatsDropEvents"%string;
    mkMib 20 2 "ifInMulticastPkts"%string;
    mkMib 22 2 "ifInBroadcastPkts"%string;
    mkMib 24 2 "inMldChecksumError"%string;
    mkMib 26 2 "inIgmpChecksumError"%string;
    mkMib 28 2 "inMldSpecificQuery"%string;
    mkMib 30 2 "inMldGeneralQuery"%string;
    mkMib 32 2 "inIgmpSpecificQuery"%string;
    mkMib 34 2 "inIgmpGeneralQuery"%string;
    mkMib 36 2 "inMldLeaves"%string;
    mkMib 38 2 "inIgmpLeaves"%string;
    mkMib 40 4 "etherStatsOctets"%string;
    mkMib 44 2 "etherStatsUnderSizePkts"%string;
    mkMib 46 2 "etherOversizeStats"%string;
    mkMib 48 2 "etherStatsPkts64Octets"%string;
    mkMib 50 2 "etherStatsPkts65to127Octets"%string;
    mkMib 52 2 "etherStatsPkts128to255Octets"%string;
    mkMib 54 2 "etherStatsPkts256to511Octets"%string;
    mkMib 56 2 "etherStatsPkts512to1023Octets"%string;
    mkMib 58 2 "etherStatsPkts1024to1518Octets"%string;
    mkMib 60 4 "ifOutOctets"%string;
    mkMib 64 2 "dot3StatsSingleCollisionFrames"%string;
    mkMib 66 2 "dot3StatsMultipleCollisionFrames"%string;
    mkMib 68 2 "dot3StatsDeferredTransmissions"%string;
    mkMib 70 2 "dot3StatsLateCollisions"%string;
    mkMib 72 2 "etherStatsCollisions"%string;
    mkMib 74 2 "dot3StatsExcessiveCollisions"%string;
    mkMib 76 2 "dot3OutPauseFrames"%string;
    mkMib 78 2 "ifOutDiscards"%string;
    mkMib 80 2 "dot1dTpPortInDiscards"%string;
    mkMib 82 2 "ifOutUcastPkts"%string;
    mkMib 84 2 "ifOutMulticastPkts"%string;
    mkMib 86 2 "ifOutBroadcastPkts"%string;
    mkMib 88 2 "outOampduPkts"%string;
    mkMib 90 2 "inOampduPkts"%string;
    mkMib 92 4 "inIgmpJoinsSuccess"%string;
    mkMib 96 2 "inIgmpJoinsFail"%string;
    mkMib 98 2 "inMldJoinsSuccess"%string;
    mkMib 100 2 "inMldJoinsFail"%string;
    mkMib 102 2 "inReportSuppressionDrop"%string;
    mkMib 104 2 "inLeaveSuppressionDrop"%string;
    mkMib 106 2 "outIgmpReports"%string;
    mkMib 108 2 "outIgmpLeaves"%string;
    mkMib 110 2 "outIgmpGeneralQuery"%string;
    mkMib 112 2 "outIgmpSpecificQuery"%string;
    mkMib 114 2 "outMldReports"%string;
    mkMib 116 2 "outMldLeaves"%string;
    mkMib 118 2 "outMldGeneralQuery"%string;
    mkMib 120 2 "outMldSpecificQuery"%string;
    mkMib 122 2 "inKnownMulticastPkts"%string
  ].

(** Reads [count] more words of a counter, most significant first, from
    the counter window: word [i] comes from window register [offset - i]. *)
Fixpoint mib_read_words (count : nat) (offset i tmpvalue : Z) : bus Z :=
  match count with
  | O => ret tmpvalue
  | S n =>
      val <- regmap_read (RTL8365MB_MIB_COUNTER_REG (u32 (offset - i))) ;;
      mib_read_words n offset (i + 1) (u64 (Z.lor (Z.shiftl tmpvalue 16) (Z.land val 0xFFFF)))
  end.

Definition rtl8365mb_mib_counter_read (port offset length : Z) : bus Z :=
  regmap_write RTL8365MB_MIB_ADDRESS_REG (RTL8365MB_MIB_ADDRESS port offset) ;;;
  val <- regmap_read_poll_timeout RTL8365MB_MIB_CTRL0_REG
           (fun val => Z.land val RTL8365MB_MIB_CTRL0_BUSY_MASK =? 0) 10 100 ;;
  if negb (Z.land val RTL8365MB_MIB_CTRL0_RESET_MASK =? 0) then fail (- EIO)
  else
    let offset := if length =? 4 then 3 else u32 (offset + 1) mod 4 in
    mib_read_words (Z.to_nat length) offset 0 0.

(** ** Link statistics *)

(** Modelled from the spec: the counter snapshot of section 3.  The named
    fields are the ones the statistics engine assigns; [untouched] stands
    for the remaining members of the kernel's [rtnl_link_stats64], which
    the driver never writes. *)
Record rtnl_link_stats64 : Type := mkStats {
  rx_packets : Z;
  tx_packets : Z;
  rx_bytes : Z;
  tx_bytes : Z;
  rx_errors : Z;
  tx_errors : Z;
  rx_dropped : Z;
  tx_dropped : Z;
  multicast : Z;
  collisions : Z;
  rx_length_errors : Z;
  rx_crc_errors : Z;
  tx_aborted_errors : Z;
  tx_window_errors : Z;
  untouched : list Z
}.

(** The driver's private data: the chip it drives and the published
    statistics of each port. *)
Record rtl8365mb : Type := mkMb {
  hw : chip;
  port_stats : list rtnl_link_stats64
}.

(** The counters [rtl8365mb_stats_update] marks with 1 in its [cnt]
    array; every other element starts at 0. *)
Definition stats_update_marked : list nat :=
  [ RTL8365MB_MIB_ifOutOctets; RTL8365MB_MIB_ifOutUcastPkts;
    RTL8365MB_MIB_ifOutMulticastPkts; RTL8365MB_MIB_ifOutBroadcastPkts;
    RTL8365MB_MIB_ifOutDiscards; RTL8365MB_MIB_ifInOctets;
    RTL8365MB_MIB_ifInUcastPkts; RTL8365MB_MIB_ifInMulticastPkts;
    RTL8365MB_MIB_ifInBroadcastPkts; RTL8365MB_MIB_etherStatsDropEvents;
    RTL8365MB_MIB_etherStatsCollisions; RTL8365MB_MIB_etherStatsFragments;
    RTL8365MB_MIB_etherStatsJabbers; RTL8365MB_MIB_dot3StatsFCSErrors;
    RTL8365MB_MIB_dot3StatsLateCollisions ].

Definition stats_update_cnt : list Z :=
  map (fun i => if existsb (Nat.eqb i) stats_update_marked then 1 else 0)
      (seq 0 RTL8365MB_MIB_END).

(** The counter loop: [idxs] are the indices still to visit; unmarked
    counters are skipped and the first failing read ends the loop. *)
Fixpoint mib_fetch (port : Z) (idxs : list nat) (cnt : list Z) : bus (list Z) :=
  match idxs with
  | [] => ret cnt
  | i :: rest =>
      if nth i cnt 0 =? 0 then mib_fetch port rest cnt
      else
        let c := nth i rtl8365mb_mib_counters (mkMib 0 0 EmptyString) in
        v <- rtl8365mb_mib_counter_read port (mib_offset c) (mib_length c) ;;
        mib_fetch port rest (<[i := v]> cnt)
  end.

(** The assignments made under the port's statistics lock. *)
Definition stats_from_counters (cnt : list Z) (stats : rtnl_link_stats64) : rtnl_link_stats64 :=
  let c (i : nat) := nth i cnt 0 in
  let rx_packets := u64 (c RTL8365MB_MIB_ifInUcastPkts + c RTL8365MB_MIB_ifInMulticastPkts
                         + c RTL8365MB_MIB_ifInBroadcastPkts - c RTL8365MB_MIB_ifOutDiscards) in
  let tx_packets := u64 (c RTL8365MB_MIB_ifOutUcastPkts + c RTL8365MB_MIB_ifOutMulticastPkts
                         + c RTL8365MB_MIB_ifOutBroadcastPkts) in
  let rx_bytes := u64 (c RTL8365MB_MIB_ifInOctets - 4 * rx_packets) in
  let tx_bytes := u64 (c RTL8365MB_MIB_ifOutOctets - 4 * tx_packets) in
  let rx_dropped := c RTL8365MB_MIB_etherStatsDropEvents in
  let tx_dropped := c RTL8365MB_MIB_ifOutDiscards in
  let multicast := c RTL8365MB_MIB_ifInMulticastPkts in
  let collisions := c RTL8365MB_MIB_etherStatsCollisions in
  let rx_length_errors := u64 (c RTL8365MB_MIB_etherStatsFragments
                               + c RTL8365MB_MIB_etherStatsJabbers) in
  let rx_crc_errors := c RTL8365MB_MIB_dot3StatsFCSErrors in
  let rx_errors := u64 (rx_length_errors + rx_crc_errors) in
  let tx_aborted_errors := c RTL8365MB_MIB_ifOutDiscards in
  let tx_window_errors := c RTL8365MB_MIB_dot3StatsLateCollisions in
  let tx_errors := u64 (tx_aborted_errors + tx_window_errors) in
  mkStats rx_packets tx_packets rx_bytes tx_bytes rx_errors tx_errors rx_dropped tx_dropped
          multicast collisions rx_length_errors rx_crc_errors tx_aborted_errors
          tx_window_errors (untouched stats).

Definition rtl8365mb_stats_update (port : Z) (mb : rtl8365mb) : rtl8365mb :=
  match mib_fetch port (seq 0 RTL8365MB_MIB_END) stats_update_cnt (hw mb) with
  | (Err _, st') => mkMb st' (port_stats mb)
  | (Ok cnt, st') =>
      mkMb st' (alter (stats_from_counters cnt) (Z.to_nat port) (port_stats mb))
  end.

Definition stats_zero : rtnl_link_stats64 := mkStats 0 0 0 0 0 0 0 0 0 0 0 0 0 0 [].

Definition rtl8365mb_get_stats64 (mb : rtl8365mb) (port : Z) : rtnl_link_stats64 :=
  nth (Z.to_nat port) (port_stats mb) stats_zero.

(** ** Interrupt handler *)

Definition IRQ_NONE : Z := 0.
Definition IRQ_HANDLED : Z := 1.

Definition rtl8365mb_get_and_clear_status_reg (r : Z) : bus Z :=
  val <- regmap_read r ;;
  regmap_write r val ;;;
  ret val.

(** The handler up to the test of [line_changes]; each [goto out_error]
    is an error leaving it. *)
Definition irq_line_changes : bus Z :=
  stat <- rtl8365mb_get_and_clear_status_reg RTL8365MB_INTR_STATUS_REG ;;
  if negb (Z.land stat RTL8365MB_INTR_LINK_CHANGE_MASK =? 0) then
    val <- rtl8365mb_get_and_clear_status_reg RTL8365MB_PORT_LINKUP_IND_REG ;;
    let linkup_ind := FIELD_GET RTL8365MB_PORT_LINKUP_IND_MASK val in
    val <- rtl8365mb_get_and_clear_status_reg RTL8365MB_PORT_LINKDOWN_IND_REG ;;
    let linkdown_ind := FIELD_GET RTL8365MB_PORT_LINKDOWN_IND_MASK val in
    ret (Z.lor linkup_ind linkdown_ind)
  else ret 0.

(** What one run of the handler amounts to: the value returned, the lines
    whose nested interrupt was raised, in order, and the error reported
    through [dev_err], if any. *)
Record irq_outcome : Type := mkIrq {
  irq_return : Z;
  irq_raised : list Z;
  irq_logged : option Z
}.

Definition rtl8365mb_irq (ds : dsa_switch) (st : chip) : irq_outcome * chip :=
  match irq_line_changes st with
  | (Err e, st') => (mkIrq IRQ_NONE [] (Some e), st')
  | (Ok line_changes, st') =>
      if line_changes =? 0 then (mkIrq IRQ_NONE [] None, st')
      else (mkIrq IRQ_HANDLED
              (List.filter (fun line => Z.testbit line_changes line)
                      (map Z.of_nat (seq 0 (Z.to_nat (num_ports ds)))))
              None, st')
  end.

(** ** Scenario data *)

(** A chip straight out of reset, and the eleven-port switch whose port 8
    is the CPU uplink. *)
Definition chip0 : chip := mkChip ∅ ∅ [] [].
Definition ds11 : dsa_switch := mkSwitch 11 [8].

(** The same chip with an empty access log and the given transport
    outcomes lying ahead. *)
Definition rearm (fs : list Z) (st : chip) : chip :=
  mkChip (regs st) (tables st) fs [].

(** The chip after [rtl8365mb_vlan_init]: slot 0 reserved. *)
Definition fresh_chip : chip :=
  Eval vm_compute in rearm [] (snd (rtl8365mb_vlan_init ds11 chip0)).

(** * Vocabulary of the properties *)

(** A plain register: neither the table control register nor one of the
    write-one-to-clear status registers. *)
Definition plain (a : Z) : bool :=
  negb (a =? RTL8365MB_TABLE_CONTROL_REG) && negb (write_one_to_clear a).

(** The changed-line bitmap the status registers of a chip stand for. *)
Definition irq_cause (st : chip) : Z :=
  if Z.land (reg st RTL8365MB_INTR_STATUS_REG) RTL8365MB_INTR_LINK_CHANGE_MASK =? 0 then 0
  else Z.lor (FIELD_GET RTL8365MB_PORT_LINKUP_IND_MASK (reg st RTL8365MB_PORT_LINKUP_IND_REG))
             (FIELD_GET RTL8365MB_PORT_LINKDOWN_IND_MASK (reg st RTL8365MB_PORT_LINKDOWN_IND_REG)).

(** The counter window position the read starts from. *)
Definition mib_window_start (offset length : Z) : Z :=
  if length =? 4 then 3 else u32 (offset + 1) mod 4.

(** The registers [a], [a+1], ... as a list of [n] words. *)
Definition regs_at (st : chip) (a : Z) (n : nat) : list Z :=
  map (fun i => reg st (a + Z.of_nat i)) (seq 0 n).

Fixpoint reads (a : Z) (n : nat) : list access :=
  match n with
  | O => []
  | S n' => Rd a :: reads (a + 1) n'
  end.

Fixpoint writes (a : Z) (vals : list Z) : list access :=
  match vals with
  | [] => []
  | v :: vs => Wr a (u16 v) :: writes (a + 1) vs
  end.

(** The chip after a bulk write to plain registers. *)
Fixpoint stored (a : Z) (vals : list Z) (st : chip) : chip :=
  match vals with
  | [] => st
  | v :: vs => stored (a + 1) vs (set_reg a (u16 v) st)
  end.

(** The accesses of a table read and of a table write of [n], respectively
    of the words [ws], on a quiet chip. *)
Definition table_read_accesses (table index : Z) (n : nat) : list access :=
  [ Rd RTL8365MB_TABLE_LUT_REG;
    Wr RTL8365MB_TABLE_ACCESS_ADDR_REG index;
    Upd RTL8365MB_TABLE_CONTROL_REG
        (Z.lor RTL8365MB_TABLE_CONTROL_COMMAND_MASK RTL8365MB_TABLE_CONTROL_TABLE_MASK)
        (Z.lor (FIELD_PREP RTL8365MB_TABLE_CONTROL_COMMAND_MASK RTL8365MB_TABLE_READ)
               (FIELD_PREP RTL8365MB_TABLE_CONTROL_TABLE_MASK table));
    Rd RTL8365MB_TABLE_LUT_REG;
    Rd RTL8365MB_TABLE_LUT_REG ]
  ++ reads RTL8365MB_TABLE_READ_DATA_REG_BASE n.

(** The registers a table access may change. *)
Definition table_window (b : Z) : Prop :=
  b = RTL8365MB_TABLE_CONTROL_REG \/ b = RTL8365MB_TABLE_ACCESS_ADDR_REG
  \/ RTL8365MB_TABLE_WRITE_DATA_REG_BASE <= b < RTL8365MB_TABLE_WRITE_DATA_REG_BASE + 10
  \/ RTL8365MB_TABLE_READ_DATA_REG_BASE <= b < RTL8365MB_TABLE_READ_DATA_REG_BASE + 10.

Definition table_write_accesses (table index : Z) (size : Z) (val : list Z) : list access :=
  writes RTL8365MB_TABLE_WRITE_DATA_REG_BASE
    (firstn (Z.to_nat (if size =? 10 then 9 else size)) val)
  ++ (if size =? 10
      then [Upd (RTL8365MB_TABLE_WRITE_DATA_REG_BASE + 9) RTL8365MB_TABLE_10TH_DATA_REG_MASK
              (FIELD_PREP RTL8365MB_TABLE_10TH_DATA_REG_MASK (nth 9 val 0))]
      else [])
  ++ [ Wr RTL8365MB_TABLE_ACCESS_ADDR_REG index;
       Upd RTL8365MB_TABLE_CONTROL_REG
           (Z.lor RTL8365MB_TABLE_CONTROL_COMMAND_MASK RTL8365MB_TABLE_CONTROL_TABLE_MASK)
           (Z.lor (FIELD_PREP RTL8365MB_TABLE_CONTROL_COMMAND_MASK RTL8365MB_TABLE_WRITE)
                  (FIELD_PREP RTL8365MB_TABLE_CONTROL_TABLE_MASK table)) ].

Definition slot_entry (st : chip) (i : Z) : list Z :=
  regs_at st (RTL8365MB_VLAN_MC_CONF_REG i) 4.

Definition slot_evid (st : chip) (i : Z) : Z :=
  u16 (FIELD_GET RTL8365MB_VLAN_MC_CONF3_EVID_MSK (nth 3 (slot_entry st i) 0)).

Fixpoint slots_from (idx : Z) (n : nat) : list Z :=
  match n with
  | O => []
  | S n' => idx :: slots_from (idx + 1) n'
  end.

(** The slots open to allocation: 1 to 31. *)
Definition vlanmc_slots : list Z :=
  slots_from 1 (Z.to_nat (RTL8365MB_VLAN_MC_CONF_SIZE - 1)).

(** The first slot holding [vid], and the first unused slot. *)
Definition slot_lookup (st : chip) (vid : Z) : option Z :=
  List.find (fun i => slot_evid st i =? vid) vlanmc_slots.

Definition slot_first_free (st : chip) : option Z :=
  List.find (fun i => slot_evid st i =? 0) vlanmc_slots.

(** The slot a membership change works on: the one holding the VID, or,
    when there is none and the PVID flag is given, the first unused one. *)
Definition vlanmc_target (st : chip) (vid flags : Z) : option Z :=
  match slot_lookup st vid with
  | Some i => Some i
  | None => if Z.land flags BRIDGE_VLAN_INFO_PVID =? 0 then None else slot_first_free st
  end.

Definition pvid_index (st : chip) (port : Z) : Z :=
  Z.shiftr (Z.land (reg st (RTL8365MB_VLAN_PVID_CTRL_REG port))
                   (RTL8365MB_VLAN_PVID_CTRL_MASK port))
           (RTL8365MB_VLAN_PVID_CTRL_OFFSET port).

Definition frame_type (st : chip) (port : Z) : Z :=
  Z.shiftr (Z.land (reg st (RTL8365MB_VLAN_ACCEPT_FRAME_TYPE_REG port))
                   (RTL8365MB_VLAN_ACCEPT_FRAME_TYPE_MASK port))
           (RTL8365MB_VLAN_ACCEPT_FRAME_TYPE_OFFSET port).

(** The accesses in a log that write or update register [a]. *)
Definition touches (a : Z) (e : access) : bool :=
  match e with
  | Rd _ => false
  | Wr b _ => b =? a
  | Upd b _ _ => b =? a
  end.

Definition updates_of (a : Z) (d : list access) : list access := List.filter (touches a) d.

(** What a run added to the access log. *)
Definition delta (st st' : chip) : list access := skipn (length (log st)) (log st').

Definition is_read (e : access) : bool :=
  match e with Rd _ => true | _ => false end.

Definition has_pvid_flag (flags : Z) : bool := negb (Z.land flags BRIDGE_VLAN_INFO_PVID =? 0).

(** Modelled from the spec: the error kinds of section 7, told apart by
    the error number a caller receives. *)
Inductive error_kind : Type :=
| invalid_argument
| resource_exhausted
| timeout
| io_error
| other_error.

Definition ENOSPC : Z := 28.
Definition ENOMEM : Z := 12.

Definition kind_of_error (e : Z) : error_kind :=
  if e =? - EINVAL then invalid_argument
  else if (e =? - ENOSPC) || (e =? - ENOMEM) then resource_exhausted
  else if e =? - ETIMEDOUT then timeout
  else if e =? - EIO then io_error
  else other_error.

(** A chip whose slots 1 to 31 hold the VLAN IDs 100 to 130. *)
Definition full_chip : chip :=
  Eval vm_compute in
    fold_right (fun i st => set_reg (RTL8365MB_VLAN_MC_CONF_REG i + 3) (99 + i) st)
               fresh_chip vlanmc_slots.

(** Whether a membership change flips the accepted frame type of its
    port: it needs a slot to work on; an add flips with the PVID flag on a
    tagged-only port, a delete flips on an any-frame port whose PVID is
    the slot worked on. *)
Definition frame_flip (st : chip) (port vid flags : Z) (include : bool) : bool :=
  match vlanmc_target st vid flags with
  | None => false
  | Some idx =>
      if include
      then has_pvid_flag flags && (frame_type st port =? RTL8365MB_FRAME_TYPE_TAGGED_ONLY)
      else (frame_type st port =? RTL8365MB_FRAME_TYPE_ANY_FRAME)
           && (pvid_index st port =? idx)
  end.

(** What a write is for: the by-ID table (the write-data registers and the
    control word with the write command), a VLAN context slot, or a port's
    PVID or accepted-frame-type register. *)
Inductive phase : Type := ByID | Slot | PortReg.

Definition in_range (lo n a : Z) : bool := (lo <=? a) && (a <? lo + n).

Definition wr_phase (a : Z) : option phase :=
  if in_range RTL8365MB_TABLE_WRITE_DATA_REG_BASE 10 a then Some ByID
  else if in_range RTL8365MB_VLAN_MC_CONF_BASE
            (RTL8365MB_VLAN_MC_CONF_ENTRY_SIZE * RTL8365MB_VLAN_MC_CONF_SIZE) a
       then Some Slot
       else None.

Definition write_phase (e : access) : option phase :=
  match e with
  | Rd _ => None
  | Wr a _ => wr_phase a
  | Upd a _ v =>
      if a =? RTL8365MB_TABLE_CONTROL_REG then
        (if FIELD_GET RTL8365MB_TABLE_CONTROL_COMMAND_MASK v =? RTL8365MB_TABLE_WRITE
         then Some ByID else None)
      else if in_range RTL8365MB_TABLE_WRITE_DATA_REG_BASE 10 a then Some ByID
      else if in_range RTL8365MB_VLAN_PVID_CTRL_BASE 6 a then Some PortReg
      else if in_range RTL8365MB_VLAN_ACCEPT_FRAME_TYPE_BASE 2 a then Some PortReg
      else None
  end.

(** The order the specification gives, and the order of an add. *)
Definition spec_order (p : phase) : nat :=
  match p with ByID => 0 | Slot => 1 | PortReg => 2 end.

Definition add_order (p : phase) : nat :=
  match p with Slot => 0 | PortReg => 1 | ByID => 2 end.

Fixpoint ordered_from (rank : phase -> nat) (k : nat) (d : list access) : bool :=
  match d with
  | [] => true
  | e :: d' =>
      match write_phase e with
      | None => ordered_from rank k d'
      | Some p => (k <=? rank p)%nat && ordered_from rank (rank p) d'
      end
  end.

(** No write of a later phase comes before a write of an earlier one. *)
Definition in_order (rank : phase -> nat) (d : list access) : bool := ordered_from rank 0 d.

Definition below (rank : phase -> nat) (hi : nat) (e : access) : Prop :=
  match write_phase e with None => True | Some p => (rank p <= hi)%nat end.

(** The writes of [d] are in order, none is of a phase before [lo] and
    none of a phase after [hi]. *)
Definition staged (rank : phase -> nat) (lo hi : nat) (d : list access) : Prop :=
  (lo <= hi)%nat /\ ordered_from rank lo d = true /\ Forall (below rank hi) d.

(** A computation whose accesses are staged between [lo] and [hi], and
    whose result, when there is one, satisfies [Q]. *)
Definition emits {A} (rank : phase -> nat) (lo hi : nat) (Q : A -> Prop) (m : bus A) : Prop :=
  forall st, exists d,
    log (snd (m st)) = log st ++ d /\ staged rank lo hi d
    /\ forall a, fst (m st) = Ok a -> Q a.

(** A chip whose counter window holds the words 1, 2, 3, 4, the same chip
    reporting a counter reset, and a driver instance with a non-trivial
    snapshot on each of its eleven ports. *)
Definition mib_chip : chip :=
  Eval vm_compute in
    set_reg 0x1000 1 (set_reg 0x1001 2 (set_reg 0x1002 3 (set_reg 0x1003 4 chip0))).

Definition mib_reset_chip : chip :=
  Eval vm_compute in set_reg RTL8365MB_MIB_CTRL0_REG RTL8365MB_MIB_CTRL0_RESET_MASK mib_chip.

Definition stats_old : rtnl_link_stats64 :=
  mkStats 10 20 30 40 50 60 70 80 90 100 110 120 130 140 [7; 7].

Definition mb_with (st : chip) : rtl8365mb := mkMb st (replicate 11 stats_old).

(** A chip on which the fifth counter read of the batch fails with an
    I/O error (the first four reads take 18 accesses), and the counters a
    whole batch reads from [mib_chip]. *)
Definition mib_fail_chip : chip :=
  Eval vm_compute in rearm (replicate 18 0 ++ [- EIO]) mib_chip.

Definition mib_batch : result (list Z) :=
  Eval vm_compute in fst (mib_fetch 2 (seq 0 RTL8365MB_MIB_END) stats_update_cnt mib_chip).

(** * The rest of the driver *)

(** ** Further limits, error numbers and registers *)

Definition ENODEV : Z := 19.
Definition EPROTONOSUPPORT : Z := 93.
Definition EOPNOTSUPP : Z := 95.

Definition RTL8365MB_PHYADDRMAX : Z := 7.
Definition RTL8365MB_NUM_PHYREGS : Z := 32.
Definition RTL8365MB_PHYREGMAX : Z := RTL8365MB_NUM_PHYREGS - 1.
Definition RTL8365MB_MAX_NUM_EXTINTS : Z := 3.
Definition RTL8365MB_LEARN_LIMIT_MAX : Z := 2112.

Definition RTL8365MB_CHIP_ID_REG : Z := 0x1300.
Definition RTL8365MB_CHIP_VER_REG : Z := 0x1301.
Definition RTL8365MB_MAGIC_REG : Z := 0x13C2.
Definition RTL8365MB_MAGIC_VALUE : Z := 0x0249.

Definition RTL8365MB_INTR_CTRL_REG : Z := 0x1101.

Definition RTL8365MB_PHY_OCP_ADDR_PHYREG_BASE : Z := 0xA400.

Definition RTL8365MB_EXT_PORT_MODE_RGMII : Z := 1.

Definition RTL8365MB_DIGITAL_INTERFACE_SELECT_REG0 : Z := 0x1305.
Definition RTL8365MB_DIGITAL_INTERFACE_SELECT_REG1 : Z := 0x13C3.
Definition RTL8365MB_DIGITAL_INTERFACE_SELECT_REG (extint : Z) : Z :=
  if extint <=? 1 then RTL8365MB_DIGITAL_INTERFACE_SELECT_REG0
  else if extint =? 2 then RTL8365MB_DIGITAL_INTERFACE_SELECT_REG1
  else 0x0.
Definition RTL8365MB_DIGITAL_INTERFACE_SELECT_MODE_MASK (extint : Z) : Z :=
  Z.shiftl 0xF (Z.rem extint 2).
Definition RTL8365MB_DIGITAL_INTERFACE_SELECT_MODE_OFFSET (extint : Z) : Z :=
  Z.rem extint 2 * 4.

Definition RTL8365MB_EXT_RGMXF_REG0 : Z := 0x1306.
Definition RTL8365MB_EXT_RGMXF_REG1 : Z := 0x1307.
Definition RTL8365MB_EXT_RGMXF_REG2 : Z := 0x13C5.
Definition RTL8365MB_EXT_RGMXF_REG (extint : Z) : Z :=
  if extint =? 0 then RTL8365MB_EXT_RGMXF_REG0
  else if extint =? 1 then RTL8365MB_EXT_RGMXF_REG1
  else if extint =? 2 then RTL8365MB_EXT_RGMXF_REG2
  else 0x0.
Definition RTL8365MB_EXT_RGMXF_RXDELAY_MASK : Z := 0x0007.
Definition RTL8365MB_EXT_RGMXF_TXDELAY_MASK : Z := 0x0008.

Definition RTL8365MB_PORT_SPEED_10M : Z := 0.
Definition RTL8365MB_PORT_SPEED_100M : Z := 1.
Definition RTL8365MB_PORT_SPEED_1000M : Z := 2.

Definition RTL8365MB_DIGITAL_INTERFACE_FORCE_REG0 : Z := 0x1310.
Definition RTL8365MB_DIGITAL_INTERFACE_FORCE_REG1 : Z := 0x1311.
Definition RTL8365MB_DIGITAL_INTERFACE_FORCE_REG2 : Z := 0x13C4.
Definition RTL8365MB_DIGITAL_INTERFACE_FORCE_REG (extint : Z) : Z :=
  if extint =? 0 then RTL8365MB_DIGITAL_INTERFACE_FORCE_REG0
  else if extint =? 1 then RTL8365MB_DIGITAL_INTERFACE_FORCE_REG1
  else if extint =? 2 then RTL8365MB_DIGITAL_INTERFACE_FORCE_REG2
  else 0x0.
Definition RTL8365MB_DIGITAL_INTERFACE_FORCE_EN_MASK : Z := 0x1000.
Definition RTL8365MB_DIGITAL_INTERFACE_FORCE_NWAY_MASK : Z := 0x0080.
Definition RTL8365MB_DIGITAL_INTERFACE_FORCE_TXPAUSE_MASK : Z := 0x0040.
Definition RTL8365MB_DIGITAL_INTERFACE_FORCE_RXPAUSE_MASK : Z := 0x0020.
Definition RTL8365MB_DIGITAL_INTERFACE_FORCE_LINK_MASK : Z := 0x0010.
Definition RTL8365MB_DIGITAL_INTERFACE_FORCE_DUPLEX_MASK : Z := 0x0004.
Definition RTL8365MB_DIGITAL_INTERFACE_FORCE_SPEED_MASK : Z := 0x0003.

Definition RTL8365MB_CPU_PORT_MASK_REG : Z := 0x1219.
Definition RTL8365MB_CPU_PORT_MASK_MASK : Z := 0x07FF.

Definition RTL8365MB_CPU_CTRL_REG : Z := 0x121A.
Definition RTL8365MB_CPU_CTRL_TRAP_PORT_EXT_MASK : Z := 0x0400.
Definition RTL8365MB_CPU_CTRL_TAG_FORMAT_MASK : Z := 0x0200.
Definition RTL8365MB_CPU_CTRL_RXBYTECOUNT_MASK : Z := 0x0080.
Definition RTL8365MB_CPU_CTRL_TAG_POSITION_MASK : Z := 0x0040.
Definition RTL8365MB_CPU_CTRL_TRAP_PORT_MASK : Z := 0x0038.
Definition RTL8365MB_CPU_CTRL_INSERTMODE_MASK : Z := 0x0006.
Definition RTL8365MB_CPU_CTRL_EN_MASK : Z := 0x0001.

Definition RTL8365MB_CFG0_MAX_LEN_REG : Z := 0x088C.
Definition RTL8365MB_CFG0_MAX_LEN_MASK : Z := 0x3FFF.
Definition RTL8365MB_CFG0_MAX_LEN_MAX : Z := 0x3FFF.

Definition RTL8365MB_LUT_PORT_LEARN_LIMIT_BASE : Z := 0x0A20.
Definition RTL8365MB_LUT_PORT_LEARN_LIMIT_REG (physport : Z) : Z :=
  RTL8365MB_LUT_PORT_LEARN_LIMIT_BASE + physport.

Definition RTL8365MB_PORT_ISOLATION_REG_BASE : Z := 0x08A2.
Definition RTL8365MB_PORT_ISOLATION_REG (physport : Z) : Z :=
  RTL8365MB_PORT_ISOLATION_REG_BASE + physport.

Definition RTL8365MB_MSTI_CTRL_BASE : Z := 0x0A00.
Definition RTL8365MB_MSTI_CTRL_REG (msti physport : Z) : Z :=
  RTL8365MB_MSTI_CTRL_BASE + Z.shiftl msti 1 + Z.shiftr physport 3.
Definition RTL8365MB_MSTI_CTRL_PORT_STATE_OFFSET (physport : Z) : Z := Z.shiftl physport 1.
Definition RTL8365MB_MSTI_CTRL_PORT_STATE_MASK (physport : Z) : Z :=
  Z.shiftl 0x3 (RTL8365MB_MSTI_CTRL_PORT_STATE_OFFSET physport).

Definition RTL8365MB_VLAN_INGRESS_REG : Z := 0x07A9.

(** [enum rtl8365mb_stp_state] *)
Definition RTL8365MB_STP_STATE_DISABLED : Z := 0.
Definition RTL8365MB_STP_STATE_BLOCKING : Z := 1.
Definition RTL8365MB_STP_STATE_LEARNING : Z := 2.
Definition RTL8365MB_STP_STATE_FORWARDING : Z := 3.

(** [enum rtl8365mb_cpu_insert], [rtl8365mb_cpu_position],
    [rtl8365mb_cpu_format] and [rtl8365mb_cpu_rxlen] *)
Definition RTL8365MB_CPU_INSERT_TO_ALL : Z := 0.
Definition RTL8365MB_CPU_POS_AFTER_SA : Z := 0.
Definition RTL8365MB_CPU_POS_BEFORE_CRC : Z := 1.
Definition RTL8365MB_CPU_FORMAT_8BYTES : Z := 0.
Definition RTL8365MB_CPU_FORMAT_4BYTES : Z := 1.
Definition RTL8365MB_CPU_RXLEN_64BYTES : Z := 1.

(** [enum rtl8365mb_phy_interface_mode] *)
Definition RTL8365MB_PHY_INTERFACE_MODE_MII : Z := BIT 1.
Definition RTL8365MB_PHY_INTERFACE_MODE_TMII : Z := BIT 2.
Definition RTL8365MB_PHY_INTERFACE_MODE_RMII : Z := BIT 3.
Definition RTL8365MB_PHY_INTERFACE_MODE_RGMII : Z := BIT 4.
Definition RTL8365MB_PHY_INTERFACE_MODE_SGMII : Z := BIT 5.
Definition RTL8365MB_PHY_INTERFACE_MODE_HSGMII : Z := BIT 6.

(** Values of the kernel headers the driver is compiled against: bridge
    port states, frame lengths, link speeds and duplex modes, the ethtool
    string set of the statistics. *)
Definition BR_STATE_DISABLED : Z := 0.
Definition BR_STATE_LISTENING : Z := 1.
Definition BR_STATE_LEARNING : Z := 2.
Definition BR_STATE_FORWARDING : Z := 3.
Definition BR_STATE_BLOCKING : Z := 4.

Definition VLAN_ETH_HLEN : Z := 18.
Definition ETH_FCS_LEN : Z := 4.

Definition SPEED_10 : Z := 10.
Definition SPEED_100 : Z := 100.
Definition SPEED_1000 : Z := 1000.
Definition DUPLEX_HALF : Z := 0.
Definition DUPLEX_FULL : Z := 1.

Definition ETH_SS_STATS : Z := 1.
Definition BR_LEARNING : Z := BIT 5.

(** ** PHY registers *)

(** The value returned is the error, or else the 16 bits read. *)
Definition rtl8365mb_phy_read (phy regnum : Z) (st : chip) : Z * chip :=
  if phy >? RTL8365MB_PHYADDRMAX then (- EINVAL, st)
  else if regnum >? RTL8365MB_PHYREGMAX then (- EINVAL, st)
  else
    let ocp_addr := u32 (RTL8365MB_PHY_OCP_ADDR_PHYREG_BASE + regnum * 2) in
    let '(ret, val, st') := rtl8365mb_phy_ocp_read phy ocp_addr st in
    if negb (ret =? 0) then (ret, st') else (default 0 val, st').

Definition rtl8365mb_phy_write (phy regnum val : Z) (st : chip) : Z * chip :=
  if phy >? RTL8365MB_PHYADDRMAX then (- EINVAL, st)
  else if regnum >? RTL8365MB_PHYREGMAX then (- EINVAL, st)
  else
    let ocp_addr := u32 (RTL8365MB_PHY_OCP_ADDR_PHYREG_BASE + regnum * 2) in
    let '(ret, st') := rtl8365mb_phy_ocp_write phy ocp_addr val st in
    if negb (ret =? 0) then (ret, st') else (0, st').

(** ** Port settings *)

Definition rtl8365mb_vlan_filtering (port : Z) (vlan_filtering : bool) : bus unit :=
  regmap_update_bits RTL8365MB_VLAN_INGRESS_REG (BIT port)
    (if vlan_filtering then BIT port else 0).

Definition dsa_is_cpu_port (ds : dsa_switch) (port : Z) : bool :=
  existsb (Z.eqb port) (cpu_port_indices ds).

Definition rtl8365mb_port_change_mtu (ds : dsa_switch) (port new_mtu : Z) : bus unit :=
  if negb (dsa_is_cpu_port ds port) then ret tt
  else
    let frame_size := new_mtu + VLAN_ETH_HLEN + ETH_FCS_LEN in
    regmap_update_bits RTL8365MB_CFG0_MAX_LEN_REG RTL8365MB_CFG0_MAX_LEN_MASK
      (FIELD_PREP RTL8365MB_CFG0_MAX_LEN_MASK frame_size).

Definition rtl8365mb_port_max_mtu : Z :=
  RTL8365MB_CFG0_MAX_LEN_MAX - VLAN_ETH_HLEN - ETH_FCS_LEN.

(** The switch of [rtl8365mb_port_stp_state_set]; [None] is its default
    case. *)
Definition stp_state_val (state : Z) : option Z :=
  if state =? BR_STATE_DISABLED then Some RTL8365MB_STP_STATE_DISABLED
  else if (state =? BR_STATE_BLOCKING) || (state =? BR_STATE_LISTENING)
       then Some RTL8365MB_STP_STATE_BLOCKING
  else if state =? BR_STATE_LEARNING then Some RTL8365MB_STP_STATE_LEARNING
  else if state =? BR_STATE_FORWARDING then Some RTL8365MB_STP_STATE_FORWARDING
  else None.

(** The function returns nothing: an invalid state is only reported, and
    the outcome of the register update is dropped. *)
Definition rtl8365mb_port_stp_state_set (port state : Z) (st : chip) : chip :=
  let msti := 0 in
  match stp_state_val state with
  | None => st
  | Some val =>
      snd (regmap_update_bits (RTL8365MB_MSTI_CTRL_REG msti port)
             (RTL8365MB_MSTI_CTRL_PORT_STATE_MASK port)
             (Z.shiftl val (RTL8365MB_MSTI_CTRL_PORT_STATE_OFFSET port)) st)
  end.

Definition rtl8365mb_port_set_learning (port : Z) (enable : bool) : bus unit :=
  regmap_write (RTL8365MB_LUT_PORT_LEARN_LIMIT_REG port)
    (if enable then RTL8365MB_LEARN_LIMIT_MAX else 0).

(** The bridge port flags: the mask of the flags to change and their
    values. *)
Definition rtl8365mb_port_pre_bridge_flags (mask : Z) : Z :=
  if negb (Z.land mask (Z.lnot BR_LEARNING) =? 0) then - EINVAL else 0.

Definition rtl8365mb_port_bridge_flags (port mask val : Z) : bus unit :=
  if negb (Z.land mask BR_LEARNING =? 0)
  then rtl8365mb_port_set_learning port (negb (Z.land val BR_LEARNING =? 0))
  else ret tt.

Definition rtl8365mb_port_set_isolation (port mask : Z) : bus unit :=
  regmap_write (RTL8365MB_PORT_ISOLATION_REG port) mask.

Definition rtl8365mb_set_irq_enable (enable : bool) : bus unit :=
  regmap_update_bits RTL8365MB_INTR_CTRL_REG RTL8365MB_INTR_LINK_CHANGE_MASK
    (FIELD_PREP RTL8365MB_INTR_LINK_CHANGE_MASK (if enable then 1 else 0)).

Definition rtl8365mb_irq_enable : bus unit := rtl8365mb_set_irq_enable true.
Definition rtl8365mb_irq_disable : bus unit := rtl8365mb_set_irq_enable false.

(** ** Chip information *)

Record rtl8365mb_jam_tbl_entry : Type := mkJam {
  jam_reg : Z;
  jam_val : Z
}.

Definition rtl8365mb_init_jam_8365mb_vc : list rtl8365mb_jam_tbl_entry :=
  [ mkJam 0x13EB 0x15BB; mkJam 0x1303 0x06D6; mkJam 0x1304 0x0700;
    mkJam 0x13E2 0x003F; mkJam 0x13F9 0x0090; mkJam 0x121E 0x03CA;
    mkJam 0x1233 0x0352; mkJam 0x1237 0x00A0; mkJam 0x123A 0x0030;
    mkJam 0x1239 0x0084; mkJam 0x0301 0x1000; mkJam 0x1349 0x001F;
    mkJam 0x18E0 0x4004; mkJam 0x122B 0x241C; mkJam 0x1305 0xC000;
    mkJam 0x13F0 0x0000 ].

Definition rtl8365mb_init_jam_common : list rtl8365mb_jam_tbl_entry :=
  [ mkJam 0x1200 0x7FCB; mkJam 0x0884 0x0003; mkJam 0x06EB 0x0001;
    mkJam 0x03Fa 0x0007; mkJam 0x08C8 0x00C0; mkJam 0x0A30 0x020E;
    mkJam 0x0800 0x0000; mkJam 0x0802 0x0000; mkJam 0x09DA 0x0013;
    mkJam 0x1D32 0x0002 ].

(** The mapping port -> (id, supported interfaces) of one external
    interface. *)
Record rtl8365mb_extint : Type := mkExtint {
  extint_port : Z;
  extint_id : Z;
  supported_interfaces : Z
}.

(** [extints] has [RTL8365MB_MAX_NUM_EXTINTS] elements; [jam_table] is the
    table pointer with its size, or [None] for a null pointer. *)
Record rtl8365mb_chip_info : Type := mkChipInfo {
  ci_name : string;
  chip_id : Z;
  chip_ver : Z;
  extints : list rtl8365mb_extint;
  jam_table : option (list rtl8365mb_jam_tbl_entry)
}.

(** An element the initialiser of [extints] leaves out. *)
Definition extint_zero : rtl8365mb_extint := mkExtint 0 0 0.

Definition rtl8365mb_chip_infos : list rtl8365mb_chip_info :=
  [ mkChipInfo "RTL8365MB-VC" 0x6367 0x0040
      [ mkExtint 6 1 (Z.lor (Z.lor (Z.lor RTL8365MB_PHY_INTERFACE_MODE_MII
                                          RTL8365MB_PHY_INTERFACE_MODE_TMII)
                                   RTL8365MB_PHY_INTERFACE_MODE_RMII)
                            RTL8365MB_PHY_INTERFACE_MODE_RGMII);
        extint_zero; extint_zero ]
      (Some rtl8365mb_init_jam_8365mb_vc);
    mkChipInfo "RTL8367S" 0x6367 0x00A0
      [ mkExtint 6 1 (Z.lor RTL8365MB_PHY_INTERFACE_MODE_SGMII
                            RTL8365MB_PHY_INTERFACE_MODE_HSGMII);
        mkExtint 7 2 (Z.lor (Z.lor (Z.lor RTL8365MB_PHY_INTERFACE_MODE_MII
                                          RTL8365MB_PHY_INTERFACE_MODE_TMII)
                                   RTL8365MB_PHY_INTERFACE_MODE_RMII)
                            RTL8365MB_PHY_INTERFACE_MODE_RGMII);
        extint_zero ]
      (Some rtl8365mb_init_jam_8365mb_vc);
    mkChipInfo "RTL8367RB-VB" 0x6367 0x0020
      [ mkExtint 6 1 (Z.lor (Z.lor (Z.lor RTL8365MB_PHY_INTERFACE_MODE_MII
                                          RTL8365MB_PHY_INTERFACE_MODE_TMII)
                                   RTL8365MB_PHY_INTERFACE_MODE_RMII)
                            RTL8365MB_PHY_INTERFACE_MODE_RGMII);
        mkExtint 7 2 (Z.lor (Z.lor (Z.lor RTL8365MB_PHY_INTERFACE_MODE_MII
                                          RTL8365MB_PHY_INTERFACE_MODE_TMII)
                                   RTL8365MB_PHY_INTERFACE_MODE_RMII)
                            RTL8365MB_PHY_INTERFACE_MODE_RGMII);
        extint_zero ]
      (Some rtl8365mb_init_jam_8365mb_vc) ].

(** The loop of [rtl8365mb_get_port_extint] over the elements still to
    visit. *)
Fixpoint get_port_extint_from (es : list rtl8365mb_extint) (port : Z)
  : option rtl8365mb_extint :=
  match es with
  | [] => None
  | extint :: rest =>
      if supported_interfaces extint =? 0 then get_port_extint_from rest port
      else if extint_port extint =? port then Some extint
      else get_port_extint_from rest port
  end.

Definition rtl8365mb_get_port_extint (ci : rtl8365mb_chip_info) (port : Z)
  : option rtl8365mb_extint :=
  get_port_extint_from (firstn (Z.to_nat RTL8365MB_MAX_NUM_EXTINTS) (extints ci)) port.

(** ** External interfaces *)

(** The kernel's [DIV_ROUND_CLOSEST] on a [u32] dividend. *)
Definition DIV_ROUND_CLOSEST (x divisor : Z) : Z := u32 (x + divisor / 2) / divisor.

(** The two delays are the values of the device-tree properties
    tx-internal-delay-ps and rx-internal-delay-ps of the port's node, or
    [None] where the node has no such property. *)
Definition rtl8365mb_ext_config_rgmii (ci : rtl8365mb_chip_info) (port : Z)
    (tx_internal_delay_ps rx_internal_delay_ps : option Z) : bus unit :=
  match rtl8365mb_get_port_extint ci port with
  | None => fail (- ENODEV)
  | Some extint =>
      let tx_delay :=
        match tx_internal_delay_ps with
        | Some val =>
            let val := val / 1000 in
            if (val =? 0) || (val =? 2) then val / 2 else 0
        | None => 0
        end in
      let rx_delay :=
        match rx_internal_delay_ps with
        | Some val =>
            let val := DIV_ROUND_CLOSEST val 300 in
            if val <=? 7 then val else 0
        | None => 0
        end in
      regmap_update_bits (RTL8365MB_EXT_RGMXF_REG (extint_id extint))
        (Z.lor RTL8365MB_EXT_RGMXF_TXDELAY_MASK RTL8365MB_EXT_RGMXF_RXDELAY_MASK)
        (Z.lor (FIELD_PREP RTL8365MB_EXT_RGMXF_TXDELAY_MASK tx_delay)
               (FIELD_PREP RTL8365MB_EXT_RGMXF_RXDELAY_MASK rx_delay)) ;;;
      regmap_update_bits (RTL8365MB_DIGITAL_INTERFACE_SELECT_REG (extint_id extint))
        (RTL8365MB_DIGITAL_INTERFACE_SELECT_MODE_MASK (extint_id extint))
        (Z.shiftl RTL8365MB_EXT_PORT_MODE_RGMII
           (RTL8365MB_DIGITAL_INTERFACE_SELECT_MODE_OFFSET (extint_id extint)))
  end.

(** The values forced on the interface: link, TX pause, RX pause, speed
    and duplex; [None] where the function leaves with -EINVAL. *)
Definition forcemode_fields (link : bool) (speed duplex : Z) (tx_pause rx_pause : bool)
  : option (Z * Z * Z * Z * Z) :=
  if link then
    match (if speed =? SPEED_1000 then Some RTL8365MB_PORT_SPEED_1000M
           else if speed =? SPEED_100 then Some RTL8365MB_PORT_SPEED_100M
           else if speed =? SPEED_10 then Some RTL8365MB_PORT_SPEED_10M
           else None) with
    | None => None
    | Some r_speed =>
        match (if duplex =? DUPLEX_FULL then Some 1
               else if duplex =? DUPLEX_HALF then Some 0
               else None) with
        | None => None
        | Some r_duplex =>
            Some (1, if tx_pause then 1 else 0, if rx_pause then 1 else 0, r_speed, r_duplex)
        end
    end
  else Some (0, 0, 0, 0, 0).

Definition rtl8365mb_ext_config_forcemode (ci : rtl8365mb_chip_info) (port : Z)
    (link : bool) (speed duplex : Z) (tx_pause rx_pause : bool) : bus unit :=
  match rtl8365mb_get_port_extint ci port with
  | None => fail (- ENODEV)
  | Some extint =>
      match forcemode_fields link speed duplex tx_pause rx_pause with
      | None => fail (- EINVAL)
      | Some (r_link, r_tx_pause, r_rx_pause, r_speed, r_duplex) =>
          let val :=
            Z.lor (Z.lor (Z.lor (Z.lor (Z.lor
              (FIELD_PREP RTL8365MB_DIGITAL_INTERFACE_FORCE_EN_MASK 1)
              (FIELD_PREP RTL8365MB_DIGITAL_INTERFACE_FORCE_TXPAUSE_MASK r_tx_pause))
              (FIELD_PREP RTL8365MB_DIGITAL_INTERFACE_FORCE_RXPAUSE_MASK r_rx_pause))
              (FIELD_PREP RTL8365MB_DIGITAL_INTERFACE_FORCE_LINK_MASK r_link))
              (FIELD_PREP RTL8365MB_DIGITAL_INTERFACE_FORCE_DUPLEX_MASK r_duplex))
              (FIELD_PREP RTL8365MB_DIGITAL_INTERFACE_FORCE_SPEED_MASK r_speed) in
          regmap_write (RTL8365MB_DIGITAL_INTERFACE_FORCE_REG (extint_id extint)) val
      end
  end.

(** ** CPU port configuration *)

Record rtl8365mb_cpu : Type := mkCpu {
  cpu_enable : bool;
  cpu_mask : Z;
  cpu_trap_port : Z;
  cpu_insert : Z;
  cpu_position : Z;
  cpu_rx_length : Z;
  cpu_format : Z
}.

Definition rtl8365mb_cpu_config (cpu : rtl8365mb_cpu) : bus unit :=
  regmap_update_bits RTL8365MB_CPU_PORT_MASK_REG RTL8365MB_CPU_PORT_MASK_MASK
    (FIELD_PREP RTL8365MB_CPU_PORT_MASK_MASK (cpu_mask cpu)) ;;;
  let val :=
    Z.lor (Z.lor (Z.lor (Z.lor (Z.lor (Z.lor
      (FIELD_PREP RTL8365MB_CPU_CTRL_EN_MASK (if cpu_enable cpu then 1 else 0))
      (FIELD_PREP RTL8365MB_CPU_CTRL_INSERTMODE_MASK (cpu_insert cpu)))
      (FIELD_PREP RTL8365MB_CPU_CTRL_TAG_POSITION_MASK (cpu_position cpu)))
      (FIELD_PREP RTL8365MB_CPU_CTRL_RXBYTECOUNT_MASK (cpu_rx_length cpu)))
      (FIELD_PREP RTL8365MB_CPU_CTRL_TAG_FORMAT_MASK (cpu_format cpu)))
      (FIELD_PREP RTL8365MB_CPU_CTRL_TRAP_PORT_MASK (Z.land (cpu_trap_port cpu) 0x7)))
      (FIELD_PREP RTL8365MB_CPU_CTRL_TRAP_PORT_EXT_MASK
         (Z.land (Z.shiftr (cpu_trap_port cpu) 3) 0x1)) in
  regmap_write RTL8365MB_CPU_CTRL_REG val.

(** The tagging protocols of DSA, as far as the driver tells them
    apart. *)
Inductive dsa_tag_protocol : Type :=
| DSA_TAG_PROTO_RTL8_4
| DSA_TAG_PROTO_RTL8_4T
| DSA_TAG_PROTO_OTHER (value : Z).

Definition rtl8365mb_get_tag_protocol (cpu : rtl8365mb_cpu) : dsa_tag_protocol :=
  if cpu_position cpu =? RTL8365MB_CPU_POS_BEFORE_CRC then DSA_TAG_PROTO_RTL8_4T
  else DSA_TAG_PROTO_RTL8_4.

(** The value returned, the CPU configuration the driver keeps, and the
    chip. *)
Definition rtl8365mb_change_tag_protocol (proto : dsa_tag_protocol) (cpu : rtl8365mb_cpu)
    (st : chip) : Z * rtl8365mb_cpu * chip :=
  let configure (cpu' : rtl8365mb_cpu) :=
    let '(r, st') := rtl8365mb_cpu_config cpu' st in (status r, cpu', st') in
  match proto with
  | DSA_TAG_PROTO_RTL8_4 =>
      configure (mkCpu (cpu_enable cpu) (cpu_mask cpu) (cpu_trap_port cpu) (cpu_insert cpu)
                   RTL8365MB_CPU_POS_AFTER_SA (cpu_rx_length cpu) RTL8365MB_CPU_FORMAT_8BYTES)
  | DSA_TAG_PROTO_RTL8_4T =>
      configure (mkCpu (cpu_enable cpu) (cpu_mask cpu) (cpu_trap_port cpu) (cpu_insert cpu)
                   RTL8365MB_CPU_POS_BEFORE_CRC (cpu_rx_length cpu) RTL8365MB_CPU_FORMAT_8BYTES)
  | DSA_TAG_PROTO_OTHER _ => (- EPROTONOSUPPORT, cpu, st)
  end.

(** ** Bringing the chip up *)

(** Writing a jam table, entry by entry. *)
Fixpoint jam_write (tbl : list rtl8365mb_jam_tbl_entry) : bus unit :=
  match tbl with
  | [] => ret tt
  | e :: rest => regmap_write (jam_reg e) (jam_val e) ;;; jam_write rest
  end.

Definition rtl8365mb_switch_init (ci : rtl8365mb_chip_info) : bus unit :=
  match jam_table ci with
  | Some tbl => jam_write tbl
  | None => ret tt
  end ;;;
  jam_write rtl8365mb_init_jam_common.

Definition rtl8365mb_get_chip_id_and_ver : bus (Z * Z) :=
  regmap_write RTL8365MB_MAGIC_REG RTL8365MB_MAGIC_VALUE ;;;
  id <- regmap_read RTL8365MB_CHIP_ID_REG ;;
  ver <- regmap_read RTL8365MB_CHIP_VER_REG ;;
  regmap_write RTL8365MB_MAGIC_REG 0 ;;;
  ret (id, ver).

(** What [rtl8365mb_detect] fills in: the chip information and the CPU
    configuration of the driver's private data, and the number of
    ports. *)
Record rtl8365mb_config : Type := mkConfig {
  chip_info : option rtl8365mb_chip_info;
  priv_num_ports : Z;
  cpu : rtl8365mb_cpu
}.

Definition rtl8365mb_detect (cfg : rtl8365mb_config) (st : chip)
  : Z * rtl8365mb_config * chip :=
  match rtl8365mb_get_chip_id_and_ver st with
  | (Err e, st') => (e, cfg, st')
  | (Ok (id, ver), st') =>
      let chip_info' :=
        match List.find (fun ci => (chip_id ci =? id) && (chip_ver ci =? ver))
                rtl8365mb_chip_infos with
        | Some ci => Some ci
        | None => chip_info cfg
        end in
      match chip_info' with
      | None => (- ENODEV, cfg, st')
      | Some ci =>
          (0,
           mkConfig (Some ci) RTL8365MB_MAX_NUM_PORTS
             (mkCpu (cpu_enable (cpu cfg)) (cpu_mask (cpu cfg)) RTL8365MB_MAX_NUM_PORTS
                RTL8365MB_CPU_INSERT_TO_ALL RTL8365MB_CPU_POS_AFTER_SA
                RTL8365MB_CPU_RXLEN_64BYTES RTL8365MB_CPU_FORMAT_8BYTES),
           st')
      end
  end.

(** ** Bridging *)

(** A port as the DSA core describes it: its index, its type, and the
    bridge device it is attached to, if any. *)
Inductive dsa_port_type : Type :=
| DSA_PORT_TYPE_UNUSED
| DSA_PORT_TYPE_CPU
| DSA_PORT_TYPE_DSA
| DSA_PORT_TYPE_USER.

Record dsa_port : Type := mkPort {
  dp_index : Z;
  dp_type : dsa_port_type;
  dp_bridge : option Z
}.

Definition dsa_port_is_unused (dp : dsa_port) : bool :=
  match dp_type dp with DSA_PORT_TYPE_UNUSED => true | _ => false end.

Definition dsa_port_offloads_bridge (dp : dsa_port) (bridge : Z) : bool :=
  match dp_bridge dp with
  | Some dev => dev =? bridge
  | None => false
  end.

(** The loop of [rtl8365mb_port_bridge_join] over the ports still to
    visit; a failing register update is only reported. *)
Fixpoint bridge_join_ports (dps : list dsa_port) (port bridge port_bitmap : Z) (st : chip)
  : Z * chip :=
  match dps with
  | [] => (port_bitmap, st)
  | dp :: rest =>
      if dsa_port_is_unused dp then bridge_join_ports rest port bridge port_bitmap st
      else if port =? dp_index dp then bridge_join_ports rest port bridge port_bitmap st
      else if negb (dsa_port_offloads_bridge dp bridge)
           then bridge_join_ports rest port bridge port_bitmap st
      else
        let '(_, st') :=
          regmap_update_bits (RTL8365MB_PORT_ISOLATION_REG (dp_index dp))
            (BIT port) (BIT port) st in
        bridge_join_ports rest port bridge (u32 (Z.lor port_bitmap (BIT (dp_index dp)))) st'
  end.

Definition rtl8365mb_port_bridge_join (dps : list dsa_port) (port bridge : Z) : bus unit :=
  fun st =>
    let '(port_bitmap, st') := bridge_join_ports dps port bridge 0 st in
    if negb (port_bitmap =? 0)
    then regmap_update_bits (RTL8365MB_PORT_ISOLATION_REG port) port_bitmap port_bitmap st'
    else (Ok tt, st').

Fixpoint bridge_leave_ports (dps : list dsa_port) (port bridge port_bitmap : Z) (st : chip)
  : Z * chip :=
  match dps with
  | [] => (port_bitmap, st)
  | dp :: rest =>
      if dsa_port_is_unused dp then bridge_leave_ports rest port bridge port_bitmap st
      else if port =? dp_index dp then bridge_leave_ports rest port bridge port_bitmap st
      else if negb (dsa_port_offloads_bridge dp bridge)
           then bridge_leave_ports rest port bridge port_bitmap st
      else
        let '(_, st') :=
          regmap_update_bits (RTL8365MB_PORT_ISOLATION_REG (dp_index dp)) (BIT port) 0 st in
        bridge_leave_ports rest port bridge (u32 (Z.lor port_bitmap (BIT (dp_index dp)))) st'
  end.

Definition rtl8365mb_port_bridge_leave (dps : list dsa_port) (port bridge : Z) (st : chip)
  : chip :=
  let '(port_bitmap, st') := bridge_leave_ports dps port bridge 0 st in
  snd (regmap_update_bits (RTL8365MB_PORT_ISOLATION_REG port) port_bitmap 0 st').

(** ** IEEE 802.3 MAC statistics *)

(** The members of [ethtool_eth_mac_stats] the driver assigns;
    [mac_untouched] stands for the remaining ones. *)
Record ethtool_eth_mac_stats : Type := mkMacStats {
  FramesTransmittedOK : Z;
  SingleCollisionFrames : Z;
  MultipleCollisionFrames : Z;
  FramesReceivedOK : Z;
  FrameCheckSequenceErrors : Z;
  OctetsTransmittedOK : Z;
  FramesWithDeferredXmissions : Z;
  LateCollisions : Z;
  FramesAbortedDueToXSColls : Z;
  OctetsReceivedOK : Z;
  MulticastFramesXmittedOK : Z;
  BroadcastFramesXmittedOK : Z;
  MulticastFramesReceivedOK : Z;
  BroadcastFramesReceivedOK : Z;
  mac_untouched : list Z
}.

(** The counters [rtl8365mb_get_mac_stats] marks with 1 in its [cnt]
    array. *)
Definition mac_stats_marked : list nat :=
  [ RTL8365MB_MIB_ifOutOctets; RTL8365MB_MIB_ifOutUcastPkts;
    RTL8365MB_MIB_ifOutMulticastPkts; RTL8365MB_MIB_ifOutBroadcastPkts;
    RTL8365MB_MIB_dot3OutPauseFrames; RTL8365MB_MIB_ifOutDiscards;
    RTL8365MB_MIB_ifInOctets; RTL8365MB_MIB_ifInUcastPkts;
    RTL8365MB_MIB_ifInMulticastPkts; RTL8365MB_MIB_ifInBroadcastPkts;
    RTL8365MB_MIB_dot3InPauseFrames; RTL8365MB_MIB_dot3StatsSingleCollisionFrames;
    RTL8365MB_MIB_dot3StatsMultipleCollisionFrames; RTL8365MB_MIB_dot3StatsFCSErrors;
    RTL8365MB_MIB_dot3StatsDeferredTransmissions; RTL8365MB_MIB_dot3StatsLateCollisions;
    RTL8365MB_MIB_dot3StatsExcessiveCollisions ].

Definition mac_stats_cnt : list Z :=
  map (fun i => if existsb (Nat.eqb i) mac_stats_marked then 1 else 0)
      (seq 0 RTL8365MB_MIB_END).

(** The counter loop of [rtl8365mb_get_mac_stats]: unmarked counters are
    skipped, and the first failing read leaves the loop with the array as
    it stands. *)
Fixpoint mac_fetch (port : Z) (idxs : list nat) (cnt : list Z) (st : chip) : list Z * chip :=
  match idxs with
  | [] => (cnt, st)
  | i :: rest =>
      if nth i cnt 0 =? 0 then mac_fetch port rest cnt st
      else
        let c := nth i rtl8365mb_mib_counters (mkMib 0 0 EmptyString) in
        match rtl8365mb_mib_counter_read port (mib_offset c) (mib_length c) st with
        | (Ok v, st') => mac_fetch port rest (<[i := v]> cnt) st'
        | (Err _, st') => (cnt, st')
        end
  end.

Definition mac_stats_from_counters (cnt : list Z) (mac_stats : ethtool_eth_mac_stats)
  : ethtool_eth_mac_stats :=
  let c (i : nat) := nth i cnt 0 in
  let FramesTransmittedOK :=
    u64 (c RTL8365MB_MIB_ifOutUcastPkts + c RTL8365MB_MIB_ifOutMulticastPkts
         + c RTL8365MB_MIB_ifOutBroadcastPkts + c RTL8365MB_MIB_dot3OutPauseFrames
         - c RTL8365MB_MIB_ifOutDiscards) in
  let FramesReceivedOK :=
    u64 (c RTL8365MB_MIB_ifInUcastPkts + c RTL8365MB_MIB_ifInMulticastPkts
         + c RTL8365MB_MIB_ifInBroadcastPkts + c RTL8365MB_MIB_dot3InPauseFrames) in
  mkMacStats
    FramesTransmittedOK
    (c RTL8365MB_MIB_dot3StatsSingleCollisionFrames)
    (c RTL8365MB_MIB_dot3StatsMultipleCollisionFrames)
    FramesReceivedOK
    (c RTL8365MB_MIB_dot3StatsFCSErrors)
    (u64 (c RTL8365MB_MIB_ifOutOctets - 18 * FramesTransmittedOK))
    (c RTL8365MB_MIB_dot3StatsDeferredTransmissions)
    (c RTL8365MB_MIB_dot3StatsLateCollisions)
    (c RTL8365MB_MIB_dot3StatsExcessiveCollisions)
    (u64 (c RTL8365MB_MIB_ifInOctets - 18 * FramesReceivedOK))
    (c RTL8365MB_MIB_ifOutMulticastPkts)
    (c RTL8365MB_MIB_ifOutBroadcastPkts)
    (c RTL8365MB_MIB_ifInMulticastPkts)
    (c RTL8365MB_MIB_ifInBroadcastPkts)
    (mac_untouched mac_stats).

Definition rtl8365mb_get_mac_stats (port : Z) (mac_stats : ethtool_eth_mac_stats) (st : chip)
  : ethtool_eth_mac_stats * chip :=
  let '(cnt, st') := mac_fetch port (seq 0 RTL8365MB_MIB_END) mac_stats_cnt st in
  (mac_stats_from_counters cnt mac_stats, st').

(** ** Ethtool statistics *)

(** The loop of [rtl8365mb_get_ethtool_stats] over the counters still to
    read: each value goes to its place in [data], and the first failing
    read ends the loop. *)
Fixpoint ethtool_fetch (port : Z) (idxs : list nat) (data : list Z) (st : chip)
  : list Z * chip :=
  match idxs with
  | [] => (data, st)
  | i :: rest =>
      let c := nth i rtl8365mb_mib_counters (mkMib 0 0 EmptyString) in
      match rtl8365mb_mib_counter_read port (mib_offset c) (mib_length c) st with
      | (Ok v, st') => ethtool_fetch port rest (<[i := v]> data) st'
      | (Err _, st') => (data, st')
      end
  end.

Definition rtl8365mb_get_ethtool_stats (port : Z) (data : list Z) (st : chip)
  : list Z * chip :=
  ethtool_fetch port (seq 0 RTL8365MB_MIB_END) data st.

Definition rtl8365mb_get_sset_count (sset : Z) : Z :=
  if negb (sset =? ETH_SS_STATS) then - EOPNOTSUPP else Z.of_nat RTL8365MB_MIB_END.

(** The kernel's [ethtool_puts]: the string goes into the next slot of
    [ETH_GSTRING_LEN] bytes, cut so that the terminating zero fits. *)
Definition ETH_GSTRING_LEN : Z := 32.

Definition ethtool_puts (data : list string) (str : string) : list string :=
  data ++ [substring 0 (Z.to_nat (ETH_GSTRING_LEN - 1)) str].

(** The names go to [data] one after the other. *)
Definition rtl8365mb_get_strings (stringset : Z) (data : list string) : list string :=
  if negb (stringset =? ETH_SS_STATS) then data
  else fold_left (fun data i =>
                    ethtool_puts data
                      (mib_name (nth i rtl8365mb_mib_counters (mkMib 0 0 EmptyString))))
                 (seq 0 RTL8365MB_MIB_END) data.

(** ** Vocabulary of the further properties *)

(** The word [rtl8365mb_phy_ocp_prepare] writes to the indirect-access
    address register. *)
Definition phy_ocp_address_word (phy ocp_addr : Z) : Z :=
  Z.lor (Z.lor (Z.lor RTL8365MB_PHY_BASE
                      (FIELD_PREP RTL8365MB_INDIRECT_ACCESS_ADDRESS_PHYNUM_MASK phy))
               (FIELD_PREP RTL8365MB_INDIRECT_ACCESS_ADDRESS_OCPADR_5_1_MASK
                  (Z.shiftr ocp_addr 1)))
        (FIELD_PREP RTL8365MB_INDIRECT_ACCESS_ADDRESS_OCPADR_9_6_MASK (Z.shiftr ocp_addr 6)).

(** The PHY and the OCP address the chip's address registers select: the
    PHY number and bits 9 to 1 of the address come from the address
    register, bits 15 to 10 from the prefix register. *)
Definition phy_ocp_target (st : chip) : Z * Z :=
  let a := reg st RTL8365MB_INDIRECT_ACCESS_ADDRESS_REG in
  let m := reg st RTL8365MB_GPHY_OCP_MSB_0_REG in
  (FIELD_GET RTL8365MB_INDIRECT_ACCESS_ADDRESS_PHYNUM_MASK a,
   Z.lor (Z.shiftl (FIELD_GET RTL8365MB_GPHY_OCP_MSB_0_CFG_CPU_OCPADR_MASK m) 10)
         (Z.lor (Z.shiftl (FIELD_GET RTL8365MB_INDIRECT_ACCESS_ADDRESS_OCPADR_9_6_MASK a) 6)
                (Z.shiftl (FIELD_GET RTL8365MB_INDIRECT_ACCESS_ADDRESS_OCPADR_5_1_MASK a) 1))).

(** How far a run has got: accesses made plus transport outcomes used
    up.  Every access moves it forward. *)
Definition progress_of (st : chip) : Z :=
  Z.of_nat (length (log st)) - Z.of_nat (length (faults st)).

Definition grows {A} (m : bus A) : Prop :=
  forall st, progress_of st <= progress_of (snd (m st)).

Definition grows1 {A} (m : bus A) : Prop :=
  forall st, progress_of st < progress_of (snd (m st)).

(** A chip whose PHY read-data register holds 0x1140, and one whose
    indirect-access engine stays busy. *)
Definition phy_chip : chip :=
  Eval vm_compute in set_reg RTL8365MB_INDIRECT_ACCESS_READ_DATA_REG 0x1140 chip0.

Definition phy_busy_chip : chip :=
  Eval vm_compute in set_reg RTL8365MB_INDIRECT_ACCESS_STATUS_REG 1 phy_chip.

(** The spanning-tree state the chip holds for a port. *)
Definition stp_state (st : chip) (port : Z) : Z :=
  Z.shiftr (Z.land (reg st (RTL8365MB_MSTI_CTRL_REG 0 port))
                   (RTL8365MB_MSTI_CTRL_PORT_STATE_MASK port))
           (RTL8365MB_MSTI_CTRL_PORT_STATE_OFFSET port).

(** The largest frame the chip accepts. *)
Definition max_frame_len (st : chip) : Z :=
  FIELD_GET RTL8365MB_CFG0_MAX_LEN_MASK (reg st RTL8365MB_CFG0_MAX_LEN_REG).

(** A switch whose ingress filter is on for ports 0 and 5. *)
Definition ingress_chip : chip :=
  Eval vm_compute in set_reg RTL8365MB_VLAN_INGRESS_REG 0x21 chip0.

(** The code the chip uses for a link speed in Mbit/s. *)
Definition port_speed_code (speed : Z) : Z :=
  if speed =? SPEED_1000 then RTL8365MB_PORT_SPEED_1000M
  else if speed =? SPEED_100 then RTL8365MB_PORT_SPEED_100M
  else RTL8365MB_PORT_SPEED_10M.

(** The first and the second chip of the table. *)
Definition chip_info_vc : rtl8365mb_chip_info :=
  nth 0 rtl8365mb_chip_infos (mkChipInfo EmptyString 0 0 [] None).

Definition chip_info_8367s : rtl8365mb_chip_info :=
  nth 1 rtl8365mb_chip_infos (mkChipInfo EmptyString 0 0 [] None).

(** The mode the chip holds for an external interface: four bits at the
    interface's offset in its select register. *)
Definition ext_mode (st : chip) (id : Z) : Z :=
  Z.land (Z.shiftr (reg st (RTL8365MB_DIGITAL_INTERFACE_SELECT_REG id))
                   (RTL8365MB_DIGITAL_INTERFACE_SELECT_MODE_OFFSET id)) 0xF.

(** The RGMII delays a port's device-tree properties ask for, in the
    chip's units: TX delay on for 2 ns, RX delay in steps of 0.3 ns up to
    seven. *)
Definition rgmii_tx_steps (tx_internal_delay_ps : option Z) : Z :=
  match tx_internal_delay_ps with
  | Some v => if (2000 <=? v) && (v <? 3000) then 1 else 0
  | None => 0
  end.

Definition rgmii_rx_steps (rx_internal_delay_ps : option Z) : Z :=
  match rx_internal_delay_ps with
  | Some v => if v <? 2250 then (v + 150) / 300 else 0
  | None => 0
  end.

(** The CPU control word [rtl8365mb_cpu_config] writes. *)
Definition cpu_ctrl_word (cpu : rtl8365mb_cpu) : Z :=
  Z.lor (Z.lor (Z.lor (Z.lor (Z.lor (Z.lor
    (FIELD_PREP RTL8365MB_CPU_CTRL_EN_MASK (if cpu_enable cpu then 1 else 0))
    (FIELD_PREP RTL8365MB_CPU_CTRL_INSERTMODE_MASK (cpu_insert cpu)))
    (FIELD_PREP RTL8365MB_CPU_CTRL_TAG_POSITION_MASK (cpu_position cpu)))
    (FIELD_PREP RTL8365MB_CPU_CTRL_RXBYTECOUNT_MASK (cpu_rx_length cpu)))
    (FIELD_PREP RTL8365MB_CPU_CTRL_TAG_FORMAT_MASK (cpu_format cpu)))
    (FIELD_PREP RTL8365MB_CPU_CTRL_TRAP_PORT_MASK (Z.land (cpu_trap_port cpu) 0x7)))
    (FIELD_PREP RTL8365MB_CPU_CTRL_TRAP_PORT_EXT_MASK
       (Z.land (Z.shiftr (cpu_trap_port cpu) 3) 0x1)).

(** A CPU configuration whose fields fit the registers. *)
Definition cpu_in_range (cpu : rtl8365mb_cpu) : Prop :=
  0 <= cpu_mask cpu < 2 ^ 11 /\ 0 <= cpu_trap_port cpu < 16 /\ 0 <= cpu_insert cpu < 4
  /\ 0 <= cpu_position cpu <= 1 /\ 0 <= cpu_rx_length cpu <= 1 /\ 0 <= cpu_format cpu <= 1.

(** The CPU configuration the chip holds, decoded from its two
    registers; the enable flag is 0 or 1. *)
Definition cpu_of_chip (st : chip) : rtl8365mb_cpu :=
  let w := reg st RTL8365MB_CPU_CTRL_REG in
  mkCpu (negb (FIELD_GET RTL8365MB_CPU_CTRL_EN_MASK w =? 0))
        (FIELD_GET RTL8365MB_CPU_PORT_MASK_MASK (reg st RTL8365MB_CPU_PORT_MASK_REG))
        (FIELD_GET RTL8365MB_CPU_CTRL_TRAP_PORT_MASK w
         + 8 * FIELD_GET RTL8365MB_CPU_CTRL_TRAP_PORT_EXT_MASK w)
        (FIELD_GET RTL8365MB_CPU_CTRL_INSERTMODE_MASK w)
        (FIELD_GET RTL8365MB_CPU_CTRL_TAG_POSITION_MASK w)
        (FIELD_GET RTL8365MB_CPU_CTRL_RXBYTECOUNT_MASK w)
        (FIELD_GET RTL8365MB_CPU_CTRL_TAG_FORMAT_MASK w).

(** The configuration [rtl8365mb_detect] leaves, with port 8 as CPU
    port. *)
Definition cpu8 : rtl8365mb_cpu :=
  mkCpu true (BIT 8) 8 RTL8365MB_CPU_INSERT_TO_ALL RTL8365MB_CPU_POS_AFTER_SA
        RTL8365MB_CPU_RXLEN_64BYTES RTL8365MB_CPU_FORMAT_8BYTES.

(** The value the last entry of a jam table gives to register [b]. *)
Definition jam_lookup (tbl : list rtl8365mb_jam_tbl_entry) (b : Z) : option Z :=
  fold_left (fun acc e => if jam_reg e =? b then Some (jam_val e) else acc) tbl None.

(** All the words written when the chip is brought up. *)
Definition init_jam : list rtl8365mb_jam_tbl_entry :=
  rtl8365mb_init_jam_8365mb_vc ++ rtl8365mb_init_jam_common.

(** Nothing detected yet, and chips identifying as an RTL8367S and as an
    unknown revision. *)
Definition config0 : rtl8365mb_config :=
  mkConfig None 0 (mkCpu false 0 0 0 0 0 0).

Definition chip_8367s : chip :=
  Eval vm_compute in
    set_reg RTL8365MB_CHIP_ID_REG 0x6367 (set_reg RTL8365MB_CHIP_VER_REG 0x00A0 chip0).

Definition chip_unknown : chip :=
  Eval vm_compute in
    set_reg RTL8365MB_CHIP_ID_REG 0x6367 (set_reg RTL8365MB_CHIP_VER_REG 0x0010 chip0).

(** The by-ID entry the chip holds for a VID, decoded. *)
Definition vlan4k_entry (st : chip) (vid : Z) : rtl8366_vlan_4k :=
  rtl8365mb_buf_vlan4k (table_row st RTL8365MB_TABLE_CVLAN vid) vlan4k_zero.

Definition has_untagged_flag (flags : Z) : bool :=
  negb (Z.land flags BRIDGE_VLAN_INFO_UNTAGGED =? 0).

(** A chip on which a table access meets neither a transport failure nor
    a busy table engine. *)
Definition quiet (st : chip) : Prop :=
  faults st = [] /\ table_busy_clear (reg st RTL8365MB_TABLE_LUT_REG) = true.

(** A chip whose by-ID entry of VLAN 10 has ports 2 and 8 as members,
    port 8 untagged. *)
Definition vlan10_chip : chip :=
  Eval vm_compute in set_row RTL8365MB_TABLE_CVLAN 10 [0x0104; 0; 0x0009] fresh_chip.

(** Whether [q] is another port of the switch, in use and attached to the
    bridge. *)
Definition bridge_peer (dps : list dsa_port) (port bridge q : Z) : bool :=
  existsb (fun dp => (dp_index dp =? q) && negb (dsa_port_is_unused dp)
                     && negb (port =? dp_index dp) && dsa_port_offloads_bridge dp bridge)
          dps.

(** Whether port [q] may forward to port [b]. *)
Definition forwards_to (st : chip) (q b : Z) : bool :=
  Z.testbit (reg st (RTL8365MB_PORT_ISOLATION_REG q)) b.

(** Five ports: 0, 1 and 2 attached to bridge 7, 3 attached to another
    bridge, 4 unused. *)
Definition ports5 : list dsa_port :=
  [ mkPort 0 DSA_PORT_TYPE_USER (Some 7); mkPort 1 DSA_PORT_TYPE_USER (Some 7);
    mkPort 2 DSA_PORT_TYPE_USER (Some 7); mkPort 3 DSA_PORT_TYPE_USER (Some 9);
    mkPort 4 DSA_PORT_TYPE_UNUSED (Some 7) ].

(** Whether joining [port] to the bridge links [q] to [b]: one of the two
    is [port] and the other a peer on the bridge. *)
Definition linked (dps : list dsa_port) (port bridge q b : Z) : bool :=
  (bridge_peer dps port bridge q && (b =? port))
  || ((q =? port) && bridge_peer dps port bridge b).

(** An address that is no isolation register of ports 0 to 15. *)
Definition not_isolation_reg (a : Z) : Prop :=
  forall q, 0 <= q < 16 -> a <> RTL8365MB_PORT_ISOLATION_REG q.

(** The chip after ports 1 and 0 of [ports5] joined bridge 7. *)
Definition bridged_chip : chip :=
  Eval vm_compute in
    rearm [] (snd (rtl8365mb_port_bridge_join ports5 0 7
                     (snd (rtl8365mb_port_bridge_join ports5 1 7 fresh_chip)))).

(** What [rtl8365mb_get_mac_stats] hands out when no counter was read:
    the values the marks of its array give. *)
Definition mac_stats_of_marks (mac_stats : ethtool_eth_mac_stats) : ethtool_eth_mac_stats :=
  mkMacStats 3 1 1 4 1 (2 ^ 64 - 53) 1 1 1 (2 ^ 64 - 71) 1 1 1 1 (mac_untouched mac_stats).

Definition mac_stats_zero : ethtool_eth_mac_stats :=
  mkMacStats 0 0 0 0 0 0 0 0 0 0 0 0 0 0 [].

(** The link-change interrupt enable bit. *)
Definition irq_enabled (st : chip) : bool :=
  Z.testbit (reg st RTL8365MB_INTR_CTRL_REG) 0.

(** The limit on learnt addresses of a port. *)
Definition learn_limit (st : chip) (port : Z) : Z :=
  reg st (RTL8365MB_LUT_PORT_LEARN_LIMIT_REG port).

(** A chip with a pending link change on ports 2 and 9. *)
Definition irq_chip : chip :=
  Eval vm_compute in
    set_reg RTL8365MB_PORT_LINKDOWN_IND_REG 0x200
      (set_reg RTL8365MB_PORT_LINKUP_IND_REG 4
         (set_reg RTL8365MB_INTR_STATUS_REG 1 chip0)).

(** The value the counter window of a chip holds for a counter of
    [length] words at [offset]: the window registers from
    [mib_window_start] downwards, most significant word first. *)
Definition mib_value (st : chip) (offset length : Z) : Z :=
  let word (i : Z) :=
    reg st (RTL8365MB_MIB_COUNTER_REG (u32 (mib_window_start offset length - i))) in
  if length =? 4 then word 0 * 2 ^ 48 + word 1 * 2 ^ 32 + word 2 * 2 ^ 16 + word 3
  else if length =? 2 then word 0 * 2 ^ 16 + word 1
  else word 0.

(** Counter [i] of the table, and its value. *)
Definition mib_counter (i : nat) : rtl8365mb_mib_counter :=
  nth i rtl8365mb_mib_counters (mkMib 0 0 EmptyString).

Definition counter_value (st : chip) (i : nat) : Z :=
  mib_value st (mib_offset (mib_counter i)) (mib_length (mib_counter i)).

(** A chip whose bus works and whose counter engine is neither busy nor
    being reset. *)
Definition mib_ready (st : chip) : Prop :=
  faults st = []
  /\ Z.land (reg st RTL8365MB_MIB_CTRL0_REG) RTL8365MB_MIB_CTRL0_BUSY_MASK = 0
  /\ Z.land (reg st RTL8365MB_MIB_CTRL0_REG) RTL8365MB_MIB_CTRL0_RESET_MASK = 0.

(** A chip whose counter window holds the words 1, 2, 3, 4. *)
Definition counting_chip : chip :=
  Eval vm_compute in
    set_reg 0x1003 4 (set_reg 0x1002 3 (set_reg 0x1001 2 (set_reg 0x1000 1 chip0))).

(** ** Vocabulary of the properties of whole operations *)

(** The first failure the transport has in store for a run of [n]
    accesses: how many accesses get through before it, and the error. *)
Fixpoint first_failure (fs : list Z) (n : nat) {struct n} : option (nat * Z) :=
  match n, fs with
  | S n', f :: fs' =>
      if f =? 0
      then match first_failure fs' n' with
           | Some (k, e) => Some (S k, e)
           | None => None
           end
      else Some (O, f)
  | _, _ => None
  end.

(** The accesses one run of the interrupt handler makes when none fails:
    the status register is read and written back, and so are the two link
    indicators when the status reports a link change. *)
Definition irq_accesses (st : chip) : nat :=
  if Z.land (reg st RTL8365MB_INTR_STATUS_REG) RTL8365MB_INTR_LINK_CHANGE_MASK =? 0
  then 2%nat else 6%nat.

(** The counters one statistics cycle reads, in the order it reads them:
    the marked ones, by index. *)
Definition stats_batch : list nat :=
  List.filter (fun i => negb (nth i stats_update_cnt 0 =? 0)) (seq 0 RTL8365MB_MIB_END).

(** The outcomes of reading the counters [idxs] of a port one after the
    other, each read starting from the chip the one before it left, up to
    and including the first read that fails. *)
Fixpoint counter_reads (port : Z) (idxs : list nat) (st : chip) : list (result Z) :=
  match idxs with
  | [] => []
  | i :: rest =>
      let c := nth i rtl8365mb_mib_counters (mkMib 0 0 EmptyString) in
      match rtl8365mb_mib_counter_read port (mib_offset c) (mib_length c) st with
      | (Ok v, st') => Ok v :: counter_reads port rest st'
      | (Err e, _) => [Err e]
      end
  end.

(** The outcomes of a cycle's reads on [mib_fail_chip]: four counters,
    then the I/O error. *)
Definition mib_fail_reads : list (result Z) :=
  Eval vm_compute in counter_reads 2 stats_batch mib_fail_chip.

(** The values a cycle reads on [mib_chip]. *)
Definition mib_chip_reads : list (result Z) :=
  Eval vm_compute in counter_reads 2 stats_batch mib_chip.

(** The chip as initialised, with port 2 accepting tagged frames only; and
    the same chip after port 2 was added to VLAN 10 with the PVID flag. *)
Definition tagged_only_chip : chip :=
  Eval vm_compute in
    set_reg (RTL8365MB_VLAN_ACCEPT_FRAME_TYPE_REG 2)
      (Z.shiftl RTL8365MB_FRAME_TYPE_TAGGED_ONLY (RTL8365MB_VLAN_ACCEPT_FRAME_TYPE_OFFSET 2))
      fresh_chip.

Definition pvid10_chip : chip :=
  Eval vm_compute in
    rearm [] (snd (rtl8365mb_vlan_add ds11 2 10 BRIDGE_VLAN_INFO_PVID tagged_only_chip)).

(** [full_chip] with port 2 accepting tagged frames only. *)
Definition tagged_only_full_chip : chip :=
  Eval vm_compute in
    set_reg (RTL8365MB_VLAN_ACCEPT_FRAME_TYPE_REG 2)
      (Z.shiftl RTL8365MB_FRAME_TYPE_TAGGED_ONLY (RTL8365MB_VLAN_ACCEPT_FRAME_TYPE_OFFSET 2))
      full_chip.

(** The chip as initialised, on a transport that lets the accesses of one
    slot reconciliation through and fails the next one with an I/O
    error. *)
Definition by_id_fail_chip : chip :=
  Eval vm_compute in
    rearm (replicate
             (length (log (snd (rtl8365mb_vlanmc_set ds11 2 10 BRIDGE_VLAN_INFO_PVID true
                                  fresh_chip))))
             0 ++ [- EIO])
          fresh_chip.

(** * Properties *)

(** ** The transport on a chip without pending failures *)

Lemma next_fault_nil st : faults st = [] -> next_fault st = (0, st).
Proof. unfold next_fault. intros ->. reflexivity. Qed.

Lemma faults_record e st : faults (record e st) = faults st.
Proof. reflexivity. Qed.

Lemma faults_set_reg a v st : faults (set_reg a v st) = faults st.
Proof. reflexivity. Qed.

Lemma faults_load_regs ws : forall base st, faults (load_regs base ws st) = faults st.
Proof. induction ws as [|w ws IH]; intros; simpl; [reflexivity | now rewrite IH]. Qed.

Lemma faults_table_engine st : faults (table_engine st) = faults st.
Proof.
  unfold table_engine. destruct (_ =? _); [reflexivity | apply faults_load_regs].
Qed.

Lemma faults_chip_store a v st : faults (chip_store a v st) = faults st.
Proof.
  unfold chip_store. destruct (a =? _).
  - now rewrite faults_table_engine.
  - destruct (write_one_to_clear a); reflexivity.
Qed.

Lemma regmap_read_ok a st :
  faults st = [] -> regmap_read a st = (Ok (reg st a), record (Rd a) st).
Proof. intros H. unfold regmap_read. now rewrite (next_fault_nil _ H). Qed.

Lemma regmap_write_ok a v st :
  faults st = [] ->
  regmap_write a v st = (Ok tt, record (Wr a (u16 v)) (chip_store a (u16 v) st)).
Proof. intros H. unfold regmap_write. now rewrite (next_fault_nil _ H). Qed.

Lemma regmap_update_bits_ok a mask v st :
  faults st = [] ->
  regmap_update_bits a mask v st =
  (Ok tt, record (Upd a mask v)
            (chip_store a (u16 (Z.lor (Z.land (reg st a) (Z.lnot mask)) (Z.land v mask))) st)).
Proof. intros H. unfold regmap_update_bits. now rewrite (next_fault_nil _ H). Qed.

(** ** Registers after a store *)

Lemma reg_range st a : 0 <= reg st a < 2 ^ 16.
Proof. unfold reg, u16. apply Z.mod_pos_bound. lia. Qed.

Lemma u16_small x : 0 <= x < 2 ^ 16 -> u16 x = x.
Proof. intros. unfold u16. now apply Z.mod_small. Qed.

Lemma u16_range x : 0 <= u16 x < 2 ^ 16.
Proof. unfold u16. apply Z.mod_pos_bound. lia. Qed.

Lemma u16_idem x : u16 (u16 x) = u16 x.
Proof. apply u16_small, u16_range. Qed.

Lemma reg_record e st a : reg (record e st) a = reg st a.
Proof. reflexivity. Qed.

Lemma reg_set_reg_eq a v st : reg (set_reg a v st) a = u16 v.
Proof. unfold reg, set_reg; simpl. now rewrite lookup_insert_eq. Qed.

Lemma reg_set_reg_ne a b v st : a <> b -> reg (set_reg a v st) b = reg st b.
Proof. intros H. unfold reg, set_reg; simpl. now rewrite lookup_insert_ne. Qed.

Lemma table_row_set_reg a v st t i : table_row (set_reg a v st) t i = table_row st t i.
Proof. reflexivity. Qed.

Lemma table_row_record e st t i : table_row (record e st) t i = table_row st t i.
Proof. reflexivity. Qed.

Lemma plain_spec b :
  b <> 0x500 -> b <> 0x1102 -> b <> 0x1106 -> b <> 0x1107 -> plain b = true.
Proof.
  intros H1 H2 H3 H4. unfold plain, write_one_to_clear.
  apply Z.eqb_neq in H1, H2, H3, H4.
  change RTL8365MB_TABLE_CONTROL_REG with 0x500.
  change RTL8365MB_INTR_STATUS_REG with 0x1102.
  change RTL8365MB_PORT_LINKUP_IND_REG with 0x1107.
  change RTL8365MB_PORT_LINKDOWN_IND_REG with 0x1106.
  now rewrite H1, H2, H3, H4.
Qed.

Lemma chip_store_plain a v st : plain a = true -> chip_store a v st = set_reg a v st.
Proof.
  unfold plain, chip_store. intros H. apply andb_prop in H as [H1 H2].
  apply negb_true_iff in H1, H2. now rewrite H1, H2.
Qed.

(** ** Interrupt handler *)

Lemma get_and_clear_ok r st :
  faults st = [] -> write_one_to_clear r = true ->
  exists st', rtl8365mb_get_and_clear_status_reg r st = (Ok (reg st r), st')
              /\ faults st' = []
              /\ (forall b, b <> r -> reg st' b = reg st b)
              /\ log st' = log st ++ [Rd r; Wr r (reg st r)].
Proof.
  intros Hf Hw. unfold rtl8365mb_get_and_clear_status_reg, bind.
  rewrite (regmap_read_ok _ _ Hf).
  rewrite regmap_write_ok by (now rewrite faults_record).
  rewrite (u16_small _ (reg_range _ _)).
  eexists; split; [reflexivity|]. simpl.
  assert (Hs : forall v s, chip_store r v s = set_reg r (Z.land (reg s r) (Z.lnot v)) s).
  { intros v s. unfold chip_store. rewrite Hw.
    destruct (r =? RTL8365MB_TABLE_CONTROL_REG) eqn:E; [|reflexivity].
    apply Z.eqb_eq in E. subst r. discriminate Hw. }
  rewrite Hs. repeat split.
  - exact Hf.
  - intros b Hb. unfold reg at 1. simpl. rewrite lookup_insert_ne by congruence. reflexivity.
  - simpl. rewrite <- app_assoc. reflexivity.
Qed.

Lemma irq_line_changes_ok st :
  faults st = [] ->
  exists st', irq_line_changes st = (Ok (irq_cause st), st')
              /\ (length (log st') <= length (log st) + 6)%nat.
Proof.
  intros Hf. unfold irq_line_changes, bind, irq_cause.
  destruct (get_and_clear_ok RTL8365MB_INTR_STATUS_REG st Hf eq_refl)
    as (st1 & E1 & Hf1 & Hr1 & Hl1).
  rewrite E1.
  destruct (Z.land (reg st RTL8365MB_INTR_STATUS_REG) RTL8365MB_INTR_LINK_CHANGE_MASK =? 0).
  - simpl. eexists; split; [reflexivity|]. rewrite Hl1, length_app. simpl. lia.
  - simpl.
    destruct (get_and_clear_ok RTL8365MB_PORT_LINKUP_IND_REG st1 Hf1 eq_refl)
      as (st2 & E2 & Hf2 & Hr2 & Hl2).
    rewrite E2.
    destruct (get_and_clear_ok RTL8365MB_PORT_LINKDOWN_IND_REG st2 Hf2 eq_refl)
      as (st3 & E3 & Hf3 & Hr3 & Hl3).
    rewrite E3. unfold ret.
    rewrite (Hr2 RTL8365MB_PORT_LINKDOWN_IND_REG) by discriminate.
    rewrite (Hr1 RTL8365MB_PORT_LINKDOWN_IND_REG) by discriminate.
    rewrite (Hr1 RTL8365MB_PORT_LINKUP_IND_REG) by discriminate.
    eexists; split; [reflexivity|].
    rewrite Hl3, Hl2, Hl1, !length_app. simpl. lia.
Qed.

Lemma first_failure_add fs a b :
  first_failure fs (a + b)
  = match first_failure fs a with
    | Some x => Some x
    | None => match first_failure (skipn a fs) b with
              | Some (k, e) => Some ((a + k)%nat, e)
              | None => None
              end
    end.
Proof.
  revert fs. induction a as [|a IH]; intros fs.
  - cbn [Nat.add first_failure skipn]. change (drop 0 fs) with fs.
    destruct (first_failure fs b) as [[k e]|]; reflexivity.
  - destruct fs as [|f fs]; cbn [Nat.add first_failure skipn].
    + destruct b; reflexivity.
    + destruct (f =? 0); [|reflexivity].
      rewrite IH. destruct (first_failure fs a) as [[k e]|]; [reflexivity|].
      destruct (first_failure (skipn a fs) b) as [[k e]|]; reflexivity.
Qed.

Lemma get_and_clear_scripted r st :
  write_one_to_clear r = true ->
  match first_failure (faults st) 2 with
  | None =>
      exists st', rtl8365mb_get_and_clear_status_reg r st = (Ok (reg st r), st')
                  /\ faults st' = skipn 2 (faults st)
                  /\ (forall b, b <> r -> reg st' b = reg st b)
                  /\ length (log st') = (length (log st) + 2)%nat
  | Some (k, e) =>
      exists st', rtl8365mb_get_and_clear_status_reg r st = (Err e, st')
                  /\ faults st' = skipn (S k) (faults st)
                  /\ length (log st') = (length (log st) + k)%nat
  end.
Proof.
  intros Hw.
  assert (Hs : forall v s, chip_store r v s = set_reg r (Z.land (reg s r) (Z.lnot v)) s).
  { intros v s. unfold chip_store. rewrite Hw.
    destruct (r =? RTL8365MB_TABLE_CONTROL_REG) eqn:E; [|reflexivity].
    apply Z.eqb_eq in E. subst r. discriminate Hw. }
  unfold rtl8365mb_get_and_clear_status_reg, bind, regmap_read, regmap_write, next_fault.
  destruct st as [rg tb fs lg]. cbn [faults].
  assert (Hok : forall fs' : list Z,
            exists st' : chip,
              (Ok (reg (mkChip rg tb fs lg) r),
               record (Wr r (u16 (reg (record (Rd r) (mkChip rg tb fs' lg)) r)))
                 (chip_store r (u16 (reg (record (Rd r) (mkChip rg tb fs' lg)) r))
                    (mkChip rg tb fs' (lg ++ [Rd r]))))
              = (Ok (reg (mkChip rg tb fs lg) r), st')
              /\ faults st' = fs'
              /\ (forall b, b <> r -> reg st' b = reg (mkChip rg tb fs lg) b)
              /\ length (log st') = (length lg + 2)%nat).
  { intros fs'. eexists. split; [reflexivity|]. rewrite Hs. split; [reflexivity|]. split.
    - intros b Hb. rewrite reg_record, reg_set_reg_ne by congruence. reflexivity.
    - cbn. rewrite !length_app. cbn. lia. }
  destruct fs as [|f0 fs]; cbn [first_failure].
  - cbn. apply (Hok []).
  - destruct (f0 =? 0) eqn:E0.
    + destruct fs as [|f1 fs]; cbn [first_failure].
      * cbn. apply (Hok []).
      * destruct (f1 =? 0) eqn:E1; cbn [first_failure].
        -- cbn. rewrite E1. apply (Hok fs).
        -- cbn. rewrite E1. eexists. split; [reflexivity|]. cbn. rewrite length_app.
           split; reflexivity.
    + eexists. split; [reflexivity|]. cbn. split; [reflexivity|lia].
Qed.

Lemma irq_line_changes_scripted st :
  match first_failure (faults st) (irq_accesses st) with
  | None =>
      exists st', irq_line_changes st = (Ok (irq_cause st), st')
                  /\ faults st' = skipn (irq_accesses st) (faults st)
                  /\ length (log st') = (length (log st) + irq_accesses st)%nat
  | Some (k, e) =>
      exists st', irq_line_changes st = (Err e, st')
                  /\ faults st' = skipn (S k) (faults st)
                  /\ length (log st') = (length (log st) + k)%nat
  end.
Proof.
  unfold irq_line_changes, irq_accesses, irq_cause, bind.
  pose proof (get_and_clear_scripted RTL8365MB_INTR_STATUS_REG st eq_refl) as H1.
  destruct (Z.land (reg st RTL8365MB_INTR_STATUS_REG) RTL8365MB_INTR_LINK_CHANGE_MASK =? 0)
    eqn:Ebit.
  - destruct (first_failure (faults st) 2) as [[k e]|].
    + destruct H1 as (s1 & E1 & Hf1 & Hl1). rewrite E1. exists s1. auto.
    + destruct H1 as (s1 & E1 & Hf1 & _ & Hl1). rewrite E1, Ebit. cbn [negb].
      exists s1. auto.
  - change 6%nat with (2 + (2 + 2))%nat. rewrite first_failure_add.
    destruct (first_failure (faults st) 2) as [[k e]|].
    + destruct H1 as (s1 & E1 & Hf1 & Hl1). rewrite E1. exists s1. auto.
    + destruct H1 as (s1 & E1 & Hf1 & Hr1 & Hl1). rewrite E1, Ebit. cbn [negb].
      rewrite <- Hf1.
      pose proof (get_and_clear_scripted RTL8365MB_PORT_LINKUP_IND_REG s1 eq_refl) as H2.
      rewrite first_failure_add.
      destruct (first_failure (faults s1) 2) as [[k e]|].
      * destruct H2 as (s2 & E2 & Hf2 & Hl2). rewrite E2. exists s2.
        split; [reflexivity|]. split.
        -- rewrite Hf2, Hf1, drop_drop. f_equal; lia.
        -- lia.
      * destruct H2 as (s2 & E2 & Hf2 & Hr2 & Hl2). rewrite E2, <- Hf2.
        pose proof (get_and_clear_scripted RTL8365MB_PORT_LINKDOWN_IND_REG s2 eq_refl) as H3.
        destruct (first_failure (faults s2) 2) as [[k e]|].
        -- destruct H3 as (s3 & E3 & Hf3 & Hl3). rewrite E3. exists s3.
           split; [reflexivity|]. split.
           ++ rewrite Hf3, Hf2, Hf1, !drop_drop. f_equal; lia.
           ++ lia.
        -- destruct H3 as (s3 & E3 & Hf3 & Hr3 & Hl3). rewrite E3. unfold ret.
           rewrite (Hr2 RTL8365MB_PORT_LINKDOWN_IND_REG) by discriminate.
           rewrite (Hr1 RTL8365MB_PORT_LINKDOWN_IND_REG) by discriminate.
           rewrite (Hr1 RTL8365MB_PORT_LINKUP_IND_REG) by discriminate.
           exists s3. split; [reflexivity|]. split.
           ++ rewrite Hf3, Hf2, Hf1, !drop_drop. f_equal.
           ++ lia.
Qed.

(** C9: whatever the transport has in store.  When one of the accesses of
    a run fails, the handler answers IRQ_NONE, raises no line and reports
    that error; the accesses before the failing one are the only ones
    made, and the failing one is not tried again.  When none fails, the
    answer is IRQ_NONE, with nothing reported, for a chip whose status
    registers stand for no changed line, and IRQ_HANDLED otherwise.  So
    the interrupt is reported as handled exactly when no access failed and
    some line changed; a run never makes more than six accesses. *)
Theorem irq_outcomes (ds : dsa_switch) (st : chip) :
  let o := fst (rtl8365mb_irq ds st) in
  let st' := snd (rtl8365mb_irq ds st) in
  match first_failure (faults st) (irq_accesses st) with
  | Some (k, e) =>
      o = mkIrq IRQ_NONE [] (Some e)
      /\ faults st' = skipn (S k) (faults st)
      /\ length (log st') = (length (log st) + k)%nat
  | None =>
      (irq_cause st = 0 -> o = mkIrq IRQ_NONE [] None)
      /\ (irq_cause st <> 0 -> irq_return o = IRQ_HANDLED /\ irq_logged o = None)
      /\ faults st' = skipn (irq_accesses st) (faults st)
      /\ length (log st') = (length (log st) + irq_accesses st)%nat
  end
  /\ (irq_return o = IRQ_HANDLED
      <-> first_failure (faults st) (irq_accesses st) = None /\ irq_cause st <> 0)
  /\ (length (log st') <= length (log st) + 6)%nat.
Proof.
  cbv zeta. unfold rtl8365mb_irq.
  pose proof (irq_line_changes_scripted st) as H.
  assert (Hn : (irq_accesses st <= 6)%nat).
  { unfold irq_accesses. destruct (_ =? 0); lia. }
  assert (Hk : forall fs n k e, first_failure fs n = Some (k, e) -> (k < n)%nat).
  { intros fs n. revert fs. induction n as [|n IH]; intros fs k e Hff; [discriminate|].
    destruct fs as [|f fs]; [discriminate|]. cbn [first_failure] in Hff.
    destruct (f =? 0).
    - destruct (first_failure fs n) as [[k' e']|] eqn:E; [|discriminate].
      injection Hff as <- <-. apply IH in E. lia.
    - injection Hff as <- <-. lia. }
  destruct (first_failure (faults st) (irq_accesses st)) as [[k e]|] eqn:Eff.
  - destruct H as (st' & E & Hf & Hl). rewrite E. cbn [fst snd].
    split; [auto|]. split.
    + cbn [irq_return]. split; [discriminate | intros [H _]; discriminate H].
    + apply Hk in Eff. lia.
  - destruct H as (st' & E & Hf & Hl). rewrite E.
    destruct (Z.eqb_spec (irq_cause st) 0) as [E0 | E0]; cbn [fst snd].
    + split; [|split].
      * split; [reflexivity|]. split; [contradiction|]. auto.
      * cbn [irq_return]. split; [discriminate | intros [_ H]; contradiction].
      * lia.
    + split; [|split].
      * split; [contradiction|]. split; [intros _; split; reflexivity|]. auto.
      * cbn [irq_return]. split; [auto | reflexivity].
      * lia.
Qed.

(** On a chip out of reset nothing is claimed; a transport whose first
    access fails with an I/O error gets the error reported, nothing
    claimed and nothing retried. *)
Lemma irq_outcomes_witness :
  fst (rtl8365mb_irq ds11 chip0) = mkIrq IRQ_NONE [] None /\
  fst (rtl8365mb_irq ds11 (rearm [0; - EIO] irq_chip)) = mkIrq IRQ_NONE [] (Some (- EIO)) /\
  length (log (snd (rtl8365mb_irq ds11 (rearm [0; - EIO] irq_chip)))) = 1%nat /\
  irq_return (fst (rtl8365mb_irq ds11 irq_chip)) = IRQ_HANDLED.
Proof.
  assert (E0 : first_failure (faults chip0) (irq_accesses chip0) = None)
    by (vm_compute; reflexivity).
  assert (E1 : first_failure (faults (rearm [0; - EIO] irq_chip))
                 (irq_accesses (rearm [0; - EIO] irq_chip)) = Some (1%nat, - EIO))
    by (vm_compute; reflexivity).
  assert (E2 : first_failure (faults irq_chip) (irq_accesses irq_chip) = None)
    by (vm_compute; reflexivity).
  assert (C0 : irq_cause chip0 = 0) by (vm_compute; reflexivity).
  assert (C2 : irq_cause irq_chip <> 0) by (vm_compute; discriminate).
  pose proof (irq_outcomes ds11 chip0) as H0.
  pose proof (irq_outcomes ds11 (rearm [0; - EIO] irq_chip)) as H1.
  pose proof (irq_outcomes ds11 irq_chip) as H2.
  cbv zeta in H0, H1, H2. rewrite E0 in H0. rewrite E1 in H1. rewrite E2 in H2.
  split; [exact (proj1 (proj1 H0) C0)|].
  split; [exact (proj1 (proj1 H1))|].
  split; [exact (proj2 (proj2 (proj1 H1)))|].
  exact (proj1 (proj1 (proj2 (proj1 H2)) C2)).
Defined.

(** C9, as stated, fails: the read of the interrupt status register
    fails with an I/O error, the handler logs it, and the interrupt is
    reported as IRQ_NONE, not as handled. *)
Lemma irq_transport_failure_not_handled :
  let o := fst (rtl8365mb_irq ds11 (rearm [- EIO] chip0)) in
  irq_logged o = Some (- EIO) /\ irq_return o = IRQ_NONE /\ irq_return o <> IRQ_HANDLED.
Proof. vm_compute. repeat split; discriminate. Qed.

(** ** Error propagation *)

Lemma phy_ocp_write_status phy ocp_addr data st :
  fst (rtl8365mb_phy_ocp_write phy ocp_addr data st) = 0.
Proof.
  unfold rtl8365mb_phy_ocp_write.
  destruct (phy_ocp_write_locked phy ocp_addr data st). reflexivity.
Qed.

(** C2 at its failing inputs.  The busy poll that opens an indirect PHY
    write fails with an I/O error: the locked part of the write stops with
    that error, as the sibling read reports it, yet the write returns 0.
    The table read that opens a VLAN delete fails with an I/O error: the
    by-ID step stops with that error, and the delete returns 1. *)
Theorem transport_error_not_propagated :
  let st := rearm [- EIO] fresh_chip in
  fst (phy_ocp_write_locked 1 0xA400 0x1234 st) = Err (- EIO) /\
  fst (fst (rtl8365mb_phy_ocp_read 1 0xA400 st)) = - EIO /\
  fst (rtl8365mb_phy_ocp_write 1 0xA400 0x1234 st) = 0 /\
  fst (rtl8365mb_vlan4k_set ds11 2 10 0 false st) = Err (- EIO) /\
  fst (rtl8365mb_vlan_del ds11 2 10 0 st) = 1.
Proof. vm_compute. repeat split. Qed.

(** ** Busy polls *)

Lemma poll_loop_first n a cond st :
  faults st = [] -> cond (reg st a) = true ->
  poll_loop n a cond st = (Ok (reg st a), record (Rd a) st).
Proof.
  intros Hf Hc. destruct n; simpl; unfold bind; rewrite (regmap_read_ok _ _ Hf), Hc;
    reflexivity.
Qed.

Lemma poll_first a cond sleep_us timeout_us st :
  faults st = [] -> cond (reg st a) = true ->
  regmap_read_poll_timeout a cond sleep_us timeout_us st = (Ok (reg st a), record (Rd a) st).
Proof. apply poll_loop_first. Qed.

Ltac no_faults :=
  repeat first [ rewrite faults_record | rewrite faults_chip_store | rewrite faults_set_reg ];
  assumption.

(** ** MIB counter read *)

Lemma lor_shiftl_16 t v :
  0 <= t -> 0 <= v < 2 ^ 16 -> Z.lor (Z.shiftl t 16) (Z.land v 0xFFFF) = t * 2 ^ 16 + v.
Proof.
  intros Ht Hv.
  change 0xFFFF with (Z.ones 16). rewrite Z.land_ones by lia.
  rewrite (Z.mod_small v) by lia.
  rewrite Z.shiftl_mul_pow2 by lia.
  rewrite <- Z.lxor_lor, <- Z.add_nocarry_lxor; try reflexivity.
  all: apply Z.bits_inj'; intros n Hn; rewrite Z.land_spec, Z.bits_0;
    destruct (Z.lt_ge_cases n 16).
  1,3: rewrite Z.mul_pow2_bits_low by lia; reflexivity.
  all: rewrite (Z.bits_above_log2 v n); [apply andb_false_r | lia |].
  all: destruct (Z.eq_dec v 0) as [-> | ?]; [simpl; lia|];
    apply Z.log2_lt_pow2; [lia|]; apply Z.lt_le_trans with (2 ^ 16); [lia|];
    apply Z.pow_le_mono_r; lia.
Qed.

Lemma be_step t v :
  0 <= t < 2 ^ 48 -> 0 <= v < 2 ^ 16 ->
  u64 (Z.lor (Z.shiftl t 16) (Z.land v 0xFFFF)) = t * 2 ^ 16 + v.
Proof.
  intros Ht Hv. rewrite lor_shiftl_16 by lia. unfold u64. apply Z.mod_small. lia.
Qed.

Lemma mib_window_reg_plain x :
  0 <= x < 4 \/ x = u32 (-1) \/ x = u32 (-2) \/ x = u32 (-3) ->
  RTL8365MB_MIB_COUNTER_REG x <> RTL8365MB_MIB_ADDRESS_REG.
Proof.
  intros [H | [-> | [-> | ->]]]; [|vm_compute; discriminate..].
  unfold RTL8365MB_MIB_COUNTER_REG, u32, RTL8365MB_MIB_COUNTER_BASE, RTL8365MB_MIB_ADDRESS_REG.
  rewrite Z.mod_small by lia. lia.
Qed.

Ltac finish_read Hdone :=
  match goal with
  | |- exists st', (Ok ?a, ?s) = (Ok ?b, st') /\ _ =>
      exists s; split;
      [ f_equal; f_equal | apply Hdone; simpl; rewrite <- ?app_assoc; reflexivity ]
  end.

(** C8: on a transport without failures and with the busy flag clear, a
    set reset indicator makes the counter read fail with an I/O error;
    otherwise a counter of 1, 2 or 4 words is read from the window
    registers [start], [start - 1], ... in this order, where [start] is 3
    for four words and [(offset + 1) mod 4] for one or two, and the words
    are assembled most significant first. *)
Theorem mib_counter_read_assembly (port offset length : Z) (st : chip) :
  faults st = [] ->
  Z.land (reg st RTL8365MB_MIB_CTRL0_REG) RTL8365MB_MIB_CTRL0_BUSY_MASK = 0 ->
  length = 1 \/ length = 2 \/ length = 4 ->
  let start := mib_window_start offset length in
  let window (i : Z) := RTL8365MB_MIB_COUNTER_REG (u32 (start - i)) in
  let word (i : Z) := reg st (window i) in
  (Z.land (reg st RTL8365MB_MIB_CTRL0_REG) RTL8365MB_MIB_CTRL0_RESET_MASK <> 0 ->
     fst (rtl8365mb_mib_counter_read port offset length st) = Err (- EIO)) /\
  (Z.land (reg st RTL8365MB_MIB_CTRL0_REG) RTL8365MB_MIB_CTRL0_RESET_MASK = 0 ->
     exists st',
       rtl8365mb_mib_counter_read port offset length st =
         (Ok (if length =? 4 then word 0 * 2 ^ 48 + word 1 * 2 ^ 32 + word 2 * 2 ^ 16 + word 3
              else if length =? 2 then word 0 * 2 ^ 16 + word 1
              else word 0), st') /\
       log st' = log st
                 ++ [Wr RTL8365MB_MIB_ADDRESS_REG (u16 (RTL8365MB_MIB_ADDRESS port offset));
                     Rd RTL8365MB_MIB_CTRL0_REG]
                 ++ map (fun i => Rd (window (Z.of_nat i))) (seq 0 (Z.to_nat length))).
Proof.
  intros Hf Hbusy Hlen start window word.
  set (st1 := record (Wr RTL8365MB_MIB_ADDRESS_REG (u16 (RTL8365MB_MIB_ADDRESS port offset)))
                (chip_store RTL8365MB_MIB_ADDRESS_REG
                   (u16 (RTL8365MB_MIB_ADDRESS port offset)) st)).
  assert (Hf1 : faults st1 = []) by (subst st1; no_faults).
  assert (Hreg : forall b, b <> RTL8365MB_MIB_ADDRESS_REG -> reg st1 b = reg st b).
  { intros b Hb. subst st1. rewrite reg_record, chip_store_plain by reflexivity.
    apply reg_set_reg_ne. congruence. }
  assert (Hctl : reg st1 RTL8365MB_MIB_CTRL0_REG = reg st RTL8365MB_MIB_CTRL0_REG)
    by (apply Hreg; discriminate).
  assert (Hstart : 0 <= start < 4).
  { subst start. unfold mib_window_start. destruct (length =? 4); [lia|].
    apply Z.mod_pos_bound. lia. }
  assert (Hword : forall i, 0 <= i < 4 -> reg st1 (window i) = word i).
  { intros i Hi. apply Hreg. apply mib_window_reg_plain.
    unfold u32. destruct (Z.lt_ge_cases (start - i) 0).
    - right. assert (start - i = -1 \/ start - i = -2 \/ start - i = -3) as [-> | [-> | ->]] by lia;
        auto.
    - left. rewrite Z.mod_small by lia. lia. }
  assert (Hpoll : regmap_read_poll_timeout RTL8365MB_MIB_CTRL0_REG
                    (fun val => Z.land val RTL8365MB_MIB_CTRL0_BUSY_MASK =? 0) 10 100 st1
                  = (Ok (reg st RTL8365MB_MIB_CTRL0_REG), record (Rd RTL8365MB_MIB_CTRL0_REG) st1)).
  { rewrite <- Hctl. apply poll_first; [exact Hf1|]. rewrite Hctl, Hbusy. reflexivity. }
  split.
  - intros Hreset. unfold rtl8365mb_mib_counter_read, bind.
    rewrite (regmap_write_ok _ _ _ Hf). fold st1. rewrite Hpoll.
    apply Z.eqb_neq in Hreset. rewrite Hreset. reflexivity.
  - intros Hreset. unfold rtl8365mb_mib_counter_read, bind.
    rewrite (regmap_write_ok _ _ _ Hf). fold st1. rewrite Hpoll, Hreset.
    change (negb (0 =? 0)) with false. cbv iota.
    fold (mib_window_start offset length). fold start.
    set (st2 := record (Rd RTL8365MB_MIB_CTRL0_REG) st1).
    assert (Hf2 : faults st2 = []) by exact Hf1.
    assert (Hword2 : forall i, 0 <= i < 4 -> reg st2 (window i) = word i) by exact Hword.
    assert (Hw : forall i, 0 <= word i < 2 ^ 16) by (intros; apply reg_range).
    assert (Hlog2 : log st2 = log st
              ++ [Wr RTL8365MB_MIB_ADDRESS_REG (u16 (RTL8365MB_MIB_ADDRESS port offset));
                  Rd RTL8365MB_MIB_CTRL0_REG]).
    { subst st2 st1. simpl. rewrite <- app_assoc. reflexivity. }
    assert (Hdone : forall s l, log s = log st2 ++ l ->
              log s = log st
                ++ [Wr RTL8365MB_MIB_ADDRESS_REG (u16 (RTL8365MB_MIB_ADDRESS port offset));
                    Rd RTL8365MB_MIB_CTRL0_REG] ++ l).
    { intros s l ->. rewrite Hlog2, <- app_assoc. reflexivity. }
    clearbody st2 word st1.
    destruct Hlen as [-> | [-> | ->]]; simpl; unfold bind.
    + rewrite (regmap_read_ok _ _ Hf2). fold (window 0). rewrite Hword2 by lia.
      unfold ret. finish_read Hdone.
      pose proof (Hw 0). rewrite be_step by lia. lia.
    + rewrite (regmap_read_ok _ _ Hf2). fold (window 0). rewrite Hword2 by lia.
      rewrite regmap_read_ok by no_faults. rewrite reg_record.
      change (0 + 1) with 1. fold (window 1). rewrite Hword2 by lia.
      unfold ret. finish_read Hdone.
      pose proof (Hw 0); pose proof (Hw 1).
      rewrite (be_step 0) by lia. rewrite be_step by lia. lia.
    + rewrite (regmap_read_ok _ _ Hf2). fold (window 0). rewrite Hword2 by lia.
      rewrite regmap_read_ok by no_faults. rewrite reg_record.
      change (0 + 1) with 1. fold (window 1). rewrite Hword2 by lia.
      rewrite regmap_read_ok by no_faults. rewrite !reg_record.
      change (1 + 1) with 2. fold (window 2). rewrite Hword2 by lia.
      rewrite regmap_read_ok by no_faults. rewrite !reg_record.
      change (2 + 1) with 3. fold (window 3). rewrite Hword2 by lia.
      unfold ret. finish_read Hdone.
      pose proof (Hw 0); pose proof (Hw 1); pose proof (Hw 2); pose proof (Hw 3).
      rewrite (be_step 0) by lia. rewrite (be_step (0 * 2 ^ 16 + word 0)) by lia.
      rewrite (be_step ((0 * 2 ^ 16 + word 0) * 2 ^ 16 + word 1)) by lia.
      rewrite be_step by lia. lia.
Qed.

(** ** Link statistics *)

Lemma get_stats64_alter_eq f (l : list rtnl_link_stats64) (hwc hwc' : chip) port :
  0 <= port < Z.of_nat (length l) ->
  rtl8365mb_get_stats64 (mkMb hwc (alter f (Z.to_nat port) l)) port
  = f (rtl8365mb_get_stats64 (mkMb hwc' l) port).
Proof.
  intros Hp. unfold rtl8365mb_get_stats64; simpl. rewrite !nth_lookup.
  rewrite list_lookup_alter_eq.
  destruct (lookup_lt_is_Some_2 l (Z.to_nat port)) as [s Hs]; [lia|].
  rewrite Hs. reflexivity.
Qed.

Lemma get_stats64_alter_ne f (l : list rtnl_link_stats64) (hwc hwc' : chip) port q :
  0 <= port -> 0 <= q -> q <> port ->
  rtl8365mb_get_stats64 (mkMb hwc (alter f (Z.to_nat port) l)) q
  = rtl8365mb_get_stats64 (mkMb hwc' l) q.
Proof.
  intros Hp Hq Hne. unfold rtl8365mb_get_stats64; simpl. rewrite !nth_lookup.
  rewrite list_lookup_alter_ne by lia. reflexivity.
Qed.

(** ** Bulk transfers *)

Lemma regs_at_S st a n : regs_at st a (S n) = reg st a :: regs_at st (a + 1) n.
Proof.
  unfold regs_at. simpl. rewrite Z.add_0_r. f_equal.
  rewrite <- seq_shift, map_map. apply map_ext. intros i. f_equal. lia.
Qed.

Lemma regs_at_ext st st' a n :
  (forall b, a <= b < a + Z.of_nat n -> reg st' b = reg st b) ->
  regs_at st' a n = regs_at st a n.
Proof.
  intros H. unfold regs_at. apply map_ext_in. intros i Hi. apply in_seq in Hi.
  apply H. lia.
Qed.

Lemma length_regs_at st a n : length (regs_at st a n) = n.
Proof. unfold regs_at. now rewrite length_map, length_seq. Qed.

Lemma nth_regs_at st a n i :
  (i < n)%nat -> nth i (regs_at st a n) 0 = reg st (a + Z.of_nat i).
Proof.
  intros Hi. unfold regs_at.
  rewrite (nth_indep _ 0 ((fun i => reg st (a + Z.of_nat i)) O))
    by (now rewrite length_map, length_seq).
  rewrite (map_nth (fun i => reg st (a + Z.of_nat i))). rewrite seq_nth by lia. reflexivity.
Qed.

Lemma regmap_bulk_read_ok n : forall a st,
  faults st = [] ->
  regmap_bulk_read a n st
  = (Ok (regs_at st a n), mkChip (regs st) (tables st) [] (log st ++ reads a n)).
Proof.
  induction n as [|n IH]; intros a st Hf.
  - simpl. unfold ret. rewrite app_nil_r. destruct st; simpl in *. now subst.
  - simpl. unfold bind. rewrite (regmap_read_ok _ _ Hf).
    rewrite IH by no_faults. unfold ret. rewrite regs_at_S. simpl.
    rewrite <- app_assoc. f_equal.
Qed.

Lemma faults_stored vals : forall a st, faults (stored a vals st) = faults st.
Proof. induction vals; intros; simpl; [reflexivity|now rewrite IHvals]. Qed.

Lemma tables_stored vals : forall a st, tables (stored a vals st) = tables st.
Proof. induction vals; intros; simpl; [reflexivity|now rewrite IHvals]. Qed.

Lemma log_stored vals : forall a st, log (stored a vals st) = log st.
Proof. induction vals; intros; simpl; [reflexivity|now rewrite IHvals]. Qed.

Lemma reg_stored_out vals : forall a st b,
  b < a \/ a + Z.of_nat (length vals) <= b -> reg (stored a vals st) b = reg st b.
Proof.
  induction vals as [|v vs IH]; intros a st b Hb; simpl in *; [reflexivity|].
  rewrite IH by lia. apply reg_set_reg_ne. lia.
Qed.

Lemma reg_stored_in vals : forall a st i,
  (i < length vals)%nat -> reg (stored a vals st) (a + Z.of_nat i) = u16 (nth i vals 0).
Proof.
  induction vals as [|v vs IH]; intros a st i Hi; simpl in *; [lia|].
  destruct i as [|i].
  - rewrite Z.add_0_r, reg_stored_out by lia. rewrite reg_set_reg_eq. apply u16_idem.
  - replace (a + Z.of_nat (S i)) with (a + 1 + Z.of_nat i) by lia. apply IH. lia.
Qed.

Lemma regs_stored_congr vals : forall a st1 st2,
  regs st1 = regs st2 -> regs (stored a vals st1) = regs (stored a vals st2).
Proof.
  induction vals as [|v vs IH]; intros a st1 st2 H; simpl; [exact H|].
  apply IH. simpl. now rewrite H.
Qed.

Lemma regmap_bulk_write_ok vals : forall a st,
  faults st = [] ->
  (forall b, a <= b < a + Z.of_nat (length vals) -> plain b = true) ->
  regmap_bulk_write a vals st
  = (Ok tt, mkChip (regs (stored a vals st)) (tables st) [] (log st ++ writes a vals)).
Proof.
  induction vals as [|v vs IH]; intros a st Hf Hp.
  - simpl. unfold ret. rewrite app_nil_r. destruct st; simpl in *. now subst.
  - simpl. unfold bind. rewrite (regmap_write_ok _ _ _ Hf).
    rewrite chip_store_plain by (apply Hp; simpl; lia).
    rewrite IH.
    + simpl. rewrite <- app_assoc.
      rewrite (regs_stored_congr vs (a + 1) _ (set_reg a (u16 v) st)) by reflexivity.
      reflexivity.
    + no_faults.
    + intros b Hb. apply Hp. simpl length. lia.
Qed.

(** ** Bit fields of a 16-bit register *)

Lemma testbit_small v w i : 0 <= v < 2 ^ w -> w <= i -> Z.testbit v i = false.
Proof.
  intros Hv Hi. destruct (Z.eq_dec v 0) as [-> | Hne]; [apply Z.bits_0|].
  apply Z.bits_above_log2; [lia|].
  assert (Z.log2 v < w); [|lia]. apply Z.log2_lt_pow2; lia.
Qed.

(** Updating the field of width [w] at bit [off] and reading it back. *)
Lemma field_set_get w off old v :
  0 <= off -> 0 <= w -> off + w <= 16 ->
  Z.shiftr (Z.land (u16 (Z.lor (Z.land old (Z.lnot (Z.shiftl (Z.ones w) off)))
                               (Z.land (Z.shiftl v off) (Z.shiftl (Z.ones w) off))))
                   (Z.shiftl (Z.ones w) off)) off
  = Z.land v (Z.ones w).
Proof. intros. unfold u16. Z.bitblast. Qed.

(** Updating one field leaves a field that does not overlap it alone. *)
Lemma field_set_get_other w off w' off' old v :
  0 <= off -> 0 <= w -> 0 <= off' -> 0 <= w' ->
  off' + w' <= off \/ off + w <= off' ->
  0 <= old < 2 ^ 16 ->
  Z.shiftr (Z.land (u16 (Z.lor (Z.land old (Z.lnot (Z.shiftl (Z.ones w) off)))
                               (Z.land (Z.shiftl v off) (Z.shiftl (Z.ones w) off))))
                   (Z.shiftl (Z.ones w') off')) off'
  = Z.shiftr (Z.land old (Z.shiftl (Z.ones w') off')) off'.
Proof.
  intros. unfold u16. Z.bitblast.
  all: try (rewrite (testbit_small old 16) by lia; reflexivity).
Qed.

Lemma land_ones_small v w : 0 <= w -> 0 <= v < 2 ^ w -> Z.land v (Z.ones w) = v.
Proof. intros Hw Hv. rewrite Z.land_ones by lia. now apply Z.mod_small. Qed.

(** ** Table engine *)

Lemma reg_congr st1 st2 b : regs st1 = regs st2 -> reg st1 b = reg st2 b.
Proof. intros H. unfold reg. now rewrite H. Qed.

Lemma table_row_congr st1 st2 t i : tables st1 = tables st2 -> table_row st1 t i = table_row st2 t i.
Proof. intros H. unfold table_row. now rewrite H. Qed.

Lemma tables_load_regs ws : forall base st, tables (load_regs base ws st) = tables st.
Proof. induction ws as [|w ws IH]; intros; simpl; [reflexivity | now rewrite IH]. Qed.

Lemma log_load_regs ws : forall base st, log (load_regs base ws st) = log st.
Proof. induction ws as [|w ws IH]; intros; simpl; [reflexivity | now rewrite IH]. Qed.

Lemma reg_load_regs_out ws : forall base st b,
  b < base \/ base + Z.of_nat (length ws) <= b -> reg (load_regs base ws st) b = reg st b.
Proof.
  induction ws as [|w ws IH]; intros base st b Hb; simpl in *; [reflexivity|].
  rewrite IH by lia. apply reg_set_reg_ne. lia.
Qed.

Lemma reg_load_regs_in ws : forall base st i,
  (i < length ws)%nat -> reg (load_regs base ws st) (base + Z.of_nat i) = u16 (nth i ws 0).
Proof.
  induction ws as [|w ws IH]; intros base st i Hi; simpl in *; [lia|].
  destruct i as [|i].
  - rewrite Z.add_0_r, reg_load_regs_out by lia. apply reg_set_reg_eq.
  - replace (base + Z.of_nat (S i)) with (base + 1 + Z.of_nat i) by lia. apply IH. lia.
Qed.

Lemma length_table_row st t i : length (table_row st t i) = 10%nat.
Proof. reflexivity. Qed.

Lemma nth_table_row_range st t i k : 0 <= nth k (table_row st t i) 0 < 2 ^ 16.
Proof.
  destruct (Nat.lt_ge_cases k 10) as [Hk|Hk].
  - unfold table_row.
    do 10 (destruct k as [|k]; [apply u16_range|]). lia.
  - rewrite nth_overflow by (rewrite length_table_row; lia). lia.
Qed.

Lemma table_row_set_row st t i row :
  table_row (set_row t i row st) t i = map (fun k => u16 (nth k row 0)) (seq 0 10).
Proof. unfold table_row, set_row; simpl. now rewrite lookup_insert_eq. Qed.

Lemma table_row_set_row_ne st t i t' i' row :
  (t, i) <> (t', i') -> table_row (set_row t i row st) t' i' = table_row st t' i'.
Proof. intros H. unfold table_row, set_row; simpl. now rewrite lookup_insert_ne. Qed.

(** The control word after the driver's update: the command and table
    fields hold what was asked for. *)
Lemma control_fields old op table :
  0 <= op <= 1 -> 0 <= table < 8 ->
  let ctl := u16 (Z.lor (Z.land old (Z.lnot (Z.lor RTL8365MB_TABLE_CONTROL_COMMAND_MASK
                                                   RTL8365MB_TABLE_CONTROL_TABLE_MASK)))
                        (Z.land (Z.lor (FIELD_PREP RTL8365MB_TABLE_CONTROL_COMMAND_MASK op)
                                       (FIELD_PREP RTL8365MB_TABLE_CONTROL_TABLE_MASK table))
                                (Z.lor RTL8365MB_TABLE_CONTROL_COMMAND_MASK
                                       RTL8365MB_TABLE_CONTROL_TABLE_MASK))) in
  FIELD_GET RTL8365MB_TABLE_CONTROL_COMMAND_MASK ctl = op /\
  FIELD_GET RTL8365MB_TABLE_CONTROL_TABLE_MASK ctl = table.
Proof.
  intros Hop Ht ctl. subst ctl. unfold FIELD_GET, FIELD_PREP.
  change (bf_shf RTL8365MB_TABLE_CONTROL_COMMAND_MASK) with 3.
  change (bf_shf RTL8365MB_TABLE_CONTROL_TABLE_MASK) with 0.
  change (Z.lor RTL8365MB_TABLE_CONTROL_COMMAND_MASK RTL8365MB_TABLE_CONTROL_TABLE_MASK)
    with (Z.ones 4).
  change RTL8365MB_TABLE_CONTROL_COMMAND_MASK with (Z.shiftl (Z.ones 1) 3).
  change RTL8365MB_TABLE_CONTROL_TABLE_MASK with (Z.ones 3).
  unfold u16.
  assert (Hopb : forall i, 1 <= i -> Z.testbit op i = false)
    by (intros; apply (testbit_small op 1); lia).
  assert (Htb : forall i, 3 <= i -> Z.testbit table i = false)
    by (intros; apply (testbit_small table 3); lia).
  split; Z.bitblast.
  all: try (rewrite Hopb by lia); try (rewrite Htb by lia); try reflexivity.
  all: try (rewrite ?andb_false_r, ?orb_false_r, ?andb_true_r; reflexivity).
Qed.

(** ** Table access on a quiet chip *)

Lemma FIELD_FIT_addr index :
  0 <= index ->
  FIELD_FIT RTL8365MB_TABLE_ACCESS_ADDR_REG_MASK index = (index <? 2 ^ 14).
Proof.
  intros Hi. unfold FIELD_FIT.
  change (bf_shf RTL8365MB_TABLE_ACCESS_ADDR_REG_MASK) with 0.
  change RTL8365MB_TABLE_ACCESS_ADDR_REG_MASK with (Z.ones 14).
  rewrite Z.shiftl_0_r, <- Z.ldiff_land, Z.ldiff_ones_r by lia.
  rewrite Z.shiftr_div_pow2, Z.shiftl_mul_pow2 by lia.
  destruct (Z.ltb_spec index (2 ^ 14)) as [H|H].
  - rewrite Z.div_small by lia. reflexivity.
  - apply Z.eqb_neq. assert (0 < index / 2 ^ 14) by (apply Z.div_str_pos; lia). lia.
Qed.

Lemma table_access_valid_spec table index :
  0 <= index ->
  table_access_valid table index = true <-> table < RTL8365MB_NUM_TABLES /\ index < 2 ^ 14.
Proof.
  intros Hi. unfold table_access_valid. rewrite FIELD_FIT_addr by assumption.
  rewrite andb_true_iff, negb_true_iff, Z.ltb_lt, Z.geb_leb, Z.leb_gt. tauto.
Qed.

Lemma FIELD_PREP_addr index :
  0 <= index < 2 ^ 14 -> FIELD_PREP RTL8365MB_TABLE_ACCESS_ADDR_REG_MASK index = index.
Proof.
  intros Hi. unfold FIELD_PREP.
  change (bf_shf RTL8365MB_TABLE_ACCESS_ADDR_REG_MASK) with 0.
  change RTL8365MB_TABLE_ACCESS_ADDR_REG_MASK with (Z.ones 14).
  rewrite Z.shiftl_0_r. apply land_ones_small; lia.
Qed.

Lemma FIELD_GET_addr index :
  0 <= index < 2 ^ 14 -> FIELD_GET RTL8365MB_TABLE_ACCESS_ADDR_REG_MASK index = index.
Proof.
  intros Hi. unfold FIELD_GET.
  change (bf_shf RTL8365MB_TABLE_ACCESS_ADDR_REG_MASK) with 0.
  change RTL8365MB_TABLE_ACCESS_ADDR_REG_MASK with (Z.ones 14).
  rewrite Z.shiftr_0_r. apply land_ones_small; lia.
Qed.

Lemma regs_at_row st base row n :
  (n <= 10)%nat -> length row = 10%nat ->
  (forall i, (i < 10)%nat -> reg st (base + Z.of_nat i) = nth i row 0) ->
  regs_at st base n = firstn n row.
Proof.
  intros Hn Hlen H. apply (nth_ext _ _ 0 0).
  - rewrite length_regs_at, length_firstn. lia.
  - intros i Hi. rewrite length_regs_at in Hi.
    rewrite nth_regs_at by assumption. rewrite nth_firstn.
    destruct (Nat.ltb_spec i n); [|lia]. apply H. lia.
Qed.

Lemma table_read_ok (entry_size : Z -> Z) table index val st :
  faults st = [] ->
  table_busy_clear (reg st RTL8365MB_TABLE_LUT_REG) = true ->
  0 <= table < RTL8365MB_NUM_TABLES -> 0 <= index < 2 ^ 14 ->
  0 <= entry_size table <= 10 ->
  let n := Z.to_nat (entry_size table) in
  let words := firstn n (table_row st table index) ++ skipn n val in
  exists st',
    table_access entry_size table RTL8365MB_TABLE_READ index val st
    = (Ok (if entry_size table =? 10
           then <[9%nat := Z.land (nth 9 words 0) RTL8365MB_TABLE_10TH_DATA_REG_MASK]> words
           else words), st')
    /\ faults st' = [] /\ tables st' = tables st
    /\ (forall b, ~ table_window b -> reg st' b = reg st b)
    /\ log st' = log st ++ table_read_accesses table index n.
Proof.
  intros Hf Hbusy Ht Hi Hsz n words.
  unfold table_access.
  rewrite (proj2 (table_access_valid_spec table index (proj1 Hi))) by lia.
  cbv [negb]. unfold table_access_locked.
  change (RTL8365MB_TABLE_READ =? RTL8365MB_TABLE_WRITE) with false.
  change (RTL8365MB_TABLE_READ =? RTL8365MB_TABLE_READ) with true.
  cbv iota. unfold bind at 1 2.
  rewrite (poll_first _ _ _ _ _ Hf Hbusy). unfold ret at 1.
  unfold bind at 1.
  rewrite regmap_write_ok by no_faults.
  rewrite FIELD_PREP_addr by assumption. rewrite (u16_small index) by lia.
  rewrite chip_store_plain by reflexivity.
  set (s2 := record (Wr RTL8365MB_TABLE_ACCESS_ADDR_REG index)
               (set_reg RTL8365MB_TABLE_ACCESS_ADDR_REG index
                  (record (Rd RTL8365MB_TABLE_LUT_REG) st))).
  assert (Hf2 : faults s2 = []) by exact Hf.
  unfold bind at 1. rewrite (regmap_update_bits_ok _ _ _ _ Hf2).
  set (ctl := u16 _).
  destruct (control_fields (reg s2 RTL8365MB_TABLE_CONTROL_REG) RTL8365MB_TABLE_READ table)
    as [Hcmd Htab]; [unfold RTL8365MB_TABLE_READ; lia | unfold RTL8365MB_NUM_TABLES in Ht; lia |].
  fold ctl in Hcmd, Htab.
  unfold chip_store. change (RTL8365MB_TABLE_CONTROL_REG =? RTL8365MB_TABLE_CONTROL_REG) with true.
  cbv iota. unfold table_engine.
  rewrite reg_set_reg_eq. rewrite reg_set_reg_ne by discriminate.
  assert (Haddr : reg s2 RTL8365MB_TABLE_ACCESS_ADDR_REG = index).
  { subst s2. rewrite reg_record, reg_set_reg_eq. apply u16_small. lia. }
  rewrite Haddr. rewrite FIELD_GET_addr by assumption.
  assert (Hctl16 : u16 ctl = ctl) by (subst ctl; apply u16_idem).
  rewrite Hctl16, Hcmd, Htab.
  change (RTL8365MB_TABLE_READ =? RTL8365MB_TABLE_WRITE) with false. cbv iota.
  set (s3 := set_reg RTL8365MB_TABLE_CONTROL_REG ctl s2).
  assert (Hrow : table_row s3 table index = table_row st table index) by reflexivity.
  rewrite Hrow.
  set (row := table_row st table index).
  set (s4 := record _ (load_regs RTL8365MB_TABLE_READ_DATA_REG_BASE row s3)).
  assert (Hf4 : faults s4 = []).
  { subst s4. rewrite faults_record, faults_load_regs. exact Hf. }
  assert (Hreg4 : forall b, ~ table_window b -> reg s4 b = reg st b).
  { intros b Hb. subst s4. rewrite reg_record.
    unfold table_window in Hb.
    rewrite reg_load_regs_out by (change (length row) with 10%nat; lia).
    subst s3. rewrite reg_set_reg_ne by (intros E; symmetry in E; tauto).
    subst s2. rewrite reg_record, reg_set_reg_ne by (intros E; symmetry in E; tauto).
    reflexivity. }
  assert (Hlut : reg s4 RTL8365MB_TABLE_LUT_REG = reg st RTL8365MB_TABLE_LUT_REG).
  { apply Hreg4. unfold table_window. vm_compute. intuition (try discriminate; try lia). }
  assert (Hdata : forall i, (i < 10)%nat ->
            reg s4 (RTL8365MB_TABLE_READ_DATA_REG_BASE + Z.of_nat i) = nth i row 0).
  { intros i Hi10. subst s4. rewrite reg_record.
    rewrite reg_load_regs_in by (change (length row) with 10%nat; lia).
    apply u16_small, nth_table_row_range. }
  unfold bind at 1. unfold attempt at 1. rewrite (regmap_read_ok _ _ Hf4).
  unfold bind at 1.
  rewrite poll_first; [|no_faults|rewrite reg_record, Hlut; exact Hbusy].
  unfold bind at 1. rewrite regmap_bulk_read_ok by no_faults.
  unfold ret. fold n.
  rewrite (regs_at_row _ _ row n).
  - eexists. split; [reflexivity|]. simpl faults. simpl tables. simpl log.
    repeat split.
    + intros b Hb. rewrite <- (Hreg4 b Hb). apply reg_congr. reflexivity.
    + unfold table_read_accesses. subst s4 s3 s2. simpl. rewrite ?log_load_regs. simpl.
      rewrite <- !app_assoc. reflexivity.
  - subst n. lia.
  - apply length_table_row.
  - intros i Hi10. rewrite <- (Hdata i Hi10). apply reg_congr. reflexivity.
Qed.

Lemma tenth_word_update old v :
  Z.land (u16 (Z.lor (Z.land old (Z.lnot RTL8365MB_TABLE_10TH_DATA_REG_MASK))
                     (Z.land (FIELD_PREP RTL8365MB_TABLE_10TH_DATA_REG_MASK v)
                             RTL8365MB_TABLE_10TH_DATA_REG_MASK)))
         RTL8365MB_TABLE_10TH_DATA_REG_MASK
  = Z.land v RTL8365MB_TABLE_10TH_DATA_REG_MASK.
Proof.
  unfold FIELD_PREP. change (bf_shf RTL8365MB_TABLE_10TH_DATA_REG_MASK) with 0.
  change RTL8365MB_TABLE_10TH_DATA_REG_MASK with (Z.ones 4). unfold u16.
  Z.bitblast.
Qed.

Lemma table_row_regs_at st t i (ws : list Z) :
  ws = regs_at st RTL8365MB_TABLE_WRITE_DATA_REG_BASE 10 ->
  table_row (set_row t i ws st) t i = ws.
Proof.
  intros ->. rewrite table_row_set_row. unfold regs_at. simpl.
  repeat (apply (f_equal2 cons); [apply u16_small, reg_range|]). reflexivity.
Qed.

Lemma table_write_ok (entry_size : Z -> Z) table index val st :
  faults st = [] ->
  0 <= table < RTL8365MB_NUM_TABLES -> 0 <= index < 2 ^ 14 ->
  0 <= entry_size table <= 10 ->
  exists st',
    table_access entry_size table RTL8365MB_TABLE_WRITE index val st = (Ok val, st')
    /\ faults st' = []
    /\ (forall b, ~ table_window b -> reg st' b = reg st b)
    /\ (forall t i, (table, index) <> (t, i) -> table_row st' t i = table_row st t i)
    /\ (forall k, (k < length val)%nat -> (k < 9)%nat -> Z.of_nat k < entry_size table ->
          nth k (table_row st' table index) 0 = u16 (nth k val 0))
    /\ (entry_size table = 10 ->
          Z.land (nth 9 (table_row st' table index) 0) RTL8365MB_TABLE_10TH_DATA_REG_MASK
          = Z.land (nth 9 val 0) RTL8365MB_TABLE_10TH_DATA_REG_MASK)
    /\ log st' = log st ++ table_write_accesses table index (entry_size table) val.
Proof.
  intros Hf Ht Hi Hsz.
  unfold table_access.
  rewrite (proj2 (table_access_valid_spec table index (proj1 Hi))) by lia.
  cbv [negb]. unfold table_access_locked.
  change (RTL8365MB_TABLE_WRITE =? RTL8365MB_TABLE_WRITE) with true.
  change (RTL8365MB_TABLE_WRITE =? RTL8365MB_TABLE_READ) with false.
  cbv iota.
  set (n' := Z.to_nat (if entry_size table =? 10 then 9 else entry_size table)).
  assert (Hn' : (n' <= 9)%nat).
  { subst n'. destruct (Z.eqb_spec (entry_size table) 10); lia. }
  set (vals := firstn n' val).
  assert (Hvals : length vals = Nat.min n' (length val))
    by (subst vals; apply length_firstn).
  unfold bind at 1 2.
  rewrite regmap_bulk_write_ok; [|exact Hf|].
  2:{ intros b Hb. rewrite Hvals in Hb.
      unfold RTL8365MB_TABLE_WRITE_DATA_REG_BASE in Hb. apply plain_spec; lia. }
  set (s1 := mkChip _ _ _ _).
  assert (Hf1 : faults s1 = []) by reflexivity.
  assert (Hr1in : forall k, (k < n')%nat -> (k < length val)%nat ->
            reg s1 (RTL8365MB_TABLE_WRITE_DATA_REG_BASE + Z.of_nat k) = u16 (nth k val 0)).
  { intros k Hk Hkl. subst s1.
    rewrite (reg_congr _ (stored RTL8365MB_TABLE_WRITE_DATA_REG_BASE vals st)) by reflexivity.
    rewrite reg_stored_in by lia. subst vals. rewrite nth_firstn.
    destruct (Nat.ltb_spec k n'); [reflexivity|lia]. }
  assert (Hr1out : forall b, ~ table_window b -> reg s1 b = reg st b).
  { intros b Hb. subst s1.
    rewrite (reg_congr _ (stored RTL8365MB_TABLE_WRITE_DATA_REG_BASE vals st)) by reflexivity.
    apply reg_stored_out. unfold table_window in Hb. lia. }
  assert (Hlog1 : log s1 = log st ++ writes RTL8365MB_TABLE_WRITE_DATA_REG_BASE vals)
    by reflexivity.
  assert (Htab1 : tables s1 = tables st) by reflexivity.
  clearbody s1.
  (* the tenth register *)
  assert (exists s2,
    (if entry_size table =? 10
     then regmap_update_bits (RTL8365MB_TABLE_WRITE_DATA_REG_BASE + 9)
            RTL8365MB_TABLE_10TH_DATA_REG_MASK
            (FIELD_PREP RTL8365MB_TABLE_10TH_DATA_REG_MASK (nth 9 val 0))
     else ret tt) s1 = (Ok tt, s2)
    /\ faults s2 = [] /\ tables s2 = tables st
    /\ (forall k, (k < n')%nat -> (k < length val)%nat ->
          reg s2 (RTL8365MB_TABLE_WRITE_DATA_REG_BASE + Z.of_nat k) = u16 (nth k val 0))
    /\ (forall b, ~ table_window b -> reg s2 b = reg st b)
    /\ (entry_size table = 10 ->
          Z.land (reg s2 (RTL8365MB_TABLE_WRITE_DATA_REG_BASE + 9))
                 RTL8365MB_TABLE_10TH_DATA_REG_MASK
          = Z.land (nth 9 val 0) RTL8365MB_TABLE_10TH_DATA_REG_MASK)
    /\ log s2 = log st ++ writes RTL8365MB_TABLE_WRITE_DATA_REG_BASE vals
                ++ (if entry_size table =? 10
                    then [Upd (RTL8365MB_TABLE_WRITE_DATA_REG_BASE + 9)
                            RTL8365MB_TABLE_10TH_DATA_REG_MASK
                            (FIELD_PREP RTL8365MB_TABLE_10TH_DATA_REG_MASK (nth 9 val 0))]
                    else [])) as (s2 & E2 & Hf2 & Htab2 & Hr2in & Hr2out & Hten & Hlog2).
  { destruct (Z.eqb_spec (entry_size table) 10) as [E10|N10].
    - rewrite (regmap_update_bits_ok _ _ _ _ Hf1).
      rewrite chip_store_plain by reflexivity.
      eexists. split; [reflexivity|]. repeat split.
      + exact Hf1.
      + exact Htab1.
      + intros k Hk Hkl. rewrite reg_record, reg_set_reg_ne.
        * now apply Hr1in.
        * unfold RTL8365MB_TABLE_WRITE_DATA_REG_BASE. lia.
      + intros b Hb. rewrite reg_record, reg_set_reg_ne.
        * now apply Hr1out.
        * intros <-. apply Hb. unfold table_window. vm_compute. intuition discriminate.
      + intros _. rewrite reg_record, reg_set_reg_eq, u16_idem. apply tenth_word_update.
      + simpl. rewrite Hlog1, <- app_assoc. reflexivity.
    - exists s1. unfold ret. repeat split; auto; [contradiction|].
      rewrite app_nil_r. exact Hlog1. }
  rewrite E2. clear E2 Hr1in Hr1out Hlog1 Htab1 Hf1 s1.
  unfold bind at 1.
  rewrite (regmap_write_ok _ _ _ Hf2).
  rewrite FIELD_PREP_addr by assumption. rewrite (u16_small index) by lia.
  rewrite chip_store_plain by reflexivity.
  set (s3 := record (Wr RTL8365MB_TABLE_ACCESS_ADDR_REG index)
               (set_reg RTL8365MB_TABLE_ACCESS_ADDR_REG index s2)).
  assert (Hf3 : faults s3 = []) by exact Hf2.
  unfold bind at 1. rewrite (regmap_update_bits_ok _ _ _ _ Hf3).
  set (ctl := u16 _).
  destruct (control_fields (reg s3 RTL8365MB_TABLE_CONTROL_REG) RTL8365MB_TABLE_WRITE table)
    as [Hcmd Htab]; [unfold RTL8365MB_TABLE_WRITE; lia | unfold RTL8365MB_NUM_TABLES in Ht; lia |].
  fold ctl in Hcmd, Htab.
  unfold chip_store. change (RTL8365MB_TABLE_CONTROL_REG =? RTL8365MB_TABLE_CONTROL_REG) with true.
  cbv iota. unfold table_engine.
  rewrite reg_set_reg_eq. rewrite reg_set_reg_ne by discriminate.
  assert (Haddr : reg s3 RTL8365MB_TABLE_ACCESS_ADDR_REG = index).
  { subst s3. rewrite reg_record, reg_set_reg_eq. apply u16_small. lia. }
  rewrite Haddr. rewrite FIELD_GET_addr by assumption.
  assert (Hctl16 : u16 ctl = ctl) by (subst ctl; apply u16_idem).
  rewrite Hctl16, Hcmd, Htab.
  change (RTL8365MB_TABLE_WRITE =? RTL8365MB_TABLE_WRITE) with true. cbv iota.
  set (s4 := set_reg RTL8365MB_TABLE_CONTROL_REG ctl s3).
  fold (regs_at s4 RTL8365MB_TABLE_WRITE_DATA_REG_BASE 10).
  assert (Hr4 : forall b, b <> RTL8365MB_TABLE_CONTROL_REG ->
                          b <> RTL8365MB_TABLE_ACCESS_ADDR_REG -> reg s4 b = reg s2 b).
  { intros b Hb1 Hb2. subst s4. rewrite reg_set_reg_ne by congruence.
    subst s3. rewrite reg_record, reg_set_reg_ne by congruence. reflexivity. }
  unfold ret. eexists. split; [reflexivity|]. repeat split.
  - exact Hf2.
  - intros b Hb. rewrite reg_record.
    rewrite (reg_congr _ s4) by reflexivity.
    rewrite Hr4 by (intros ->; apply Hb; unfold table_window; tauto).
    now apply Hr2out.
  - intros t i Hne. rewrite table_row_record, table_row_set_row_ne by assumption.
    apply table_row_congr. exact Htab2.
  - intros k Hk Hk9 Hksz. rewrite table_row_record, table_row_regs_at by reflexivity.
    rewrite nth_regs_at by lia.
    rewrite Hr4 by (unfold RTL8365MB_TABLE_WRITE_DATA_REG_BASE, RTL8365MB_TABLE_CONTROL_REG,
                      RTL8365MB_TABLE_ACCESS_ADDR_REG; lia).
    apply Hr2in; [|assumption]. subst n'. destruct (Z.eqb_spec (entry_size table) 10); lia.
  - intros E10. rewrite table_row_record, table_row_regs_at by reflexivity.
    rewrite (nth_regs_at _ _ 10 9) by lia. rewrite Hr4 by discriminate.
    now apply Hten.
  - simpl. rewrite Hlog2. unfold table_write_accesses. fold n'. fold vals.
    rewrite <- !app_assoc. reflexivity.
Qed.

(** ** Round trip through a table *)

Lemma nth_insert_eq (l : list Z) i x : (i < length l)%nat -> nth i (<[i := x]> l) 0 = x.
Proof. intros H. rewrite nth_lookup, list_lookup_insert_eq by assumption. reflexivity. Qed.

Lemma nth_insert_ne (l : list Z) i j x : i <> j -> nth j (<[i := x]> l) 0 = nth j l 0.
Proof. intros H. rewrite !nth_lookup, list_lookup_insert_ne by assumption. reflexivity. Qed.

(** C3: on a quiet chip (no transport failure, busy test of the read
    passing), writing a row of the table's width and reading the same
    (table, index) back returns that row; for a table ten words wide the
    first nine words come back unchanged and the tenth comes back reduced
    to its low four bits. *)
Theorem table_write_read_roundtrip (entry_size : Z -> Z) (table index : Z)
    (row buf : list Z) (st : chip) :
  faults st = [] ->
  table_busy_clear (reg st RTL8365MB_TABLE_LUT_REG) = true ->
  0 <= table -> 0 <= index -> table_access_valid table index = true ->
  0 <= entry_size table <= 10 ->
  Z.of_nat (length row) = entry_size table -> length buf = length row ->
  Forall (fun w => 0 <= w < 2 ^ 16) row ->
  exists st1 st2,
    table_access entry_size table RTL8365MB_TABLE_WRITE index row st = (Ok row, st1) /\
    table_access entry_size table RTL8365MB_TABLE_READ index buf st1
    = (Ok (if entry_size table =? 10
           then <[9%nat := Z.land (nth 9 row 0) RTL8365MB_TABLE_10TH_DATA_REG_MASK]> row
           else row), st2).
Proof.
  intros Hf Hbusy Ht0 Hi0 Hvalid Hsz Hlen Hbuf Hrow.
  apply table_access_valid_spec in Hvalid as [Ht Hi]; [|assumption].
  destruct (table_write_ok entry_size table index row st Hf) as
    (st1 & Ew & Hf1 & Hreg1 & _ & Hlow & Hten & _); try lia.
  assert (Hlut : reg st1 RTL8365MB_TABLE_LUT_REG = reg st RTL8365MB_TABLE_LUT_REG).
  { apply Hreg1. unfold table_window. vm_compute. intuition (try discriminate; try lia). }
  destruct (table_read_ok entry_size table index buf st1 Hf1) as
    (st2 & Er & _); try lia.
  { rewrite Hlut. exact Hbusy. }
  exists st1, st2. split; [exact Ew|]. rewrite Er. f_equal. f_equal.
  set (n := Z.to_nat (entry_size table)).
  assert (Hn : n = length row) by (subst n; lia).
  rewrite skipn_all2 by lia. rewrite app_nil_r.
  assert (Hwords : forall k, (k < n)%nat -> (k < 9)%nat ->
            nth k (firstn n (table_row st1 table index)) 0 = nth k row 0).
  { intros k Hk Hk9. rewrite nth_firstn. destruct (Nat.ltb_spec k n); [|lia].
    rewrite Hlow by lia. apply u16_small.
    rewrite Forall_forall in Hrow. apply Hrow, list_elem_of_In, nth_In. lia. }
  assert (Hlenw : length (firstn n (table_row st1 table index)) = n).
  { rewrite length_firstn, length_table_row. lia. }
  destruct (Z.eqb_spec (entry_size table) 10) as [E10|N10].
  - apply (nth_ext _ _ 0 0).
    + rewrite !length_insert. lia.
    + intros k Hk. rewrite length_insert, Hlenw in Hk.
      destruct (Nat.eq_dec k 9%nat) as [-> | Hk9].
      * rewrite !nth_insert_eq by lia. rewrite nth_firstn.
        destruct (Nat.ltb_spec 9%nat n); [|lia]. now apply Hten.
      * rewrite !nth_insert_ne by lia. apply Hwords; lia.
  - apply (nth_ext _ _ 0 0).
    + lia.
    + intros k Hk. rewrite Hlenw in Hk. apply Hwords; lia.
Qed.

(** ** Validation of a table access *)




(** ** The accesses of one call *)

Lemma delta_app st st' d : log st' = log st ++ d -> delta st st' = d.
Proof. intros H. unfold delta. rewrite H. apply drop_app_length. Qed.

(** ** The slot scan on a quiet chip *)

Lemma reads_are_reads n : forall a, forallb is_read (reads a n) = true.
Proof. induction n as [|n IH]; intros a; simpl; [reflexivity | apply IH]. Qed.

Lemma slot_entry_congr st st' i : regs st' = regs st -> slot_entry st' i = slot_entry st i.
Proof. intros H. unfold slot_entry. apply regs_at_ext. intros b _. now apply reg_congr. Qed.

Lemma slot_evid_congr st st' i : regs st' = regs st -> slot_evid st' i = slot_evid st i.
Proof. intros H. unfold slot_evid. now rewrite (slot_entry_congr st st'). Qed.

Lemma find_congr {A} (f g : A -> bool) l :
  (forall x, f x = g x) -> List.find f l = List.find g l.
Proof. intros H. induction l as [|x l IH]; simpl; [reflexivity|]. now rewrite H, IH. Qed.

Lemma vlanmc_scan_ok n : forall idx fu e vid st,
  faults st = [] -> 0 <= idx ->
  exists r d,
    vlanmc_scan n idx fu e vid st = (Ok r, mkChip (regs st) (tables st) [] (log st ++ d))
    /\ forallb is_read d = true
    /\ match List.find (fun i => slot_evid st i =? vid) (slots_from idx n) with
       | Some i => exists fu', r = (i, fu', slot_entry st i)
       | None =>
           exists e',
           r = (idx + Z.of_nat n,
                (if fu <? 0
                 then default fu (List.find (fun i => slot_evid st i =? 0) (slots_from idx n))
                 else fu), e')
       end.
Proof.
  induction n as [|n IH]; intros idx fu e vid st Hf Hidx.
  - simpl. exists (idx, fu, e), []. unfold ret. rewrite app_nil_r, Z.add_0_r. split.
    + destruct st; simpl in *; now subst.
    + split; [reflexivity|]. exists e. destruct (fu <? 0); reflexivity.
  - cbn [vlanmc_scan]. unfold bind at 1.
    change (Z.to_nat RTL8365MB_VLAN_MC_CONF_ENTRY_SIZE) with 4%nat.
    rewrite (regmap_bulk_read_ok 4 _ _ Hf).
    fold (slot_entry st idx). fold (slot_evid st idx).
    cbn [slots_from List.find].
    destruct (slot_evid st idx =? vid) eqn:Ev.
    + exists (idx, fu, slot_entry st idx), (reads (RTL8365MB_VLAN_MC_CONF_REG idx) 4).
      unfold ret. split; [reflexivity|]. split; [apply reads_are_reads|]. eauto.
    + set (st1 := mkChip _ _ _ _).
      set (fu1 := if (slot_evid st idx =? 0) && (fu <? 0) then idx else fu).
      destruct (IH (idx + 1) fu1 (slot_entry st idx) vid st1 eq_refl ltac:(lia))
        as (r & d & E & Hd & Hr).
      rewrite E. exists r, (reads (RTL8365MB_VLAN_MC_CONF_REG idx) 4 ++ d).
      split; [subst st1; simpl; now rewrite <- app_assoc|].
      split; [rewrite forallb_app, reads_are_reads; exact Hd|].
      rewrite (find_congr _ (fun i => slot_evid st i =? vid)) in Hr
        by (intros x; now rewrite (slot_evid_congr st st1)).
      destruct (List.find (fun i => slot_evid st i =? vid) (slots_from (idx + 1) n)) as [i|].
      * exact Hr.
      * destruct Hr as [e' ->]. exists e'. f_equal. f_equal; [lia|].
        rewrite (find_congr (fun i => slot_evid st1 i =? 0) (fun i => slot_evid st i =? 0))
          by (intros x; now rewrite (slot_evid_congr st st1)).
        subst fu1. destruct (slot_evid st idx =? 0); simpl.
        -- destruct (fu <? 0) eqn:Efu; simpl; [|now rewrite Efu].
           destruct (Z.ltb_spec idx 0); [lia|reflexivity].
        -- destruct (fu <? 0); reflexivity.
Qed.

(** ** The PVID and accepted-frame-type fields of the port registers *)

Lemma pvid_layout port :
  0 <= port ->
  RTL8365MB_VLAN_PVID_CTRL_REG port = 0x700 + port / 2 /\
  RTL8365MB_VLAN_PVID_CTRL_OFFSET port = 8 * (port mod 2) /\
  RTL8365MB_VLAN_PVID_CTRL_MASK port = Z.shiftl (Z.ones 8) (8 * (port mod 2)).
Proof.
  intros Hp.
  assert (Hoff : RTL8365MB_VLAN_PVID_CTRL_OFFSET port = 8 * (port mod 2)).
  { unfold RTL8365MB_VLAN_PVID_CTRL_OFFSET. change 1 with (Z.ones 1) at 1.
    rewrite Z.land_ones, Z.shiftl_mul_pow2 by lia. change (2 ^ 1) with 2. lia. }
  unfold RTL8365MB_VLAN_PVID_CTRL_MASK, RTL8365MB_VLAN_PVID_CTRL_REG. rewrite Hoff.
  rewrite Z.shiftr_div_pow2 by lia. repeat split.
Qed.

Lemma frame_layout port :
  0 <= port ->
  RTL8365MB_VLAN_ACCEPT_FRAME_TYPE_REG port = 0x7aa + port / 8 /\
  RTL8365MB_VLAN_ACCEPT_FRAME_TYPE_OFFSET port = 2 * (port mod 8) /\
  RTL8365MB_VLAN_ACCEPT_FRAME_TYPE_MASK port = Z.shiftl (Z.ones 2) (2 * (port mod 8)).
Proof.
  intros Hp.
  assert (Hoff : RTL8365MB_VLAN_ACCEPT_FRAME_TYPE_OFFSET port = 2 * (port mod 8)).
  { unfold RTL8365MB_VLAN_ACCEPT_FRAME_TYPE_OFFSET. change 7 with (Z.ones 3).
    rewrite Z.land_ones, Z.shiftl_mul_pow2 by lia. change (2 ^ 3) with 8. lia. }
  unfold RTL8365MB_VLAN_ACCEPT_FRAME_TYPE_MASK, RTL8365MB_VLAN_ACCEPT_FRAME_TYPE_REG.
  rewrite Hoff. rewrite Z.shiftr_div_pow2 by lia. repeat split.
Qed.

Lemma pvid_index_update st st' port idx :
  0 <= port -> 0 <= idx < 256 ->
  reg st' (RTL8365MB_VLAN_PVID_CTRL_REG port)
  = u16 (Z.lor (Z.land (reg st (RTL8365MB_VLAN_PVID_CTRL_REG port))
                       (Z.lnot (RTL8365MB_VLAN_PVID_CTRL_MASK port)))
               (Z.land (Z.shiftl idx (RTL8365MB_VLAN_PVID_CTRL_OFFSET port))
                       (RTL8365MB_VLAN_PVID_CTRL_MASK port))) ->
  (forall b, b <> RTL8365MB_VLAN_PVID_CTRL_REG port -> reg st' b = reg st b) ->
  forall q, 0 <= q -> pvid_index st' q = if q =? port then idx else pvid_index st q.
Proof.
  intros Hp Hidx Hnew Hother q Hq.
  destruct (pvid_layout port Hp) as (Hr & Ho & Hm).
  destruct (pvid_layout q Hq) as (Hrq & Hoq & Hmq).
  unfold pvid_index.
  pose proof (Z.mod_pos_bound port 2 ltac:(lia)).
  pose proof (Z.mod_pos_bound q 2 ltac:(lia)).
  destruct (Z.eqb_spec q port) as [-> | Hne].
  - rewrite Hnew, Hm, Ho. rewrite field_set_get by lia. apply land_ones_small; lia.
  - destruct (Z.eq_dec (q / 2) (port / 2)) as [Hsame | Hdiff].
    + assert (q mod 2 <> port mod 2).
      { intros E. apply Hne. rewrite (Z.div_mod q 2), (Z.div_mod port 2) by lia. lia. }
      replace (RTL8365MB_VLAN_PVID_CTRL_REG q) with (RTL8365MB_VLAN_PVID_CTRL_REG port)
        by (rewrite Hr, Hrq; lia).
      rewrite Hnew, Hm, Ho, Hmq, Hoq.
      apply field_set_get_other; try lia. apply reg_range.
    + rewrite Hother by (rewrite Hr, Hrq; lia). reflexivity.
Qed.

Lemma frame_type_update st st' port v :
  0 <= port -> 0 <= v < 4 ->
  reg st' (RTL8365MB_VLAN_ACCEPT_FRAME_TYPE_REG port)
  = u16 (Z.lor (Z.land (reg st (RTL8365MB_VLAN_ACCEPT_FRAME_TYPE_REG port))
                       (Z.lnot (RTL8365MB_VLAN_ACCEPT_FRAME_TYPE_MASK port)))
               (Z.land (Z.shiftl v (RTL8365MB_VLAN_ACCEPT_FRAME_TYPE_OFFSET port))
                       (RTL8365MB_VLAN_ACCEPT_FRAME_TYPE_MASK port))) ->
  (forall b, b <> RTL8365MB_VLAN_ACCEPT_FRAME_TYPE_REG port -> reg st' b = reg st b) ->
  forall q, 0 <= q -> q < 16 -> port < 16 ->
  frame_type st' q = if q =? port then v else frame_type st q.
Proof.
  intros Hp Hv Hnew Hother q Hq Hq16 Hp16.
  destruct (frame_layout port Hp) as (Hr & Ho & Hm).
  destruct (frame_layout q Hq) as (Hrq & Hoq & Hmq).
  unfold frame_type.
  pose proof (Z.mod_pos_bound port 8 ltac:(lia)).
  pose proof (Z.mod_pos_bound q 8 ltac:(lia)).
  destruct (Z.eqb_spec q port) as [-> | Hne].
  - rewrite Hnew, Hm, Ho. rewrite field_set_get by lia. apply land_ones_small; lia.
  - destruct (Z.eq_dec (q / 8) (port / 8)) as [Hsame | Hdiff].
    + assert (q mod 8 <> port mod 8).
      { intros E. apply Hne. rewrite (Z.div_mod q 8), (Z.div_mod port 8) by lia. lia. }
      replace (RTL8365MB_VLAN_ACCEPT_FRAME_TYPE_REG q)
        with (RTL8365MB_VLAN_ACCEPT_FRAME_TYPE_REG port) by (rewrite Hr, Hrq; lia).
      rewrite Hnew, Hm, Ho, Hmq, Hoq.
      apply field_set_get_other; try lia. apply reg_range.
    + rewrite Hother by (rewrite Hr, Hrq; lia). reflexivity.
Qed.

Lemma pvid_index_same st st' q :
  reg st' (RTL8365MB_VLAN_PVID_CTRL_REG q) = reg st (RTL8365MB_VLAN_PVID_CTRL_REG q) ->
  pvid_index st' q = pvid_index st q.
Proof. intros H. unfold pvid_index. now rewrite H. Qed.

Lemma frame_type_same st st' q :
  reg st' (RTL8365MB_VLAN_ACCEPT_FRAME_TYPE_REG q)
  = reg st (RTL8365MB_VLAN_ACCEPT_FRAME_TYPE_REG q) ->
  frame_type st' q = frame_type st q.
Proof. intros H. unfold frame_type. now rewrite H. Qed.

Lemma pvid_index_range st port : 0 <= port -> 0 <= pvid_index st port < 256.
Proof.
  intros Hp. destruct (pvid_layout port Hp) as (_ & Ho & Hm). unfold pvid_index.
  rewrite Hm, Ho. pose proof (Z.mod_pos_bound port 2 ltac:(lia)).
  set (x := reg st _).
  assert (E : Z.shiftr (Z.land x (Z.shiftl (Z.ones 8) (8 * (port mod 2)))) (8 * (port mod 2))
              = Z.land (Z.shiftr x (8 * (port mod 2))) (Z.ones 8)) by Z.bitblast.
  rewrite E, Z.land_ones by lia. change 256 with (2 ^ 8). apply Z.mod_pos_bound. lia.
Qed.

Lemma frame_type_range st port : 0 <= port -> 0 <= frame_type st port < 4.
Proof.
  intros Hp. destruct (frame_layout port Hp) as (_ & Ho & Hm). unfold frame_type.
  rewrite Hm, Ho. pose proof (Z.mod_pos_bound port 8 ltac:(lia)).
  set (x := reg st _).
  assert (E : Z.shiftr (Z.land x (Z.shiftl (Z.ones 2) (2 * (port mod 8)))) (2 * (port mod 8))
              = Z.land (Z.shiftr x (2 * (port mod 8))) (Z.ones 2)) by Z.bitblast.
  rewrite E, Z.land_ones by lia. change 4 with (2 ^ 2). apply Z.mod_pos_bound. lia.
Qed.

(** ** Reconciling one slot on a quiet chip *)

Lemma update_plain_ok a mask v st :
  faults st = [] -> plain a = true ->
  exists st',
    regmap_update_bits a mask v st = (Ok tt, st')
    /\ faults st' = [] /\ tables st' = tables st
    /\ reg st' a = u16 (Z.lor (Z.land (reg st a) (Z.lnot mask)) (Z.land v mask))
    /\ (forall b, b <> a -> reg st' b = reg st b)
    /\ log st' = log st ++ [Upd a mask v].
Proof.
  intros Hf Hp. rewrite (regmap_update_bits_ok _ _ _ _ Hf), (chip_store_plain _ _ _ Hp).
  eexists. split; [reflexivity|]. repeat split.
  - exact Hf.
  - rewrite reg_record, reg_set_reg_eq. apply u16_idem.
  - intros b Hb. rewrite reg_record. apply reg_set_reg_ne. congruence.
Qed.

Lemma port_regs_range port :
  0 <= port < 16 ->
  0x700 <= RTL8365MB_VLAN_PVID_CTRL_REG port < 0x708 /\
  0x7aa <= RTL8365MB_VLAN_ACCEPT_FRAME_TYPE_REG port < 0x7ac.
Proof.
  intros Hp. destruct (pvid_layout port) as (-> & _); [lia|].
  destruct (frame_layout port) as (-> & _); [lia|].
  assert (0 <= port / 2 < 8) by (split; [apply Z.div_pos|apply Z.div_lt_upper_bound]; lia).
  assert (0 <= port / 8 < 2) by (split; [apply Z.div_pos|apply Z.div_lt_upper_bound]; lia).
  lia.
Qed.

Lemma slot_regs_range idx :
  0 <= idx < 32 ->
  0x728 <= RTL8365MB_VLAN_MC_CONF_REG idx /\ RTL8365MB_VLAN_MC_CONF_REG idx + 4 <= 0x7a8.
Proof.
  unfold RTL8365MB_VLAN_MC_CONF_REG, RTL8365MB_VLAN_MC_CONF_BASE,
    RTL8365MB_VLAN_MC_CONF_ENTRY_SIZE. lia.
Qed.

Lemma length_vlanmc_buf vlanmc buf :
  length (rtl8365mb_vlanmc_buf vlanmc buf) = length buf.
Proof. unfold rtl8365mb_vlanmc_buf. now rewrite !length_insert. Qed.

Lemma vlanmc_set_slot_ok ds port vid flags include idx entry vlan4k st :
  faults st = [] -> 0 <= port < 16 -> 0 <= idx < 32 -> length entry = 4%nat ->
  let pv := pvid_index st port in
  let ft := frame_type st port in
  let set_pvid := include && has_pvid_flag flags && negb (idx =? pv) in
  let flip := if include then has_pvid_flag flags && (ft =? RTL8365MB_FRAME_TYPE_TAGGED_ONLY)
              else (ft =? RTL8365MB_FRAME_TYPE_ANY_FRAME) && (pv =? idx) in
  let newft := if include then RTL8365MB_FRAME_TYPE_ANY_FRAME
               else RTL8365MB_FRAME_TYPE_TAGGED_ONLY in
  exists st' ne,
    vlanmc_set_slot ds port vid flags include idx entry vlan4k st = (Ok tt, st')
    /\ faults st' = [] /\ tables st' = tables st /\ length ne = 4%nat
    /\ log st' = log st
         ++ [Rd (RTL8365MB_VLAN_PVID_CTRL_REG port);
             Rd (RTL8365MB_VLAN_ACCEPT_FRAME_TYPE_REG port)]
         ++ writes (RTL8365MB_VLAN_MC_CONF_REG idx) ne
         ++ (if set_pvid
             then [Upd (RTL8365MB_VLAN_PVID_CTRL_REG port) (RTL8365MB_VLAN_PVID_CTRL_MASK port)
                     (Z.shiftl idx (RTL8365MB_VLAN_PVID_CTRL_OFFSET port))]
             else [])
         ++ (if flip
             then [Upd (RTL8365MB_VLAN_ACCEPT_FRAME_TYPE_REG port)
                     (RTL8365MB_VLAN_ACCEPT_FRAME_TYPE_MASK port)
                     (Z.shiftl newft (RTL8365MB_VLAN_ACCEPT_FRAME_TYPE_OFFSET port))]
             else [])
    /\ (forall q, 0 <= q < 16 ->
          pvid_index st' q = if (q =? port) && set_pvid then idx else pvid_index st q)
    /\ (forall q, 0 <= q < 16 ->
          frame_type st' q = if (q =? port) && flip then newft else frame_type st q)
    /\ (forall b, ~ (RTL8365MB_VLAN_MC_CONF_REG idx <= b < RTL8365MB_VLAN_MC_CONF_REG idx + 4) ->
          b <> RTL8365MB_VLAN_PVID_CTRL_REG port ->
          b <> RTL8365MB_VLAN_ACCEPT_FRAME_TYPE_REG port -> reg st' b = reg st b).
Proof.
  intros Hf Hp Hidx Hlen pv ft set_pvid flip newft.
  destruct (port_regs_range port Hp) as [Hpr Hfr].
  destruct (slot_regs_range idx Hidx) as [Hs1 Hs2].
  unfold vlanmc_set_slot.
  unfold bind at 1. rewrite (regmap_read_ok _ _ Hf).
  unfold bind at 1. rewrite regmap_read_ok by no_faults. rewrite reg_record.
  fold (pvid_index st port). fold pv. fold (frame_type st port). fold ft.
  set (ne := if negb include && _ then [0; 0; 0; 0] else rtl8365mb_vlanmc_buf _ entry).
  assert (Hne : length ne = 4%nat).
  { subst ne. destruct (negb include && _); [reflexivity|].
    now rewrite length_vlanmc_buf. }
  unfold bind at 1.
  rewrite regmap_bulk_write_ok; [|no_faults|intros b Hb; rewrite Hne in Hb; apply plain_spec; lia].
  set (s3 := mkChip _ _ _ _).
  assert (Hf3 : faults s3 = []) by reflexivity.
  assert (Ht3 : tables s3 = tables st) by reflexivity.
  assert (Hl3 : log s3 = log st ++ [Rd (RTL8365MB_VLAN_PVID_CTRL_REG port);
                                     Rd (RTL8365MB_VLAN_ACCEPT_FRAME_TYPE_REG port)]
                          ++ writes (RTL8365MB_VLAN_MC_CONF_REG idx) ne).
  { subst s3. simpl. rewrite <- !app_assoc. reflexivity. }
  assert (Hr3 : forall b,
            ~ (RTL8365MB_VLAN_MC_CONF_REG idx <= b < RTL8365MB_VLAN_MC_CONF_REG idx + 4) ->
            reg s3 b = reg st b).
  { intros b Hb. subst s3.
    rewrite (reg_congr _ (stored (RTL8365MB_VLAN_MC_CONF_REG idx) ne st)) by
      (simpl; apply regs_stored_congr; reflexivity).
    apply reg_stored_out. rewrite Hne. lia. }
  clearbody s3.
  (* the PVID register *)
  assert (exists s4,
    (if negb include
     then ret (if (ft =? RTL8365MB_FRAME_TYPE_ANY_FRAME) && (pv =? idx)
               then (RTL8365MB_FRAME_TYPE_TAGGED_ONLY, true) else (ft, false))
     else if negb (Z.land flags BRIDGE_VLAN_INFO_PVID =? 0)
          then (if negb (idx =? pv)
                then regmap_update_bits (RTL8365MB_VLAN_PVID_CTRL_REG port)
                       (RTL8365MB_VLAN_PVID_CTRL_MASK port)
                       (Z.shiftl idx (RTL8365MB_VLAN_PVID_CTRL_OFFSET port))
                else ret tt) ;;;
               ret (if ft =? RTL8365MB_FRAME_TYPE_TAGGED_ONLY
                    then (RTL8365MB_FRAME_TYPE_ANY_FRAME, true) else (ft, false))
          else ret (ft, false)) s3
    = (Ok (if flip then newft else ft, flip), s4)
    /\ faults s4 = [] /\ tables s4 = tables st
    /\ log s4 = log s3 ++ (if set_pvid
             then [Upd (RTL8365MB_VLAN_PVID_CTRL_REG port) (RTL8365MB_VLAN_PVID_CTRL_MASK port)
                     (Z.shiftl idx (RTL8365MB_VLAN_PVID_CTRL_OFFSET port))]
             else [])
    /\ (forall q, 0 <= q < 16 ->
          pvid_index s4 q = if (q =? port) && set_pvid then idx else pvid_index st q)
    /\ (forall b, ~ (RTL8365MB_VLAN_MC_CONF_REG idx <= b < RTL8365MB_VLAN_MC_CONF_REG idx + 4) ->
          b <> RTL8365MB_VLAN_PVID_CTRL_REG port -> reg s4 b = reg st b))
    as (s4 & E4 & Hf4 & Ht4 & Hl4 & Hpv4 & Hr4).
  { assert (Hkeep : forall q, pvid_index s3 q = pvid_index st q \/ ~ 0 <= q < 16).
    { intros q. destruct (Z.le_gt_cases 0 q); [|right; lia].
      destruct (Z.lt_ge_cases q 16); [|right; lia]. left.
      apply pvid_index_same, Hr3. destruct (port_regs_range q); lia. }
    subst set_pvid flip newft. unfold has_pvid_flag.
    assert (Hq3 : forall q, 0 <= q < 16 -> pvid_index s3 q = pvid_index st q)
      by (intros q Hq; destruct (Hkeep q); [assumption|lia]).
    destruct include; cbn [negb andb].
    - destruct (Z.land flags BRIDGE_VLAN_INFO_PVID =? 0); cbn [negb andb].
      + exists s3. unfold ret. rewrite ?app_nil_r.
        repeat split; auto.
        all: intros q Hq; rewrite ?andb_false_r; auto.
      + destruct (idx =? pv) eqn:Eidx; cbn [negb].
        * exists s3. unfold bind, ret. rewrite ?app_nil_r.
          split; [destruct (ft =? _); reflexivity|]. repeat split; auto.
          all: intros q Hq; rewrite ?andb_false_r; auto.
        * destruct (update_plain_ok (RTL8365MB_VLAN_PVID_CTRL_REG port)
                      (RTL8365MB_VLAN_PVID_CTRL_MASK port)
                      (Z.shiftl idx (RTL8365MB_VLAN_PVID_CTRL_OFFSET port)) s3 Hf3)
            as (s4 & E & Hf4 & Ht4 & Hnew & Hoth & Hl4); [apply plain_spec; lia|].
          exists s4. unfold bind, ret. rewrite E.
          split; [destruct (ft =? _); reflexivity|].
          split; [exact Hf4|]. split; [congruence|]. split; [exact Hl4|]. split.
          -- intros q Hq. rewrite ?andb_true_r.
             rewrite (pvid_index_update s3 s4 port idx); try lia; try assumption.
             destruct (q =? port); [reflexivity|]. now apply Hq3.
          -- intros b Hb Hb2. rewrite Hoth by assumption. now apply Hr3.
    - exists s3. unfold ret. rewrite ?app_nil_r.
      split; [destruct ((ft =? _) && _); reflexivity|]. repeat split; auto.
      all: intros q Hq; rewrite ?andb_false_r; auto. }
  unfold bind at 1. rewrite E4.
  assert (Hft4 : forall q, 0 <= q < 16 -> frame_type s4 q = frame_type st q).
  { intros q Hq. apply frame_type_same, Hr4;
      destruct (port_regs_range q Hq); lia. }
  assert (Hnewft : 0 <= newft < 4) by (subst newft; destruct include; vm_compute; split; congruence).
  destruct flip eqn:Eflip.
  - destruct (update_plain_ok (RTL8365MB_VLAN_ACCEPT_FRAME_TYPE_REG port)
                (RTL8365MB_VLAN_ACCEPT_FRAME_TYPE_MASK port)
                (Z.shiftl newft (RTL8365MB_VLAN_ACCEPT_FRAME_TYPE_OFFSET port)) s4 Hf4)
      as (s5 & E & Hf5 & Ht5 & Hnew & Hoth & Hl5); [apply plain_spec; lia|].
    exists s5, ne. rewrite E.
    split; [reflexivity|]. split; [exact Hf5|]. split; [congruence|]. split; [exact Hne|].
    split; [rewrite Hl5, Hl4, Hl3, <- !app_assoc; reflexivity|].
    split; [|split].
    + intros q Hq. rewrite <- Hpv4 by assumption.
      apply pvid_index_same, Hoth. destruct (port_regs_range q Hq); lia.
    + intros q Hq. rewrite ?andb_true_r.
      rewrite (frame_type_update s4 s5 port newft); try lia; try assumption.
      destruct (q =? port); [reflexivity|]. now apply Hft4.
    + intros b Hb Hb1 Hb2. rewrite Hoth by assumption. now apply Hr4.
  - exists s4, ne. unfold ret.
    split; [reflexivity|]. split; [exact Hf4|]. split; [exact Ht4|]. split; [exact Hne|].
    split; [rewrite Hl4, Hl3, app_nil_r, <- !app_assoc; reflexivity|].
    split; [|split].
    + exact Hpv4.
    + intros q Hq. rewrite ?andb_false_r. now apply Hft4.
    + intros b Hb Hb1 _. now apply Hr4.
Qed.

(** ** One slot reconciliation on a quiet chip *)

Lemma updates_of_app a d1 d2 : updates_of a (d1 ++ d2) = updates_of a d1 ++ updates_of a d2.
Proof. apply List.filter_app. Qed.

Lemma updates_of_read_only a d : forallb is_read d = true -> updates_of a d = [].
Proof.
  induction d as [|e d IH]; simpl; [reflexivity|].
  intros H. apply andb_prop in H as [He Hd]. destruct e; try discriminate. simpl. auto.
Qed.

Lemma updates_of_writes a vals : forall b,
  a < b \/ b + Z.of_nat (length vals) <= a -> updates_of a (writes b vals) = [].
Proof.
  induction vals as [|v vs IH]; intros b H; simpl in *; [reflexivity|].
  destruct (Z.eqb_spec b a); [lia|]. apply IH. lia.
Qed.

Lemma updates_of_table_read a t i n :
  a <> RTL8365MB_TABLE_ACCESS_ADDR_REG -> a <> RTL8365MB_TABLE_CONTROL_REG ->
  updates_of a (table_read_accesses t i n) = [].
Proof.
  intros H1 H2. unfold table_read_accesses.
  rewrite updates_of_app, (updates_of_read_only _ (reads _ _)) by apply reads_are_reads.
  rewrite app_nil_r. unfold updates_of. cbn [List.filter touches].
  assert (E1 : (RTL8365MB_TABLE_ACCESS_ADDR_REG =? a) = false)
    by (apply Z.eqb_neq; congruence).
  assert (E2 : (RTL8365MB_TABLE_CONTROL_REG =? a) = false)
    by (apply Z.eqb_neq; congruence).
  rewrite E1, E2. reflexivity.
Qed.

Lemma updates_of_tail a b m v m' v' (c1 c2 : bool) :
  b <> a ->
  updates_of a ((if c1 then [Upd a m v] else []) ++ (if c2 then [Upd b m' v'] else []))
  = if c1 then [Upd a m v] else [].
Proof.
  intros Hne. apply Z.eqb_neq in Hne.
  destruct c1, c2; unfold updates_of; cbn [app List.filter touches];
    rewrite ?Z.eqb_refl, ?Hne; reflexivity.
Qed.

Lemma slots_from_range n : forall a i, In i (slots_from a n) -> a <= i < a + Z.of_nat n.
Proof.
  induction n as [|n IH]; intros a i H; simpl in H; [contradiction|].
  destruct H as [<- | H]; [lia|]. apply IH in H. lia.
Qed.

Lemma in_slots_from n : forall a i, a <= i < a + Z.of_nat n -> In i (slots_from a n).
Proof.
  induction n as [|n IH]; intros a i H; simpl; [lia|].
  destruct (Z.eq_dec a i); [now left|]. right. apply IH. lia.
Qed.

Lemma find_slot_range (f : Z -> bool) i :
  List.find f vlanmc_slots = Some i -> 1 <= i < 32.
Proof.
  intros H. apply find_some in H as [H _]. apply slots_from_range in H.
  change (Z.of_nat (Z.to_nat (RTL8365MB_VLAN_MC_CONF_SIZE - 1))) with 31 in H. lia.
Qed.

Lemma vlanmc_target_range st vid flags idx :
  vlanmc_target st vid flags = Some idx -> 1 <= idx < 32.
Proof.
  unfold vlanmc_target, slot_lookup, slot_first_free.
  destruct (List.find (fun i => slot_evid st i =? vid) vlanmc_slots) eqn:E.
  - intros [= <-]. eapply find_slot_range, E.
  - destruct (_ =? 0); [discriminate|]. apply find_slot_range.
Qed.

Lemma length_slot_entry st i : length (slot_entry st i) = 4%nat.
Proof. apply length_regs_at. Qed.

Lemma not_in_table_window b : 0x700 <= b < 0x7ac -> ~ table_window b.
Proof.
  unfold table_window, RTL8365MB_TABLE_CONTROL_REG, RTL8365MB_TABLE_ACCESS_ADDR_REG,
    RTL8365MB_TABLE_WRITE_DATA_REG_BASE, RTL8365MB_TABLE_READ_DATA_REG_BASE. lia.
Qed.

Lemma vlanmc_set_no_target ds port vid flags include st :
  faults st = [] -> 0 <= vid <= RTL8365MB_MAX_MC_VID ->
  vlanmc_target st vid flags = None ->
  exists d,
    rtl8365mb_vlanmc_set ds port vid flags include st
    = ((if has_pvid_flag flags then Err (- EINVAL) else Ok tt),
       mkChip (regs st) (tables st) [] (log st ++ d))
    /\ forallb is_read d = true.
Proof.
  intros Hf Hvid Htgt. unfold rtl8365mb_vlanmc_set.
  destruct (Z.gtb_spec vid RTL8365MB_MAX_MC_VID); [lia|].
  destruct (vlanmc_scan_ok (Z.to_nat (RTL8365MB_VLAN_MC_CONF_SIZE - 1)) 1 (-1)
              [0; 0; 0; 0] vid st Hf ltac:(lia)) as (r & d & E & Hd & Hr).
  unfold bind. rewrite E. exists d. split; [|exact Hd].
  unfold vlanmc_target, slot_lookup, slot_first_free, vlanmc_slots in Htgt.
  destruct (List.find (fun i => slot_evid st i =? vid) _); [discriminate|].
  destruct Hr as [e' ->].
  change (1 + Z.of_nat (Z.to_nat (RTL8365MB_VLAN_MC_CONF_SIZE - 1))
          =? RTL8365MB_VLAN_MC_CONF_SIZE) with true. cbv iota.
  unfold has_pvid_flag.
  destruct (Z.land flags BRIDGE_VLAN_INFO_PVID =? 0); [reflexivity|].
  rewrite Htgt. reflexivity.
Qed.

Lemma vlanmc_set_on_target ds port vid flags include idx st :
  faults st = [] ->
  table_busy_clear (reg st RTL8365MB_TABLE_LUT_REG) = true ->
  0 <= port < 16 -> 0 <= vid <= RTL8365MB_MAX_MC_VID ->
  vlanmc_target st vid flags = Some idx ->
  let pv := pvid_index st port in
  let ft := frame_type st port in
  let set_pvid := include && has_pvid_flag flags && negb (idx =? pv) in
  let flip := if include then has_pvid_flag flags && (ft =? RTL8365MB_FRAME_TYPE_TAGGED_ONLY)
              else (ft =? RTL8365MB_FRAME_TYPE_ANY_FRAME) && (pv =? idx) in
  let newft := if include then RTL8365MB_FRAME_TYPE_ANY_FRAME
               else RTL8365MB_FRAME_TYPE_TAGGED_ONLY in
  exists st' d,
    rtl8365mb_vlanmc_set ds port vid flags include st = (Ok tt, st')
    /\ faults st' = [] /\ tables st' = tables st
    /\ log st' = log st ++ d
    /\ updates_of (RTL8365MB_VLAN_PVID_CTRL_REG port) d
       = (if set_pvid
          then [Upd (RTL8365MB_VLAN_PVID_CTRL_REG port) (RTL8365MB_VLAN_PVID_CTRL_MASK port)
                  (Z.shiftl idx (RTL8365MB_VLAN_PVID_CTRL_OFFSET port))]
          else [])
    /\ (forall q, 0 <= q < 16 ->
          pvid_index st' q = if (q =? port) && set_pvid then idx else pvid_index st q)
    /\ (forall q, 0 <= q < 16 ->
          frame_type st' q = if (q =? port) && flip then newft else frame_type st q).
Proof.
  intros Hf Hbusy Hp Hvid Htgt pv ft set_pvid flip newft.
  pose proof (vlanmc_target_range _ _ _ _ Htgt) as Hidx.
  destruct (port_regs_range port Hp) as [Hpr Hfr].
  destruct (slot_regs_range idx ltac:(lia)) as [Hs1 Hs2].
  unfold rtl8365mb_vlanmc_set.
  destruct (Z.gtb_spec vid RTL8365MB_MAX_MC_VID); [lia|].
  destruct (vlanmc_scan_ok (Z.to_nat (RTL8365MB_VLAN_MC_CONF_SIZE - 1)) 1 (-1)
              [0; 0; 0; 0] vid st Hf ltac:(lia)) as (r & d & E & Hd & Hr).
  unfold bind at 1. rewrite E.
  set (s1 := mkChip (regs st) (tables st) [] (log st ++ d)).
  (* what remains is one run of the slot step from a state agreeing with
     [st] on the port and slot registers *)
  assert (Hstep : forall entry vlan4k s2 d2,
            faults s2 = [] -> tables s2 = tables st -> log s2 = log st ++ d ++ d2 ->
            updates_of (RTL8365MB_VLAN_PVID_CTRL_REG port) d2 = [] ->
            (forall b, 0x700 <= b < 0x7ac -> reg s2 b = reg st b) ->
            length entry = 4%nat ->
            exists st' d',
              vlanmc_set_slot ds port vid flags include idx entry vlan4k s2 = (Ok tt, st')
              /\ faults st' = [] /\ tables st' = tables st
              /\ log st' = log st ++ d'
              /\ updates_of (RTL8365MB_VLAN_PVID_CTRL_REG port) d'
                 = (if set_pvid
                    then [Upd (RTL8365MB_VLAN_PVID_CTRL_REG port)
                            (RTL8365MB_VLAN_PVID_CTRL_MASK port)
                            (Z.shiftl idx (RTL8365MB_VLAN_PVID_CTRL_OFFSET port))]
                    else [])
              /\ (forall q, 0 <= q < 16 ->
                    pvid_index st' q = if (q =? port) && set_pvid then idx else pvid_index st q)
              /\ (forall q, 0 <= q < 16 ->
                    frame_type st' q = if (q =? port) && flip then newft else frame_type st q)).
  { intros entry vlan4k s2 d2 Hf2 Ht2 Hl2 Hu2 Hr2 Hlen.
    assert (Hpvq : forall q, 0 <= q < 16 -> pvid_index s2 q = pvid_index st q).
    { intros q Hq. apply pvid_index_same, Hr2. destruct (port_regs_range q Hq); lia. }
    assert (Hftq : forall q, 0 <= q < 16 -> frame_type s2 q = frame_type st q).
    { intros q Hq. apply frame_type_same, Hr2. destruct (port_regs_range q Hq); lia. }
    destruct (vlanmc_set_slot_ok ds port vid flags include idx entry vlan4k s2 Hf2 Hp
                ltac:(lia) Hlen) as (st' & ne & E' & Hf' & Ht' & Hne & Hl' & Hpv' & Hft' & _).
    pose proof (Hpvq port Hp) as Epv. pose proof (Hftq port Hp) as Eft.
    rewrite Epv in Hl', Hpv', Hft'. rewrite Eft in Hl', Hft'.
    eexists st', _. split; [exact E'|]. split; [exact Hf'|]. split; [congruence|].
    split; [rewrite Hl', Hl2, <- !app_assoc; reflexivity|].
    split; [|split].
    - rewrite !updates_of_app, Hu2, (updates_of_read_only _ d Hd).
      rewrite updates_of_writes by (rewrite Hne; lia).
      rewrite <- updates_of_app. cbn [app updates_of List.filter touches].
      apply updates_of_tail. lia.
    - intros q Hq. rewrite Hpv', (Hpvq q Hq) by assumption. reflexivity.
    - intros q Hq. rewrite Hft', (Hftq q Hq) by assumption. reflexivity. }
  unfold vlanmc_target, slot_lookup, slot_first_free, vlanmc_slots in Htgt.
  destruct (List.find (fun i => slot_evid st i =? vid) _) as [i|] eqn:Efind.
  - injection Htgt as ->. destruct Hr as [fu' ->].
    destruct (Z.eqb_spec idx RTL8365MB_VLAN_MC_CONF_SIZE);
      [unfold RTL8365MB_VLAN_MC_CONF_SIZE in *; lia|].
    apply (Hstep (slot_entry st idx) vlan4k_zero s1 []); try reflexivity.
    subst s1. simpl. now rewrite app_nil_r.
  - destruct Hr as [e' ->].
    change (1 + Z.of_nat (Z.to_nat (RTL8365MB_VLAN_MC_CONF_SIZE - 1))
            =? RTL8365MB_VLAN_MC_CONF_SIZE) with true. cbv iota.
    destruct (Z.land flags BRIDGE_VLAN_INFO_PVID =? 0) eqn:Eflag; [discriminate|].
    change (-1 <? 0) with true. cbv iota. rewrite Htgt.
    change (default (-1) (Some idx)) with idx.
    destruct (Z.ltb_spec idx 0); [lia|].
    destruct (Z.leb_spec vid RTL8365MB_MAX_4K_VID).
    + destruct (table_read_ok rtl8365mb_table_entry_size RTL8365MB_TABLE_CVLAN vid
                  [0; 0; 0; 0] s1 eq_refl Hbusy)
        as (s2 & E2 & Hf2 & Ht2 & Hr2 & Hl2);
        [ vm_compute; intuition discriminate
        | unfold RTL8365MB_MAX_4K_VID in *; lia
        | vm_compute; intuition discriminate |].
      unfold bind at 1. unfold rtl8365mb_table_access. rewrite E2.
      change (rtl8365mb_table_entry_size RTL8365MB_TABLE_CVLAN =? 10) with false. cbv iota.
      eapply Hstep; try eassumption.
      * rewrite Hl2. subst s1. simpl. rewrite <- app_assoc. reflexivity.
      * apply updates_of_table_read;
          unfold RTL8365MB_TABLE_ACCESS_ADDR_REG, RTL8365MB_TABLE_CONTROL_REG; lia.
      * intros b Hb. rewrite Hr2 by (apply not_in_table_window; lia). reflexivity.
      * reflexivity.
    + apply (Hstep [0; 0; 0; 0] vlan4k_zero s1 []); try reflexivity.
      subst s1. simpl. now rewrite app_nil_r.
Qed.

(** ** Slot exhaustion *)

Lemma find_all_false {A} (f : A -> bool) l :
  (forall x, In x l -> f x = false) -> List.find f l = None.
Proof.
  induction l as [|x l IH]; intros H; simpl; [reflexivity|].
  rewrite (H x) by (now left). apply IH. intros y Hy. apply H. now right.
Qed.

Lemma no_target_when_full st vid flags :
  (forall i, 1 <= i < 32 -> slot_evid st i <> vid /\ slot_evid st i <> 0) ->
  vlanmc_target st vid flags = None.
Proof.
  intros H. unfold vlanmc_target, slot_lookup, slot_first_free.
  rewrite !find_all_false.
  - destruct (_ =? 0); reflexivity.
  - intros i Hi. apply slots_from_range in Hi.
    change (Z.of_nat (Z.to_nat (RTL8365MB_VLAN_MC_CONF_SIZE - 1))) with 31 in Hi.
    apply Z.eqb_neq, H. lia.
  - intros i Hi. apply slots_from_range in Hi.
    change (Z.of_nat (Z.to_nat (RTL8365MB_VLAN_MC_CONF_SIZE - 1))) with 31 in Hi.
    apply Z.eqb_neq, H. lia.
Qed.

(** C6 (as the driver behaves): with no transport failure, an add with
    the PVID flag for a VID that no slot holds, while every slot from 1 to
    31 holds a non-zero VID, fails with -EINVAL, the driver's
    invalid-argument error and the value an out-of-range VID is refused
    with; the by-ID table and the registers are left as they were. *)
Theorem vlan_add_slots_exhausted (ds : dsa_switch) (port vid flags : Z) (st : chip) :
  faults st = [] -> 0 <= vid <= RTL8365MB_MAX_MC_VID ->
  has_pvid_flag flags = true ->
  (forall i, 1 <= i < 32 -> slot_evid st i <> vid /\ slot_evid st i <> 0) ->
  exists st',
    rtl8365mb_vlan_add ds port vid flags st = (Err (- EINVAL), st')
    /\ kind_of_error (- EINVAL) = invalid_argument
    /\ fst (rtl8365mb_vlan_add ds port (RTL8365MB_MAX_MC_VID + 1) flags st) = Err (- EINVAL)
    /\ tables st' = tables st /\ regs st' = regs st.
Proof.
  intros Hf Hvid Hflag Hfull.
  destruct (vlanmc_set_no_target ds port vid flags true st Hf Hvid
              (no_target_when_full st vid flags Hfull)) as (d & E & _).
  rewrite Hflag in E. unfold rtl8365mb_vlan_add. rewrite E.
  eexists. split; [reflexivity|]. repeat split.
Qed.

Lemma vlan_add_slots_exhausted_witness :
  exists st',
    rtl8365mb_vlan_add ds11 2 10 BRIDGE_VLAN_INFO_PVID full_chip = (Err (- EINVAL), st')
    /\ kind_of_error (- EINVAL) = invalid_argument
    /\ fst (rtl8365mb_vlan_add ds11 2 (RTL8365MB_MAX_MC_VID + 1) BRIDGE_VLAN_INFO_PVID full_chip)
       = Err (- EINVAL)
    /\ tables st' = tables full_chip /\ regs st' = regs full_chip.
Proof.
  apply (vlan_add_slots_exhausted ds11 2 10 BRIDGE_VLAN_INFO_PVID full_chip).
  - reflexivity.
  - vm_compute. split; discriminate.
  - reflexivity.
  - intros i Hi.
    assert (Hall : forallb (fun i => negb (slot_evid full_chip i =? 10)
                                     && negb (slot_evid full_chip i =? 0))
                     vlanmc_slots = true) by (vm_compute; reflexivity).
    rewrite forallb_forall in Hall.
    assert (Hin : In i vlanmc_slots).
    { apply in_slots_from.
      change (Z.of_nat (Z.to_nat (RTL8365MB_VLAN_MC_CONF_SIZE - 1))) with 31. lia. }
    apply Hall in Hin. apply andb_prop in Hin as [H1 H2].
    apply negb_true_iff in H1, H2. split; now apply Z.eqb_neq.
Defined.

(** C6, as stated, fails on the error: with every slot from 1 to 31 taken
    by VLANs 100 to 130, the add of VLAN 10 with the PVID flag fails with
    the invalid-argument error, not with one of the resource-exhausted
    kind; the by-ID table is indeed untouched. *)
Lemma vlan_add_exhausted_not_resource_error :
  let r := rtl8365mb_vlan_add ds11 2 10 BRIDGE_VLAN_INFO_PVID full_chip in
  status (fst r) = - EINVAL /\
  kind_of_error (status (fst r)) <> resource_exhausted /\
  tables (snd r) = tables full_chip.
Proof. vm_compute. repeat split. discriminate. Qed.

(** ** Accepted frame type and PVID of a port *)

Lemma regs_same_frame_type st st' q : regs st' = regs st -> frame_type st' q = frame_type st q.
Proof. intros H. apply frame_type_same, reg_congr, H. Qed.

(** One slot reconciliation on a quiet chip: the accepted frame type of
    the port changes exactly when [frame_flip] holds, to any-frame in an
    add and to tagged-only in a delete; the other ports keep theirs. *)
Lemma vlanmc_set_frame_type (ds : dsa_switch) (port vid flags : Z)
    (include : bool) (st : chip) :
  faults st = [] ->
  table_busy_clear (reg st RTL8365MB_TABLE_LUT_REG) = true ->
  0 <= port < RTL8365MB_MAX_NUM_PORTS -> 0 <= vid <= RTL8365MB_MAX_MC_VID ->
  let st' := snd (rtl8365mb_vlanmc_set ds port vid flags include st) in
  frame_type st' port
  = (if frame_flip st port vid flags include
     then (if include then RTL8365MB_FRAME_TYPE_ANY_FRAME
           else RTL8365MB_FRAME_TYPE_TAGGED_ONLY)
     else frame_type st port)
  /\ (frame_type st' port <> frame_type st port <->
        frame_flip st port vid flags include = true)
  /\ (has_pvid_flag flags = false -> include = true ->
        frame_type st' port = frame_type st port)
  /\ (forall q, 0 <= q < RTL8365MB_MAX_NUM_PORTS -> q <> port ->
        frame_type st' q = frame_type st q).
Proof.
  intros Hf Hbusy Hp Hvid st'.
  unfold RTL8365MB_MAX_NUM_PORTS in *.
  assert (Hmain : frame_type st' port
            = (if frame_flip st port vid flags include
               then (if include then RTL8365MB_FRAME_TYPE_ANY_FRAME
                     else RTL8365MB_FRAME_TYPE_TAGGED_ONLY)
               else frame_type st port)
            /\ (forall q, 0 <= q < 11 -> q <> port -> frame_type st' q = frame_type st q)).
  { subst st'. unfold frame_flip.
    destruct (vlanmc_target st vid flags) as [idx|] eqn:Etgt.
    - destruct (vlanmc_set_on_target ds port vid flags include idx st Hf Hbusy
                  ltac:(lia) Hvid Etgt) as (s & d & E & _ & _ & _ & _ & _ & Hft).
      rewrite E. cbn [snd]. split.
      + rewrite Hft by lia. rewrite Z.eqb_refl. reflexivity.
      + intros q Hq Hne. rewrite Hft by lia.
        destruct (Z.eqb_spec q port); [contradiction|reflexivity].
    - destruct (vlanmc_set_no_target ds port vid flags include st Hf Hvid Etgt)
        as (d & E & _).
      rewrite E. cbn [snd]. split; [reflexivity|]. intros q _ _. reflexivity. }
  destruct Hmain as [Hport Hothers].
  split; [exact Hport|]. split; [|split; [|exact Hothers]].
  - rewrite Hport. unfold frame_flip.
    destruct (vlanmc_target st vid flags) as [idx|]; [|split; [congruence|discriminate]].
    destruct include.
    + destruct (has_pvid_flag flags); cbn [andb]; [|split; [congruence|discriminate]].
      destruct (Z.eqb_spec (frame_type st port) RTL8365MB_FRAME_TYPE_TAGGED_ONLY) as [E|E].
      * rewrite E. split; [reflexivity|discriminate].
      * split; [congruence|discriminate].
    + destruct (Z.eqb_spec (frame_type st port) RTL8365MB_FRAME_TYPE_ANY_FRAME) as [E|E];
        cbn [andb]; [|split; [congruence|discriminate]].
      destruct (pvid_index st port =? idx); [|split; [congruence|discriminate]].
      rewrite E. split; [reflexivity|discriminate].
  - intros Hflag ->. rewrite Hport. unfold frame_flip.
    destruct (vlanmc_target st vid flags); [|reflexivity]. now rewrite Hflag.
Qed.

(** C5: on a quiet chip, an add with the PVID flag that finds its slot
    (the one holding the VID, else the first unused one) succeeds and
    rewrites the port's PVID register, once and with the slot index, if and
    only if the port's current PVID slot index differs from it; afterwards
    the port's PVID is that slot.  On the chip as initialised, with slot 0
    reserved, Add(port 2, VID 10, tagged, PVID) allocates slot 1, leaves
    port 2 with PVID 1, and the by-ID entry of VID 10 has member bit 2 set
    and untag bit 2 clear. *)
Theorem pvid_register_rewrite :
  (forall (ds : dsa_switch) (port vid flags idx : Z) (st : chip),
     faults st = [] ->
     table_busy_clear (reg st RTL8365MB_TABLE_LUT_REG) = true ->
     0 <= port < RTL8365MB_MAX_NUM_PORTS -> 0 <= vid <= RTL8365MB_MAX_MC_VID ->
     has_pvid_flag flags = true ->
     vlanmc_target st vid flags = Some idx ->
     let r := rtl8365mb_vlanmc_set ds port vid flags true st in
     let rewrites := updates_of (RTL8365MB_VLAN_PVID_CTRL_REG port) (delta st (snd r)) in
     fst r = Ok tt
     /\ rewrites
        = (if idx =? pvid_index st port then []
           else [Upd (RTL8365MB_VLAN_PVID_CTRL_REG port) (RTL8365MB_VLAN_PVID_CTRL_MASK port)
                   (Z.shiftl idx (RTL8365MB_VLAN_PVID_CTRL_OFFSET port))])
     /\ (rewrites <> [] <-> pvid_index st port <> idx)
     /\ pvid_index (snd r) port = idx)
  /\ (let r := rtl8365mb_vlan_add ds11 2 10 BRIDGE_VLAN_INFO_PVID fresh_chip in
      let entry := rtl8365mb_buf_vlan4k (table_row (snd r) RTL8365MB_TABLE_CVLAN 10)
                     vlan4k_zero in
      fst r = Ok tt
      /\ vlanmc_target fresh_chip 10 BRIDGE_VLAN_INFO_PVID = Some 1
      /\ pvid_index fresh_chip 2 = 0
      /\ pvid_index (snd r) 2 = 1
      /\ slot_evid (snd r) 1 = 10
      /\ Z.testbit (member4k entry) 2 = true
      /\ Z.testbit (untag4k entry) 2 = false).
Proof.
  split.
  - intros ds port vid flags idx st Hf Hbusy Hp Hvid Hflag Htgt r rewrites.
    unfold RTL8365MB_MAX_NUM_PORTS in Hp.
    destruct (vlanmc_set_on_target ds port vid flags true idx st Hf Hbusy
                ltac:(lia) Hvid Htgt) as (s & d & E & _ & _ & Hl & Hu & Hpv & _).
    subst rewrites r. rewrite E. cbn [fst snd].
    rewrite (delta_app _ _ _ Hl), Hu, Hpv by lia.
    rewrite Hflag, Z.eqb_refl. cbn [andb].
    destruct (Z.eqb_spec idx (pvid_index st port)) as [Eq|Ne]; cbn [negb].
    + repeat split; try congruence; try (intros H; now contradiction H).
    + repeat split; try congruence; try discriminate.
  - vm_compute. repeat split.
Qed.

Lemma pvid_register_rewrite_witness :
  let r := rtl8365mb_vlanmc_set ds11 2 10 BRIDGE_VLAN_INFO_PVID true fresh_chip in
  let rewrites := updates_of (RTL8365MB_VLAN_PVID_CTRL_REG 2) (delta fresh_chip (snd r)) in
  fst r = Ok tt
  /\ rewrites
     = (if 1 =? pvid_index fresh_chip 2 then []
        else [Upd (RTL8365MB_VLAN_PVID_CTRL_REG 2) (RTL8365MB_VLAN_PVID_CTRL_MASK 2)
                (Z.shiftl 1 (RTL8365MB_VLAN_PVID_CTRL_OFFSET 2))])
  /\ (rewrites <> [] <-> pvid_index fresh_chip 2 <> 1)
  /\ pvid_index (snd r) 2 = 1.
Proof.
  apply (proj1 pvid_register_rewrite ds11 2 10 BRIDGE_VLAN_INFO_PVID 1 fresh_chip).
  - reflexivity.
  - reflexivity.
  - unfold RTL8365MB_MAX_NUM_PORTS. lia.
  - unfold RTL8365MB_MAX_MC_VID. lia.
  - reflexivity.
  - reflexivity.
Defined.

(** ** Order of the writes of one reconcile operation *)

Section Staging.

Variable rank : phase -> nat.

Lemma ordered_from_anti d : forall k k',
  (k' <= k)%nat -> ordered_from rank k d = true -> ordered_from rank k' d = true.
Proof.
  induction d as [|e d IH]; intros k k' Hk H; simpl in *; [reflexivity|].
  destruct (write_phase e) as [p|]; [|eauto].
  apply andb_prop in H as [H1 H2]. apply Nat.leb_le in H1.
  rewrite H2, andb_true_r. apply Nat.leb_le. lia.
Qed.

Lemma ordered_from_app d1 : forall lo mid d2,
  ordered_from rank lo d1 = true -> Forall (below rank mid) d1 -> (lo <= mid)%nat ->
  ordered_from rank mid d2 = true ->
  ordered_from rank lo (d1 ++ d2) = true.
Proof.
  induction d1 as [|e d1 IH]; intros lo mid d2 H1 Hb Hlo H2; simpl in *.
  - eapply ordered_from_anti; eassumption.
  - inversion Hb as [|? ? He Hb']; subst. unfold below in He.
    destruct (write_phase e) as [p|].
    + apply andb_prop in H1 as [Hk H1]. rewrite Hk. simpl.
      eapply IH; eauto.
    + eapply IH; eauto.
Qed.

Lemma below_mono hi hi' e : (hi <= hi')%nat -> below rank hi e -> below rank hi' e.
Proof. unfold below. destruct (write_phase e); [lia|trivial]. Qed.

Lemma staged_nil lo hi : (lo <= hi)%nat -> staged rank lo hi [].
Proof. intros H. repeat split; [exact H|constructor]. Qed.

Lemma staged_app lo mid hi d1 d2 :
  staged rank lo mid d1 -> staged rank mid hi d2 -> staged rank lo hi (d1 ++ d2).
Proof.
  intros (H1 & O1 & B1) (H2 & O2 & B2). repeat split.
  - lia.
  - eapply ordered_from_app; eauto.
  - apply Forall_app. split; [|exact B2].
    eapply Forall_impl; [exact B1|]. intros e. apply below_mono. exact H2.
Qed.

Lemma staged_weaken lo hi lo' hi' d :
  (lo' <= lo)%nat -> (hi <= hi')%nat -> staged rank lo hi d -> staged rank lo' hi' d.
Proof.
  intros Hl Hh (H & O & B). repeat split.
  - lia.
  - eapply ordered_from_anti; eassumption.
  - eapply Forall_impl; [exact B|]. intros e. now apply below_mono.
Qed.

Lemma staged_silent k e : write_phase e = None -> staged rank k k [e].
Proof.
  intros H. repeat split; [lia|simpl; now rewrite H|].
  constructor; [|constructor]. unfold below. now rewrite H.
Qed.

Lemma staged_write p e : write_phase e = Some p -> staged rank (rank p) (rank p) [e].
Proof.
  intros H. repeat split; [lia|simpl; rewrite H, Nat.leb_refl; reflexivity|].
  constructor; [|constructor]. unfold below. rewrite H. lia.
Qed.

Lemma emits_ret {A} lo hi (Q : A -> Prop) a :
  (lo <= hi)%nat -> Q a -> emits rank lo hi Q (ret a).
Proof.
  intros H Ha st. exists []. simpl. rewrite app_nil_r.
  repeat split; [exact H|constructor|]. intros a' [= <-]. exact Ha.
Qed.

Lemma emits_fail {A} lo hi (Q : A -> Prop) e :
  (lo <= hi)%nat -> emits rank lo hi Q (fail e).
Proof.
  intros H st. exists []. simpl. rewrite app_nil_r.
  repeat split; [exact H|constructor|]. discriminate.
Qed.

Lemma emits_bind {A B} lo mid hi (Q : A -> Prop) (R : B -> Prop) m (k : A -> bus B) :
  emits rank lo mid Q m -> (mid <= hi)%nat ->
  (forall a, Q a -> emits rank mid hi R (k a)) ->
  emits rank lo hi R (bind m k).
Proof.
  intros Hm Hmid Hk st. destruct (Hm st) as (d1 & Hl1 & Hs1 & Hq).
  unfold bind. destruct (m st) as [[a|e] st1]; simpl in *.
  - destruct (Hk a (Hq a eq_refl) st1) as (d2 & Hl2 & Hs2 & Hr).
    exists (d1 ++ d2). rewrite Hl2, Hl1, app_assoc.
    split; [reflexivity|]. split; [eapply staged_app; eassumption|exact Hr].
  - exists d1. split; [exact Hl1|]. split; [|discriminate].
    eapply staged_weaken; [| |exact Hs1]; lia.
Qed.

Lemma emits_weaken {A} lo hi lo' hi' (Q Q' : A -> Prop) m :
  emits rank lo hi Q m -> (lo' <= lo)%nat -> (hi <= hi')%nat -> (forall a, Q a -> Q' a) ->
  emits rank lo' hi' Q' m.
Proof.
  intros Hm Hl Hh HQ st. destruct (Hm st) as (d & Hd & Hs & Hq).
  exists d. split; [exact Hd|]. split; [eapply staged_weaken; eassumption|auto].
Qed.

Lemma log_next_fault st : log (snd (next_fault st)) = log st.
Proof. unfold next_fault. destruct (faults st); reflexivity. Qed.

Lemma emits_read k a : emits rank k k (fun _ => True) (regmap_read a).
Proof.
  intros st. unfold regmap_read. pose proof (log_next_fault st) as Hl.
  destruct (next_fault st) as [f st1]. simpl in Hl. destruct (f =? 0); simpl.
  - exists [Rd a]. rewrite Hl. split; [reflexivity|].
    split; [now apply staged_silent|trivial].
  - exists []. rewrite Hl, app_nil_r. split; [reflexivity|].
    split; [apply staged_nil; lia|trivial].
Qed.

Lemma log_table_engine st : log (table_engine st) = log st.
Proof. unfold table_engine. destruct (_ =? _); [reflexivity|apply log_load_regs]. Qed.

Lemma log_chip_store a v st : log (chip_store a v st) = log st.
Proof.
  unfold chip_store. destruct (a =? _); [now rewrite log_table_engine|].
  destruct (write_one_to_clear a); reflexivity.
Qed.

Lemma emits_access {A} (e : access) (x : A) (g : chip -> chip) lo hi :
  (forall st, log (g st) = log st) -> staged rank lo hi [e] ->
  emits rank lo hi (fun _ => True)
    (fun st => let '(f, st1) := next_fault st in
               if f =? 0 then (Ok x, record e (g st1)) else (Err f, st1)).
Proof.
  intros Hg He st. pose proof (log_next_fault st) as Hl.
  destruct (next_fault st) as [f st1]. simpl in Hl. destruct (f =? 0); simpl.
  - exists [e]. rewrite Hg, Hl. auto.
  - exists []. rewrite Hl, app_nil_r. split; [reflexivity|].
    split; [|trivial]. apply staged_nil. destruct He. lia.
Qed.

Lemma emits_write_silent k a v :
  wr_phase a = None -> emits rank k k (fun _ => True) (regmap_write a v).
Proof.
  intros H. unfold regmap_write.
  apply (emits_access (Wr a (u16 v)) tt (chip_store a (u16 v))).
  - intros st. apply log_chip_store.
  - now apply staged_silent.
Qed.

Lemma emits_write a v p :
  wr_phase a = Some p -> emits rank (rank p) (rank p) (fun _ => True) (regmap_write a v).
Proof.
  intros H. unfold regmap_write.
  apply (emits_access (Wr a (u16 v)) tt (chip_store a (u16 v))).
  - intros st. apply log_chip_store.
  - now apply staged_write.
Qed.

Lemma emits_update_silent k a mask v :
  write_phase (Upd a mask v) = None ->
  emits rank k k (fun _ => True) (regmap_update_bits a mask v).
Proof.
  intros H st. unfold regmap_update_bits. pose proof (log_next_fault st) as Hl.
  destruct (next_fault st) as [f st1]. simpl in Hl. destruct (f =? 0); simpl.
  - exists [Upd a mask v]. rewrite log_chip_store, Hl. split; [reflexivity|].
    split; [now apply staged_silent|trivial].
  - exists []. rewrite Hl, app_nil_r. split; [reflexivity|].
    split; [apply staged_nil; lia|trivial].
Qed.

Lemma emits_update a mask v p :
  write_phase (Upd a mask v) = Some p ->
  emits rank (rank p) (rank p) (fun _ => True) (regmap_update_bits a mask v).
Proof.
  intros H st. unfold regmap_update_bits. pose proof (log_next_fault st) as Hl.
  destruct (next_fault st) as [f st1]. simpl in Hl. destruct (f =? 0); simpl.
  - exists [Upd a mask v]. rewrite log_chip_store, Hl. split; [reflexivity|].
    split; [now apply staged_write|trivial].
  - exists []. rewrite Hl, app_nil_r. split; [reflexivity|].
    split; [apply staged_nil; lia|trivial].
Qed.

End Staging.

(** ** The write stages of the driver functions *)

Section Stages.

Variable rank : phase -> nat.

Lemma emits_poll_loop k n : forall a cond,
  emits rank k k (fun _ => True) (poll_loop n a cond).
Proof.
  induction n as [|n IH]; intros a cond; simpl.
  - eapply emits_bind; [apply emits_read|lia|]. intros v _.
    destruct (cond v); [apply emits_ret; [lia|trivial]|].
    eapply emits_bind; [apply emits_read|lia|]. intros v' _.
    destruct (cond v'); [apply emits_ret; [lia|trivial]|apply emits_fail; lia].
  - eapply emits_bind; [apply emits_read|lia|]. intros v _.
    destruct (cond v); [apply emits_ret; [lia|trivial]|apply IH].
Qed.

Lemma emits_bulk_read k n : forall a,
  emits rank k k (fun l => length l = n) (regmap_bulk_read a n).
Proof.
  induction n as [|n IH]; intros a; simpl.
  - apply emits_ret; [lia|reflexivity].
  - eapply emits_bind; [apply emits_read|lia|]. intros v _.
    eapply emits_bind; [apply IH|lia|]. intros vs Hvs.
    apply emits_ret; [lia|]. simpl. now rewrite Hvs.
Qed.

Lemma emits_bulk_write p vals : forall a,
  (forall b, a <= b < a + Z.of_nat (length vals) -> wr_phase b = Some p) ->
  emits rank (rank p) (rank p) (fun _ => True) (regmap_bulk_write a vals).
Proof.
  induction vals as [|v vs IH]; intros a H; simpl.
  - apply emits_ret; [lia|trivial].
  - eapply emits_bind; [apply emits_write, H; simpl; lia|lia|]. intros _ _.
    apply IH. intros b Hb. apply H. simpl length. lia.
Qed.

Lemma emits_attempt {A} lo hi (Q : A -> Prop) (m : bus A) :
  emits rank lo hi Q m -> emits rank lo hi (fun _ => True) (attempt m).
Proof.
  intros Hm st. destruct (Hm st) as (d & Hl & Hs & _). exists d.
  unfold attempt. destruct (m st) as [r st1]. simpl in *. auto.
Qed.

Lemma wr_phase_data b :
  RTL8365MB_TABLE_WRITE_DATA_REG_BASE <= b < RTL8365MB_TABLE_WRITE_DATA_REG_BASE + 10 ->
  wr_phase b = Some ByID.
Proof.
  intros H. unfold wr_phase, in_range.
  destruct (Z.leb_spec RTL8365MB_TABLE_WRITE_DATA_REG_BASE b); [|lia].
  destruct (Z.ltb_spec b (RTL8365MB_TABLE_WRITE_DATA_REG_BASE + 10)); [|lia].
  reflexivity.
Qed.

Lemma wr_phase_slot b :
  0x728 <= b < 0x7a8 -> wr_phase b = Some Slot.
Proof.
  intros H. unfold wr_phase, in_range.
  change RTL8365MB_TABLE_WRITE_DATA_REG_BASE with 0x510.
  change RTL8365MB_VLAN_MC_CONF_BASE with 0x728.
  change (RTL8365MB_VLAN_MC_CONF_ENTRY_SIZE * RTL8365MB_VLAN_MC_CONF_SIZE) with 128.
  destruct (Z.leb_spec 0x510 b); [|lia].
  destruct (Z.ltb_spec b (0x510 + 10)); [lia|].
  destruct (Z.leb_spec 0x728 b); [|lia].
  destruct (Z.ltb_spec b (0x728 + 128)); [|lia].
  reflexivity.
Qed.

(** A read of the by-ID table writes nothing that counts. *)
Lemma emits_cvlan_read k vid buf :
  emits rank k k (fun l => length l = (3 + (length buf - 3))%nat)
    (rtl8365mb_table_access RTL8365MB_TABLE_CVLAN RTL8365MB_TABLE_READ vid buf).
Proof.
  unfold rtl8365mb_table_access, table_access.
  destruct (negb _); [apply emits_fail; lia|].
  unfold table_access_locked.
  change (RTL8365MB_TABLE_READ =? RTL8365MB_TABLE_WRITE) with false.
  change (RTL8365MB_TABLE_READ =? RTL8365MB_TABLE_READ) with true.
  change (rtl8365mb_table_entry_size RTL8365MB_TABLE_CVLAN) with 3.
  cbv iota.
  eapply emits_bind with (Q := fun _ => True); [|apply Nat.le_refl|].
  { eapply emits_bind; [apply emits_poll_loop|lia|]. intros _ _.
    apply emits_ret; [lia|exact I]. }
  intros _ _.
  eapply emits_bind; [apply emits_write_silent; reflexivity|lia|]. intros _ _.
  eapply emits_bind; [apply emits_update_silent; reflexivity|lia|]. intros _ _.
  eapply emits_bind; [eapply emits_attempt, emits_read|lia|]. intros _ _.
  eapply emits_bind; [apply emits_poll_loop|lia|]. intros _ _.
  eapply emits_bind; [apply emits_bulk_read|lia|]. intros words Hw.
  apply emits_ret; [lia|].
  change (3 =? 10) with false. cbv iota.
  rewrite length_app, length_skipn, Hw. reflexivity.
Qed.

(** A write of the by-ID table is made of by-ID writes only. *)
Lemma emits_cvlan_write vid val :
  emits rank (rank ByID) (rank ByID) (fun _ => True)
    (rtl8365mb_table_access RTL8365MB_TABLE_CVLAN RTL8365MB_TABLE_WRITE vid val).
Proof.
  unfold rtl8365mb_table_access, table_access.
  destruct (negb _); [apply emits_fail; lia|].
  unfold table_access_locked.
  change (RTL8365MB_TABLE_WRITE =? RTL8365MB_TABLE_WRITE) with true.
  change (RTL8365MB_TABLE_WRITE =? RTL8365MB_TABLE_READ) with false.
  change (rtl8365mb_table_entry_size RTL8365MB_TABLE_CVLAN) with 3.
  change (3 =? 10) with false. cbv iota.
  eapply emits_bind with (Q := fun _ => True); [|apply Nat.le_refl|].
  { eapply emits_bind with (Q := fun _ => True); [|apply Nat.le_refl|].
    - apply emits_bulk_write. intros b Hb. apply wr_phase_data.
      pose proof (length_firstn (Z.to_nat 3) val) as Hl.
      change (Z.to_nat 3) with 3%nat in *. lia.
    - intros _ _. apply emits_ret; [lia|exact I]. }
  intros _ _.
  eapply emits_bind; [apply emits_write_silent; reflexivity|lia|]. intros _ _.
  eapply emits_bind; [apply (emits_update rank _ _ _ ByID); reflexivity|lia|]. intros _ _.
  apply emits_ret; [lia|exact I].
Qed.

Lemma emits_vlan4k_set ds port vid flags include :
  emits rank (rank ByID) (rank ByID) (fun _ => True)
    (rtl8365mb_vlan4k_set ds port vid flags include).
Proof.
  unfold rtl8365mb_vlan4k_set.
  destruct (vid >? RTL8365MB_MAX_4K_VID); [apply emits_fail; lia|].
  eapply emits_bind; [apply emits_cvlan_read|lia|]. intros entry _.
  eapply emits_bind; [apply emits_cvlan_write|lia|]. intros _ _.
  apply emits_ret; [lia|exact I].
Qed.

Lemma emits_vlanmc_scan k vid n : forall idx fu e,
  length e = 4%nat ->
  emits rank k k
    (fun r => let '(i, fu', e') := r in
              idx <= i <= idx + Z.of_nat n
              /\ (fu' = fu \/ idx <= fu' < idx + Z.of_nat n)
              /\ length e' = 4%nat)
    (vlanmc_scan n idx fu e vid).
Proof.
  induction n as [|n IH]; intros idx fu e He; cbn [vlanmc_scan].
  - apply emits_ret; [lia|]. repeat split; [lia|lia|auto|exact He].
  - eapply emits_bind; [apply emits_bulk_read|lia|]. intros entry Hentry.
    destruct (_ =? vid).
    + apply emits_ret; [lia|]. repeat split; [lia|lia|auto|exact Hentry].
    + eapply emits_weaken; [apply IH; exact Hentry|lia|lia|].
      intros [[i fu'] e'] (Hi & Hfu & He'). repeat split; [lia|lia| |exact He'].
      destruct ((_ =? 0) && (fu <? 0)); [right; lia|].
      destruct Hfu; [now left|right; lia].
Qed.

Hypothesis slot_first : (rank Slot <= rank PortReg)%nat.

Lemma emits_vlanmc_set_slot ds port vid flags include idx entry vlan4k :
  0 <= port < 12 -> 0 <= idx < 32 -> length entry = 4%nat ->
  emits rank (rank Slot) (rank PortReg) (fun _ => True)
    (vlanmc_set_slot ds port vid flags include idx entry vlan4k).
Proof.
  intros Hp Hidx Hlen. unfold vlanmc_set_slot.
  destruct (port_regs_range port ltac:(lia)) as [Hpr Hfr].
  destruct (pvid_layout port ltac:(lia)) as (Hpreg & _).
  destruct (slot_regs_range idx Hidx) as [Hs1 Hs2].
  assert (Hpvid : forall m v,
            write_phase (Upd (RTL8365MB_VLAN_PVID_CTRL_REG port) m v) = Some PortReg).
  { intros m v. cbn [write_phase]. unfold in_range.
    assert (0 <= port / 2 < 6)
      by (split; [apply Z.div_pos|apply Z.div_lt_upper_bound]; lia).
    change RTL8365MB_TABLE_CONTROL_REG with 0x500.
    change RTL8365MB_TABLE_WRITE_DATA_REG_BASE with 0x510.
    change RTL8365MB_VLAN_PVID_CTRL_BASE with 0x700.
    destruct (Z.eqb_spec (RTL8365MB_VLAN_PVID_CTRL_REG port) 0x500); [lia|].
    destruct (Z.leb_spec 0x510 (RTL8365MB_VLAN_PVID_CTRL_REG port)); [|lia].
    destruct (Z.ltb_spec (RTL8365MB_VLAN_PVID_CTRL_REG port) (0x510 + 10)); [lia|].
    destruct (Z.leb_spec 0x700 (RTL8365MB_VLAN_PVID_CTRL_REG port)); [|lia].
    destruct (Z.ltb_spec (RTL8365MB_VLAN_PVID_CTRL_REG port) (0x700 + 6)); [|lia].
    reflexivity. }
  assert (Hframe : forall m v,
            write_phase (Upd (RTL8365MB_VLAN_ACCEPT_FRAME_TYPE_REG port) m v)
            = Some PortReg).
  { intros m v. cbn [write_phase]. unfold in_range.
    change RTL8365MB_TABLE_CONTROL_REG with 0x500.
    change RTL8365MB_TABLE_WRITE_DATA_REG_BASE with 0x510.
    change RTL8365MB_VLAN_PVID_CTRL_BASE with 0x700.
    change RTL8365MB_VLAN_ACCEPT_FRAME_TYPE_BASE with 0x7aa.
    destruct (Z.eqb_spec (RTL8365MB_VLAN_ACCEPT_FRAME_TYPE_REG port) 0x500); [lia|].
    destruct (Z.leb_spec 0x510 (RTL8365MB_VLAN_ACCEPT_FRAME_TYPE_REG port)); [|lia].
    destruct (Z.ltb_spec (RTL8365MB_VLAN_ACCEPT_FRAME_TYPE_REG port) (0x510 + 10)); [lia|].
    destruct (Z.leb_spec 0x700 (RTL8365MB_VLAN_ACCEPT_FRAME_TYPE_REG port)); [|lia].
    destruct (Z.ltb_spec (RTL8365MB_VLAN_ACCEPT_FRAME_TYPE_REG port) (0x700 + 6)); [lia|].
    destruct (Z.leb_spec 0x7aa (RTL8365MB_VLAN_ACCEPT_FRAME_TYPE_REG port)); [|lia].
    destruct (Z.ltb_spec (RTL8365MB_VLAN_ACCEPT_FRAME_TYPE_REG port) (0x7aa + 2)); [|lia].
    reflexivity. }
  eapply emits_bind; [apply emits_read|lia|]. intros data1 _.
  eapply emits_bind; [apply emits_read|lia|]. intros data2 _.
  eapply emits_bind; [|exact slot_first|].
  { apply emits_bulk_write. intros b Hb. apply wr_phase_slot.
    assert (length (if negb include && (Z.land (membermc
              (mkVlanMc vid (untagmc (rtl8365mb_buf_vlanmc entry vlanmc_zero))
                 (if include
                  then u16 (Z.lor (u16 (Z.lor (membermc (rtl8365mb_buf_vlanmc entry vlanmc_zero))
                                              (member4k vlan4k))) (BIT port))
                  else u16 (Z.land (u16 (Z.lor (membermc (rtl8365mb_buf_vlanmc entry vlanmc_zero))
                                               (member4k vlan4k))) (Z.lnot (BIT port))))
                 (fidmc (rtl8365mb_buf_vlanmc entry vlanmc_zero))
                 (prioritymc (rtl8365mb_buf_vlanmc entry vlanmc_zero))))
              (Z.lnot (dsa_cpu_ports ds)) =? 0)
            then [0; 0; 0; 0]
            else rtl8365mb_vlanmc_buf
                   (mkVlanMc vid (untagmc (rtl8365mb_buf_vlanmc entry vlanmc_zero))
                      (if include
                       then u16 (Z.lor (u16 (Z.lor (membermc (rtl8365mb_buf_vlanmc entry vlanmc_zero))
                                                   (member4k vlan4k))) (BIT port))
                       else u16 (Z.land (u16 (Z.lor (membermc (rtl8365mb_buf_vlanmc entry vlanmc_zero))
                                                    (member4k vlan4k))) (Z.lnot (BIT port))))
                      (fidmc (rtl8365mb_buf_vlanmc entry vlanmc_zero))
                      (prioritymc (rtl8365mb_buf_vlanmc entry vlanmc_zero))) entry) = 4%nat)
      as Hne.
    { destruct (negb include && _); [reflexivity|]. now rewrite length_vlanmc_buf. }
    rewrite Hne in Hb. lia. }
  intros _ _.
  eapply emits_bind with (Q := fun _ => True) (mid := rank PortReg); [|lia|].
  { eapply emits_weaken with (lo := rank PortReg) (hi := rank PortReg)
                             (Q := fun _ => True); [|exact slot_first|lia|trivial].
    destruct (negb include); [apply emits_ret; [lia|exact I]|].
    destruct (negb (_ =? 0)); [|apply emits_ret; [lia|exact I]].
    eapply emits_bind with (Q := fun _ => True); [|apply Nat.le_refl|].
    - destruct (negb (idx =? _)); [apply emits_update, Hpvid|apply emits_ret; [lia|exact I]].
    - intros _ _. apply emits_ret; [lia|exact I]. }
  intros [af changed] _.
  destruct changed; [apply emits_update, Hframe|apply emits_ret; [lia|exact I]].
Qed.

Lemma emits_vlanmc_set ds port vid flags include :
  0 <= port < 12 ->
  emits rank (rank Slot) (rank PortReg) (fun _ => True)
    (rtl8365mb_vlanmc_set ds port vid flags include).
Proof.
  intros Hp. unfold rtl8365mb_vlanmc_set.
  destruct (vid >? RTL8365MB_MAX_MC_VID); [apply emits_fail; lia|].
  eapply emits_bind; [apply emits_vlanmc_scan; reflexivity|lia|].
  intros [[i fu] e] (Hi & Hfu & He).
  change (Z.of_nat (Z.to_nat (RTL8365MB_VLAN_MC_CONF_SIZE - 1))) with 31 in *.
  destruct (Z.eqb_spec i RTL8365MB_VLAN_MC_CONF_SIZE) as [E|E].
  - destruct (_ =? 0); [apply emits_ret; [lia|exact I]|].
    destruct (Z.ltb_spec fu 0); [apply emits_fail; lia|].
    assert (0 <= fu < 32) by lia.
    destruct (vid <=? RTL8365MB_MAX_4K_VID).
    + eapply emits_bind; [apply emits_cvlan_read|lia|]. intros entry Hentry.
      apply emits_vlanmc_set_slot; [lia|lia|exact Hentry].
    + apply emits_vlanmc_set_slot; [lia|lia|reflexivity].
  - unfold RTL8365MB_VLAN_MC_CONF_SIZE in E.
    apply emits_vlanmc_set_slot; [lia|lia|exact He].
Qed.

End Stages.

Lemma staged_in_order rank lo hi d : staged rank lo hi d -> in_order rank d = true.
Proof.
  intros (_ & H & _). unfold in_order. eapply ordered_from_anti; [|exact H]. lia.
Qed.

(** C1 (as the driver behaves): whatever the transport does, a delete
    writes the by-ID table first, then the slot, then the port's
    accepted-frame-type register, and one slot step, of an add or of a
    delete, writes the slot before the port's PVID and accepted-frame-type
    registers.  An add that succeeds runs the slot step first: its slot
    write comes first, then the PVID and accepted-frame-type register
    writes, and the by-ID table is written last. *)
Theorem vlan_write_order (ds : dsa_switch) (port vid flags : Z) (st : chip) :
  0 <= port < RTL8365MB_MAX_NUM_PORTS ->
  in_order spec_order (delta st (snd (rtl8365mb_vlan_del ds port vid flags st))) = true
  /\ (forall include,
        in_order spec_order
          (delta st (snd (rtl8365mb_vlanmc_set ds port vid flags include st))) = true)
  /\ (fst (rtl8365mb_vlan_add ds port vid flags st) = Ok tt ->
        in_order add_order (delta st (snd (rtl8365mb_vlan_add ds port vid flags st))) = true).
Proof.
  intros Hp. unfold RTL8365MB_MAX_NUM_PORTS in Hp.
  assert (Hp12 : 0 <= port < 12) by lia.
  assert (Hspec : (spec_order Slot <= spec_order PortReg)%nat) by (simpl; lia).
  assert (Hadd : (add_order Slot <= add_order PortReg)%nat) by (simpl; lia).
  split; [|split].
  - unfold rtl8365mb_vlan_del.
    destruct (emits_vlan4k_set spec_order ds port vid flags false st) as (d1 & Hl1 & Hs1 & _).
    destruct (rtl8365mb_vlan4k_set ds port vid flags false st) as [r st1]. simpl in Hl1.
    destruct (emits_vlanmc_set spec_order Hspec ds port vid flags false Hp12 st1) as (d2 & Hl2 & Hs2 & _).
    destruct (rtl8365mb_vlanmc_set ds port vid flags false st1) as [r2 st2]. simpl in *.
    rewrite (delta_app st st2 (d1 ++ d2)) by (rewrite Hl2, Hl1, app_assoc; reflexivity).
    apply (staged_in_order spec_order 0%nat 2%nat).
    apply (staged_app spec_order 0%nat 0%nat 2%nat); [exact Hs1|].
    apply (staged_weaken spec_order 1%nat 2%nat 0%nat 2%nat); [lia|lia|exact Hs2].
  - intros include.
    destruct (emits_vlanmc_set spec_order Hspec ds port vid flags include Hp12 st) as (d & Hl & Hs & _).
    rewrite (delta_app _ _ _ Hl). eapply staged_in_order, Hs.
  - unfold rtl8365mb_vlan_add.
    destruct (emits_vlanmc_set add_order Hadd ds port vid flags true Hp12 st) as (d1 & Hl1 & Hs1 & _).
    destruct (rtl8365mb_vlanmc_set ds port vid flags true st) as [[[]|e] st1]; simpl in Hl1;
      [|discriminate].
    destruct (emits_vlan4k_set add_order ds port vid flags true st1) as (d2 & Hl2 & Hs2 & _).
    destruct (rtl8365mb_vlan4k_set ds port vid flags true st1) as [[[]|e] st2]; simpl in Hl2.
    + intros _. simpl.
      rewrite (delta_app st st2 (d1 ++ d2)) by (rewrite Hl2, Hl1, app_assoc; reflexivity).
      apply (staged_in_order add_order 0%nat 2%nat).
      apply (staged_app add_order 0%nat 1%nat 2%nat); [exact Hs1|].
      apply (staged_weaken add_order 2%nat 2%nat 1%nat 2%nat); [lia|lia|exact Hs2].
    + destruct (rtl8365mb_vlanmc_set ds port vid flags false st2). discriminate.
Qed.

Lemma vlan_write_order_witness :
  in_order spec_order
    (delta fresh_chip (snd (rtl8365mb_vlan_del ds11 2 10 0 fresh_chip))) = true
  /\ in_order add_order
       (delta fresh_chip (snd (rtl8365mb_vlan_add ds11 2 10 BRIDGE_VLAN_INFO_PVID fresh_chip)))
     = true.
Proof.
  assert (Hp : 0 <= 2 < RTL8365MB_MAX_NUM_PORTS) by (unfold RTL8365MB_MAX_NUM_PORTS; lia).
  split.
  - exact (proj1 (vlan_write_order ds11 2 10 0 fresh_chip Hp)).
  - exact (proj2 (proj2 (vlan_write_order ds11 2 10 BRIDGE_VLAN_INFO_PVID fresh_chip Hp))
             eq_refl).
Defined.

(** C1, as stated, fails for an add: Add(port 2, VID 10, PVID) on the
    chip as initialised succeeds, and its slot and PVID register writes
    come before the write of the by-ID table. *)
Lemma vlan_add_writes_slot_before_table :
  let r := rtl8365mb_vlan_add ds11 2 10 BRIDGE_VLAN_INFO_PVID fresh_chip in
  fst r = Ok tt /\
  omap write_phase (delta fresh_chip (snd r))
  = [Slot; Slot; Slot; Slot; PortReg; ByID; ByID; ByID; ByID] /\
  in_order spec_order (delta fresh_chip (snd r)) = false.
Proof. vm_compute. repeat split. Qed.

(** ** Concrete runs *)

Lemma mib_counter_read_assembly_witness :
  fst (rtl8365mb_mib_counter_read 1 0 4 mib_chip)
  = Ok (4 * 2 ^ 48 + 3 * 2 ^ 32 + 2 * 2 ^ 16 + 1)
  /\ fst (rtl8365mb_mib_counter_read 1 4 2 mib_chip) = Ok (2 * 2 ^ 16 + 1)
  /\ fst (rtl8365mb_mib_counter_read 1 0 4 mib_reset_chip) = Err (- EIO).
Proof.
  split; [|split].
  - destruct (proj2 (mib_counter_read_assembly 1 0 4 mib_chip eq_refl eq_refl
                       (or_intror (or_intror eq_refl))) eq_refl) as (st' & E & _).
    rewrite E. reflexivity.
  - destruct (proj2 (mib_counter_read_assembly 1 4 2 mib_chip eq_refl eq_refl
                       (or_intror (or_introl eq_refl))) eq_refl) as (st' & E & _).
    rewrite E. reflexivity.
  - apply (proj1 (mib_counter_read_assembly 1 0 4 mib_reset_chip eq_refl eq_refl
                    (or_intror (or_intror eq_refl)))).
    discriminate.
Defined.

Lemma table_write_read_roundtrip_witness :
  (exists st1 st2,
     table_access rtl8365mb_table_entry_size RTL8365MB_TABLE_CVLAN RTL8365MB_TABLE_WRITE 10
       [0x1234; 0x0056; 0x0009] fresh_chip = (Ok [0x1234; 0x0056; 0x0009], st1) /\
     table_access rtl8365mb_table_entry_size RTL8365MB_TABLE_CVLAN RTL8365MB_TABLE_READ 10
       [0; 0; 0] st1 = (Ok [0x1234; 0x0056; 0x0009], st2))
  /\ (exists st1 st2,
        table_access (fun _ => 10) RTL8365MB_TABLE_L2 RTL8365MB_TABLE_WRITE 7
          [1; 2; 3; 4; 5; 6; 7; 8; 9; 0xABCD] fresh_chip
        = (Ok [1; 2; 3; 4; 5; 6; 7; 8; 9; 0xABCD], st1) /\
        table_access (fun _ => 10) RTL8365MB_TABLE_L2 RTL8365MB_TABLE_READ 7
          [0; 0; 0; 0; 0; 0; 0; 0; 0; 0] st1
        = (Ok [1; 2; 3; 4; 5; 6; 7; 8; 9; 0xD], st2)).
Proof.
  split.
  - apply (table_write_read_roundtrip rtl8365mb_table_entry_size RTL8365MB_TABLE_CVLAN 10
             [0x1234; 0x0056; 0x0009] [0; 0; 0] fresh_chip); try reflexivity.
    + discriminate.
    + discriminate.
    + split; discriminate.
    + repeat constructor; discriminate.
  - apply (table_write_read_roundtrip (fun _ => 10) RTL8365MB_TABLE_L2 7
             [1; 2; 3; 4; 5; 6; 7; 8; 9; 0xABCD] [0; 0; 0; 0; 0; 0; 0; 0; 0; 0] fresh_chip);
      try reflexivity.
    + discriminate.
    + discriminate.
    + split; discriminate.
    + repeat constructor; discriminate.
Defined.


(** A link change on port 2 is claimed and raised on line 2. *)
Example irq_link_change_handled :
  fst (rtl8365mb_irq ds11
         (set_reg RTL8365MB_PORT_LINKUP_IND_REG 4
            (set_reg RTL8365MB_INTR_STATUS_REG 1 chip0)))
  = mkIrq IRQ_HANDLED [2] None.
Proof. vm_compute. reflexivity. Qed.

(** The batch of a statistics cycle: fifteen counters, in table order. *)
Example stats_batch_order :
  List.filter (fun i => negb (nth i stats_update_cnt 0 =? 0)) (seq 0 RTL8365MB_MIB_END)
  = [0; 1; 5; 6; 7; 8; 9; 10; 28; 32; 33; 36; 38; 39; 40]%nat.
Proof. vm_compute. reflexivity. Qed.

(** * Properties of the rest of the driver *)

(** ** Single accesses to plain registers *)

Lemma write_plain_ok a v st :
  faults st = [] -> plain a = true ->
  exists st',
    regmap_write a v st = (Ok tt, st')
    /\ faults st' = [] /\ tables st' = tables st
    /\ reg st' a = u16 v
    /\ (forall b, b <> a -> reg st' b = reg st b)
    /\ log st' = log st ++ [Wr a (u16 v)].
Proof.
  intros Hf Hp. rewrite (regmap_write_ok _ _ _ Hf), (chip_store_plain _ _ _ Hp).
  eexists. split; [reflexivity|]. repeat split.
  - exact Hf.
  - rewrite reg_record, reg_set_reg_eq. apply u16_idem.
  - intros b Hb. rewrite reg_record. apply reg_set_reg_ne. congruence.
Qed.

Lemma read_plain_ok a st :
  faults st = [] ->
  exists st',
    regmap_read a st = (Ok (reg st a), st')
    /\ faults st' = [] /\ tables st' = tables st
    /\ (forall b, reg st' b = reg st b)
    /\ log st' = log st ++ [Rd a].
Proof.
  intros Hf. rewrite (regmap_read_ok _ _ Hf). eexists. split; [reflexivity|].
  repeat split. exact Hf.
Qed.

(** ** PHY registers *)

Lemma phy_poll_busy_idle st :
  faults st = [] -> reg st RTL8365MB_INDIRECT_ACCESS_STATUS_REG = 0 ->
  rtl8365mb_phy_poll_busy st
  = (Ok 0, record (Rd RTL8365MB_INDIRECT_ACCESS_STATUS_REG) st).
Proof.
  intros Hf H0. unfold rtl8365mb_phy_poll_busy.
  rewrite poll_first by (try assumption; now rewrite H0). now rewrite H0.
Qed.

Lemma phy_ocp_prepare_ok phy ocp_addr st :
  faults st = [] ->
  exists st',
    rtl8365mb_phy_ocp_prepare phy ocp_addr st = (Ok tt, st')
    /\ faults st' = [] /\ tables st' = tables st
    /\ reg st' RTL8365MB_GPHY_OCP_MSB_0_REG
       = u16 (Z.lor (Z.land (reg st RTL8365MB_GPHY_OCP_MSB_0_REG)
                            (Z.lnot RTL8365MB_GPHY_OCP_MSB_0_CFG_CPU_OCPADR_MASK))
                    (Z.land (FIELD_PREP RTL8365MB_GPHY_OCP_MSB_0_CFG_CPU_OCPADR_MASK
                               (FIELD_GET RTL8365MB_PHY_OCP_ADDR_PREFIX_MASK ocp_addr))
                            RTL8365MB_GPHY_OCP_MSB_0_CFG_CPU_OCPADR_MASK))
    /\ reg st' RTL8365MB_INDIRECT_ACCESS_ADDRESS_REG = u16 (phy_ocp_address_word phy ocp_addr)
    /\ (forall b, b <> RTL8365MB_GPHY_OCP_MSB_0_REG ->
                  b <> RTL8365MB_INDIRECT_ACCESS_ADDRESS_REG -> reg st' b = reg st b)
    /\ log st' = log st
         ++ [Upd RTL8365MB_GPHY_OCP_MSB_0_REG RTL8365MB_GPHY_OCP_MSB_0_CFG_CPU_OCPADR_MASK
               (FIELD_PREP RTL8365MB_GPHY_OCP_MSB_0_CFG_CPU_OCPADR_MASK
                  (FIELD_GET RTL8365MB_PHY_OCP_ADDR_PREFIX_MASK ocp_addr));
             Wr RTL8365MB_INDIRECT_ACCESS_ADDRESS_REG (u16 (phy_ocp_address_word phy ocp_addr))].
Proof.
  intros Hf. unfold rtl8365mb_phy_ocp_prepare. cbv zeta. fold (phy_ocp_address_word phy ocp_addr).
  destruct (update_plain_ok RTL8365MB_GPHY_OCP_MSB_0_REG
              RTL8365MB_GPHY_OCP_MSB_0_CFG_CPU_OCPADR_MASK
              (FIELD_PREP RTL8365MB_GPHY_OCP_MSB_0_CFG_CPU_OCPADR_MASK
                 (FIELD_GET RTL8365MB_PHY_OCP_ADDR_PREFIX_MASK ocp_addr)) st Hf eq_refl)
    as (s1 & E1 & Hf1 & Ht1 & Hr1 & Ho1 & Hl1).
  destruct (write_plain_ok RTL8365MB_INDIRECT_ACCESS_ADDRESS_REG
              (phy_ocp_address_word phy ocp_addr) s1 Hf1 eq_refl)
    as (s2 & E2 & Hf2 & Ht2 & Hr2 & Ho2 & Hl2).
  unfold bind. rewrite E1, E2. exists s2. split; [reflexivity|].
  split; [exact Hf2|]. split; [congruence|]. split.
  - rewrite Ho2 by discriminate. exact Hr1.
  - split; [exact Hr2|]. split.
    + intros b H1 H2. rewrite Ho2, Ho1 by congruence. reflexivity.
    + rewrite Hl2, Hl1, <- app_assoc. reflexivity.
Qed.

(** The address word and the prefix field, decoded. *)
Lemma phy_ocp_word_fields phy ocp_addr :
  0 <= phy <= 7 -> 0 <= ocp_addr ->
  let a := u16 (phy_ocp_address_word phy ocp_addr) in
  FIELD_GET RTL8365MB_INDIRECT_ACCESS_ADDRESS_PHYNUM_MASK a = phy
  /\ FIELD_GET RTL8365MB_INDIRECT_ACCESS_ADDRESS_OCPADR_5_1_MASK a
     = Z.land (Z.shiftr ocp_addr 1) (Z.ones 5)
  /\ FIELD_GET RTL8365MB_INDIRECT_ACCESS_ADDRESS_OCPADR_9_6_MASK a
     = Z.land (Z.shiftr ocp_addr 6) (Z.ones 4)
  /\ Z.land a RTL8365MB_PHY_BASE = RTL8365MB_PHY_BASE.
Proof.
  intros Hphy Hocp a. subst a. unfold phy_ocp_address_word, FIELD_GET, FIELD_PREP.
  change (bf_shf RTL8365MB_INDIRECT_ACCESS_ADDRESS_PHYNUM_MASK) with 5.
  change (bf_shf RTL8365MB_INDIRECT_ACCESS_ADDRESS_OCPADR_5_1_MASK) with 0.
  change (bf_shf RTL8365MB_INDIRECT_ACCESS_ADDRESS_OCPADR_9_6_MASK) with 8.
  change RTL8365MB_INDIRECT_ACCESS_ADDRESS_PHYNUM_MASK with (Z.shiftl (Z.ones 3) 5).
  change RTL8365MB_INDIRECT_ACCESS_ADDRESS_OCPADR_5_1_MASK with (Z.ones 5).
  change RTL8365MB_INDIRECT_ACCESS_ADDRESS_OCPADR_9_6_MASK with (Z.shiftl (Z.ones 4) 8).
  change RTL8365MB_PHY_BASE with (Z.shiftl (Z.ones 1) 13).
  unfold u16.
  assert (Hpb : forall i, 3 <= i -> Z.testbit phy i = false)
    by (intros; apply (testbit_small phy 3); lia).
  repeat split; Z.bitblast.
  all: try (rewrite Hpb by lia); try reflexivity.
  all: try (rewrite ?andb_false_r, ?orb_false_r, ?andb_true_r, ?orb_false_l; reflexivity).
Qed.

Lemma phy_ocp_prefix_field ocp_addr old :
  0 <= ocp_addr < 2 ^ 16 ->
  FIELD_GET RTL8365MB_GPHY_OCP_MSB_0_CFG_CPU_OCPADR_MASK
    (u16 (Z.lor (Z.land old (Z.lnot RTL8365MB_GPHY_OCP_MSB_0_CFG_CPU_OCPADR_MASK))
                (Z.land (FIELD_PREP RTL8365MB_GPHY_OCP_MSB_0_CFG_CPU_OCPADR_MASK
                           (FIELD_GET RTL8365MB_PHY_OCP_ADDR_PREFIX_MASK ocp_addr))
                        RTL8365MB_GPHY_OCP_MSB_0_CFG_CPU_OCPADR_MASK)))
  = Z.shiftr ocp_addr 10.
Proof.
  intros Hocp. unfold FIELD_GET at 1. unfold FIELD_PREP.
  change (bf_shf RTL8365MB_GPHY_OCP_MSB_0_CFG_CPU_OCPADR_MASK) with 6.
  change RTL8365MB_GPHY_OCP_MSB_0_CFG_CPU_OCPADR_MASK with (Z.shiftl (Z.ones 6) 6).
  rewrite <- Z.land_assoc, Z.land_diag.
  rewrite field_set_get by lia.
  unfold FIELD_GET.
  change (bf_shf RTL8365MB_PHY_OCP_ADDR_PREFIX_MASK) with 10.
  change RTL8365MB_PHY_OCP_ADDR_PREFIX_MASK with (Z.shiftl (Z.ones 6) 10).
  assert (Hob : forall i, 16 <= i -> Z.testbit ocp_addr i = false)
    by (intros; apply (testbit_small ocp_addr 16); lia).
  Z.bitblast. rewrite Hob by lia. reflexivity.
Qed.

Lemma phy_ocp_address_split ocp_addr :
  0 <= ocp_addr < 2 ^ 16 ->
  Z.lor (Z.shiftl (Z.shiftr ocp_addr 10) 10)
        (Z.lor (Z.shiftl (Z.land (Z.shiftr ocp_addr 6) (Z.ones 4)) 6)
               (Z.shiftl (Z.land (Z.shiftr ocp_addr 1) (Z.ones 5)) 1))
  = Z.land ocp_addr 0xFFFE.
Proof.
  intros Hocp. change 0xFFFE with (Z.shiftl (Z.ones 15) 1).
  assert (Hob : forall i, 16 <= i -> Z.testbit ocp_addr i = false)
    by (intros; apply (testbit_small ocp_addr 16); lia).
  Z.bitblast.
  all: try (rewrite Hob by lia); try reflexivity.
Qed.

(** ** Every access moves a run forward *)

Lemma progress_chip_store a v st : progress_of (chip_store a v st) = progress_of st.
Proof. unfold progress_of. now rewrite faults_chip_store, log_chip_store. Qed.

Lemma progress_next_fault st :
  progress_of st <= progress_of (snd (next_fault st))
  /\ (fst (next_fault st) <> 0 -> progress_of st < progress_of (snd (next_fault st))).
Proof.
  unfold next_fault, progress_of. destruct st as [r t f l]. destruct f as [|e f]; simpl.
  - split; [lia|]. intros H. now contradiction H.
  - split; [lia|]. intros _. lia.
Qed.

Lemma progress_record e st : progress_of (record e st) = progress_of st + 1.
Proof. unfold progress_of, record; simpl. rewrite length_app; simpl. lia. Qed.

Lemma grows1_read a : grows1 (regmap_read a).
Proof.
  intros st. unfold regmap_read. pose proof (progress_next_fault st) as [H1 H2].
  destruct (next_fault st) as [f st1]. simpl in *.
  destruct (Z.eqb_spec f 0); simpl.
  - rewrite progress_record. lia.
  - auto.
Qed.

Lemma grows1_write a v : grows1 (regmap_write a v).
Proof.
  intros st. unfold regmap_write. pose proof (progress_next_fault st) as [H1 H2].
  destruct (next_fault st) as [f st1]. simpl in *.
  destruct (Z.eqb_spec f 0); simpl.
  - rewrite progress_record, progress_chip_store. lia.
  - auto.
Qed.

Lemma grows1_update a m v : grows1 (regmap_update_bits a m v).
Proof.
  intros st. unfold regmap_update_bits. pose proof (progress_next_fault st) as [H1 H2].
  destruct (next_fault st) as [f st1]. simpl in *.
  destruct (Z.eqb_spec f 0); simpl.
  - rewrite progress_record, progress_chip_store. lia.
  - auto.
Qed.

Lemma grows1_grows {A} (m : bus A) : grows1 m -> grows m.
Proof. intros H st. specialize (H st). lia. Qed.

Lemma grows_ret {A} (a : A) : grows (ret a).
Proof. intros st. simpl. lia. Qed.

Lemma grows_fail {A} e : grows (@fail A e).
Proof. intros st. simpl. lia. Qed.

Lemma grows_bind {A B} (m : bus A) (k : A -> bus B) :
  grows m -> (forall a, grows (k a)) -> grows (bind m k).
Proof.
  intros Hm Hk st. unfold bind. specialize (Hm st).
  destruct (m st) as [[a|e] st1]; simpl in *; [|exact Hm].
  specialize (Hk a st1). lia.
Qed.

Lemma grows1_bind {A B} (m : bus A) (k : A -> bus B) :
  grows1 m -> (forall a, grows (k a)) -> grows1 (bind m k).
Proof.
  intros Hm Hk st. unfold bind. specialize (Hm st).
  destruct (m st) as [[a|e] st1]; simpl in *; [|exact Hm].
  specialize (Hk a st1). lia.
Qed.

Lemma grows1_poll_loop n : forall a cond, grows1 (poll_loop n a cond).
Proof.
  induction n as [|n IH]; intros a cond; simpl.
  - apply grows1_bind; [apply grows1_read|]. intros v. destruct (cond v).
    + apply grows_ret.
    + apply grows_bind; [apply grows1_grows, grows1_read|].
      intros v'. destruct (cond v'); [apply grows_ret | apply grows_fail].
  - apply grows1_bind; [apply grows1_read|]. intros v. destruct (cond v).
    + apply grows_ret.
    + apply grows1_grows, IH.
Qed.

Lemma grows_phy_ocp_prepare phy ocp_addr : grows (rtl8365mb_phy_ocp_prepare phy ocp_addr).
Proof.
  unfold rtl8365mb_phy_ocp_prepare. cbv zeta.
  apply grows_bind; [apply grows1_grows, grows1_update|].
  intros _. apply grows1_grows, grows1_write.
Qed.

Lemma grows1_phy_ocp_read_locked phy ocp_addr : grows1 (phy_ocp_read_locked phy ocp_addr).
Proof.
  unfold phy_ocp_read_locked, rtl8365mb_phy_poll_busy, regmap_read_poll_timeout.
  apply grows1_bind; [apply grows1_poll_loop|]. intros _.
  apply grows_bind; [apply grows_phy_ocp_prepare|]. intros _.
  apply grows_bind; [apply grows1_grows, grows1_write|]. intros _.
  apply grows_bind; [apply grows1_grows, grows1_poll_loop|]. intros _.
  apply grows_bind; [apply grows1_grows, grows1_read|]. intros v. apply grows_ret.
Qed.

Lemma grows1_phy_ocp_write_locked phy ocp_addr data :
  grows1 (phy_ocp_write_locked phy ocp_addr data).
Proof.
  unfold phy_ocp_write_locked, rtl8365mb_phy_poll_busy, regmap_read_poll_timeout.
  apply grows1_bind; [apply grows1_poll_loop|]. intros _.
  apply grows_bind; [apply grows_phy_ocp_prepare|]. intros _.
  apply grows_bind; [apply grows1_grows, grows1_write|]. intros _.
  apply grows_bind; [apply grows1_grows, grows1_write|]. intros _.
  apply grows_bind; [apply grows1_grows, grows1_poll_loop|]. intros v. apply grows_ret.
Qed.

(** A stuck poll reads the register [tries + 2] times and gives up. *)
Lemma poll_loop_stuck_reads n : forall a cond st,
  faults st = [] -> cond (reg st a) = false ->
  poll_loop n a cond st
  = (Err (- ETIMEDOUT),
     mkChip (regs st) (tables st) [] (log st ++ replicate (n + 2) (Rd a))).
Proof.
  induction n as [|n IH]; intros a cond st Hf Hc; simpl; unfold bind.
  - rewrite (regmap_read_ok _ _ Hf), Hc.
    rewrite regmap_read_ok by no_faults. rewrite reg_record, Hc. unfold fail.
    destruct st as [r t f l]; simpl in *; subst f.
    unfold record; simpl. rewrite <- ?app_assoc. reflexivity.
  - rewrite (regmap_read_ok _ _ Hf), Hc.
    rewrite IH; [|no_faults|now rewrite reg_record].
    simpl. rewrite <- ?app_assoc. reflexivity.
Qed.

(** ** PHY register access *)

Lemma phy_ocp_target_congr st st' :
  reg st' RTL8365MB_INDIRECT_ACCESS_ADDRESS_REG = reg st RTL8365MB_INDIRECT_ACCESS_ADDRESS_REG ->
  reg st' RTL8365MB_GPHY_OCP_MSB_0_REG = reg st RTL8365MB_GPHY_OCP_MSB_0_REG ->
  phy_ocp_target st' = phy_ocp_target st.
Proof. intros H1 H2. unfold phy_ocp_target. now rewrite H1, H2. Qed.

Lemma phy_ocp_prepare_target phy ocp_addr st :
  faults st = [] -> 0 <= phy <= 7 -> 0 <= ocp_addr < 2 ^ 16 ->
  exists st',
    rtl8365mb_phy_ocp_prepare phy ocp_addr st = (Ok tt, st')
    /\ faults st' = []
    /\ phy_ocp_target st' = (phy, Z.land ocp_addr 0xFFFE)
    /\ Z.land (reg st' RTL8365MB_INDIRECT_ACCESS_ADDRESS_REG) RTL8365MB_PHY_BASE
       = RTL8365MB_PHY_BASE
    /\ (forall b, b <> RTL8365MB_GPHY_OCP_MSB_0_REG ->
                  b <> RTL8365MB_INDIRECT_ACCESS_ADDRESS_REG -> reg st' b = reg st b)
    /\ log st' = log st
         ++ [Upd RTL8365MB_GPHY_OCP_MSB_0_REG RTL8365MB_GPHY_OCP_MSB_0_CFG_CPU_OCPADR_MASK
               (FIELD_PREP RTL8365MB_GPHY_OCP_MSB_0_CFG_CPU_OCPADR_MASK
                  (FIELD_GET RTL8365MB_PHY_OCP_ADDR_PREFIX_MASK ocp_addr));
             Wr RTL8365MB_INDIRECT_ACCESS_ADDRESS_REG (u16 (phy_ocp_address_word phy ocp_addr))].
Proof.
  intros Hf Hphy Hocp.
  destruct (phy_ocp_prepare_ok phy ocp_addr st Hf) as (st' & E & Hf' & _ & Hm & Ha & Ho & Hl).
  exists st'. split; [exact E|]. split; [exact Hf'|].
  destruct (phy_ocp_word_fields phy ocp_addr Hphy (proj1 Hocp)) as (F1 & F2 & F3 & F4).
  split; [|split; [|split; [exact Ho | exact Hl]]].
  - unfold phy_ocp_target. rewrite Ha, Hm, F1, F2, F3.
    rewrite phy_ocp_prefix_field by exact Hocp.
    rewrite phy_ocp_address_split by exact Hocp. reflexivity.
  - rewrite Ha. exact F4.
Qed.

(** X1: programming the indirect-access window for PHY [phy] (0 to 7) and
    a 16-bit OCP address succeeds on a transport without failures, and the
    two address registers then select exactly that PHY and that address
    with its lowest bit dropped; the window bit of the address word is
    set, and no other register changes. *)
Theorem phy_ocp_prepare_selects (phy ocp_addr : Z) (st : chip) :
  faults st = [] -> 0 <= phy <= RTL8365MB_PHYADDRMAX -> 0 <= ocp_addr < 2 ^ 16 ->
  exists st',
    rtl8365mb_phy_ocp_prepare phy ocp_addr st = (Ok tt, st')
    /\ phy_ocp_target st' = (phy, Z.land ocp_addr 0xFFFE)
    /\ Z.land (reg st' RTL8365MB_INDIRECT_ACCESS_ADDRESS_REG) RTL8365MB_PHY_BASE
       = RTL8365MB_PHY_BASE
    /\ (forall b, b <> RTL8365MB_GPHY_OCP_MSB_0_REG ->
                  b <> RTL8365MB_INDIRECT_ACCESS_ADDRESS_REG -> reg st' b = reg st b).
Proof.
  intros Hf Hphy Hocp.
  destruct (phy_ocp_prepare_target phy ocp_addr st Hf Hphy Hocp)
    as (st' & E & _ & T & B & O & _).
  exists st'. auto.
Qed.

Lemma phy_ocp_prepare_selects_witness :
  exists st',
    rtl8365mb_phy_ocp_prepare 3 0xA411 chip0 = (Ok tt, st')
    /\ phy_ocp_target st' = (3, 0xA410).
Proof.
  destruct (phy_ocp_prepare_selects 3 0xA411 chip0) as (st' & E & T & _).
  - reflexivity.
  - unfold RTL8365MB_PHYADDRMAX. lia.
  - lia.
  - exists st'. split; [exact E | exact T].
Defined.

Lemma phyreg_ocp_addr regnum :
  0 <= regnum <= 31 ->
  u32 (RTL8365MB_PHY_OCP_ADDR_PHYREG_BASE + regnum * 2)
  = RTL8365MB_PHY_OCP_ADDR_PHYREG_BASE + 2 * regnum
  /\ 0 <= RTL8365MB_PHY_OCP_ADDR_PHYREG_BASE + 2 * regnum < 2 ^ 16
  /\ Z.land (RTL8365MB_PHY_OCP_ADDR_PHYREG_BASE + 2 * regnum) 0xFFFE
     = RTL8365MB_PHY_OCP_ADDR_PHYREG_BASE + 2 * regnum.
Proof.
  intros H. unfold RTL8365MB_PHY_OCP_ADDR_PHYREG_BASE, u32.
  change (2 ^ 32) with 4294967296. change (2 ^ 16) with 65536.
  rewrite Z.mod_small by lia. split; [lia|]. split; [lia|].
  change 0xFFFE with (Z.shiftl (Z.ones 15) 1).
  assert (Hb : forall i, 16 <= i -> Z.testbit (0xA400 + 2 * regnum) i = false)
    by (intros; apply (testbit_small _ 16); [change (2 ^ 16) with 65536|]; lia).
  assert (H0 : Z.testbit (0xA400 + 2 * regnum) 0 = false).
  { replace (0xA400 + 2 * regnum) with (2 * (0x5200 + regnum)) by lia.
    apply Z.testbit_even_0. }
  Z.bitblast.
  - assert (i = 0) by lia. subst i. rewrite H0. reflexivity.
  - rewrite Hb by lia. reflexivity.
Qed.

(** X2: on a transport without failures and with the indirect-access
    engine idle, reading register [regnum] (0 to 31) of PHY [phy] (0 to 7)
    returns the 16 bits of the read-data register, after six accesses:
    the status poll, the two address registers, the read command, the
    status poll, the data.  The address registers are left selecting that
    PHY and the OCP address 0xA400 + 2 * regnum. *)
Theorem phy_read_idle (phy regnum : Z) (st : chip) :
  faults st = [] -> reg st RTL8365MB_INDIRECT_ACCESS_STATUS_REG = 0 ->
  0 <= phy <= RTL8365MB_PHYADDRMAX -> 0 <= regnum <= RTL8365MB_PHYREGMAX ->
  exists st',
    rtl8365mb_phy_read phy regnum st
    = (reg st RTL8365MB_INDIRECT_ACCESS_READ_DATA_REG, st')
    /\ phy_ocp_target st' = (phy, RTL8365MB_PHY_OCP_ADDR_PHYREG_BASE + 2 * regnum)
    /\ reg st' RTL8365MB_INDIRECT_ACCESS_CTRL_REG = 1
    /\ map is_read (delta st st') = [true; false; false; false; true; true]
    /\ (forall b, b <> RTL8365MB_GPHY_OCP_MSB_0_REG ->
                  b <> RTL8365MB_INDIRECT_ACCESS_ADDRESS_REG ->
                  b <> RTL8365MB_INDIRECT_ACCESS_CTRL_REG -> reg st' b = reg st b).
Proof.
  intros Hf Hidle Hphy Hreg.
  unfold RTL8365MB_PHYADDRMAX in Hphy.
  unfold RTL8365MB_PHYREGMAX, RTL8365MB_NUM_PHYREGS in Hreg.
  destruct (phyreg_ocp_addr regnum ltac:(lia)) as (Eocp & Hocp & Hland).
  unfold rtl8365mb_phy_read.
  destruct (Z.gtb_spec phy RTL8365MB_PHYADDRMAX) as [H|_];
    [unfold RTL8365MB_PHYADDRMAX in H; lia|].
  destruct (Z.gtb_spec regnum RTL8365MB_PHYREGMAX) as [H|_];
    [unfold RTL8365MB_PHYREGMAX, RTL8365MB_NUM_PHYREGS in H; lia|].
  cbv zeta. rewrite Eocp.
  set (ocp := RTL8365MB_PHY_OCP_ADDR_PHYREG_BASE + 2 * regnum) in *.
  unfold rtl8365mb_phy_ocp_read, phy_ocp_read_locked.
  unfold bind at 1. rewrite (phy_poll_busy_idle st Hf Hidle).
  set (s1 := record (Rd RTL8365MB_INDIRECT_ACCESS_STATUS_REG) st).
  destruct (phy_ocp_prepare_target phy ocp s1) as (s2 & E2 & Hf2 & T2 & _ & O2 & L2);
    [exact Hf | lia | exact Hocp |].
  unfold bind at 1. rewrite E2.
  change (Z.lor (FIELD_PREP RTL8365MB_INDIRECT_ACCESS_CTRL_CMD_MASK
                   RTL8365MB_INDIRECT_ACCESS_CTRL_CMD_VALUE)
                (FIELD_PREP RTL8365MB_INDIRECT_ACCESS_CTRL_RW_MASK
                   RTL8365MB_INDIRECT_ACCESS_CTRL_RW_READ)) with 1.
  destruct (write_plain_ok RTL8365MB_INDIRECT_ACCESS_CTRL_REG 1 s2 Hf2 eq_refl)
    as (s3 & E3 & Hf3 & _ & R3 & O3 & L3).
  unfold bind at 1. rewrite E3.
  assert (Hidle3 : reg s3 RTL8365MB_INDIRECT_ACCESS_STATUS_REG = 0).
  { rewrite O3, O2 by discriminate. exact Hidle. }
  unfold bind at 1. rewrite (phy_poll_busy_idle s3 Hf3 Hidle3).
  unfold bind at 1. rewrite regmap_read_ok by exact Hf3.
  unfold ret. cbv iota beta. rewrite reg_record.
  change (0 =? 0) with true. cbv [negb]. cbv iota.
  rewrite O3, O2 by discriminate. unfold s1 at 1. rewrite reg_record.
  change 0xFFFF with (Z.ones 16).
  rewrite land_ones_small by (try lia; apply reg_range).
  eexists. split; [reflexivity|].
  split; [|split; [|split]].
  - rewrite <- Hland, <- T2. apply phy_ocp_target_congr; rewrite !reg_record; apply O3; discriminate.
  - rewrite !reg_record. exact R3.
  - unfold delta, record; simpl. rewrite L3, L2. unfold s1, record; simpl.
    rewrite <- !app_assoc. rewrite drop_app_length. reflexivity.
  - intros b H1 H2 H3. rewrite !reg_record, O3, O2 by assumption. reflexivity.
Qed.

Lemma phy_read_idle_witness :
  exists st',
    rtl8365mb_phy_read 3 2 phy_chip = (0x1140, st')
    /\ phy_ocp_target st' = (3, 0xA404).
Proof.
  destruct (phy_read_idle 3 2 phy_chip) as (st' & E & T & _).
  - reflexivity.
  - reflexivity.
  - unfold RTL8365MB_PHYADDRMAX. lia.
  - unfold RTL8365MB_PHYREGMAX, RTL8365MB_NUM_PHYREGS. lia.
  - exists st'. split; [exact E | exact T].
Defined.

(** X3: on a transport without failures and with the indirect-access
    engine idle, writing [val] to register [regnum] (0 to 31) of PHY [phy]
    (0 to 7) leaves the address registers selecting that PHY and the OCP
    address 0xA400 + 2 * regnum, the write-data register holding the 16
    bits of [val] and the control register holding the write command, after
    six accesses of which the first and the last are status polls. *)
Theorem phy_write_idle (phy regnum val : Z) (st : chip) :
  faults st = [] -> reg st RTL8365MB_INDIRECT_ACCESS_STATUS_REG = 0 ->
  0 <= phy <= RTL8365MB_PHYADDRMAX -> 0 <= regnum <= RTL8365MB_PHYREGMAX ->
  exists st',
    rtl8365mb_phy_write phy regnum val st = (0, st')
    /\ phy_ocp_target st' = (phy, RTL8365MB_PHY_OCP_ADDR_PHYREG_BASE + 2 * regnum)
    /\ reg st' RTL8365MB_INDIRECT_ACCESS_WRITE_DATA_REG = u16 val
    /\ reg st' RTL8365MB_INDIRECT_ACCESS_CTRL_REG = 3
    /\ map is_read (delta st st') = [true; false; false; false; false; true]
    /\ (forall b, b <> RTL8365MB_GPHY_OCP_MSB_0_REG ->
                  b <> RTL8365MB_INDIRECT_ACCESS_ADDRESS_REG ->
                  b <> RTL8365MB_INDIRECT_ACCESS_WRITE_DATA_REG ->
                  b <> RTL8365MB_INDIRECT_ACCESS_CTRL_REG -> reg st' b = reg st b).
Proof.
  intros Hf Hidle Hphy Hreg.
  unfold RTL8365MB_PHYADDRMAX in Hphy.
  unfold RTL8365MB_PHYREGMAX, RTL8365MB_NUM_PHYREGS in Hreg.
  destruct (phyreg_ocp_addr regnum ltac:(lia)) as (Eocp & Hocp & Hland).
  unfold rtl8365mb_phy_write.
  destruct (Z.gtb_spec phy RTL8365MB_PHYADDRMAX) as [H|_];
    [unfold RTL8365MB_PHYADDRMAX in H; lia|].
  destruct (Z.gtb_spec regnum RTL8365MB_PHYREGMAX) as [H|_];
    [unfold RTL8365MB_PHYREGMAX, RTL8365MB_NUM_PHYREGS in H; lia|].
  cbv zeta. rewrite Eocp.
  set (ocp := RTL8365MB_PHY_OCP_ADDR_PHYREG_BASE + 2 * regnum) in *.
  unfold rtl8365mb_phy_ocp_write, phy_ocp_write_locked.
  unfold bind at 1. rewrite (phy_poll_busy_idle st Hf Hidle).
  set (s1 := record (Rd RTL8365MB_INDIRECT_ACCESS_STATUS_REG) st).
  destruct (phy_ocp_prepare_target phy ocp s1) as (s2 & E2 & Hf2 & T2 & _ & O2 & L2);
    [exact Hf | lia | exact Hocp |].
  unfold bind at 1. rewrite E2.
  destruct (write_plain_ok RTL8365MB_INDIRECT_ACCESS_WRITE_DATA_REG val s2 Hf2 eq_refl)
    as (s3 & E3 & Hf3 & _ & R3 & O3 & L3).
  unfold bind at 1. rewrite E3.
  change (Z.lor (FIELD_PREP RTL8365MB_INDIRECT_ACCESS_CTRL_CMD_MASK
                   RTL8365MB_INDIRECT_ACCESS_CTRL_CMD_VALUE)
                (FIELD_PREP RTL8365MB_INDIRECT_ACCESS_CTRL_RW_MASK
                   RTL8365MB_INDIRECT_ACCESS_CTRL_RW_WRITE)) with 3.
  destruct (write_plain_ok RTL8365MB_INDIRECT_ACCESS_CTRL_REG 3 s3 Hf3 eq_refl)
    as (s4 & E4 & Hf4 & _ & R4 & O4 & L4).
  unfold bind at 1. rewrite E4.
  assert (Hidle4 : reg s4 RTL8365MB_INDIRECT_ACCESS_STATUS_REG = 0).
  { rewrite O4, O3, O2 by discriminate. exact Hidle. }
  unfold bind at 1. rewrite (phy_poll_busy_idle s4 Hf4 Hidle4).
  unfold ret. cbv iota beta.
  change (0 =? 0) with true. cbv [negb]. cbv iota.
  eexists. split; [reflexivity|].
  split; [|split; [|split; [|split]]].
  - rewrite <- Hland, <- T2.
    apply phy_ocp_target_congr; rewrite !reg_record, O4, O3 by discriminate; reflexivity.
  - rewrite reg_record, O4 by discriminate. exact R3.
  - rewrite reg_record. exact R4.
  - unfold delta, record; simpl. rewrite L4, L3, L2. unfold s1, record; simpl.
    rewrite <- !app_assoc. rewrite drop_app_length. reflexivity.
  - intros b H1 H2 H3 H4. rewrite !reg_record, O4, O3, O2 by assumption. reflexivity.
Qed.

Lemma phy_write_idle_witness :
  exists st',
    rtl8365mb_phy_write 3 2 0x1200 phy_chip = (0, st')
    /\ phy_ocp_target st' = (3, 0xA404)
    /\ reg st' RTL8365MB_INDIRECT_ACCESS_WRITE_DATA_REG = 0x1200.
Proof.
  destruct (phy_write_idle 3 2 0x1200 phy_chip) as (st' & E & T & W & _).
  - reflexivity.
  - reflexivity.
  - unfold RTL8365MB_PHYADDRMAX. lia.
  - unfold RTL8365MB_PHYREGMAX, RTL8365MB_NUM_PHYREGS. lia.
  - exists st'. split; [exact E|]. split; [exact T | exact W].
Defined.

(** X4: a PHY register read is refused with -EINVAL and without any
    access to the chip exactly when the PHY number is above 7 or the
    register number above 31; so is a write. *)
Theorem phy_access_bounds (phy regnum val : Z) (st : chip) :
  (rtl8365mb_phy_read phy regnum st = (- EINVAL, st)
   <-> phy > RTL8365MB_PHYADDRMAX \/ regnum > RTL8365MB_PHYREGMAX)
  /\ (rtl8365mb_phy_write phy regnum val st = (- EINVAL, st)
      <-> phy > RTL8365MB_PHYADDRMAX \/ regnum > RTL8365MB_PHYREGMAX).
Proof.
  unfold rtl8365mb_phy_read, rtl8365mb_phy_write.
  destruct (Z.gtb_spec phy RTL8365MB_PHYADDRMAX) as [H1|H1].
  { split; (split; [intros _; left; lia | reflexivity]). }
  destruct (Z.gtb_spec regnum RTL8365MB_PHYREGMAX) as [H2|H2].
  { split; (split; [intros _; right; lia | reflexivity]). }
  cbv zeta. split; (split; [|intros [H|H]; lia]).
  - unfold rtl8365mb_phy_ocp_read.
    pose proof (grows1_phy_ocp_read_locked phy
                  (u32 (RTL8365MB_PHY_OCP_ADDR_PHYREG_BASE + regnum * 2)) st) as Hg.
    destruct (phy_ocp_read_locked _ _ st) as [[d|e] st']; simpl in Hg |- *.
    + intros [= _ <-]. lia.
    + destruct (negb (e =? 0)); intros [= _ <-]; lia.
  - unfold rtl8365mb_phy_ocp_write.
    destruct (phy_ocp_write_locked _ _ _ st) as [r st']. simpl. discriminate.
Qed.

(** X5: while the indirect-access engine stays busy, a PHY register read
    gives up with -ETIMEDOUT; until then it only reads the status
    register, and nothing is written to the chip. *)
Theorem phy_read_busy_times_out (phy regnum : Z) (st : chip) :
  faults st = [] -> reg st RTL8365MB_INDIRECT_ACCESS_STATUS_REG <> 0 ->
  phy <= RTL8365MB_PHYADDRMAX -> regnum <= RTL8365MB_PHYREGMAX ->
  exists st',
    rtl8365mb_phy_read phy regnum st = (- ETIMEDOUT, st')
    /\ regs st' = regs st
    /\ (forall e, In e (delta st st') -> e = Rd RTL8365MB_INDIRECT_ACCESS_STATUS_REG).
Proof.
  intros Hf Hbusy Hphy Hreg. unfold rtl8365mb_phy_read.
  destruct (Z.gtb_spec phy RTL8365MB_PHYADDRMAX) as [H|_]; [lia|].
  destruct (Z.gtb_spec regnum RTL8365MB_PHYREGMAX) as [H|_]; [lia|].
  cbv zeta. unfold rtl8365mb_phy_ocp_read, phy_ocp_read_locked, rtl8365mb_phy_poll_busy,
    regmap_read_poll_timeout.
  unfold bind at 1.
  rewrite poll_loop_stuck_reads by (try assumption; now apply Z.eqb_neq).
  cbv iota beta. change (- ETIMEDOUT =? 0) with false. cbv [negb]. cbv iota.
  eexists. split; [reflexivity|]. split; [reflexivity|].
  unfold delta; simpl. rewrite drop_app_length.
  intros e He. cbn in He.
  repeat (destruct He as [He | He]; [symmetry; exact He|]). contradiction He.
Qed.

Lemma phy_read_busy_times_out_witness :
  fst (rtl8365mb_phy_read 3 2 phy_busy_chip) = - ETIMEDOUT.
Proof.
  destruct (phy_read_busy_times_out 3 2 phy_busy_chip) as (st' & E & _).
  - reflexivity.
  - discriminate.
  - unfold RTL8365MB_PHYADDRMAX. lia.
  - unfold RTL8365MB_PHYREGMAX, RTL8365MB_NUM_PHYREGS. lia.
  - rewrite E. reflexivity.
Defined.

Lemma phy_access_bounds_witness :
  rtl8365mb_phy_read 8 0 chip0 = (- EINVAL, chip0)
  /\ rtl8365mb_phy_write 0 32 0 chip0 = (- EINVAL, chip0).
Proof.
  split.
  - apply (proj1 (phy_access_bounds 8 0 0 chip0)). left. reflexivity.
  - apply (proj2 (phy_access_bounds 0 32 0 chip0)). right. reflexivity.
Defined.

(** ** Port settings *)

Lemma testbit_BIT p q : 0 <= p -> 0 <= q -> Z.testbit (BIT p) q = (q =? p).
Proof.
  intros Hp Hq. unfold BIT. rewrite Z.shiftl_1_l, Z.pow2_bits_eqb by lia.
  apply Z.eqb_sym.
Qed.

Lemma testbit_reg_high st a q : 16 <= q -> Z.testbit (reg st a) q = false.
Proof. intros H. apply (testbit_small _ 16); [apply reg_range | exact H]. Qed.

Lemma update_bit_testbit old p (flag : bool) q :
  0 <= p < 16 -> 0 <= q -> 0 <= old < 2 ^ 16 ->
  Z.testbit (u16 (Z.lor (Z.land old (Z.lnot (BIT p)))
                        (Z.land (if flag then BIT p else 0) (BIT p)))) q
  = if q =? p then flag else Z.testbit old q.
Proof.
  intros Hp Hq Hold. unfold u16.
  rewrite Z.testbit_mod_pow2 by lia.
  rewrite Z.lor_spec, !Z.land_spec, Z.lnot_spec by lia.
  rewrite testbit_BIT by lia.
  destruct (Z.eqb_spec q p) as [-> | Hne].
  - destruct (Z.ltb_spec p 16); [|lia].
    destruct flag; [rewrite testbit_BIT, Z.eqb_refl by lia|rewrite Z.bits_0];
      simpl; rewrite ?andb_false_r; reflexivity.
  - simpl. rewrite andb_true_r, andb_false_r, orb_false_r.
    destruct (Z.ltb_spec q 16); [reflexivity|].
    simpl. symmetry. apply (testbit_small old 16); lia.
Qed.

(** X6: on a transport without failures, switching VLAN ingress filtering
    of a port on or off sets, respectively clears, exactly the bit of that
    port in the ingress filter register: every other bit of the register
    and every other register stay as they were. *)
Theorem vlan_filtering_sets_port_bit (port : Z) (vlan_filtering : bool) (st : chip) :
  faults st = [] -> 0 <= port < 16 ->
  exists st',
    rtl8365mb_vlan_filtering port vlan_filtering st = (Ok tt, st')
    /\ (forall q, 0 <= q ->
          Z.testbit (reg st' RTL8365MB_VLAN_INGRESS_REG) q
          = if q =? port then vlan_filtering
            else Z.testbit (reg st RTL8365MB_VLAN_INGRESS_REG) q)
    /\ (forall b, b <> RTL8365MB_VLAN_INGRESS_REG -> reg st' b = reg st b).
Proof.
  intros Hf Hp. unfold rtl8365mb_vlan_filtering.
  destruct (update_plain_ok RTL8365MB_VLAN_INGRESS_REG (BIT port)
              (if vlan_filtering then BIT port else 0) st Hf eq_refl)
    as (st' & E & _ & _ & R & O & _).
  exists st'. split; [exact E|]. split; [|exact O].
  intros q Hq. rewrite R. apply update_bit_testbit; [lia | lia | apply reg_range].
Qed.

Lemma vlan_filtering_sets_port_bit_witness :
  exists st',
    rtl8365mb_vlan_filtering 5 false ingress_chip = (Ok tt, st')
    /\ Z.testbit (reg st' RTL8365MB_VLAN_INGRESS_REG) 5 = false
    /\ Z.testbit (reg st' RTL8365MB_VLAN_INGRESS_REG) 0 = true.
Proof.
  destruct (vlan_filtering_sets_port_bit 5 false ingress_chip) as (st' & E & B & _).
  - reflexivity.
  - lia.
  - exists st'. split; [exact E|]. split.
    + rewrite (B 5) by lia. reflexivity.
    + rewrite (B 0) by lia. reflexivity.
Defined.

Lemma msti_layout port :
  0 <= port ->
  RTL8365MB_MSTI_CTRL_REG 0 port = 0xA00 + port / 8 /\
  RTL8365MB_MSTI_CTRL_PORT_STATE_OFFSET port = 2 * port /\
  RTL8365MB_MSTI_CTRL_PORT_STATE_MASK port = Z.shiftl (Z.ones 2) (2 * port).
Proof.
  intros Hp.
  assert (Hoff : RTL8365MB_MSTI_CTRL_PORT_STATE_OFFSET port = 2 * port).
  { unfold RTL8365MB_MSTI_CTRL_PORT_STATE_OFFSET. rewrite Z.shiftl_mul_pow2 by lia.
    change (2 ^ 1) with 2. lia. }
  unfold RTL8365MB_MSTI_CTRL_PORT_STATE_MASK, RTL8365MB_MSTI_CTRL_REG,
    RTL8365MB_MSTI_CTRL_BASE. rewrite Hoff.
  rewrite Z.shiftr_div_pow2 by lia. change (Z.shiftl 0 1) with 0.
  change (2 ^ 3) with 8. repeat split.
Qed.

Lemma update_above_16 old off v :
  16 <= off -> 0 <= old < 2 ^ 16 ->
  u16 (Z.lor (Z.land old (Z.lnot (Z.shiftl (Z.ones 2) off)))
             (Z.land v (Z.shiftl (Z.ones 2) off))) = old.
Proof.
  intros Hoff Hold. unfold u16. Z.bitblast.
  all: simpl; symmetry; apply (testbit_small old 16); lia.
Qed.

Lemma stp_state_val_range state v : stp_state_val state = Some v -> 0 <= v < 4.
Proof.
  unfold stp_state_val.
  repeat match goal with |- context [if ?c then _ else _] => destruct c end;
    intros [= <-]; try discriminate; cbv; split; congruence.
Qed.

(** X7: setting the spanning-tree state of a port.  The bridge states map
    to the chip's four states, blocking and listening both to blocking; any
    other state value leaves the chip untouched.  For ports 0 to 7 and a
    transport without failures the port's two-bit field of the state
    register then holds the mapped state, and the fields of the other
    ports and all other registers are unchanged.  For a port from 8 on,
    the field offset 2 * port lies beyond the sixteen bits of the register,
    and no register changes. *)
Theorem stp_state_set_effect (port state : Z) (st : chip) :
  (stp_state_val BR_STATE_DISABLED = Some RTL8365MB_STP_STATE_DISABLED
   /\ stp_state_val BR_STATE_BLOCKING = Some RTL8365MB_STP_STATE_BLOCKING
   /\ stp_state_val BR_STATE_LISTENING = Some RTL8365MB_STP_STATE_BLOCKING
   /\ stp_state_val BR_STATE_LEARNING = Some RTL8365MB_STP_STATE_LEARNING
   /\ stp_state_val BR_STATE_FORWARDING = Some RTL8365MB_STP_STATE_FORWARDING)
  /\ (0 <= state -> (stp_state_val state = None <-> 4 < state))
  /\ (stp_state_val state = None -> rtl8365mb_port_stp_state_set port state st = st)
  /\ (forall v, stp_state_val state = Some v -> faults st = [] -> 0 <= port < 8 ->
        let st' := rtl8365mb_port_stp_state_set port state st in
        stp_state st' port = v
        /\ (forall q, 0 <= q < 8 -> q <> port -> stp_state st' q = stp_state st q)
        /\ (forall b, b <> RTL8365MB_MSTI_CTRL_REG 0 port -> reg st' b = reg st b))
  /\ (faults st = [] -> 8 <= port < 16 ->
        forall b, reg (rtl8365mb_port_stp_state_set port state st) b = reg st b).
Proof.
  split; [repeat split|]. split; [|split; [|split]].
  - intros Hs. unfold stp_state_val, BR_STATE_DISABLED, BR_STATE_BLOCKING,
      BR_STATE_LISTENING, BR_STATE_LEARNING, BR_STATE_FORWARDING.
    destruct (Z.eqb_spec state 0); [split; [discriminate|lia]|].
    destruct (Z.eqb_spec state 4); [split; [discriminate|lia]|].
    destruct (Z.eqb_spec state 1); [split; [discriminate|lia]|].
    destruct (Z.eqb_spec state 2); [split; [discriminate|lia]|].
    destruct (Z.eqb_spec state 3); [split; [discriminate|lia]|].
    simpl. split; [lia|reflexivity].
  - intros H. unfold rtl8365mb_port_stp_state_set. now rewrite H.
  - intros v Hv Hf Hp st'. subst st'. unfold rtl8365mb_port_stp_state_set. rewrite Hv.
    pose proof (stp_state_val_range _ _ Hv) as Hvr.
    destruct (msti_layout port ltac:(lia)) as (Er & Eo & Em).
    assert (Hplain : plain (RTL8365MB_MSTI_CTRL_REG 0 port) = true).
    { rewrite Er. apply plain_spec; assert (port / 8 = 0) by (apply Z.div_small; lia); lia. }
    destruct (update_plain_ok (RTL8365MB_MSTI_CTRL_REG 0 port)
                (RTL8365MB_MSTI_CTRL_PORT_STATE_MASK port)
                (Z.shiftl v (RTL8365MB_MSTI_CTRL_PORT_STATE_OFFSET port)) st Hf Hplain)
      as (st' & E & _ & _ & R & O & _).
    rewrite E. cbn [snd].
    assert (Hsame : forall q, 0 <= q < 8 ->
              RTL8365MB_MSTI_CTRL_REG 0 q = RTL8365MB_MSTI_CTRL_REG 0 port).
    { intros q Hq. destruct (msti_layout q ltac:(lia)) as (-> & _). rewrite Er.
      rewrite !Z.div_small by lia. reflexivity. }
    split; [|split; [|exact O]].
    + unfold stp_state. rewrite R, Em, Eo.
      rewrite field_set_get by lia. apply land_ones_small; [lia|]. exact Hvr.
    + intros q Hq Hne. unfold stp_state. rewrite (Hsame q Hq), R.
      destruct (msti_layout q ltac:(lia)) as (_ & -> & ->). rewrite Em, Eo.
      apply field_set_get_other; try lia. apply reg_range.
  - intros Hf Hp b. unfold rtl8365mb_port_stp_state_set.
    destruct (stp_state_val state) as [v|]; [|reflexivity].
    destruct (msti_layout port ltac:(lia)) as (Er & Eo & Em).
    assert (Hplain : plain (RTL8365MB_MSTI_CTRL_REG 0 port) = true).
    { rewrite Er. apply plain_spec; assert (port / 8 = 1)
        by (symmetry; apply (Z.div_unique port 8 1 (port - 8)); lia); lia. }
    destruct (update_plain_ok (RTL8365MB_MSTI_CTRL_REG 0 port)
                (RTL8365MB_MSTI_CTRL_PORT_STATE_MASK port)
                (Z.shiftl v (RTL8365MB_MSTI_CTRL_PORT_STATE_OFFSET port)) st Hf Hplain)
      as (st' & E & _ & _ & R & O & _).
    rewrite E. cbn [snd].
    destruct (Z.eq_dec b (RTL8365MB_MSTI_CTRL_REG 0 port)) as [-> | Hne]; [|now apply O].
    rewrite R, Em. apply update_above_16; [lia | apply reg_range].
Qed.

Lemma stp_state_set_effect_witness :
  stp_state (rtl8365mb_port_stp_state_set 3 BR_STATE_FORWARDING chip0) 3
  = RTL8365MB_STP_STATE_FORWARDING
  /\ (forall b, reg (rtl8365mb_port_stp_state_set 9 BR_STATE_FORWARDING chip0) b = reg chip0 b)
  /\ rtl8365mb_port_stp_state_set 3 5 chip0 = chip0.
Proof.
  split; [|split].
  - apply (proj1 (proj2 (proj2 (proj2 (stp_state_set_effect 3 BR_STATE_FORWARDING chip0))))
             RTL8365MB_STP_STATE_FORWARDING); [reflexivity | reflexivity | lia].
  - apply (proj2 (proj2 (proj2 (proj2 (stp_state_set_effect 9 BR_STATE_FORWARDING chip0)))));
      [reflexivity | lia].
  - apply (proj1 (proj2 (proj2 (stp_state_set_effect 3 5 chip0)))). reflexivity.
Defined.

Lemma max_len_field old v :
  FIELD_GET RTL8365MB_CFG0_MAX_LEN_MASK
    (u16 (Z.lor (Z.land old (Z.lnot RTL8365MB_CFG0_MAX_LEN_MASK))
                (Z.land (FIELD_PREP RTL8365MB_CFG0_MAX_LEN_MASK v) RTL8365MB_CFG0_MAX_LEN_MASK)))
  = v mod 2 ^ 14.
Proof.
  unfold FIELD_GET, FIELD_PREP.
  change (bf_shf RTL8365MB_CFG0_MAX_LEN_MASK) with 0.
  change RTL8365MB_CFG0_MAX_LEN_MASK with (Z.shiftl (Z.ones 14) 0).
  rewrite <- Z.land_assoc, Z.land_diag.
  rewrite field_set_get by lia. apply Z.land_ones. lia.
Qed.

(** X8: changing the MTU.  For a port that is not a CPU port nothing is
    done and success is reported.  For a CPU port and a transport without
    failures the 14-bit maximum frame length of the chip becomes the MTU
    plus the 22 bytes of VLAN Ethernet header and frame check sequence,
    reduced modulo 2^14: exactly the MTU values up to
    [rtl8365mb_port_max_mtu] are stored as they are.  The two upper bits of
    the register and all other registers are unchanged. *)
Theorem port_change_mtu_effect (ds : dsa_switch) (port new_mtu : Z) (st : chip) :
  (dsa_is_cpu_port ds port = false ->
     rtl8365mb_port_change_mtu ds port new_mtu st = (Ok tt, st))
  /\ (dsa_is_cpu_port ds port = true -> faults st = [] ->
      exists st',
        rtl8365mb_port_change_mtu ds port new_mtu st = (Ok tt, st')
        /\ max_frame_len st' = (new_mtu + VLAN_ETH_HLEN + ETH_FCS_LEN) mod 2 ^ 14
        /\ (0 <= new_mtu ->
              (max_frame_len st' = new_mtu + VLAN_ETH_HLEN + ETH_FCS_LEN
               <-> new_mtu <= rtl8365mb_port_max_mtu))
        /\ (forall i, 14 <= i ->
              Z.testbit (reg st' RTL8365MB_CFG0_MAX_LEN_REG) i
              = Z.testbit (reg st RTL8365MB_CFG0_MAX_LEN_REG) i)
        /\ (forall b, b <> RTL8365MB_CFG0_MAX_LEN_REG -> reg st' b = reg st b)).
Proof.
  unfold rtl8365mb_port_change_mtu. split.
  - intros ->. reflexivity.
  - intros -> Hf. cbv [negb]. cbv iota zeta.
    destruct (update_plain_ok RTL8365MB_CFG0_MAX_LEN_REG RTL8365MB_CFG0_MAX_LEN_MASK
                (FIELD_PREP RTL8365MB_CFG0_MAX_LEN_MASK (new_mtu + VLAN_ETH_HLEN + ETH_FCS_LEN))
                st Hf eq_refl) as (st' & E & _ & _ & R & O & _).
    exists st'. split; [exact E|].
    assert (Hlen : max_frame_len st' = (new_mtu + VLAN_ETH_HLEN + ETH_FCS_LEN) mod 2 ^ 14).
    { unfold max_frame_len. rewrite R. apply max_len_field. }
    split; [exact Hlen|]. split; [|split; [|exact O]].
    + intros Hm. rewrite Hlen.
      unfold rtl8365mb_port_max_mtu, RTL8365MB_CFG0_MAX_LEN_MAX, VLAN_ETH_HLEN, ETH_FCS_LEN.
      change (2 ^ 14) with 16384. split.
      * intros H. pose proof (Z.mod_pos_bound (new_mtu + 18 + 4) 16384 ltac:(lia)). lia.
      * intros H. apply Z.mod_small. lia.
    + intros i Hi. rewrite R. unfold FIELD_PREP, u16.
      change (bf_shf RTL8365MB_CFG0_MAX_LEN_MASK) with 0.
      change RTL8365MB_CFG0_MAX_LEN_MASK with (Z.ones 14).
      pose proof (testbit_reg_high st RTL8365MB_CFG0_MAX_LEN_REG i) as Hh.
      rewrite Z.testbit_mod_pow2 by lia.
      rewrite Z.lor_spec, !Z.land_spec, Z.lnot_spec by lia.
      rewrite Z.testbit_ones_nonneg by lia.
      destruct (Z.ltb_spec i 14); [lia|].
      destruct (Z.ltb_spec i 16); [|rewrite Hh by lia; reflexivity].
      rewrite !andb_false_r, orb_false_r. simpl. now rewrite andb_true_r.
Qed.

Lemma port_change_mtu_effect_witness :
  rtl8365mb_port_change_mtu ds11 2 1500 chip0 = (Ok tt, chip0)
  /\ exists st',
       rtl8365mb_port_change_mtu ds11 8 1500 chip0 = (Ok tt, st')
       /\ max_frame_len st' = 1522.
Proof.
  split.
  - apply (proj1 (port_change_mtu_effect ds11 2 1500 chip0)). reflexivity.
  - destruct (proj2 (port_change_mtu_effect ds11 8 1500 chip0) eq_refl eq_refl)
      as (st' & E & L & _).
    exists st'. split; [exact E | exact L].
Defined.

(** ** External interfaces *)

Lemma get_port_extint_from_sound es port e :
  get_port_extint_from es port = Some e ->
  extint_port e = port /\ supported_interfaces e <> 0 /\ In e es.
Proof.
  induction es as [|x es IH]; simpl; [discriminate|].
  destruct (Z.eqb_spec (supported_interfaces x) 0) as [H0|H0].
  - intros H. destruct (IH H) as (? & ? & ?). auto.
  - destruct (Z.eqb_spec (extint_port x) port) as [Hp|Hp].
    + intros [= <-]. auto.
    + intros H. destruct (IH H) as (? & ? & ?). auto.
Qed.

Lemma get_port_extint_from_none es port :
  (forall e, In e es -> supported_interfaces e = 0 \/ extint_port e <> port) ->
  get_port_extint_from es port = None.
Proof.
  induction es as [|x es IH]; intros H; simpl; [reflexivity|].
  destruct (H x (or_introl eq_refl)) as [H0 | Hp].
  - rewrite H0. simpl. apply IH. intros e He. apply H. now right.
  - destruct (supported_interfaces x =? 0).
    + apply IH. intros e He. apply H. now right.
    + apply Z.eqb_neq in Hp. rewrite Hp. apply IH. intros e He. apply H. now right.
Qed.

(** X9: the external interface of a port.  A lookup that succeeds returns
    an element of the chip's list that names this port and supports at
    least one interface mode, so an element the initialiser left zero never
    stands for port 0.  For the chips of the table, port 6 has interface 1,
    port 7 has interface 2 except on the RTL8365MB-VC, and no other port
    has an external interface. *)
Theorem get_port_extint_lookup (ci : rtl8365mb_chip_info) (port : Z) :
  (forall e, rtl8365mb_get_port_extint ci port = Some e ->
     extint_port e = port /\ supported_interfaces e <> 0 /\ In e (extints ci))
  /\ (In ci rtl8365mb_chip_infos ->
      match rtl8365mb_get_port_extint ci port with
      | Some e => (port = 6 /\ extint_id e = 1)
                  \/ (port = 7 /\ extint_id e = 2 /\ ci <> chip_info_vc)
      | None => port <> 6 /\ (port = 7 -> ci = chip_info_vc)
      end).
Proof.
  split.
  - intros e H. unfold rtl8365mb_get_port_extint in H.
    destruct (get_port_extint_from_sound _ _ _ H) as (H1 & H2 & H3).
    split; [exact H1|]. split; [exact H2|].
    rewrite <- (firstn_skipn (Z.to_nat RTL8365MB_MAX_NUM_EXTINTS) (extints ci)).
    apply in_or_app. left. exact H3.
  - intros Hin. simpl in Hin. unfold rtl8365mb_get_port_extint.
    destruct (Z.eq_dec port 6) as [-> | H6].
    { destruct Hin as [<- | [<- | [<- | []]]]; vm_compute; left; split; reflexivity. }
    destruct (Z.eq_dec port 7) as [-> | H7].
    { destruct Hin as [<- | [<- | [<- | []]]]; vm_compute.
      - split; [discriminate | reflexivity].
      - right. repeat split. intros H; inversion H.
      - right. repeat split. intros H; inversion H. }
    rewrite get_port_extint_from_none; [split; [exact H6 | intros H; contradiction]|].
    intros e He.
    destruct Hin as [<- | [<- | [<- | []]]]; simpl in He;
      destruct He as [<- | [<- | [<- | []]]];
      first [ left; reflexivity | right; simpl; congruence ].
Qed.

Lemma get_port_extint_lookup_witness :
  rtl8365mb_get_port_extint chip_info_vc 0 = None
  /\ (exists e, rtl8365mb_get_port_extint chip_info_8367s 7 = Some e /\ extint_id e = 2).
Proof.
  split.
  - pose proof (proj2 (get_port_extint_lookup chip_info_vc 0)) as H.
    destruct (rtl8365mb_get_port_extint chip_info_vc 0) as [e|] eqn:E; [|reflexivity].
    destruct H as [[H _] | [H _]]; [left; reflexivity | discriminate H | discriminate H].
  - pose proof (proj2 (get_port_extint_lookup chip_info_8367s 7)) as H.
    destruct (rtl8365mb_get_port_extint chip_info_8367s 7) as [e|] eqn:E.
    + exists e. split; [reflexivity|].
      destruct H as [[H _] | (_ & H & _)]; [right; left; reflexivity | discriminate H | exact H].
    + destruct H as [_ H]; [right; left; reflexivity|]. discriminate (H eq_refl).
Defined.

Lemma force_reg_plain id : plain (RTL8365MB_DIGITAL_INTERFACE_FORCE_REG id) = true.
Proof.
  unfold RTL8365MB_DIGITAL_INTERFACE_FORCE_REG.
  destruct (id =? 0); [reflexivity|]. destruct (id =? 1); [reflexivity|].
  destruct (id =? 2); reflexivity.
Qed.

(** X10: forcing the mode of an external interface.  A port without
    external interface is refused with -ENODEV, and a forced link-up with a
    speed other than 10, 100 or 1000 or a duplex other than half or full is
    refused with -EINVAL, both without any access to the chip.  Otherwise,
    on a transport without failures, the force register of the interface is
    written: for link-up its fields read back the force-enable bit, link
    up, the speed code, the duplex and the two pause flags, with
    auto-negotiation off; for link-down the register holds the force-enable
    bit alone, whatever speed and duplex were passed.  No other register
    changes. *)
Theorem ext_config_forcemode_effect (ci : rtl8365mb_chip_info) (port : Z) (link : bool)
    (speed duplex : Z) (tx_pause rx_pause : bool) (st : chip) :
  let run := rtl8365mb_ext_config_forcemode ci port link speed duplex tx_pause rx_pause st in
  (rtl8365mb_get_port_extint ci port = None -> run = (Err (- ENODEV), st))
  /\ (forall e, rtl8365mb_get_port_extint ci port = Some e ->
      let r := RTL8365MB_DIGITAL_INTERFACE_FORCE_REG (extint_id e) in
      (link = true -> ~ In speed [SPEED_10; SPEED_100; SPEED_1000]
                      \/ ~ In duplex [DUPLEX_HALF; DUPLEX_FULL] ->
         run = (Err (- EINVAL), st))
      /\ (link = true -> In speed [SPEED_10; SPEED_100; SPEED_1000] ->
          In duplex [DUPLEX_HALF; DUPLEX_FULL] -> faults st = [] ->
          exists st',
            run = (Ok tt, st')
            /\ FIELD_GET RTL8365MB_DIGITAL_INTERFACE_FORCE_EN_MASK (reg st' r) = 1
            /\ FIELD_GET RTL8365MB_DIGITAL_INTERFACE_FORCE_LINK_MASK (reg st' r) = 1
            /\ FIELD_GET RTL8365MB_DIGITAL_INTERFACE_FORCE_SPEED_MASK (reg st' r)
               = port_speed_code speed
            /\ FIELD_GET RTL8365MB_DIGITAL_INTERFACE_FORCE_DUPLEX_MASK (reg st' r) = duplex
            /\ FIELD_GET RTL8365MB_DIGITAL_INTERFACE_FORCE_TXPAUSE_MASK (reg st' r)
               = (if tx_pause then 1 else 0)
            /\ FIELD_GET RTL8365MB_DIGITAL_INTERFACE_FORCE_RXPAUSE_MASK (reg st' r)
               = (if rx_pause then 1 else 0)
            /\ FIELD_GET RTL8365MB_DIGITAL_INTERFACE_FORCE_NWAY_MASK (reg st' r) = 0
            /\ (forall b, b <> r -> reg st' b = reg st b))
      /\ (link = false -> faults st = [] ->
          exists st',
            run = (Ok tt, st')
            /\ reg st' r = RTL8365MB_DIGITAL_INTERFACE_FORCE_EN_MASK
            /\ (forall b, b <> r -> reg st' b = reg st b))).
Proof.
  intros run. subst run. unfold rtl8365mb_ext_config_forcemode. split.
  - intros ->. reflexivity.
  - intros e ->. cbv zeta. split; [|split].
    + intros -> Hbad. unfold forcemode_fields.
      destruct (Z.eqb_spec speed SPEED_1000) as [Hs|Hs]; [|
        destruct (Z.eqb_spec speed SPEED_100) as [Hs'|Hs']; [|
          destruct (Z.eqb_spec speed SPEED_10) as [Hs''|Hs'']; [|reflexivity]]].
      all: destruct (Z.eqb_spec duplex DUPLEX_FULL) as [Hd|Hd]; [|
             destruct (Z.eqb_spec duplex DUPLEX_HALF) as [Hd'|Hd']; [|reflexivity]].
      all: exfalso; destruct Hbad as [Hb|Hb]; apply Hb; simpl; auto.
    + intros -> Hs Hd Hf.
      pose proof (force_reg_plain (extint_id e)) as Hplain.
      simpl in Hs, Hd.
      destruct Hs as [<- | [<- | [<- | []]]]; destruct Hd as [<- | [<- | []]];
        destruct tx_pause, rx_pause;
        match goal with
        | |- context [forcemode_fields ?a ?b ?c ?d ?e] =>
            let v := eval vm_compute in (forcemode_fields a b c d e) in
            change (forcemode_fields a b c d e) with v
        end; cbv iota beta zeta;
        match goal with
        | |- context [regmap_write ?a ?v] =>
            destruct (write_plain_ok a v st Hf Hplain) as (st' & E & _ & _ & R & O & _);
            exists st'; split; [exact E|]; rewrite R;
            repeat split; try reflexivity; exact O
        end.
    + intros -> Hf. cbn [forcemode_fields]. cbv iota beta zeta.
      pose proof (force_reg_plain (extint_id e)) as Hplain.
      match goal with
      | |- context [regmap_write ?a ?v] =>
          destruct (write_plain_ok a v st Hf Hplain) as (st' & E & _ & _ & R & O & _);
          exists st'; split; [exact E|]; rewrite R;
          repeat split; try reflexivity; exact O
      end.
Qed.

Lemma ext_config_forcemode_effect_witness :
  rtl8365mb_ext_config_forcemode chip_info_vc 2 true SPEED_1000 DUPLEX_FULL false false chip0
  = (Err (- ENODEV), chip0)
  /\ rtl8365mb_ext_config_forcemode chip_info_vc 6 true 2500 DUPLEX_FULL false false chip0
     = (Err (- EINVAL), chip0)
  /\ (exists st',
        rtl8365mb_ext_config_forcemode chip_info_vc 6 true SPEED_1000 DUPLEX_FULL true false
          chip0 = (Ok tt, st')
        /\ FIELD_GET RTL8365MB_DIGITAL_INTERFACE_FORCE_SPEED_MASK
             (reg st' RTL8365MB_DIGITAL_INTERFACE_FORCE_REG1) = RTL8365MB_PORT_SPEED_1000M)
  /\ (exists st',
        rtl8365mb_ext_config_forcemode chip_info_vc 6 false 0 0 false false chip0
        = (Ok tt, st')
        /\ reg st' RTL8365MB_DIGITAL_INTERFACE_FORCE_REG1 = 0x1000).
Proof.
  split; [|split; [|split]].
  - apply (proj1 (ext_config_forcemode_effect chip_info_vc 2 true SPEED_1000 DUPLEX_FULL
                    false false chip0)). reflexivity.
  - apply (proj1 (proj2 (ext_config_forcemode_effect chip_info_vc 6 true 2500 DUPLEX_FULL
                           false false chip0) (mkExtint 6 1 30) eq_refl)); [reflexivity|].
    left. simpl. intros [H | [H | [H | []]]]; discriminate H.
  - destruct (proj1 (proj2 (proj2 (ext_config_forcemode_effect chip_info_vc 6 true SPEED_1000
                                     DUPLEX_FULL true false chip0) (mkExtint 6 1 30) eq_refl)))
      as (st' & E & _ & _ & S & _); [reflexivity | simpl; auto | simpl; auto | reflexivity |].
    exists st'. split; [exact E | exact S].
  - destruct (proj2 (proj2 (proj2 (ext_config_forcemode_effect chip_info_vc 6 false 0 0
                                     false false chip0) (mkExtint 6 1 30) eq_refl)))
      as (st' & E & R & _); [reflexivity | reflexivity |].
    exists st'. split; [exact E | exact R].
Defined.

Lemma rgmxf_fields old t r :
  0 <= t <= 1 -> 0 <= r <= 7 ->
  let w := u16 (Z.lor (Z.land old (Z.lnot (Z.lor RTL8365MB_EXT_RGMXF_TXDELAY_MASK
                                                 RTL8365MB_EXT_RGMXF_RXDELAY_MASK)))
                      (Z.land (Z.lor (FIELD_PREP RTL8365MB_EXT_RGMXF_TXDELAY_MASK t)
                                     (FIELD_PREP RTL8365MB_EXT_RGMXF_RXDELAY_MASK r))
                              (Z.lor RTL8365MB_EXT_RGMXF_TXDELAY_MASK
                                     RTL8365MB_EXT_RGMXF_RXDELAY_MASK))) in
  FIELD_GET RTL8365MB_EXT_RGMXF_TXDELAY_MASK w = t
  /\ FIELD_GET RTL8365MB_EXT_RGMXF_RXDELAY_MASK w = r.
Proof.
  intros Ht Hr w. subst w. unfold FIELD_GET, FIELD_PREP.
  change (bf_shf RTL8365MB_EXT_RGMXF_TXDELAY_MASK) with 3.
  change (bf_shf RTL8365MB_EXT_RGMXF_RXDELAY_MASK) with 0.
  change (Z.lor RTL8365MB_EXT_RGMXF_TXDELAY_MASK RTL8365MB_EXT_RGMXF_RXDELAY_MASK)
    with (Z.ones 4).
  change RTL8365MB_EXT_RGMXF_TXDELAY_MASK with (Z.shiftl (Z.ones 1) 3).
  change RTL8365MB_EXT_RGMXF_RXDELAY_MASK with (Z.ones 3).
  unfold u16.
  assert (Htb : forall i, 1 <= i -> Z.testbit t i = false)
    by (intros; apply (testbit_small t 1); lia).
  assert (Hrb : forall i, 3 <= i -> Z.testbit r i = false)
    by (intros; apply (testbit_small r 3); lia).
  split; Z.bitblast.
  all: try (rewrite Htb by lia); try (rewrite Hrb by lia); try reflexivity.
  all: try (rewrite ?andb_false_r, ?orb_false_r, ?andb_true_r; reflexivity).
Qed.

Lemma rgmii_delays tx rx :
  (forall v, tx = Some v -> 0 <= v < 2 ^ 32) ->
  (forall v, rx = Some v -> 0 <= v < 2 ^ 32) ->
  match tx with
  | Some val => let val := val / 1000 in if (val =? 0) || (val =? 2) then val / 2 else 0
  | None => 0
  end = rgmii_tx_steps tx
  /\ match rx with
     | Some val => let val := DIV_ROUND_CLOSEST val 300 in if val <=? 7 then val else 0
     | None => 0
     end = rgmii_rx_steps rx
  /\ 0 <= rgmii_tx_steps tx <= 1 /\ 0 <= rgmii_rx_steps rx <= 7.
Proof.
  intros Htx Hrx. unfold rgmii_tx_steps, rgmii_rx_steps.
  assert (Ht : match tx with
               | Some val => let val := val / 1000 in
                             if (val =? 0) || (val =? 2) then val / 2 else 0
               | None => 0
               end = rgmii_tx_steps tx /\ 0 <= rgmii_tx_steps tx <= 1).
  { unfold rgmii_tx_steps. destruct tx as [v|]; [|split; [reflexivity|lia]].
    specialize (Htx v eq_refl). cbv zeta.
    destruct (Z.leb_spec 2000 v); destruct (Z.ltb_spec v 3000); cbn [andb].
    - assert (v / 1000 = 2) as -> by (symmetry; apply (Z.div_unique v 1000 2 (v - 2000)); lia).
      split; [reflexivity|lia].
    - assert (3 <= v / 1000) by (apply Z.div_le_lower_bound; lia).
      destruct (Z.eqb_spec (v / 1000) 0); [lia|]. destruct (Z.eqb_spec (v / 1000) 2); [lia|].
      split; [reflexivity|lia].
    - assert (v / 1000 < 2) by (apply Z.div_lt_upper_bound; lia).
      assert (0 <= v / 1000) by (apply Z.div_pos; lia).
      destruct (Z.eqb_spec (v / 1000) 0) as [->|]; [split; [reflexivity|lia]|].
      destruct (Z.eqb_spec (v / 1000) 2); [lia|]. split; [reflexivity|lia].
    - lia. }
  assert (Hr : match rx with
               | Some val => let val := DIV_ROUND_CLOSEST val 300 in
                             if val <=? 7 then val else 0
               | None => 0
               end = rgmii_rx_steps rx /\ 0 <= rgmii_rx_steps rx <= 7).
  { unfold rgmii_rx_steps. destruct rx as [v|]; [|split; [reflexivity|lia]].
    specialize (Hrx v eq_refl). cbv zeta. unfold DIV_ROUND_CLOSEST, u32.
    change (300 / 2) with 150. change (2 ^ 32) with 4294967296 in *.
    destruct (Z.ltb_spec v 2250).
    - rewrite Z.mod_small by lia.
      assert ((v + 150) / 300 < 8) by (apply Z.div_lt_upper_bound; lia).
      assert (0 <= (v + 150) / 300) by (apply Z.div_pos; lia).
      destruct (Z.leb_spec ((v + 150) / 300) 7); [|lia]. split; [reflexivity|lia].
    - destruct (Z.lt_ge_cases (v + 150) 4294967296).
      + rewrite Z.mod_small by lia.
        assert (8 <= (v + 150) / 300) by (apply Z.div_le_lower_bound; lia).
        destruct (Z.leb_spec ((v + 150) / 300) 7); [lia|]. split; [reflexivity|lia].
      + assert ((v + 150) mod 4294967296 = v + 150 - 4294967296) as ->.
        { symmetry. apply (Z.mod_unique (v + 150) 4294967296 1); lia. }
        rewrite Z.div_small by lia. simpl. split; [reflexivity|lia]. }
  destruct Ht as [Ht1 Ht2], Hr as [Hr1 Hr2]. auto.
Qed.

Lemma select_reg_plain id : plain (RTL8365MB_DIGITAL_INTERFACE_SELECT_REG id) = true.
Proof.
  unfold RTL8365MB_DIGITAL_INTERFACE_SELECT_REG.
  destruct (id <=? 1); [reflexivity|]. destruct (id =? 2); reflexivity.
Qed.

Lemma rgmxf_reg_plain id : plain (RTL8365MB_EXT_RGMXF_REG id) = true.
Proof.
  unfold RTL8365MB_EXT_RGMXF_REG.
  destruct (id =? 0); [reflexivity|]. destruct (id =? 1); [reflexivity|].
  destruct (id =? 2); reflexivity.
Qed.

Lemma select_even old :
  0 <= old < 2 ^ 16 ->
  let w := u16 (Z.lor (Z.land old (Z.lnot 0xF)) (Z.land 1 0xF)) in
  Z.land w 0xF = 1 /\ (forall i, 4 <= i -> Z.testbit w i = Z.testbit old i).
Proof.
  intros Hold w. subst w. change 1 with (Z.ones 1). change 0xF with (Z.ones 4).
  unfold u16. split.
  - Z.bitblast.
  - intros i Hi. rewrite Z.testbit_mod_pow2 by lia.
    rewrite Z.lor_spec, !Z.land_spec, Z.lnot_spec by lia.
    rewrite !Z.testbit_ones_nonneg by lia.
    destruct (Z.ltb_spec i 4); [lia|]. destruct (Z.ltb_spec i 1); [lia|].
    destruct (Z.ltb_spec i 16).
    + simpl. destruct (Z.testbit old i); reflexivity.
    + simpl. symmetry. apply (testbit_small old 16); lia.
Qed.

Lemma select_odd old i :
  0 <= old < 2 ^ 16 -> 0 <= i ->
  Z.testbit (u16 (Z.lor (Z.land old (Z.lnot 0x1E)) (Z.land 0x10 0x1E))) i
  = if i =? 4 then true
    else if (1 <=? i) && (i <=? 3) then false
    else Z.testbit old i.
Proof.
  intros Hold Hi. change 0x1E with (Z.shiftl (Z.ones 4) 1).
  change 0x10 with (Z.shiftl (Z.ones 1) 4).
  unfold u16. rewrite Z.testbit_mod_pow2 by lia.
  rewrite Z.lor_spec, !Z.land_spec, Z.lnot_spec by lia.
  rewrite !Z.shiftl_spec by lia.
  destruct (Z.eqb_spec i 4) as [-> | H4].
  { change (Z.testbit (Z.ones 4) (4 - 1)) with true.
    change (Z.testbit (Z.ones 1) (4 - 4)) with true.
    change (4 <? 16) with true. destruct (Z.testbit old 4); reflexivity. }
  destruct (Z.leb_spec 1 i); destruct (Z.leb_spec i 3); cbn [andb].
  - rewrite (Z.testbit_ones_nonneg 4 (i - 1)) by lia.
    destruct (Z.ltb_spec (i - 1) 4); [|lia]. simpl.
    rewrite (Z.testbit_neg_r _ (i - 4)) by lia. simpl.
    destruct (i <? 16), (Z.testbit old i); reflexivity.
  - rewrite (Z.testbit_ones_nonneg 4 (i - 1)) by lia.
    destruct (Z.ltb_spec (i - 1) 4); [lia|].
    rewrite (Z.testbit_ones_nonneg 1 (i - 4)) by lia.
    destruct (Z.ltb_spec (i - 4) 1); [lia|]. simpl.
    destruct (Z.ltb_spec i 16); [destruct (Z.testbit old i); reflexivity|].
    simpl. symmetry. apply (testbit_small old 16); lia.
  - assert (i = 0) by lia. subst i. simpl. destruct (Z.odd old); reflexivity.
  - lia.
Qed.

(** X11: configuring RGMII on an external interface.  A port without
    external interface is refused with -ENODEV and without access to the
    chip.  Otherwise, on a transport without failures, the delay register
    of the interface reads back a TX delay of 1 exactly for a
    tx-internal-delay-ps from 2000 to 2999 and of 0 otherwise, and an RX
    delay of the property value rounded to the nearest multiple of 300 ps,
    or of 0 where that exceeds seven steps or the property is absent.  The
    mode is then selected: for interfaces 0 and 2 the four mode bits read
    RGMII and the bits above them are unchanged; for interface 1, whose
    mode bits are bits 4 to 7, the update covers bits 1 to 4: bit 4 is
    set, bits 1 to 3 are cleared and bits 5 to 7 keep what they held. *)
Theorem ext_config_rgmii_effect (ci : rtl8365mb_chip_info) (port : Z)
    (tx_internal_delay_ps rx_internal_delay_ps : option Z) (st : chip) :
  (forall v, tx_internal_delay_ps = Some v -> 0 <= v < 2 ^ 32) ->
  (forall v, rx_internal_delay_ps = Some v -> 0 <= v < 2 ^ 32) ->
  let run := rtl8365mb_ext_config_rgmii ci port tx_internal_delay_ps rx_internal_delay_ps st in
  (rtl8365mb_get_port_extint ci port = None -> run = (Err (- ENODEV), st))
  /\ (forall e, rtl8365mb_get_port_extint ci port = Some e ->
      0 <= extint_id e <= 2 -> faults st = [] ->
      let id := extint_id e in
      exists st',
        run = (Ok tt, st')
        /\ FIELD_GET RTL8365MB_EXT_RGMXF_TXDELAY_MASK (reg st' (RTL8365MB_EXT_RGMXF_REG id))
           = rgmii_tx_steps tx_internal_delay_ps
        /\ FIELD_GET RTL8365MB_EXT_RGMXF_RXDELAY_MASK (reg st' (RTL8365MB_EXT_RGMXF_REG id))
           = rgmii_rx_steps rx_internal_delay_ps
        /\ (id <> 1 ->
              ext_mode st' id = RTL8365MB_EXT_PORT_MODE_RGMII
              /\ forall i, 4 <= i ->
                   Z.testbit (reg st' (RTL8365MB_DIGITAL_INTERFACE_SELECT_REG id)) i
                   = Z.testbit (reg st (RTL8365MB_DIGITAL_INTERFACE_SELECT_REG id)) i)
        /\ (id = 1 ->
              forall i, 0 <= i ->
                Z.testbit (reg st' (RTL8365MB_DIGITAL_INTERFACE_SELECT_REG id)) i
                = if i =? 4 then true
                  else if (1 <=? i) && (i <=? 3) then false
                  else Z.testbit (reg st (RTL8365MB_DIGITAL_INTERFACE_SELECT_REG id)) i)
        /\ (forall b, b <> RTL8365MB_EXT_RGMXF_REG id ->
                      b <> RTL8365MB_DIGITAL_INTERFACE_SELECT_REG id -> reg st' b = reg st b)).
Proof.
  intros Htx Hrx run. subst run. unfold rtl8365mb_ext_config_rgmii. split.
  - intros ->. reflexivity.
  - intros e He Hid Hf. rewrite He. set (id := extint_id e) in *.
    destruct (rgmii_delays _ _ Htx Hrx) as (D1 & D2 & Ht & Hr).
    cbv zeta in D1, D2. rewrite D1, D2. clear D1 D2.
    destruct (update_plain_ok (RTL8365MB_EXT_RGMXF_REG id)
                (Z.lor RTL8365MB_EXT_RGMXF_TXDELAY_MASK RTL8365MB_EXT_RGMXF_RXDELAY_MASK)
                (Z.lor (FIELD_PREP RTL8365MB_EXT_RGMXF_TXDELAY_MASK
                          (rgmii_tx_steps tx_internal_delay_ps))
                       (FIELD_PREP RTL8365MB_EXT_RGMXF_RXDELAY_MASK
                          (rgmii_rx_steps rx_internal_delay_ps)))
                st Hf (rgmxf_reg_plain id)) as (s1 & E1 & Hf1 & _ & R1 & O1 & _).
    destruct (update_plain_ok (RTL8365MB_DIGITAL_INTERFACE_SELECT_REG id)
                (RTL8365MB_DIGITAL_INTERFACE_SELECT_MODE_MASK id)
                (Z.shiftl RTL8365MB_EXT_PORT_MODE_RGMII
                   (RTL8365MB_DIGITAL_INTERFACE_SELECT_MODE_OFFSET id))
                s1 Hf1 (select_reg_plain id)) as (s2 & E2 & _ & _ & R2 & O2 & _).
    unfold bind. rewrite E1, E2. exists s2. split; [reflexivity|].
    assert (Hne : RTL8365MB_EXT_RGMXF_REG id <> RTL8365MB_DIGITAL_INTERFACE_SELECT_REG id).
    { subst id. assert (C : extint_id e = 0 \/ extint_id e = 1 \/ extint_id e = 2) by lia.
      destruct C as [-> | [-> | ->]]; discriminate. }
    destruct (rgmxf_fields (reg st (RTL8365MB_EXT_RGMXF_REG id)) _ _ Ht Hr) as [F1 F2].
    split; [rewrite O2, R1 by exact Hne; exact F1|].
    split; [rewrite O2, R1 by exact Hne; exact F2|].
    assert (Hsel : reg s1 (RTL8365MB_DIGITAL_INTERFACE_SELECT_REG id)
                   = reg st (RTL8365MB_DIGITAL_INTERFACE_SELECT_REG id))
      by (apply O1; congruence).
    split; [|split].
    + intros H1. unfold ext_mode. rewrite R2, Hsel.
      assert (C : id = 0 \/ id = 2) by (subst id; lia).
      destruct (select_even (reg st (RTL8365MB_DIGITAL_INTERFACE_SELECT_REG id))
                  (reg_range _ _)) as [S1 S2].
      destruct C as [-> | ->]; (split; [rewrite Z.shiftr_0_r; exact S1 | exact S2]).
    + intros H1 i Hi. rewrite R2, Hsel, H1.
      apply (select_odd _ i (reg_range _ _) Hi).
    + intros b Hb1 Hb2. rewrite O2, O1 by assumption. reflexivity.
Qed.

Lemma ext_config_rgmii_effect_witness :
  rtl8365mb_ext_config_rgmii chip_info_vc 2 (Some 2000) None chip0 = (Err (- ENODEV), chip0)
  /\ (exists st',
        rtl8365mb_ext_config_rgmii chip_info_8367s 7 (Some 2000) (Some 1000) chip0
        = (Ok tt, st')
        /\ FIELD_GET RTL8365MB_EXT_RGMXF_TXDELAY_MASK (reg st' RTL8365MB_EXT_RGMXF_REG2) = 1
        /\ FIELD_GET RTL8365MB_EXT_RGMXF_RXDELAY_MASK (reg st' RTL8365MB_EXT_RGMXF_REG2) = 3
        /\ ext_mode st' 2 = RTL8365MB_EXT_PORT_MODE_RGMII).
Proof.
  assert (Ht : forall v, Some 2000 = Some v -> 0 <= v < 2 ^ 32)
    by (intros v [= <-]; split; [discriminate | reflexivity]).
  assert (Hr : forall v, Some 1000 = Some v -> 0 <= v < 2 ^ 32)
    by (intros v [= <-]; split; [discriminate | reflexivity]).
  assert (Hn : forall v, @None Z = Some v -> 0 <= v < 2 ^ 32) by discriminate.
  split.
  - apply (proj1 (ext_config_rgmii_effect chip_info_vc 2 (Some 2000) None chip0 Ht Hn)).
    reflexivity.
  - destruct (proj2 (ext_config_rgmii_effect chip_info_8367s 7 (Some 2000) (Some 1000) chip0
                       Ht Hr) (mkExtint 7 2 30) eq_refl)
      as (st' & E & T & R & M & _); [split; discriminate | reflexivity |].
    exists st'. split; [exact E|]. split; [exact T|]. split; [exact R|].
    apply M. discriminate.
Defined.

(** ** CPU port configuration *)

Lemma cpu_ctrl_word_decode cpu :
  cpu_in_range cpu ->
  let w := u16 (cpu_ctrl_word cpu) in
  FIELD_GET RTL8365MB_CPU_CTRL_EN_MASK w = (if cpu_enable cpu then 1 else 0)
  /\ FIELD_GET RTL8365MB_CPU_CTRL_INSERTMODE_MASK w = cpu_insert cpu
  /\ FIELD_GET RTL8365MB_CPU_CTRL_TAG_POSITION_MASK w = cpu_position cpu
  /\ FIELD_GET RTL8365MB_CPU_CTRL_RXBYTECOUNT_MASK w = cpu_rx_length cpu
  /\ FIELD_GET RTL8365MB_CPU_CTRL_TAG_FORMAT_MASK w = cpu_format cpu
  /\ FIELD_GET RTL8365MB_CPU_CTRL_TRAP_PORT_MASK w
     + 8 * FIELD_GET RTL8365MB_CPU_CTRL_TRAP_PORT_EXT_MASK w = cpu_trap_port cpu.
Proof.
  intros (Hm & Ht & Hi & Hp & Hr & Hfm) w. subst w.
  destruct cpu as [en mask trap ins pos rx fmt]. unfold cpu_ctrl_word. simpl in *.
  assert (Ce : (if en then 1 else 0) = 0 \/ (if en then 1 else 0) = 1)
    by (destruct en; auto).
  assert (Ci : ins = 0 \/ ins = 1 \/ ins = 2 \/ ins = 3) by lia.
  assert (Cp : pos = 0 \/ pos = 1) by lia.
  assert (Cr : rx = 0 \/ rx = 1) by lia.
  assert (Cf : fmt = 0 \/ fmt = 1) by lia.
  assert (Ct : trap = 0 \/ trap = 1 \/ trap = 2 \/ trap = 3 \/ trap = 4 \/ trap = 5
               \/ trap = 6 \/ trap = 7 \/ trap = 8 \/ trap = 9 \/ trap = 10 \/ trap = 11
               \/ trap = 12 \/ trap = 13 \/ trap = 14 \/ trap = 15) by lia.
  clear Hm Ht Hi Hp Hr Hfm.
  destruct Ce as [-> | ->];
    destruct Ci as [-> | [-> | [-> | ->]]];
    destruct Cp as [-> | ->]; destruct Cr as [-> | ->]; destruct Cf as [-> | ->];
    repeat (destruct Ct as [-> | Ct]; [vm_compute; repeat split|]);
    subst; vm_compute; repeat split.
Qed.

Lemma cpu_port_mask_field old v :
  0 <= v < 2 ^ 11 ->
  FIELD_GET RTL8365MB_CPU_PORT_MASK_MASK
    (u16 (Z.lor (Z.land old (Z.lnot RTL8365MB_CPU_PORT_MASK_MASK))
                (Z.land (FIELD_PREP RTL8365MB_CPU_PORT_MASK_MASK v)
                        RTL8365MB_CPU_PORT_MASK_MASK)))
  = v.
Proof.
  intros Hv. unfold FIELD_GET, FIELD_PREP.
  change (bf_shf RTL8365MB_CPU_PORT_MASK_MASK) with 0.
  change RTL8365MB_CPU_PORT_MASK_MASK with (Z.shiftl (Z.ones 11) 0).
  rewrite <- Z.land_assoc, Z.land_diag.
  rewrite field_set_get by lia. apply land_ones_small; lia.
Qed.

Lemma cpu_config_ok cpu st :
  faults st = [] -> cpu_in_range cpu ->
  exists st',
    rtl8365mb_cpu_config cpu st = (Ok tt, st')
    /\ cpu_of_chip st' = cpu
    /\ (forall b, b <> RTL8365MB_CPU_PORT_MASK_REG -> b <> RTL8365MB_CPU_CTRL_REG ->
                  reg st' b = reg st b).
Proof.
  intros Hf Hr. unfold rtl8365mb_cpu_config. cbv zeta. fold (cpu_ctrl_word cpu).
  destruct (update_plain_ok RTL8365MB_CPU_PORT_MASK_REG RTL8365MB_CPU_PORT_MASK_MASK
              (FIELD_PREP RTL8365MB_CPU_PORT_MASK_MASK (cpu_mask cpu)) st Hf eq_refl)
    as (s1 & E1 & Hf1 & _ & R1 & O1 & _).
  destruct (write_plain_ok RTL8365MB_CPU_CTRL_REG (cpu_ctrl_word cpu) s1 Hf1 eq_refl)
    as (s2 & E2 & _ & _ & R2 & O2 & _).
  unfold bind. rewrite E1, E2. exists s2. split; [reflexivity|]. split.
  - unfold cpu_of_chip. cbv zeta. rewrite R2, (O2 RTL8365MB_CPU_PORT_MASK_REG), R1
      by discriminate.
    destruct (cpu_ctrl_word_decode cpu Hr) as (D1 & D2 & D3 & D4 & D5 & D6).
    cbv zeta in D1, D2, D3, D4, D5, D6. rewrite D1, D2, D3, D4, D5, D6.
    rewrite cpu_port_mask_field by apply Hr.
    destruct cpu as [en mask trap ins pos rx fmt]. simpl. destruct en; reflexivity.
  - intros b H1 H2. rewrite O2, O1 by assumption. reflexivity.
Qed.

(** X12: on a transport without failures, writing a CPU configuration
    whose fields fit their register fields (an 11-bit port mask, a trap
    port below 16, an insert mode below 4, one-bit position, length and
    format) succeeds, and the port mask register and the control register
    then decode back to exactly that configuration, the trap port being
    split into its three low bits and a fourth bit elsewhere in the word.
    No other register changes. *)
Theorem cpu_config_roundtrip (cpu : rtl8365mb_cpu) (st : chip) :
  faults st = [] -> cpu_in_range cpu ->
  exists st',
    rtl8365mb_cpu_config cpu st = (Ok tt, st')
    /\ cpu_of_chip st' = cpu
    /\ (forall b, b <> RTL8365MB_CPU_PORT_MASK_REG -> b <> RTL8365MB_CPU_CTRL_REG ->
                  reg st' b = reg st b).
Proof. exact (cpu_config_ok cpu st). Qed.

Lemma cpu8_in_range : cpu_in_range cpu8.
Proof. unfold cpu_in_range. simpl. repeat split; discriminate. Qed.

Lemma cpu_config_roundtrip_witness :
  exists st', rtl8365mb_cpu_config cpu8 chip0 = (Ok tt, st') /\ cpu_of_chip st' = cpu8.
Proof.
  destruct (cpu_config_roundtrip cpu8 chip0 eq_refl cpu8_in_range) as (st' & E & D & _).
  exists st'. split; [exact E | exact D].
Defined.

(** X13: changing the tagging protocol.  For the two protocols the
    driver supports, the CPU configuration it keeps is changed to the
    8-byte format and the tag position of the protocol, whatever the
    transport then answers, so that [rtl8365mb_get_tag_protocol] reports
    the protocol just set; the other fields are kept.  On a transport
    without failures the call succeeds and the chip decodes to the new
    configuration.  Any other protocol is refused with -EPROTONOSUPPORT,
    and neither the configuration nor the chip changes. *)
Theorem change_tag_protocol_roundtrip (proto : dsa_tag_protocol) (cpu : rtl8365mb_cpu)
    (st : chip) :
  let r := rtl8365mb_change_tag_protocol proto cpu st in
  let cpu' := snd (fst r) in
  match proto with
  | DSA_TAG_PROTO_OTHER _ => r = (- EPROTONOSUPPORT, cpu, st)
  | _ =>
      rtl8365mb_get_tag_protocol cpu' = proto
      /\ cpu_format cpu' = RTL8365MB_CPU_FORMAT_8BYTES
      /\ (cpu_enable cpu', cpu_mask cpu', cpu_trap_port cpu', cpu_insert cpu',
          cpu_rx_length cpu')
         = (cpu_enable cpu, cpu_mask cpu, cpu_trap_port cpu, cpu_insert cpu,
            cpu_rx_length cpu)
      /\ (faults st = [] -> cpu_in_range cpu ->
            fst (fst r) = 0 /\ cpu_of_chip (snd r) = cpu')
  end.
Proof.
  intros r cpu'. subst cpu' r. unfold rtl8365mb_change_tag_protocol.
  destruct proto as [| |v]; [| |reflexivity].
  - destruct (rtl8365mb_cpu_config _ st) as [res st'] eqn:E. simpl.
    split; [reflexivity|]. split; [reflexivity|]. split; [reflexivity|]. intros Hf Hr.
    destruct (cpu_config_ok (mkCpu (cpu_enable cpu) (cpu_mask cpu) (cpu_trap_port cpu)
                               (cpu_insert cpu) RTL8365MB_CPU_POS_AFTER_SA
                               (cpu_rx_length cpu) RTL8365MB_CPU_FORMAT_8BYTES) st Hf)
      as (s & E' & D & _).
    { unfold cpu_in_range in *. simpl. unfold RTL8365MB_CPU_POS_AFTER_SA,
        RTL8365MB_CPU_FORMAT_8BYTES. intuition lia. }
    rewrite E' in E. injection E as <- <-. split; [reflexivity | exact D].
  - destruct (rtl8365mb_cpu_config _ st) as [res st'] eqn:E. simpl.
    split; [reflexivity|]. split; [reflexivity|]. split; [reflexivity|]. intros Hf Hr.
    destruct (cpu_config_ok (mkCpu (cpu_enable cpu) (cpu_mask cpu) (cpu_trap_port cpu)
                               (cpu_insert cpu) RTL8365MB_CPU_POS_BEFORE_CRC
                               (cpu_rx_length cpu) RTL8365MB_CPU_FORMAT_8BYTES) st Hf)
      as (s & E' & D & _).
    { unfold cpu_in_range in *. simpl. unfold RTL8365MB_CPU_POS_BEFORE_CRC,
        RTL8365MB_CPU_FORMAT_8BYTES. intuition lia. }
    rewrite E' in E. injection E as <- <-. split; [reflexivity | exact D].
Qed.

Lemma change_tag_protocol_roundtrip_witness :
  rtl8365mb_get_tag_protocol
    (snd (fst (rtl8365mb_change_tag_protocol DSA_TAG_PROTO_RTL8_4T cpu8 chip0)))
  = DSA_TAG_PROTO_RTL8_4T
  /\ fst (fst (rtl8365mb_change_tag_protocol DSA_TAG_PROTO_RTL8_4T cpu8 chip0)) = 0
  /\ rtl8365mb_change_tag_protocol (DSA_TAG_PROTO_OTHER 0) cpu8 chip0
     = (- EPROTONOSUPPORT, cpu8, chip0).
Proof.
  split; [|split].
  - exact (proj1 (change_tag_protocol_roundtrip DSA_TAG_PROTO_RTL8_4T cpu8 chip0)).
  - exact (proj1 (proj2 (proj2 (proj2 (change_tag_protocol_roundtrip DSA_TAG_PROTO_RTL8_4T
                                         cpu8 chip0))) eq_refl cpu8_in_range)).
  - exact (change_tag_protocol_roundtrip (DSA_TAG_PROTO_OTHER 0) cpu8 chip0).
Defined.

(** ** Bringing the chip up *)

Lemma jam_write_app t1 : forall t2 st,
  jam_write (t1 ++ t2) st = (jam_write t1 ;;; jam_write t2) st.
Proof.
  induction t1 as [|e t1 IH]; intros t2 st; simpl.
  - reflexivity.
  - unfold bind. destruct (regmap_write (jam_reg e) (jam_val e) st) as [[[]|err] s1].
    + rewrite IH. reflexivity.
    + reflexivity.
Qed.

Lemma jam_lookup_cons e tbl b :
  jam_lookup (e :: tbl) b
  = match jam_lookup tbl b with
    | Some v => Some v
    | None => if jam_reg e =? b then Some (jam_val e) else None
    end.
Proof.
  unfold jam_lookup. simpl.
  generalize (if jam_reg e =? b then Some (jam_val e) else @None Z).
  induction tbl as [|x tbl IH]; intros acc; simpl.
  - destruct acc; reflexivity.
  - rewrite IH. rewrite (IH (if jam_reg x =? b then Some (jam_val x) else None)).
    destruct (fold_left _ tbl None); [reflexivity|].
    destruct (jam_reg x =? b); [reflexivity|]. destruct acc; reflexivity.
Qed.

Lemma jam_write_ok tbl : forall st,
  faults st = [] -> Forall (fun e => plain (jam_reg e) = true) tbl ->
  exists st',
    jam_write tbl st = (Ok tt, st')
    /\ faults st' = []
    /\ (forall b, reg st' b = match jam_lookup tbl b with
                              | Some v => u16 v
                              | None => reg st b
                              end)
    /\ log st' = log st ++ map (fun e => Wr (jam_reg e) (u16 (jam_val e))) tbl.
Proof.
  induction tbl as [|e tbl IH]; intros st Hf Hp; simpl.
  - exists st. repeat split; [exact Hf | now rewrite app_nil_r].
  - inversion Hp as [|? ? He Hp']; subst.
    destruct (write_plain_ok (jam_reg e) (jam_val e) st Hf He)
      as (s1 & E1 & Hf1 & _ & R1 & O1 & L1).
    destruct (IH s1 Hf1 Hp') as (s2 & E2 & Hf2 & R2 & L2).
    unfold bind. rewrite E1, E2. exists s2. split; [reflexivity|]. split; [exact Hf2|].
    split.
    + intros b. rewrite R2, jam_lookup_cons.
      destruct (jam_lookup tbl b); [reflexivity|].
      destruct (Z.eqb_spec (jam_reg e) b) as [<- | Hne]; [exact R1 | now apply O1].
    + rewrite L2, L1, <- app_assoc. reflexivity.
Qed.

Lemma init_jam_facts :
  Forall (fun e => plain (jam_reg e) = true) init_jam
  /\ (forall e, In e init_jam ->
        jam_lookup init_jam (jam_reg e) = Some (jam_val e) /\ u16 (jam_val e) = jam_val e).
Proof.
  split.
  - apply List.Forall_forall. apply forallb_forall. vm_compute. reflexivity.
  - assert (H : forallb (fun e =>
                  match jam_lookup init_jam (jam_reg e) with
                  | Some v => (v =? jam_val e) && (u16 (jam_val e) =? jam_val e)
                  | None => false
                  end) init_jam = true) by (vm_compute; reflexivity).
    rewrite forallb_forall in H. intros e He. specialize (H e He).
    destruct (jam_lookup init_jam (jam_reg e)) as [v|]; [|discriminate].
    apply andb_prop in H as [H1 H2]. apply Z.eqb_eq in H1, H2. now subst.
Qed.

(** X14: bringing the switch to its initial state.  On a transport
    without failures and for each chip of the table, the chip's own jam
    table and then the common one are written entry by entry, in order and
    with nothing else in between; afterwards every register named in
    either table holds the value given with it, and every other register
    is unchanged. *)
Theorem switch_init_writes_jam (ci : rtl8365mb_chip_info) (st : chip) :
  faults st = [] -> In ci rtl8365mb_chip_infos ->
  exists st',
    rtl8365mb_switch_init ci st = (Ok tt, st')
    /\ delta st st' = map (fun e => Wr (jam_reg e) (jam_val e)) init_jam
    /\ (forall e, In e init_jam -> reg st' (jam_reg e) = jam_val e)
    /\ (forall b, (forall e, In e init_jam -> jam_reg e <> b) -> reg st' b = reg st b).
Proof.
  intros Hf Hin.
  assert (Hjam : jam_table ci = Some rtl8365mb_init_jam_8365mb_vc)
    by (simpl in Hin; destruct Hin as [<- | [<- | [<- | []]]]; reflexivity).
  unfold rtl8365mb_switch_init. rewrite Hjam.
  rewrite <- jam_write_app. fold init_jam.
  destruct init_jam_facts as [Hplain Hval].
  destruct (jam_write_ok init_jam st Hf Hplain) as (st' & E & _ & R & L).
  exists st'. split; [exact E|]. split; [|split].
  - unfold delta. rewrite L, drop_app_length. apply map_ext_in.
    intros e He. now rewrite (proj2 (Hval e He)).
  - intros e He. rewrite R. destruct (Hval e He) as [-> ->]. reflexivity.
  - intros b Hb. rewrite R.
    destruct (jam_lookup init_jam b) as [v|] eqn:El; [|reflexivity].
    exfalso. unfold jam_lookup in El.
    assert (Hgen : forall tbl acc, fold_left (fun acc e => if jam_reg e =? b
                                               then Some (jam_val e) else acc) tbl acc
                                   = Some v ->
                     acc = Some v \/ exists e, In e tbl /\ jam_reg e = b).
    { induction tbl as [|x tbl IH]; intros acc H; simpl in H; [now left|].
      destruct (IH _ H) as [Hacc | (e & He & Hr)].
      - destruct (Z.eqb_spec (jam_reg x) b) as [Hx|Hx].
        + right. exists x. split; [now left | exact Hx].
        + now left.
      - right. exists e. split; [now right | exact Hr]. }
    destruct (Hgen _ _ El) as [H | (e & He & Hr)]; [discriminate|].
    exact (Hb e He Hr).
Qed.

Lemma switch_init_writes_jam_witness :
  exists st',
    rtl8365mb_switch_init chip_info_8367s chip0 = (Ok tt, st')
    /\ length (delta chip0 st') = 26%nat
    /\ reg st' 0x1305 = 0xC000.
Proof.
  destruct (switch_init_writes_jam chip_info_8367s chip0 eq_refl) as (st' & E & D & R & _).
  - right. left. reflexivity.
  - exists st'. split; [exact E|]. split.
    + rewrite D. reflexivity.
    + apply (R (mkJam 0x1305 0xC000)). vm_compute. tauto.
Defined.

Lemma get_chip_id_and_ver_ok st :
  faults st = [] ->
  exists st',
    rtl8365mb_get_chip_id_and_ver st
    = (Ok (reg st RTL8365MB_CHIP_ID_REG, reg st RTL8365MB_CHIP_VER_REG), st')
    /\ faults st' = []
    /\ reg st' RTL8365MB_MAGIC_REG = 0
    /\ (forall b, b <> RTL8365MB_MAGIC_REG -> reg st' b = reg st b)
    /\ log st' = log st ++ [Wr RTL8365MB_MAGIC_REG RTL8365MB_MAGIC_VALUE;
                            Rd RTL8365MB_CHIP_ID_REG; Rd RTL8365MB_CHIP_VER_REG;
                            Wr RTL8365MB_MAGIC_REG 0].
Proof.
  intros Hf. unfold rtl8365mb_get_chip_id_and_ver.
  destruct (write_plain_ok RTL8365MB_MAGIC_REG RTL8365MB_MAGIC_VALUE st Hf eq_refl)
    as (s1 & E1 & Hf1 & _ & R1 & O1 & L1).
  destruct (read_plain_ok RTL8365MB_CHIP_ID_REG s1 Hf1) as (s2 & E2 & Hf2 & _ & O2 & L2).
  destruct (read_plain_ok RTL8365MB_CHIP_VER_REG s2 Hf2) as (s3 & E3 & Hf3 & _ & O3 & L3).
  destruct (write_plain_ok RTL8365MB_MAGIC_REG 0 s3 Hf3 eq_refl)
    as (s4 & E4 & Hf4 & _ & R4 & O4 & L4).
  unfold bind. rewrite E1, E2, E3, E4. unfold ret.
  rewrite O2, (O1 RTL8365MB_CHIP_ID_REG), (O1 RTL8365MB_CHIP_VER_REG) by discriminate.
  exists s4. split; [reflexivity|]. split; [exact Hf4|]. split; [exact R4|]. split.
  - intros b Hb. rewrite O4, O3, O2, O1 by exact Hb. reflexivity.
  - rewrite L4, L3, L2, L1, <- !app_assoc. reflexivity.
Qed.

Lemma chip_infos_find id ver :
  match List.find (fun ci => (chip_id ci =? id) && (chip_ver ci =? ver)) rtl8365mb_chip_infos with
  | Some ci => In ci rtl8365mb_chip_infos /\ chip_id ci = id /\ chip_ver ci = ver
  | None => ~ (id = 0x6367 /\ In ver [0x0040; 0x00A0; 0x0020])
  end.
Proof.
  destruct (List.find _ rtl8365mb_chip_infos) as [ci|] eqn:E.
  - apply find_some in E. destruct E as [Hin H]. apply andb_prop in H as [H1 H2].
    apply Z.eqb_eq in H1, H2. auto.
  - intros [-> Hv]. simpl in Hv.
    destruct Hv as [<- | [<- | [<- | []]]]; vm_compute in E; discriminate E.
Qed.

(** X15: detecting the chip.  On a transport without failures and with
    no chip information set before, the identification registers are read
    between two writes to the magic register, which is left at zero, and
    nothing else is accessed.  The call succeeds exactly when the chip ID is
    0x6367 and the version is one of 0x0040, 0x00A0 and 0x0020: the chip
    information chosen carries that ID and version, the number of ports is
    set to 11, and the trap port of the CPU configuration is set to 11,
    the value standing for no trap port chosen yet.  Any other chip is
    answered with -ENODEV and the configuration is left as it was. *)
Theorem detect_outcome (cfg : rtl8365mb_config) (st : chip) :
  faults st = [] -> chip_info cfg = None ->
  let id := reg st RTL8365MB_CHIP_ID_REG in
  let ver := reg st RTL8365MB_CHIP_VER_REG in
  let r := rtl8365mb_detect cfg st in
  let cfg' := snd (fst r) in
  (fst (fst r) = 0 \/ fst (fst r) = - ENODEV)
  /\ (fst (fst r) = 0 <-> id = 0x6367 /\ In ver [0x0040; 0x00A0; 0x0020])
  /\ (fst (fst r) = 0 ->
      exists ci,
        chip_info cfg' = Some ci /\ In ci rtl8365mb_chip_infos
        /\ chip_id ci = id /\ chip_ver ci = ver
        /\ priv_num_ports cfg' = RTL8365MB_MAX_NUM_PORTS
        /\ cpu_trap_port (cpu cfg') = RTL8365MB_MAX_NUM_PORTS
        /\ rtl8365mb_get_tag_protocol (cpu cfg') = DSA_TAG_PROTO_RTL8_4
        /\ (cpu_enable (cpu cfg'), cpu_mask (cpu cfg'))
           = (cpu_enable (cpu cfg), cpu_mask (cpu cfg)))
  /\ (fst (fst r) = - ENODEV -> cfg' = cfg)
  /\ reg (snd r) RTL8365MB_MAGIC_REG = 0
  /\ (forall b, b <> RTL8365MB_MAGIC_REG -> reg (snd r) b = reg st b)
  /\ delta st (snd r) = [Wr RTL8365MB_MAGIC_REG RTL8365MB_MAGIC_VALUE;
                         Rd RTL8365MB_CHIP_ID_REG; Rd RTL8365MB_CHIP_VER_REG;
                         Wr RTL8365MB_MAGIC_REG 0].
Proof.
  intros Hf Hnone id ver r cfg'. subst cfg' r. unfold rtl8365mb_detect.
  destruct (get_chip_id_and_ver_ok st Hf) as (st' & E & _ & Hm & Ho & Hl).
  rewrite E. fold id ver. rewrite Hnone.
  pose proof (chip_infos_find id ver) as Hfind.
  destruct (List.find _ rtl8365mb_chip_infos) as [ci|]; cbn [fst snd].
  - destruct Hfind as (Hin & Hid & Hver).
    split; [now left|]. split; [|split; [|split; [|split; [|split]]]].
    + split; [|reflexivity]. intros _. split.
      * rewrite <- Hid. simpl in Hin. destruct Hin as [<- | [<- | [<- | []]]]; reflexivity.
      * rewrite <- Hver. simpl in Hin.
        destruct Hin as [<- | [<- | [<- | []]]]; simpl; auto.
    + intros _. exists ci. repeat split; assumption.
    + discriminate.
    + exact Hm.
    + exact Ho.
    + unfold delta. rewrite Hl, drop_app_length. reflexivity.
  - split; [now right|]. split; [|split; [|split; [|split; [|split]]]].
    + split; [discriminate | intros H; contradiction].
    + discriminate.
    + reflexivity.
    + exact Hm.
    + exact Ho.
    + unfold delta. rewrite Hl, drop_app_length. reflexivity.
Qed.

Lemma detect_outcome_witness :
  fst (fst (rtl8365mb_detect config0 chip_8367s)) = 0
  /\ (exists ci, chip_info (snd (fst (rtl8365mb_detect config0 chip_8367s))) = Some ci
                 /\ chip_ver ci = 0x00A0)
  /\ fst (fst (rtl8365mb_detect config0 chip_unknown)) = - ENODEV.
Proof.
  pose proof (detect_outcome config0 chip_8367s eq_refl eq_refl) as H.
  pose proof (detect_outcome config0 chip_unknown eq_refl eq_refl) as U.
  cbv zeta in H, U.
  destruct H as (_ & H1 & H2 & _). destruct U as (U0 & U1 & _).
  assert (E0 : fst (fst (rtl8365mb_detect config0 chip_8367s)) = 0).
  { apply H1. split; [reflexivity|]. right. left. reflexivity. }
  split; [exact E0|]. split.
  - destruct (H2 E0) as (ci & Hc & _ & _ & Hv & _). exists ci. split; [exact Hc | exact Hv].
  - destruct U0 as [U0 | U0]; [|exact U0].
    apply U1 in U0. destruct U0 as [_ [U0 | [U0 | [U0 | []]]]]; discriminate U0.
Defined.

(** ** VLAN entries in their register layout *)

Lemma u16_land x : u16 x = Z.land x (Z.ones 16).
Proof. unfold u16. symmetry. apply Z.land_ones. lia. Qed.

Lemma u8_land x : u8 x = Z.land x (Z.ones 8).
Proof. unfold u8. symmetry. apply Z.land_ones. lia. Qed.

Ltac bitblast2 :=
  Z.bitblast;
  repeat match goal with
         | H : ?l = _ |- _ => first [subst l | clear H]
         end;
  try Z.bitblast_core.

Ltac vlan4k_masks :=
  unfold FIELD_GET, FIELD_PREP;
  change (FIELD_MAX RTL8365MB_VLAN_4K_CONF0_MEMBERS_LS_MASK) with (Z.ones 8);
  change (FIELD_MAX RTL8365MB_VLAN_4K_CONF0_UNTAG_LS_MASK) with (Z.ones 8);
  change (FIELD_WIDTH RTL8365MB_VLAN_4K_CONF0_MEMBERS_LS_MASK) with 8;
  change (FIELD_WIDTH RTL8365MB_VLAN_4K_CONF0_UNTAG_LS_MASK) with 8;
  change (bf_shf RTL8365MB_VLAN_4K_CONF0_MEMBERS_LS_MASK) with 0;
  change (bf_shf RTL8365MB_VLAN_4K_CONF0_UNTAG_LS_MASK) with 8;
  change (bf_shf RTL8365MB_VLAN_4K_CONF2_MEMBERS_MS_MASK) with 0;
  change (bf_shf RTL8365MB_VLAN_4K_CONF2_UNTAG_MS_MASK) with 3;
  change (bf_shf RTL8365MB_VLAN_4K_CONF1_FID_MSI_MASK) with 0;
  change RTL8365MB_VLAN_4K_CONF0_MEMBERS_LS_MASK with (Z.ones 8);
  change RTL8365MB_VLAN_4K_CONF0_UNTAG_LS_MASK with (Z.shiftl (Z.ones 8) 8);
  change RTL8365MB_VLAN_4K_CONF2_MEMBERS_MS_MASK with (Z.ones 3);
  change RTL8365MB_VLAN_4K_CONF2_UNTAG_MS_MASK with (Z.shiftl (Z.ones 3) 3);
  change RTL8365MB_VLAN_4K_CONF1_FID_MSI_MASK with (Z.ones 4);
  rewrite ?u16_land, ?u8_land.

Lemma vlan4k_roundtrip_words b0 b1 b2 vid untag member fid v0 :
  let buf' := rtl8365mb_vlan4k_buf (mkVlan4k vid untag member fid) [b0; b1; b2] in
  let v := rtl8365mb_buf_vlan4k buf' v0 in
  member4k v = Z.land member (Z.ones 11)
  /\ untag4k v = Z.land untag (Z.ones 11)
  /\ fid4k v = Z.land fid (Z.ones 4)
  /\ Z.land (nth 1 buf' 0) (Z.lnot (Z.ones 4)) = Z.land (u16 b1) (Z.lnot (Z.ones 4))
  /\ Z.land (nth 2 buf' 0) (Z.lnot (Z.ones 6)) = Z.land (u16 b2) (Z.lnot (Z.ones 6)).
Proof.
  intros buf' v. subst v buf'.
  unfold rtl8365mb_buf_vlan4k, rtl8365mb_vlan4k_buf. cbn [nth member4k untag4k fid4k vid4k].
  cbn [list_insert insert nth].
  vlan4k_masks.
  repeat split; bitblast2.
Qed.

Lemma length3 {A} (l : list A) :
  length l = 3%nat -> exists a b c, l = [a; b; c].
Proof.
  destruct l as [|a [|b [|c [|d l]]]]; try discriminate. intros _. eauto.
Qed.

Lemma length4 {A} (l : list A) :
  length l = 4%nat -> exists a b c d, l = [a; b; c; d].
Proof.
  destruct l as [|a [|b [|c [|d [|e l]]]]]; try discriminate. intros _. eauto.
Qed.

(** X16: packing a by-ID VLAN entry into its three table words and
    unpacking it again gives back the member and untag port bitmaps
    reduced to their 11 bits and the forwarding domain reduced to its 4
    bits, so an entry whose fields fit is returned unchanged; the VID is not
    part of the words.  Packing keeps the remaining bits of the second and
    third word as the buffer held them. *)
Theorem vlan4k_buf_roundtrip (vlan4k v0 : rtl8366_vlan_4k) (buf : list Z) :
  length buf = Z.to_nat RTL8365MB_VLAN_4K_ENTRY_SIZE ->
  let buf' := rtl8365mb_vlan4k_buf vlan4k buf in
  let v := rtl8365mb_buf_vlan4k buf' v0 in
  length buf' = length buf
  /\ v = mkVlan4k (vid4k v0) (Z.land (untag4k vlan4k) (Z.ones 11))
                  (Z.land (member4k vlan4k) (Z.ones 11)) (Z.land (fid4k vlan4k) (Z.ones 4))
  /\ (0 <= member4k vlan4k < 2 ^ 11 -> 0 <= untag4k vlan4k < 2 ^ 11 ->
      0 <= fid4k vlan4k < 2 ^ 4 ->
      v = mkVlan4k (vid4k v0) (untag4k vlan4k) (member4k vlan4k) (fid4k vlan4k))
  /\ Z.land (nth 1 buf' 0) (Z.lnot (Z.ones 4)) = Z.land (u16 (nth 1 buf 0)) (Z.lnot (Z.ones 4))
  /\ Z.land (nth 2 buf' 0) (Z.lnot (Z.ones 6)) = Z.land (u16 (nth 2 buf 0)) (Z.lnot (Z.ones 6)).
Proof.
  intros Hlen buf' v. destruct (length3 buf Hlen) as (b0 & b1 & b2 & ->).
  destruct vlan4k as [vid untag member fid].
  destruct (vlan4k_roundtrip_words b0 b1 b2 vid untag member fid v0)
    as (Hm & Hu & Hfd & H1 & H2).
  fold buf' in Hm, Hu, Hfd, H1, H2. fold v in Hm, Hu, Hfd.
  assert (Hv : v = mkVlan4k (vid4k v0) (Z.land untag (Z.ones 11))
                        (Z.land member (Z.ones 11)) (Z.land fid (Z.ones 4))).
  { rewrite <- Hm, <- Hu, <- Hfd. reflexivity. }
  split; [reflexivity|]. split; [exact Hv|]. split; [|split; [exact H1 | exact H2]].
  cbn [member4k untag4k fid4k]. intros Hmr Hur Hfr. rewrite Hv.
  rewrite !land_ones_small by lia. reflexivity.
Qed.

Lemma vlan4k_buf_roundtrip_witness :
  rtl8365mb_buf_vlan4k (rtl8365mb_vlan4k_buf (mkVlan4k 10 0x104 0x304 5) [0; 0xFFFF; 0xFFFF])
    vlan4k_zero
  = mkVlan4k 0 0x104 0x304 5.
Proof.
  apply (proj1 (proj2 (proj2 (vlan4k_buf_roundtrip (mkVlan4k 10 0x104 0x304 5) vlan4k_zero
                                [0; 0xFFFF; 0xFFFF] eq_refl)))); simpl; lia.
Defined.

Ltac vlanmc_masks :=
  unfold FIELD_GET, FIELD_PREP;
  change (bf_shf RTL8365MB_VLAN_MC_CONF0_MEMBERS_MSK) with 0;
  change (bf_shf RTL8365MB_VLAN_MC_CONF1_FID_MSI_MSK) with 0;
  change (bf_shf RTL8365MB_VLAN_MC_CONF2_VBPRI_MSK) with 1;
  change (bf_shf RTL8365MB_VLAN_MC_CONF3_EVID_MSK) with 0;
  change RTL8365MB_VLAN_MC_CONF0_MEMBERS_MSK with (Z.ones 11);
  change RTL8365MB_VLAN_MC_CONF1_FID_MSI_MSK with (Z.ones 4);
  change RTL8365MB_VLAN_MC_CONF2_VBPRI_MSK with (Z.shiftl (Z.ones 3) 1);
  change RTL8365MB_VLAN_MC_CONF3_EVID_MSK with (Z.ones 13);
  rewrite ?u16_land, ?u8_land.

Lemma vlanmc_roundtrip_words b0 b1 b2 b3 vid untag member fid priority v0 :
  let buf' := rtl8365mb_vlanmc_buf (mkVlanMc vid untag member fid priority) [b0; b1; b2; b3] in
  let v := rtl8365mb_buf_vlanmc buf' v0 in
  vidmc v = Z.land vid (Z.ones 13)
  /\ membermc v = Z.land member (Z.ones 11)
  /\ fidmc v = Z.land fid (Z.ones 4)
  /\ prioritymc v = Z.land priority (Z.ones 3)
  /\ Z.land (nth 0 buf' 0) (Z.lnot (Z.ones 11)) = Z.land (u16 b0) (Z.lnot (Z.ones 11))
  /\ Z.land (nth 1 buf' 0) (Z.lnot (Z.ones 4)) = Z.land (u16 b1) (Z.lnot (Z.ones 4))
  /\ Z.land (nth 2 buf' 0) (Z.lnot (Z.shiftl (Z.ones 3) 1))
     = Z.land (u16 b2) (Z.lnot (Z.shiftl (Z.ones 3) 1))
  /\ Z.land (nth 3 buf' 0) (Z.lnot (Z.ones 13)) = Z.land (u16 b3) (Z.lnot (Z.ones 13)).
Proof.
  intros buf' v. subst v buf'.
  unfold rtl8365mb_buf_vlanmc, rtl8365mb_vlanmc_buf.
  cbn [nth vidmc untagmc membermc fidmc prioritymc].
  cbn [list_insert insert nth].
  vlanmc_masks.
  repeat split; bitblast2.
Qed.

(** X17: packing a VLAN context slot into its four registers and
    unpacking it again gives back the VID reduced to its 13 bits, the
    member bitmap reduced to 11 bits, the forwarding domain reduced to 4
    bits and the priority reduced to 3 bits, so a slot whose fields fit is
    returned unchanged; the untag bitmap is not stored and is taken from
    the structure unpacked into.  Packing keeps every bit outside these
    four fields as the buffer held it. *)
Theorem vlanmc_buf_roundtrip (vlanmc v0 : rtl8366_vlan_mc) (buf : list Z) :
  length buf = Z.to_nat RTL8365MB_VLAN_MC_CONF_ENTRY_SIZE ->
  let buf' := rtl8365mb_vlanmc_buf vlanmc buf in
  let v := rtl8365mb_buf_vlanmc buf' v0 in
  length buf' = length buf
  /\ v = mkVlanMc (Z.land (vidmc vlanmc) (Z.ones 13)) (untagmc v0)
                  (Z.land (membermc vlanmc) (Z.ones 11)) (Z.land (fidmc vlanmc) (Z.ones 4))
                  (Z.land (prioritymc vlanmc) (Z.ones 3))
  /\ (0 <= vidmc vlanmc <= RTL8365MB_MAX_MC_VID -> 0 <= membermc vlanmc < 2 ^ 11 ->
      0 <= fidmc vlanmc < 2 ^ 4 -> 0 <= prioritymc vlanmc < 2 ^ 3 ->
      v = mkVlanMc (vidmc vlanmc) (untagmc v0) (membermc vlanmc) (fidmc vlanmc)
            (prioritymc vlanmc))
  /\ Z.land (nth 0 buf' 0) (Z.lnot (Z.ones 11)) = Z.land (u16 (nth 0 buf 0)) (Z.lnot (Z.ones 11))
  /\ Z.land (nth 1 buf' 0) (Z.lnot (Z.ones 4)) = Z.land (u16 (nth 1 buf 0)) (Z.lnot (Z.ones 4))
  /\ Z.land (nth 2 buf' 0) (Z.lnot (Z.shiftl (Z.ones 3) 1))
     = Z.land (u16 (nth 2 buf 0)) (Z.lnot (Z.shiftl (Z.ones 3) 1))
  /\ Z.land (nth 3 buf' 0) (Z.lnot (Z.ones 13)) = Z.land (u16 (nth 3 buf 0)) (Z.lnot (Z.ones 13)).
Proof.
  intros Hlen buf' v. destruct (length4 buf Hlen) as (b0 & b1 & b2 & b3 & ->).
  destruct vlanmc as [vid untag member fid priority].
  destruct (vlanmc_roundtrip_words b0 b1 b2 b3 vid untag member fid priority v0)
    as (Hv & Hm & Hfd & Hp & H0 & H1 & H2 & H3).
  fold buf' in Hv, Hm, Hfd, Hp, H0, H1, H2, H3. fold v in Hv, Hm, Hfd, Hp.
  assert (E : v = mkVlanMc (Z.land vid (Z.ones 13)) (untagmc v0)
                       (Z.land member (Z.ones 11)) (Z.land fid (Z.ones 4))
                       (Z.land priority (Z.ones 3))).
  { rewrite <- Hv, <- Hm, <- Hfd, <- Hp. reflexivity. }
  split; [reflexivity|]. split; [exact E|].
  split; [|split; [exact H0|split; [exact H1|split; [exact H2 | exact H3]]]].
  cbn [vidmc membermc fidmc prioritymc]. unfold RTL8365MB_MAX_MC_VID.
  intros Hvr Hmr Hfr Hpr. rewrite E.
  rewrite !land_ones_small by lia. reflexivity.
Qed.

Lemma vlanmc_buf_roundtrip_witness :
  rtl8365mb_buf_vlanmc
    (rtl8365mb_vlanmc_buf (mkVlanMc 5000 0 0x104 3 7) [0xFFFF; 0; 0xFFFF; 0]) vlanmc_zero
  = mkVlanMc 5000 0 0x104 3 7.
Proof.
  apply (proj1 (proj2 (proj2 (vlanmc_buf_roundtrip (mkVlanMc 5000 0 0x104 3 7) vlanmc_zero
                                [0xFFFF; 0; 0xFFFF; 0] eq_refl))));
    simpl; unfold RTL8365MB_MAX_MC_VID; lia.
Defined.

(** ** The by-ID table *)

Lemma buf_vlan4k_ext buf buf' v0 :
  nth 0 buf 0 = nth 0 buf' 0 -> nth 1 buf 0 = nth 1 buf' 0 -> nth 2 buf 0 = nth 2 buf' 0 ->
  rtl8365mb_buf_vlan4k buf v0 = rtl8365mb_buf_vlan4k buf' v0.
Proof. intros H0 H1 H2. unfold rtl8365mb_buf_vlan4k. now rewrite H0, H1, H2. Qed.

Lemma vlan4k_buf_words v buf :
  length buf = 3%nat ->
  length (rtl8365mb_vlan4k_buf v buf) = 3%nat
  /\ forall k, (k < 3)%nat ->
       u16 (nth k (rtl8365mb_vlan4k_buf v buf) 0) = nth k (rtl8365mb_vlan4k_buf v buf) 0.
Proof.
  intros Hlen. destruct (length3 buf Hlen) as (b0 & b1 & b2 & ->).
  split; [reflexivity|]. intros k Hk.
  destruct k as [|[|[|k]]]; [| | |lia];
    unfold rtl8365mb_vlan4k_buf; cbn [list_insert insert nth]; apply u16_idem.
Qed.

Lemma table_not_window_lut : ~ table_window RTL8365MB_TABLE_LUT_REG.
Proof.
  unfold table_window, RTL8365MB_TABLE_LUT_REG, RTL8365MB_TABLE_CONTROL_REG,
    RTL8365MB_TABLE_ACCESS_ADDR_REG, RTL8365MB_TABLE_WRITE_DATA_REG_BASE,
    RTL8365MB_TABLE_READ_DATA_REG_BASE. lia.
Qed.

Lemma member_bit_update (m port q : Z) (include : bool) :
  0 <= port < 11 -> 0 <= q < 11 ->
  Z.testbit (Z.land (if include then u16 (Z.lor m (BIT port))
                     else u16 (Z.land m (Z.lnot (BIT port)))) (Z.ones 11)) q
  = if q =? port then include else Z.testbit m q.
Proof.
  intros Hp Hq. rewrite Z.land_spec, Z.testbit_ones_nonneg by lia.
  destruct (Z.ltb_spec q 11); [|lia]. rewrite andb_true_r.
  destruct include; unfold u16; rewrite Z.testbit_mod_pow2 by lia;
    (destruct (Z.ltb_spec q 16); [|lia]); cbn [andb].
  - rewrite Z.lor_spec, testbit_BIT by lia.
    destruct (q =? port); [apply orb_true_r | apply orb_false_r].
  - rewrite Z.land_spec, Z.lnot_spec, testbit_BIT by lia.
    destruct (q =? port); [apply andb_false_r | apply andb_true_r].
Qed.

Lemma vlan4k_set_ok ds port vid flags include st :
  quiet st -> 0 <= vid <= RTL8365MB_MAX_4K_VID -> 0 <= port < 11 ->
  exists st',
    rtl8365mb_vlan4k_set ds port vid flags include st = (Ok tt, st')
    /\ quiet st'
    /\ (forall q, 0 <= q < 11 ->
          Z.testbit (member4k (vlan4k_entry st' vid)) q
          = if q =? port then include else Z.testbit (member4k (vlan4k_entry st vid)) q)
    /\ (forall q, 0 <= q < 11 ->
          Z.testbit (untag4k (vlan4k_entry st' vid)) q
          = if q =? port then include && has_untagged_flag flags
            else Z.testbit (untag4k (vlan4k_entry st vid)) q)
    /\ fid4k (vlan4k_entry st' vid) = fid4k (vlan4k_entry st vid)
    /\ (forall v, v <> vid -> table_row st' RTL8365MB_TABLE_CVLAN v
                              = table_row st RTL8365MB_TABLE_CVLAN v)
    /\ (forall b, ~ table_window b -> reg st' b = reg st b).
Proof.
  intros [Hf Hbusy] Hvid Hp. unfold RTL8365MB_MAX_4K_VID in Hvid.
  unfold rtl8365mb_vlan4k_set.
  destruct (Z.gtb_spec vid RTL8365MB_MAX_4K_VID) as [H|_];
    [unfold RTL8365MB_MAX_4K_VID in H; lia|].
  unfold rtl8365mb_table_access.
  destruct (table_read_ok rtl8365mb_table_entry_size RTL8365MB_TABLE_CVLAN vid [0; 0; 0] st
              Hf Hbusy) as (s1 & E1 & Hf1 & Ht1 & Ho1 & _);
    [unfold RTL8365MB_TABLE_CVLAN, RTL8365MB_NUM_TABLES; lia
    | change (2 ^ 14) with 16384; lia | vm_compute; split; discriminate |].
  change (rtl8365mb_table_entry_size RTL8365MB_TABLE_CVLAN) with 3 in E1.
  change (3 =? 10) with false in E1. cbv iota in E1.
  change (Z.to_nat 3) with 3%nat in E1.
  set (row := table_row st RTL8365MB_TABLE_CVLAN vid) in *.
  set (words := firstn 3 row ++ skipn 3 [0; 0; 0]) in *.
  assert (Hwlen : length words = 3%nat) by reflexivity.
  assert (Hw : forall k, (k < 3)%nat -> nth k words 0 = nth k row 0).
  { intros k Hk. destruct k as [|[|[|k]]]; [reflexivity | reflexivity | reflexivity | lia]. }
  unfold bind at 1. rewrite E1.
  set (old := rtl8365mb_buf_vlan4k words vlan4k_zero).
  assert (Hold : old = vlan4k_entry st vid).
  { apply buf_vlan4k_ext; apply Hw; lia. }
  match goal with
  | |- context [rtl8365mb_vlan4k_buf ?v words] => set (new := v)
  end.
  destruct (vlan4k_buf_words new words Hwlen) as [Hnlen Hn16].
  destruct (table_write_ok rtl8365mb_table_entry_size RTL8365MB_TABLE_CVLAN vid
              (rtl8365mb_vlan4k_buf new words) s1 Hf1)
    as (s2 & E2 & Hf2 & Ho2 & Hrows & Hlow & _ & _);
    [unfold RTL8365MB_TABLE_CVLAN, RTL8365MB_NUM_TABLES; lia
    | change (2 ^ 14) with 16384; lia | vm_compute; split; discriminate |].
  unfold bind. rewrite E2. exists s2. split; [reflexivity|].
  assert (Hnew : vlan4k_entry s2 vid
                 = rtl8365mb_buf_vlan4k (rtl8365mb_vlan4k_buf new words) vlan4k_zero).
  { apply buf_vlan4k_ext.
    - rewrite (Hlow 0%nat), Hn16 by (try rewrite Hnlen; try reflexivity; lia). reflexivity.
    - rewrite (Hlow 1%nat), Hn16 by (try rewrite Hnlen; try reflexivity; lia). reflexivity.
    - rewrite (Hlow 2%nat), Hn16 by (try rewrite Hnlen; try reflexivity; lia). reflexivity. }
  destruct (length3 words Hwlen) as (w0 & w1 & w2 & Ew).
  pose proof (vlan4k_roundtrip_words w0 w1 w2 (vid4k new) (untag4k new) (member4k new)
                (fid4k new) vlan4k_zero) as RT.
  cbv zeta in RT. rewrite <- Ew in RT.
  replace (mkVlan4k (vid4k new) (untag4k new) (member4k new) (fid4k new)) with new in RT
    by (destruct new; reflexivity).
  rewrite <- Hnew in RT. destruct RT as (Rm & Ru & Rf & _).
  split; [|split; [|split; [|split; [|split]]]].
  - split; [exact Hf2|]. rewrite Ho2, Ho1 by exact table_not_window_lut. exact Hbusy.
  - intros q Hq. rewrite Rm. subst new. cbn [member4k]. rewrite Hold.
    apply member_bit_update; assumption.
  - intros q Hq. rewrite Ru. subst new. cbn [untag4k]. rewrite Hold.
    fold (has_untagged_flag flags).
    rewrite <- (member_bit_update (untag4k (vlan4k_entry st vid)) port q
                  (include && has_untagged_flag flags)) by assumption.
    destruct (include && has_untagged_flag flags); reflexivity.
  - rewrite Rf. subst new. cbn [fid4k]. rewrite Hold.
    apply land_ones_small; [lia|]. unfold vlan4k_entry, rtl8365mb_buf_vlan4k. cbn [fid4k].
    unfold u8, FIELD_GET. change (bf_shf RTL8365MB_VLAN_4K_CONF1_FID_MSI_MASK) with 0.
    change RTL8365MB_VLAN_4K_CONF1_FID_MSI_MASK with (Z.ones 4).
    rewrite Z.shiftr_0_r, Z.land_ones by lia.
    pose proof (Z.mod_pos_bound (nth 1 (table_row st RTL8365MB_TABLE_CVLAN vid) 0) (2 ^ 4)
                  ltac:(lia)) as Hb.
    rewrite Z.mod_small; [exact Hb|].
    change (2 ^ 4) with 16 in *. change (2 ^ 8) with 256. lia.
  - intros v Hv. rewrite Hrows by congruence. apply table_row_congr. exact Ht1.
  - intros b Hb. rewrite Ho2, Ho1 by exact Hb. reflexivity.
Qed.

(** X18: one update of the by-ID VLAN table.  A VID above 4095 is
    refused with -EINVAL without any access to the chip.  On a quiet chip
    and for a port below 11, adding the port sets its member bit in the
    entry of the VID and sets or clears its untag bit as the untagged flag
    says; removing it clears both bits.  The bits of the other ports and
    the forwarding domain of the entry, the entries of all other VIDs and
    all registers outside the table window stay as they were. *)
Theorem vlan4k_set_membership (ds : dsa_switch) (port vid flags : Z) (include : bool)
    (st : chip) :
  (RTL8365MB_MAX_4K_VID < vid ->
     rtl8365mb_vlan4k_set ds port vid flags include st = (Err (- EINVAL), st))
  /\ (quiet st -> 0 <= vid <= RTL8365MB_MAX_4K_VID -> 0 <= port < 11 ->
      exists st',
        rtl8365mb_vlan4k_set ds port vid flags include st = (Ok tt, st')
        /\ (forall q, 0 <= q < 11 ->
              Z.testbit (member4k (vlan4k_entry st' vid)) q
              = if q =? port then include else Z.testbit (member4k (vlan4k_entry st vid)) q)
        /\ (forall q, 0 <= q < 11 ->
              Z.testbit (untag4k (vlan4k_entry st' vid)) q
              = if q =? port then include && has_untagged_flag flags
                else Z.testbit (untag4k (vlan4k_entry st vid)) q)
        /\ fid4k (vlan4k_entry st' vid) = fid4k (vlan4k_entry st vid)
        /\ (forall v, v <> vid -> table_row st' RTL8365MB_TABLE_CVLAN v
                                  = table_row st RTL8365MB_TABLE_CVLAN v)
        /\ (forall b, ~ table_window b -> reg st' b = reg st b)).
Proof.
  split.
  - intros H. unfold rtl8365mb_vlan4k_set.
    destruct (Z.gtb_spec vid RTL8365MB_MAX_4K_VID); [reflexivity | lia].
  - intros Hq Hvid Hp.
    destruct (vlan4k_set_ok ds port vid flags include st Hq Hvid Hp)
      as (st' & E & _ & Hm & Hu & Hfid & Hrows & Hregs).
    exists st'. auto 10.
Qed.

Lemma quiet_fresh_chip : quiet fresh_chip.
Proof. split; reflexivity. Qed.

Lemma quiet_vlan10_chip : quiet vlan10_chip.
Proof. split; reflexivity. Qed.

Lemma vlan4k_set_membership_witness :
  rtl8365mb_vlan4k_set ds11 2 4096 0 true fresh_chip = (Err (- EINVAL), fresh_chip)
  /\ (exists st',
        rtl8365mb_vlan4k_set ds11 3 10 BRIDGE_VLAN_INFO_UNTAGGED true vlan10_chip = (Ok tt, st')
        /\ Z.testbit (member4k (vlan4k_entry st' 10)) 3 = true
        /\ Z.testbit (untag4k (vlan4k_entry st' 10)) 3 = true
        /\ Z.testbit (member4k (vlan4k_entry st' 10)) 2 = true
        /\ Z.testbit (untag4k (vlan4k_entry st' 10)) 2 = false).
Proof.
  split.
  - apply (proj1 (vlan4k_set_membership ds11 2 4096 0 true fresh_chip)). reflexivity.
  - destruct (proj2 (vlan4k_set_membership ds11 3 10 BRIDGE_VLAN_INFO_UNTAGGED true vlan10_chip)
                quiet_vlan10_chip) as (st' & E & Hm & Hu & _).
    + unfold RTL8365MB_MAX_4K_VID. lia.
    + lia.
    + exists st'. split; [exact E|].
      rewrite (Hm 3), (Hu 3), (Hm 2), (Hu 2) by lia. repeat split.
Defined.

(** X19: on a quiet chip, adding a port to the by-ID entry of a VID and
    removing it again leaves the member and untag bits of every other port
    as they were and the bits of the port itself clear: for a port that
    was no member before, the two bitmaps are restored bit for bit. *)
Theorem vlan4k_add_del_roundtrip (ds : dsa_switch) (port vid flags flags' : Z) (st : chip) :
  quiet st -> 0 <= vid <= RTL8365MB_MAX_4K_VID -> 0 <= port < 11 ->
  exists st1 st2,
    rtl8365mb_vlan4k_set ds port vid flags true st = (Ok tt, st1)
    /\ rtl8365mb_vlan4k_set ds port vid flags' false st1 = (Ok tt, st2)
    /\ (forall q, 0 <= q < 11 ->
          Z.testbit (member4k (vlan4k_entry st2 vid)) q
          = if q =? port then false else Z.testbit (member4k (vlan4k_entry st vid)) q)
    /\ (forall q, 0 <= q < 11 ->
          Z.testbit (untag4k (vlan4k_entry st2 vid)) q
          = if q =? port then false else Z.testbit (untag4k (vlan4k_entry st vid)) q)
    /\ (Z.testbit (member4k (vlan4k_entry st vid)) port = false ->
        Z.testbit (untag4k (vlan4k_entry st vid)) port = false ->
        forall q, 0 <= q < 11 ->
          Z.testbit (member4k (vlan4k_entry st2 vid)) q
          = Z.testbit (member4k (vlan4k_entry st vid)) q
          /\ Z.testbit (untag4k (vlan4k_entry st2 vid)) q
             = Z.testbit (untag4k (vlan4k_entry st vid)) q).
Proof.
  intros Hq Hvid Hp.
  destruct (vlan4k_set_ok ds port vid flags true st Hq Hvid Hp)
    as (s1 & E1 & Hq1 & Hm1 & Hu1 & _).
  destruct (vlan4k_set_ok ds port vid flags' false s1 Hq1 Hvid Hp)
    as (s2 & E2 & _ & Hm2 & Hu2 & _).
  exists s1, s2. split; [exact E1|]. split; [exact E2|].
  assert (Hm : forall q, 0 <= q < 11 ->
            Z.testbit (member4k (vlan4k_entry s2 vid)) q
            = if q =? port then false else Z.testbit (member4k (vlan4k_entry st vid)) q).
  { intros q Hq'. rewrite Hm2, Hm1 by assumption. destruct (q =? port); reflexivity. }
  assert (Hu : forall q, 0 <= q < 11 ->
            Z.testbit (untag4k (vlan4k_entry s2 vid)) q
            = if q =? port then false else Z.testbit (untag4k (vlan4k_entry st vid)) q).
  { intros q Hq'. rewrite Hu2, Hu1 by assumption. destruct (q =? port); reflexivity. }
  split; [exact Hm|]. split; [exact Hu|].
  intros H1 H2 q Hq'. rewrite Hm, Hu by assumption.
  destruct (Z.eqb_spec q port) as [-> | _]; [now rewrite H1, H2 | split; reflexivity].
Qed.

Lemma vlan4k_add_del_roundtrip_witness :
  exists st1 st2,
    rtl8365mb_vlan4k_set ds11 3 10 BRIDGE_VLAN_INFO_UNTAGGED true vlan10_chip = (Ok tt, st1)
    /\ rtl8365mb_vlan4k_set ds11 3 10 0 false st1 = (Ok tt, st2)
    /\ Z.testbit (member4k (vlan4k_entry st2 10)) 3 = false
    /\ Z.testbit (member4k (vlan4k_entry st2 10)) 2 = true.
Proof.
  destruct (vlan4k_add_del_roundtrip ds11 3 10 BRIDGE_VLAN_INFO_UNTAGGED 0 vlan10_chip
              quiet_vlan10_chip) as (st1 & st2 & E1 & E2 & Hm & _).
  - unfold RTL8365MB_MAX_4K_VID. lia.
  - lia.
  - exists st1, st2. split; [exact E1|]. split; [exact E2|].
    rewrite (Hm 3), (Hm 2) by lia. split; reflexivity.
Defined.

Lemma vlan_init_loop ds cpus : forall st,
  quiet st -> Forall (fun p => 0 <= p < 11) cpus ->
  exists st',
    fold_right (fun cpu rest =>
                  rtl8365mb_vlan4k_set ds cpu 0 BRIDGE_VLAN_INFO_UNTAGGED true ;;; rest)
               (ret tt) cpus st = (Ok tt, st')
    /\ quiet st'
    /\ (forall q, 0 <= q < 11 ->
          Z.testbit (member4k (vlan4k_entry st' 0)) q
          = existsb (Z.eqb q) cpus || Z.testbit (member4k (vlan4k_entry st 0)) q)
    /\ (forall q, 0 <= q < 11 ->
          Z.testbit (untag4k (vlan4k_entry st' 0)) q
          = existsb (Z.eqb q) cpus || Z.testbit (untag4k (vlan4k_entry st 0)) q)
    /\ (forall v, v <> 0 -> table_row st' RTL8365MB_TABLE_CVLAN v
                            = table_row st RTL8365MB_TABLE_CVLAN v)
    /\ (forall b, ~ table_window b -> reg st' b = reg st b).
Proof.
  induction cpus as [|p cpus IH]; intros st Hq Hr; simpl.
  - exists st. repeat split; try apply Hq; reflexivity.
  - inversion Hr as [|? ? Hp Hr']; subst.
    destruct (vlan4k_set_ok ds p 0 BRIDGE_VLAN_INFO_UNTAGGED true st Hq)
      as (s1 & E1 & Hq1 & Hm1 & Hu1 & _ & Hrow1 & Hreg1);
      [unfold RTL8365MB_MAX_4K_VID; lia | exact Hp |].
    destruct (IH s1 Hq1 Hr') as (s2 & E2 & Hq2 & Hm2 & Hu2 & Hrow2 & Hreg2).
    unfold bind at 1. rewrite E1, E2. exists s2. split; [reflexivity|]. split; [exact Hq2|].
    split; [|split; [|split]].
    + intros q Hq'. rewrite Hm2, Hm1 by assumption.
      destruct (q =? p); simpl; [apply orb_true_r | reflexivity].
    + intros q Hq'. rewrite Hu2, Hu1 by assumption.
      change (has_untagged_flag BRIDGE_VLAN_INFO_UNTAGGED) with true.
      destruct (q =? p); simpl; [apply orb_true_r | reflexivity].
    + intros v Hv. rewrite Hrow2, Hrow1 by assumption. reflexivity.
    + intros b Hb. rewrite Hreg2, Hreg1 by assumption. reflexivity.
Qed.

(** X20: initialising the VLANs.  On a quiet chip and with every CPU port
    below 11, the initialisation succeeds; afterwards every CPU port is an
    untagged member of VLAN 0 in the by-ID table, the membership of the
    other ports in VLAN 0 and the entries of all other VIDs are as before,
    the reserved context slot 0 is all zero, and the VLAN enable bit is
    set. *)
Theorem vlan_init_effect (ds : dsa_switch) (st : chip) :
  quiet st -> Forall (fun p => 0 <= p < 11) (cpu_port_indices ds) ->
  exists st',
    rtl8365mb_vlan_init ds st = (Ok tt, st')
    /\ (forall q, 0 <= q < 11 ->
          Z.testbit (member4k (vlan4k_entry st' 0)) q
          = dsa_is_cpu_port ds q || Z.testbit (member4k (vlan4k_entry st 0)) q)
    /\ (forall q, 0 <= q < 11 ->
          Z.testbit (untag4k (vlan4k_entry st' 0)) q
          = dsa_is_cpu_port ds q || Z.testbit (untag4k (vlan4k_entry st 0)) q)
    /\ (forall v, v <> 0 -> table_row st' RTL8365MB_TABLE_CVLAN v
                            = table_row st RTL8365MB_TABLE_CVLAN v)
    /\ slot_entry st' 0 = [0; 0; 0; 0]
    /\ FIELD_GET RTL8365MB_VLAN_CTRL_EN_VLAN_MASK (reg st' RTL8365MB_VLAN_CTRL_REG) = 1.
Proof.
  intros Hq Hr. unfold rtl8365mb_vlan_init. cbv zeta.
  destruct (vlan_init_loop ds (cpu_port_indices ds) st Hq Hr)
    as (s1 & E1 & [Hf1 _] & Hm & Hu & Hrow & _).
  unfold bind at 1. rewrite E1.
  change (rtl8365mb_vlanmc_buf (mkVlanMc 0 0 0 0 0) [0; 0; 0; 0]) with [0; 0; 0; 0].
  unfold bind at 1.
  rewrite regmap_bulk_write_ok;
    [|exact Hf1
     |intros b Hb; simpl in Hb; apply plain_spec;
      unfold RTL8365MB_VLAN_MC_CONF_REG, RTL8365MB_VLAN_MC_CONF_BASE,
        RTL8365MB_VLAN_MC_CONF_ENTRY_SIZE in Hb; lia].
  set (s2 := mkChip _ _ _ _).
  destruct (update_plain_ok RTL8365MB_VLAN_CTRL_REG RTL8365MB_VLAN_CTRL_EN_VLAN_MASK
              (FIELD_PREP RTL8365MB_VLAN_CTRL_EN_VLAN_MASK 1) s2 eq_refl eq_refl)
    as (s3 & E3 & _ & Ht3 & R3 & O3 & _).
  rewrite E3. exists s3. split; [reflexivity|].
  assert (Hrows : forall v, table_row s3 RTL8365MB_TABLE_CVLAN v
                            = table_row s1 RTL8365MB_TABLE_CVLAN v).
  { intros v. apply table_row_congr. rewrite Ht3. reflexivity. }
  assert (Hent : forall v, vlan4k_entry s3 v = vlan4k_entry s1 v).
  { intros v. unfold vlan4k_entry. now rewrite Hrows. }
  split; [|split; [|split; [|split]]].
  - intros q Hq'. rewrite Hent. apply Hm. exact Hq'.
  - intros q Hq'. rewrite Hent. apply Hu. exact Hq'.
  - intros v Hv. rewrite Hrows. apply Hrow. exact Hv.
  - unfold slot_entry, regs_at. cbn [map seq].
    assert (Hs : forall i, (i < 4)%nat ->
              reg s3 (RTL8365MB_VLAN_MC_CONF_REG 0 + Z.of_nat i) = 0).
    { intros i Hi. rewrite O3.
      - subst s2. unfold reg at 1. cbn [regs]. fold (reg (stored (RTL8365MB_VLAN_MC_CONF_REG 0)
                                                       [0; 0; 0; 0] s1)
                                               (RTL8365MB_VLAN_MC_CONF_REG 0 + Z.of_nat i)).
        rewrite reg_stored_in by (simpl; lia).
        destruct i as [|[|[|[|i]]]]; [reflexivity | reflexivity | reflexivity | reflexivity | lia].
      - unfold RTL8365MB_VLAN_MC_CONF_REG, RTL8365MB_VLAN_MC_CONF_BASE,
          RTL8365MB_VLAN_MC_CONF_ENTRY_SIZE, RTL8365MB_VLAN_CTRL_REG. lia. }
    rewrite (Hs 0%nat), (Hs 1%nat), (Hs 2%nat), (Hs 3%nat) by lia. reflexivity.
  - rewrite R3. unfold FIELD_GET, FIELD_PREP.
    change (bf_shf RTL8365MB_VLAN_CTRL_EN_VLAN_MASK) with 0.
    change RTL8365MB_VLAN_CTRL_EN_VLAN_MASK with (Z.shiftl (Z.ones 1) 0).
    rewrite <- Z.land_assoc, Z.land_diag. rewrite field_set_get by lia. reflexivity.
Qed.

Lemma vlan_init_effect_witness :
  exists st',
    rtl8365mb_vlan_init ds11 chip0 = (Ok tt, st')
    /\ Z.testbit (member4k (vlan4k_entry st' 0)) 8 = true
    /\ Z.testbit (untag4k (vlan4k_entry st' 0)) 8 = true
    /\ Z.testbit (member4k (vlan4k_entry st' 0)) 2 = false.
Proof.
  destruct (vlan_init_effect ds11 chip0) as (st' & E & Hm & Hu & _).
  - split; reflexivity.
  - repeat constructor; discriminate.
  - exists st'. split; [exact E|].
    rewrite (Hm 8), (Hu 8), (Hm 2) by lia. repeat split.
Defined.

(** ** Bridging *)

Lemma isolation_reg_plain q : 0 <= q < 16 -> plain (RTL8365MB_PORT_ISOLATION_REG q) = true.
Proof.
  intros Hq. apply plain_spec;
    unfold RTL8365MB_PORT_ISOLATION_REG, RTL8365MB_PORT_ISOLATION_REG_BASE; lia.
Qed.

Lemma testbit_u32 x b : 0 <= b < 32 -> Z.testbit (u32 x) b = Z.testbit x b.
Proof.
  intros Hb. unfold u32. rewrite Z.testbit_mod_pow2 by lia.
  destruct (Z.ltb_spec b 32); [reflexivity | lia].
Qed.

Lemma bridge_peer_hit dp dps port bridge q :
  dsa_port_is_unused dp = false -> port <> dp_index dp ->
  dsa_port_offloads_bridge dp bridge = true ->
  bridge_peer (dp :: dps) port bridge q
  = (dp_index dp =? q) || bridge_peer dps port bridge q.
Proof.
  intros Eu Ep Eo. unfold bridge_peer. cbn [existsb]. rewrite Eu, Eo.
  destruct (Z.eqb_spec port (dp_index dp)); [contradiction|].
  cbn [negb]. now rewrite !andb_true_r.
Qed.

Lemma bridge_peer_skip dp dps port bridge q :
  negb (dsa_port_is_unused dp) && negb (port =? dp_index dp)
  && dsa_port_offloads_bridge dp bridge = false ->
  bridge_peer (dp :: dps) port bridge q = bridge_peer dps port bridge q.
Proof.
  intros Hno. unfold bridge_peer. cbn [existsb].
  rewrite <- !andb_assoc. rewrite <- !andb_assoc in Hno. rewrite Hno.
  now rewrite andb_false_r.
Qed.

Lemma bridge_bit_step st s1 p port (flag : bool) :
  0 <= port < 16 ->
  reg s1 (RTL8365MB_PORT_ISOLATION_REG p)
  = u16 (Z.lor (Z.land (reg st (RTL8365MB_PORT_ISOLATION_REG p)) (Z.lnot (BIT port)))
               (Z.land (if flag then BIT port else 0) (BIT port))) ->
  (forall a, a <> RTL8365MB_PORT_ISOLATION_REG p -> reg s1 a = reg st a) ->
  forall q b, 0 <= b ->
    forwards_to s1 q b
    = if (p =? q) && (b =? port) then flag else forwards_to st q b.
Proof.
  intros Hp R1 O1 q b Hb. unfold forwards_to.
  destruct (Z.eqb_spec p q) as [<- | Hne]; cbn [andb].
  - rewrite R1. apply update_bit_testbit; [exact Hp | exact Hb | apply reg_range].
  - rewrite O1; [reflexivity|]. unfold RTL8365MB_PORT_ISOLATION_REG. lia.
Qed.

Lemma bridge_ports_loop (join : bool) dps port bridge : forall bm st,
  faults st = [] -> 0 <= port < 16 ->
  Forall (fun dp => 0 <= dp_index dp < 16) dps ->
  exists bm' st',
    (if join then bridge_join_ports dps port bridge bm st
     else bridge_leave_ports dps port bridge bm st) = (bm', st')
    /\ faults st' = []
    /\ (forall b, 0 <= b < 32 ->
          Z.testbit bm' b = Z.testbit bm b || bridge_peer dps port bridge b)
    /\ (forall q b, 0 <= b ->
          forwards_to st' q b
          = if bridge_peer dps port bridge q && (b =? port) then join
            else forwards_to st q b)
    /\ (forall a, (forall q, 0 <= q < 16 -> q <> port -> a <> RTL8365MB_PORT_ISOLATION_REG q) ->
          reg st' a = reg st a).
Proof.
  induction dps as [|dp dps IH]; intros bm st Hf Hp Hr.
  - exists bm, st. split; [destruct join; reflexivity|]. split; [exact Hf|].
    split; [intros; simpl; now rewrite orb_false_r|]. split; [reflexivity|reflexivity].
  - inversion Hr as [|? ? Hd Hr']; subst.
    assert (Hskip : negb (dsa_port_is_unused dp)
                    && negb (port =? dp_index dp) && dsa_port_offloads_bridge dp bridge = false ->
              exists bm' st',
                (if join then bridge_join_ports dps port bridge bm st
                 else bridge_leave_ports dps port bridge bm st) = (bm', st')
                /\ faults st' = []
                /\ (forall b, 0 <= b < 32 ->
                      Z.testbit bm' b = Z.testbit bm b || bridge_peer (dp :: dps) port bridge b)
                /\ (forall q b, 0 <= b ->
                      forwards_to st' q b
                      = if bridge_peer (dp :: dps) port bridge q && (b =? port) then join
                        else forwards_to st q b)
                /\ (forall a, (forall q, 0 <= q < 16 -> q <> port ->
                                 a <> RTL8365MB_PORT_ISOLATION_REG q) ->
                      reg st' a = reg st a)).
    { intros Hno. destruct (IH bm st Hf Hp Hr') as (bm' & st' & E & Hf' & Hb & Hfw & Ho).
      exists bm', st'. split; [exact E|]. split; [exact Hf'|].
      split; [intros b Hb'; rewrite (bridge_peer_skip _ _ _ _ _ Hno); now apply Hb|].
      split; [intros q b Hb'; rewrite (bridge_peer_skip _ _ _ _ _ Hno); now apply Hfw
             | exact Ho]. }
    assert (Hhit : dsa_port_is_unused dp = false -> port <> dp_index dp ->
                   dsa_port_offloads_bridge dp bridge = true ->
                   forall s1,
                     regmap_update_bits (RTL8365MB_PORT_ISOLATION_REG (dp_index dp))
                       (BIT port) (if join then BIT port else 0) st = (Ok tt, s1) ->
                     faults s1 = [] ->
                     reg s1 (RTL8365MB_PORT_ISOLATION_REG (dp_index dp))
                     = u16 (Z.lor (Z.land (reg st (RTL8365MB_PORT_ISOLATION_REG (dp_index dp)))
                                          (Z.lnot (BIT port)))
                                  (Z.land (if join then BIT port else 0) (BIT port))) ->
                     (forall a, a <> RTL8365MB_PORT_ISOLATION_REG (dp_index dp) ->
                                reg s1 a = reg st a) ->
              exists bm' st',
                (if join
                 then bridge_join_ports dps port bridge (u32 (Z.lor bm (BIT (dp_index dp)))) s1
                 else bridge_leave_ports dps port bridge (u32 (Z.lor bm (BIT (dp_index dp)))) s1)
                = (bm', st')
                /\ faults st' = []
                /\ (forall b, 0 <= b < 32 ->
                      Z.testbit bm' b = Z.testbit bm b || bridge_peer (dp :: dps) port bridge b)
                /\ (forall q b, 0 <= b ->
                      forwards_to st' q b
                      = if bridge_peer (dp :: dps) port bridge q && (b =? port) then join
                        else forwards_to st q b)
                /\ (forall a, (forall q, 0 <= q < 16 -> q <> port ->
                                 a <> RTL8365MB_PORT_ISOLATION_REG q) ->
                      reg st' a = reg st a)).
    { intros Eu Ep Eo s1 E1 Hf1 R1 O1.
      destruct (IH (u32 (Z.lor bm (BIT (dp_index dp)))) s1 Hf1 Hp Hr')
        as (bm' & st' & E & Hf' & Hb & Hfw & Ho).
      exists bm', st'. split; [exact E|]. split; [exact Hf'|].
      split; [|split].
      - intros b Hb'. rewrite Hb, testbit_u32, Z.lor_spec, testbit_BIT by lia.
        rewrite (bridge_peer_hit _ _ _ _ _ Eu Ep Eo), (Z.eqb_sym b).
        now rewrite orb_assoc.
      - intros q b Hb'. rewrite Hfw by assumption.
        rewrite (bridge_peer_hit _ _ _ _ _ Eu Ep Eo).
        rewrite (bridge_bit_step st s1 (dp_index dp) port join Hp R1 O1 q b Hb').
        destruct (dp_index dp =? q), (bridge_peer dps port bridge q), (b =? port);
          reflexivity.
      - intros a Ha. rewrite Ho by exact Ha. apply O1. apply Ha; [exact Hd | congruence]. }
    destruct join; cbn [bridge_join_ports bridge_leave_ports].
    all: destruct (dsa_port_is_unused dp) eqn:Eu; [apply Hskip; reflexivity|].
    all: destruct (Z.eqb_spec port (dp_index dp)) as [Ep|Ep]; [apply Hskip; reflexivity|].
    all: destruct (dsa_port_offloads_bridge dp bridge) eqn:Eo; cbn [negb];
      [|apply Hskip; reflexivity].
    all: clear Hskip.
    + destruct (update_plain_ok (RTL8365MB_PORT_ISOLATION_REG (dp_index dp)) (BIT port)
                  (BIT port) st Hf (isolation_reg_plain _ Hd))
        as (s1 & E1 & Hf1 & _ & R1 & O1 & _).
      rewrite E1. exact (Hhit eq_refl Ep eq_refl s1 E1 Hf1 R1 O1).
    + destruct (update_plain_ok (RTL8365MB_PORT_ISOLATION_REG (dp_index dp)) (BIT port)
                  0 st Hf (isolation_reg_plain _ Hd))
        as (s1 & E1 & Hf1 & _ & R1 & O1 & _).
      rewrite E1. exact (Hhit eq_refl Ep eq_refl s1 E1 Hf1 R1 O1).
Qed.

Lemma bridge_peer_self dps port bridge : bridge_peer dps port bridge port = false.
Proof.
  unfold bridge_peer. induction dps as [|dp dps IH]; [reflexivity|].
  cbn [existsb]. rewrite IH, orb_false_r.
  rewrite (Z.eqb_sym (dp_index dp)).
  destruct (port =? dp_index dp); [|reflexivity].
  cbn [negb andb]. now rewrite andb_false_r.
Qed.

Lemma bridge_own_update st s2 port bm (flag : bool) :
  0 <= port < 16 ->
  reg s2 (RTL8365MB_PORT_ISOLATION_REG port)
  = u16 (Z.lor (Z.land (reg st (RTL8365MB_PORT_ISOLATION_REG port)) (Z.lnot bm))
               (Z.land (if flag then bm else 0) bm)) ->
  (forall a, a <> RTL8365MB_PORT_ISOLATION_REG port -> reg s2 a = reg st a) ->
  forall q b, 0 <= b < 16 ->
    forwards_to s2 q b
    = if (q =? port) && Z.testbit bm b then flag else forwards_to st q b.
Proof.
  intros Hp R O q b Hb. unfold forwards_to.
  destruct (Z.eqb_spec q port) as [-> | Hne]; cbn [andb].
  - rewrite R. unfold u16. rewrite Z.testbit_mod_pow2 by lia.
    destruct (Z.ltb_spec b 16); [|lia].
    rewrite Z.lor_spec, !Z.land_spec, Z.lnot_spec by lia.
    destruct flag; [|rewrite Z.bits_0];
      destruct (Z.testbit bm b), (Z.testbit (reg st (RTL8365MB_PORT_ISOLATION_REG port)) b);
      reflexivity.
  - rewrite O; [reflexivity|]. unfold RTL8365MB_PORT_ISOLATION_REG. lia.
Qed.

Lemma bridge_join_ok dps port bridge st :
  faults st = [] -> 0 <= port < 16 ->
  Forall (fun dp => 0 <= dp_index dp < 16) dps ->
  exists st',
    rtl8365mb_port_bridge_join dps port bridge st = (Ok tt, st')
    /\ faults st' = []
    /\ (forall q b, 0 <= q < 16 -> 0 <= b < 16 ->
          forwards_to st' q b = linked dps port bridge q b || forwards_to st q b)
    /\ (forall a, not_isolation_reg a -> reg st' a = reg st a).
Proof.
  intros Hf Hp Hr. unfold rtl8365mb_port_bridge_join.
  destruct (bridge_ports_loop true dps port bridge 0 st Hf Hp Hr)
    as (bm & s1 & E & Hf1 & Hb & Hfw & Ho).
  cbv iota in E. rewrite E.
  assert (Hbm : forall b, 0 <= b < 32 -> Z.testbit bm b = bridge_peer dps port bridge b).
  { intros b Hb'. rewrite Hb by exact Hb'. now rewrite Z.bits_0. }
  destruct (Z.eqb_spec bm 0) as [E0 | E0]; cbn [negb].
  - exists s1. split; [reflexivity|]. split; [exact Hf1|]. split.
    + intros q b Hq Hb'. rewrite Hfw by lia. unfold linked.
      rewrite <- (Hbm b) by lia. rewrite E0, Z.bits_0, andb_false_r, orb_false_r.
      destruct (bridge_peer dps port bridge q && (b =? port)); reflexivity.
    + intros a Ha. apply Ho. intros q Hq _. now apply Ha.
  - destruct (update_plain_ok (RTL8365MB_PORT_ISOLATION_REG port) bm bm s1 Hf1
                (isolation_reg_plain _ Hp))
      as (s2 & E2 & Hf2 & _ & R2 & O2 & _).
    rewrite E2. exists s2. split; [reflexivity|]. split; [exact Hf2|]. split.
    + intros q b Hq Hb'.
      rewrite (bridge_own_update s1 s2 port bm true Hp R2 O2 q b Hb').
      rewrite Hfw, Hbm by lia. unfold linked.
      destruct (Z.eqb_spec q port) as [-> | Hne]; cbn [andb orb].
      * rewrite bridge_peer_self. cbn [andb orb].
        destruct (bridge_peer dps port bridge b); reflexivity.
      * rewrite orb_false_r.
        destruct (bridge_peer dps port bridge q && (b =? port)); reflexivity.
    + intros a Ha. rewrite O2 by (apply Ha; exact Hp). apply Ho.
      intros q Hq _. now apply Ha.
Qed.

Lemma bridge_leave_ok dps port bridge st :
  faults st = [] -> 0 <= port < 16 ->
  Forall (fun dp => 0 <= dp_index dp < 16) dps ->
  let st' := rtl8365mb_port_bridge_leave dps port bridge st in
  faults st' = []
  /\ (forall q b, 0 <= q < 16 -> 0 <= b < 16 ->
        forwards_to st' q b = negb (linked dps port bridge q b) && forwards_to st q b)
  /\ (forall a, not_isolation_reg a -> reg st' a = reg st a).
Proof.
  intros Hf Hp Hr. unfold rtl8365mb_port_bridge_leave.
  destruct (bridge_ports_loop false dps port bridge 0 st Hf Hp Hr)
    as (bm & s1 & E & Hf1 & Hb & Hfw & Ho).
  cbv iota in E. rewrite E.
  assert (Hbm : forall b, 0 <= b < 32 -> Z.testbit bm b = bridge_peer dps port bridge b).
  { intros b Hb'. rewrite Hb by exact Hb'. now rewrite Z.bits_0. }
  destruct (update_plain_ok (RTL8365MB_PORT_ISOLATION_REG port) bm 0 s1 Hf1
              (isolation_reg_plain _ Hp))
    as (s2 & E2 & Hf2 & _ & R2 & O2 & _).
  rewrite E2. cbn [snd]. split; [exact Hf2|]. split.
  - intros q b Hq Hb'.
    rewrite (bridge_own_update s1 s2 port bm false Hp R2 O2 q b Hb').
    rewrite Hfw, Hbm by lia. unfold linked.
    destruct (Z.eqb_spec q port) as [-> | Hne]; cbn [andb orb].
    + rewrite bridge_peer_self. cbn [andb orb].
      destruct (bridge_peer dps port bridge b); reflexivity.
    + rewrite orb_false_r.
      destruct (bridge_peer dps port bridge q && (b =? port)); reflexivity.
  - intros a Ha. rewrite O2 by (apply Ha; exact Hp). apply Ho.
    intros q Hq _. now apply Ha.
Qed.

(** X21 (rtl8365mb_port_bridge_join): on a chip whose bus works, joining
    [port] to a bridge succeeds and sets exactly the forwarding bits between
    [port] and every other used port of the bridge, in both directions;
    every other forwarding bit and every other register is as before. *)
Theorem bridge_join_links dps port bridge st :
  faults st = [] -> 0 <= port < 16 ->
  Forall (fun dp => 0 <= dp_index dp < 16) dps ->
  exists st',
    rtl8365mb_port_bridge_join dps port bridge st = (Ok tt, st')
    /\ faults st' = []
    /\ (forall q b, 0 <= q < 16 -> 0 <= b < 16 ->
          forwards_to st' q b = linked dps port bridge q b || forwards_to st q b)
    /\ (forall a, not_isolation_reg a -> reg st' a = reg st a).
Proof. exact (bridge_join_ok dps port bridge st). Qed.

(** X22 (rtl8365mb_port_bridge_leave): on a chip whose bus works, leaving
    a bridge clears exactly the forwarding bits between [port] and every
    other used port of the bridge, in both directions, and changes nothing
    else. *)
Theorem bridge_leave_unlinks dps port bridge st :
  faults st = [] -> 0 <= port < 16 ->
  Forall (fun dp => 0 <= dp_index dp < 16) dps ->
  let st' := rtl8365mb_port_bridge_leave dps port bridge st in
  faults st' = []
  /\ (forall q b, 0 <= q < 16 -> 0 <= b < 16 ->
        forwards_to st' q b = negb (linked dps port bridge q b) && forwards_to st q b)
  /\ (forall a, not_isolation_reg a -> reg st' a = reg st a).
Proof. exact (bridge_leave_ok dps port bridge st). Qed.

(** X23 (rtl8365mb_port_bridge_join, rtl8365mb_port_bridge_leave): when
    [port] was not linked to any peer of the bridge before, joining the
    bridge and then leaving it restores every register of the chip. *)
Theorem bridge_join_leave_roundtrip dps port bridge st :
  faults st = [] -> 0 <= port < 16 ->
  Forall (fun dp => 0 <= dp_index dp < 16) dps ->
  (forall q b, 0 <= q < 16 -> 0 <= b < 16 ->
     linked dps port bridge q b = true -> forwards_to st q b = false) ->
  exists st',
    rtl8365mb_port_bridge_join dps port bridge st = (Ok tt, st')
    /\ forall a, reg (rtl8365mb_port_bridge_leave dps port bridge st') a = reg st a.
Proof.
  intros Hf Hp Hr Hiso.
  destruct (bridge_join_ok dps port bridge st Hf Hp Hr) as (st' & E & Hf' & Hj & Hoj).
  exists st'. split; [exact E|].
  destruct (bridge_leave_ok dps port bridge st' Hf' Hp Hr) as (_ & Hl & Hol).
  intros a.
  destruct (Z.ltb_spec (a - RTL8365MB_PORT_ISOLATION_REG_BASE) 0) as [Hlo | Hlo].
  { rewrite Hol, Hoj; [reflexivity| |];
      intros q Hq; unfold RTL8365MB_PORT_ISOLATION_REG; lia. }
  destruct (Z.ltb_spec (a - RTL8365MB_PORT_ISOLATION_REG_BASE) 16) as [Hhi | Hhi].
  2:{ rewrite Hol, Hoj; [reflexivity| |];
      intros q Hq; unfold RTL8365MB_PORT_ISOLATION_REG; lia. }
  set (q := a - RTL8365MB_PORT_ISOLATION_REG_BASE) in *.
  assert (Ea : a = RTL8365MB_PORT_ISOLATION_REG q)
    by (unfold RTL8365MB_PORT_ISOLATION_REG, q; lia).
  rewrite Ea. apply Z.bits_inj'. intros b Hb.
  destruct (Z.ltb_spec b 16) as [Hb16 | Hb16].
  - fold (forwards_to (rtl8365mb_port_bridge_leave dps port bridge st') q b).
    fold (forwards_to st q b).
    rewrite Hl, Hj by lia.
    destruct (linked dps port bridge q b) eqn:El; cbn [negb andb orb].
    + symmetry. apply Hiso; [lia | lia | exact El].
    + reflexivity.
  - rewrite !testbit_reg_high by exact Hb16. reflexivity.
Qed.

Lemma fresh_chip_isolation q :
  0 <= q < 16 -> reg fresh_chip (RTL8365MB_PORT_ISOLATION_REG q) = 0.
Proof.
  intros Hq.
  assert (H : forallb (fun k => reg fresh_chip (RTL8365MB_PORT_ISOLATION_REG (Z.of_nat k)) =? 0)
                      (seq 0 16) = true) by (vm_compute; reflexivity).
  rewrite forallb_forall in H.
  specialize (H (Z.to_nat q)). rewrite Z2Nat.id in H by lia.
  apply Z.eqb_eq, H, in_seq. lia.
Qed.

Lemma ports5_range : Forall (fun dp => 0 <= dp_index dp < 16) ports5.
Proof. repeat constructor; simpl; lia. Qed.

Lemma bridge_join_links_witness :
  exists st',
    rtl8365mb_port_bridge_join ports5 0 7 fresh_chip = (Ok tt, st')
    /\ forwards_to st' 1 0 = true /\ forwards_to st' 0 2 = true
    /\ forwards_to st' 3 0 = false /\ forwards_to st' 0 4 = false.
Proof.
  destruct (bridge_join_links ports5 0 7 fresh_chip eq_refl ltac:(lia) ports5_range)
    as (st' & E & _ & H & _).
  exists st'. split; [exact E|].
  assert (E1 : linked ports5 0 7 1 0 || forwards_to fresh_chip 1 0 = true)
    by (vm_compute; reflexivity).
  assert (E2 : linked ports5 0 7 0 2 || forwards_to fresh_chip 0 2 = true)
    by (vm_compute; reflexivity).
  assert (E3 : linked ports5 0 7 3 0 || forwards_to fresh_chip 3 0 = false)
    by (vm_compute; reflexivity).
  assert (E4 : linked ports5 0 7 0 4 || forwards_to fresh_chip 0 4 = false)
    by (vm_compute; reflexivity).
  rewrite !H by lia. rewrite E1, E2, E3, E4. repeat split.
Defined.

Lemma bridge_leave_unlinks_witness :
  forwards_to (rtl8365mb_port_bridge_leave ports5 0 7 bridged_chip) 1 0 = false
  /\ forwards_to (rtl8365mb_port_bridge_leave ports5 0 7 bridged_chip) 1 2 = true.
Proof.
  destruct (bridge_leave_unlinks ports5 0 7 bridged_chip eq_refl ltac:(lia) ports5_range)
    as (_ & H & _).
  assert (E1 : negb (linked ports5 0 7 1 0) && forwards_to bridged_chip 1 0 = false)
    by (vm_compute; reflexivity).
  assert (E2 : negb (linked ports5 0 7 1 2) && forwards_to bridged_chip 1 2 = true)
    by (vm_compute; reflexivity).
  rewrite !H by lia. rewrite E1, E2. split; reflexivity.
Defined.

Lemma bridge_join_leave_roundtrip_witness :
  exists st',
    rtl8365mb_port_bridge_join ports5 0 7 fresh_chip = (Ok tt, st')
    /\ reg (rtl8365mb_port_bridge_leave ports5 0 7 st') (RTL8365MB_PORT_ISOLATION_REG 1)
       = reg fresh_chip (RTL8365MB_PORT_ISOLATION_REG 1).
Proof.
  assert (Hiso : forall q b, 0 <= q < 16 -> 0 <= b < 16 ->
            linked ports5 0 7 q b = true -> forwards_to fresh_chip q b = false).
  { intros q b Hq _ _. unfold forwards_to.
    rewrite (fresh_chip_isolation q Hq). apply Z.bits_0. }
  destruct (bridge_join_leave_roundtrip ports5 0 7 fresh_chip eq_refl ltac:(lia)
              ports5_range Hiso) as (st' & E & H).
  exists st'. split; [exact E | apply H].
Defined.

(** ** Interrupts *)

Lemma land_1_testbit x : (Z.land x 1 =? 0) = negb (Z.testbit x 0).
Proof.
  change 1 with (Z.ones 1). rewrite Z.land_ones by lia. change (2 ^ 1) with 2.
  rewrite <- Z.bit0_mod. destruct (Z.testbit x 0); reflexivity.
Qed.

Lemma irq_cause_testbit st line :
  0 <= line ->
  Z.testbit (irq_cause st) line
  = Z.testbit (reg st RTL8365MB_INTR_STATUS_REG) 0 && (line <? 11)
    && (Z.testbit (reg st RTL8365MB_PORT_LINKUP_IND_REG) line
        || Z.testbit (reg st RTL8365MB_PORT_LINKDOWN_IND_REG) line).
Proof.
  intros Hl. unfold irq_cause, RTL8365MB_INTR_LINK_CHANGE_MASK.
  rewrite land_1_testbit.
  destruct (Z.testbit (reg st RTL8365MB_INTR_STATUS_REG) 0); cbn [negb andb].
  - unfold FIELD_GET.
    change (bf_shf RTL8365MB_PORT_LINKUP_IND_MASK) with 0.
    change (bf_shf RTL8365MB_PORT_LINKDOWN_IND_MASK) with 0.
    rewrite !Z.shiftr_0_r, Z.lor_spec, !Z.land_spec.
    change RTL8365MB_PORT_LINKUP_IND_MASK with (Z.ones 11).
    change RTL8365MB_PORT_LINKDOWN_IND_MASK with (Z.ones 11).
    rewrite Z.testbit_ones_nonneg by lia.
    destruct (line <? 11); rewrite ?andb_false_r, ?andb_true_r; reflexivity.
  - apply Z.bits_0.
Qed.

Lemma irq_raised_ok ds st :
  faults st = [] ->
  forall line,
    In line (irq_raised (fst (rtl8365mb_irq ds st)))
    <-> 0 <= line < num_ports ds /\ Z.testbit (irq_cause st) line = true.
Proof.
  intros Hf line. unfold rtl8365mb_irq.
  destruct (irq_line_changes_ok st Hf) as (st' & E & _). rewrite E.
  destruct (Z.eqb_spec (irq_cause st) 0) as [E0 | E0]; cbn [fst irq_raised].
  - rewrite E0, Z.bits_0. split; [contradiction | intros [_ H]; discriminate].
  - rewrite filter_In, in_map_iff. split.
    + intros [(k & <- & Hk) Hb]. apply in_seq in Hk. split; [lia | exact Hb].
    + intros [Hr Hb]. split; [|exact Hb]. exists (Z.to_nat line).
      split; [lia | apply in_seq; lia].
Qed.

(** X24 (rtl8365mb_irq): on a chip whose bus works, the handler raises the
    nested interrupt of a line exactly when the line is a port of the
    switch below 11, the link-change bit of the interrupt status is set, and
    the line's bit is set in the link-up or the link-down indicator. *)
Theorem irq_raises_changed_lines ds st :
  faults st = [] ->
  forall line,
    In line (irq_raised (fst (rtl8365mb_irq ds st)))
    <-> 0 <= line < num_ports ds /\ line < 11
        /\ Z.testbit (reg st RTL8365MB_INTR_STATUS_REG) 0 = true
        /\ (Z.testbit (reg st RTL8365MB_PORT_LINKUP_IND_REG) line
            || Z.testbit (reg st RTL8365MB_PORT_LINKDOWN_IND_REG) line) = true.
Proof.
  intros Hf line. rewrite (irq_raised_ok ds st Hf). split.
  - intros [Hr Hb]. rewrite irq_cause_testbit in Hb by lia.
    apply andb_prop in Hb as [Hb Hud]. apply andb_prop in Hb as [Hs Hl].
    apply Z.ltb_lt in Hl. auto.
  - intros (Hr & Hl & Hs & Hud). split; [exact Hr|].
    rewrite irq_cause_testbit by lia. rewrite Hs, Hud.
    apply Z.ltb_lt in Hl. now rewrite Hl.
Qed.

Lemma irq_raises_changed_lines_witness :
  In 9 (irq_raised (fst (rtl8365mb_irq ds11 irq_chip)))
  /\ ~ In 3 (irq_raised (fst (rtl8365mb_irq ds11 irq_chip))).
Proof.
  split.
  - apply (irq_raises_changed_lines ds11 irq_chip eq_refl 9).
    split; [simpl; lia|]. split; [lia|]. split; reflexivity.
  - intros H. apply (irq_raises_changed_lines ds11 irq_chip eq_refl 3) in H.
    destruct H as (_ & _ & _ & H). discriminate H.
Defined.

Lemma get_and_clear_clears r st :
  faults st = [] -> write_one_to_clear r = true ->
  exists st', rtl8365mb_get_and_clear_status_reg r st = (Ok (reg st r), st')
              /\ faults st' = []
              /\ reg st' r = 0
              /\ (forall b, b <> r -> reg st' b = reg st b).
Proof.
  intros Hf Hw. unfold rtl8365mb_get_and_clear_status_reg, bind.
  rewrite (regmap_read_ok _ _ Hf).
  rewrite regmap_write_ok by (now rewrite faults_record).
  rewrite (u16_small _ (reg_range _ _)).
  eexists; split; [reflexivity|]. simpl.
  assert (Hs : forall v s, chip_store r v s = set_reg r (Z.land (reg s r) (Z.lnot v)) s).
  { intros v s. unfold chip_store. rewrite Hw.
    destruct (r =? RTL8365MB_TABLE_CONTROL_REG) eqn:E; [|reflexivity].
    apply Z.eqb_eq in E. subst r. discriminate Hw. }
  rewrite Hs. split; [exact Hf|]. split.
  - rewrite reg_record, reg_set_reg_eq, reg_record.
    replace (Z.land (reg st r) (Z.lnot (reg st r))) with 0; [reflexivity|].
    symmetry. apply Z.bits_inj'. intros n Hn.
    rewrite Z.land_spec, Z.lnot_spec, Z.bits_0 by lia.
    destruct (Z.testbit (reg st r) n); reflexivity.
  - intros b Hb. unfold reg at 1. simpl. rewrite lookup_insert_ne by congruence. reflexivity.
Qed.

Lemma irq_line_changes_clears st :
  faults st = [] ->
  exists st', irq_line_changes st = (Ok (irq_cause st), st')
              /\ faults st' = [] /\ reg st' RTL8365MB_INTR_STATUS_REG = 0.
Proof.
  intros Hf. unfold irq_line_changes, bind, irq_cause.
  destruct (get_and_clear_clears RTL8365MB_INTR_STATUS_REG st Hf eq_refl)
    as (st1 & E1 & Hf1 & Hz1 & Hr1).
  rewrite E1.
  destruct (Z.land (reg st RTL8365MB_INTR_STATUS_REG) RTL8365MB_INTR_LINK_CHANGE_MASK =? 0).
  - simpl. eexists; split; [reflexivity|]. split; assumption.
  - simpl.
    destruct (get_and_clear_clears RTL8365MB_PORT_LINKUP_IND_REG st1 Hf1 eq_refl)
      as (st2 & E2 & Hf2 & _ & Hr2).
    rewrite E2.
    destruct (get_and_clear_clears RTL8365MB_PORT_LINKDOWN_IND_REG st2 Hf2 eq_refl)
      as (st3 & E3 & Hf3 & _ & Hr3).
    rewrite E3. unfold ret.
    rewrite (Hr2 RTL8365MB_PORT_LINKDOWN_IND_REG) by discriminate.
    rewrite (Hr1 RTL8365MB_PORT_LINKDOWN_IND_REG) by discriminate.
    rewrite (Hr1 RTL8365MB_PORT_LINKUP_IND_REG) by discriminate.
    eexists; split; [reflexivity|]. split; [exact Hf3|].
    rewrite (Hr3 RTL8365MB_INTR_STATUS_REG) by discriminate.
    rewrite (Hr2 RTL8365MB_INTR_STATUS_REG) by discriminate. exact Hz1.
Qed.

(** X25 (rtl8365mb_irq, rtl8365mb_get_and_clear_status_reg): on a chip
    whose bus works, a run of the handler acknowledges what it read, so a
    second run right after it finds no cause: it answers IRQ_NONE, raises no
    line and reports no error. *)
Theorem irq_second_run_idle ds st :
  faults st = [] ->
  fst (rtl8365mb_irq ds (snd (rtl8365mb_irq ds st))) = mkIrq IRQ_NONE [] None.
Proof.
  intros Hf.
  destruct (irq_line_changes_clears st Hf) as (st1 & E1 & Hf1 & Hz1).
  assert (Hs : snd (rtl8365mb_irq ds st) = st1).
  { unfold rtl8365mb_irq. rewrite E1. destruct (irq_cause st =? 0); reflexivity. }
  rewrite Hs.
  destruct (irq_line_changes_clears st1 Hf1) as (st2 & E2 & _).
  unfold rtl8365mb_irq. rewrite E2.
  assert (Hc : irq_cause st1 = 0) by (unfold irq_cause; rewrite Hz1; reflexivity).
  rewrite Hc. reflexivity.
Qed.

Lemma irq_second_run_idle_witness :
  irq_return (fst (rtl8365mb_irq ds11 irq_chip)) = IRQ_HANDLED
  /\ fst (rtl8365mb_irq ds11 (snd (rtl8365mb_irq ds11 irq_chip))) = mkIrq IRQ_NONE [] None.
Proof.
  split; [vm_compute; reflexivity|].
  apply (irq_second_run_idle ds11 irq_chip). reflexivity.
Defined.

Lemma intr_ctrl_plain : plain RTL8365MB_INTR_CTRL_REG = true.
Proof. reflexivity. Qed.

(** X26 (rtl8365mb_set_irq_enable, rtl8365mb_irq_enable,
    rtl8365mb_irq_disable): on a chip whose bus works, enabling or
    disabling the interrupt sets the link-change enable bit to the value
    asked for and leaves every other enable bit and every other register as
    it was. *)
Theorem set_irq_enable_effect (enable : bool) st :
  faults st = [] ->
  exists st',
    rtl8365mb_set_irq_enable enable st = (Ok tt, st')
    /\ rtl8365mb_irq_enable st = rtl8365mb_set_irq_enable true st
    /\ rtl8365mb_irq_disable st = rtl8365mb_set_irq_enable false st
    /\ irq_enabled st' = enable
    /\ (forall b, 0 < b ->
          Z.testbit (reg st' RTL8365MB_INTR_CTRL_REG) b
          = Z.testbit (reg st RTL8365MB_INTR_CTRL_REG) b)
    /\ (forall a, a <> RTL8365MB_INTR_CTRL_REG -> reg st' a = reg st a).
Proof.
  intros Hf. unfold rtl8365mb_set_irq_enable.
  destruct (update_plain_ok RTL8365MB_INTR_CTRL_REG RTL8365MB_INTR_LINK_CHANGE_MASK
              (FIELD_PREP RTL8365MB_INTR_LINK_CHANGE_MASK (if enable then 1 else 0))
              st Hf intr_ctrl_plain) as (st' & E & _ & _ & R & O & _).
  exists st'. split; [exact E|]. split; [reflexivity|]. split; [reflexivity|].
  assert (Hv : FIELD_PREP RTL8365MB_INTR_LINK_CHANGE_MASK (if enable then 1 else 0)
               = if enable then BIT 0 else 0) by (destruct enable; reflexivity).
  rewrite Hv in R. change RTL8365MB_INTR_LINK_CHANGE_MASK with (BIT 0) in R.
  assert (Hbit : forall b, 0 <= b ->
            Z.testbit (reg st' RTL8365MB_INTR_CTRL_REG) b
            = if b =? 0 then enable else Z.testbit (reg st RTL8365MB_INTR_CTRL_REG) b).
  { intros b Hb. rewrite R.
    apply update_bit_testbit; [lia | exact Hb | apply reg_range]. }
  split; [unfold irq_enabled; now rewrite Hbit by lia|].
  split; [|exact O].
  intros b Hb. rewrite Hbit by lia. destruct (Z.eqb_spec b 0); [lia | reflexivity].
Qed.

(** ** Bridge port flags *)

Lemma learn_limit_plain port :
  0 <= port < 16 -> plain (RTL8365MB_LUT_PORT_LEARN_LIMIT_REG port) = true.
Proof.
  intros Hp. apply plain_spec;
    unfold RTL8365MB_LUT_PORT_LEARN_LIMIT_REG, RTL8365MB_LUT_PORT_LEARN_LIMIT_BASE; lia.
Qed.

(** X27 (rtl8365mb_port_pre_bridge_flags, rtl8365mb_port_bridge_flags,
    rtl8365mb_port_set_learning): a change of bridge port flags is accepted
    exactly when it touches no flag but learning, and is refused with
    EINVAL otherwise.  On a chip whose bus works, a change that touches
    learning sets the port's limit of learnt addresses to the maximum, 2112,
    when learning is switched on and to 0 when it is switched off; a change
    that does not touch it makes no access at all. *)
Theorem bridge_flags_learning port mask val st :
  faults st = [] -> 0 <= port < 16 ->
  (rtl8365mb_port_pre_bridge_flags mask = 0 <-> mask = 0 \/ mask = BR_LEARNING)
  /\ (rtl8365mb_port_pre_bridge_flags mask <> 0 ->
        rtl8365mb_port_pre_bridge_flags mask = - EINVAL)
  /\ (Z.testbit mask 5 = false -> rtl8365mb_port_bridge_flags port mask val st = (Ok tt, st))
  /\ (Z.testbit mask 5 = true ->
        exists st',
          rtl8365mb_port_bridge_flags port mask val st = (Ok tt, st')
          /\ learn_limit st' port = (if Z.testbit val 5 then RTL8365MB_LEARN_LIMIT_MAX else 0)
          /\ (forall a, a <> RTL8365MB_LUT_PORT_LEARN_LIMIT_REG port -> reg st' a = reg st a)).
Proof.
  intros Hf Hp.
  assert (Hbit : forall x, (Z.land x BR_LEARNING =? 0) = negb (Z.testbit x 5)).
  { intros x. destruct (Z.testbit x 5) eqn:E; cbn [negb].
    - apply Z.eqb_neq. intros H. apply (f_equal (fun z => Z.testbit z 5)) in H.
      rewrite Z.land_spec, E, Z.bits_0 in H. discriminate H.
    - apply Z.eqb_eq. apply Z.bits_inj'. intros n Hn.
      rewrite Z.land_spec, Z.bits_0. unfold BR_LEARNING. rewrite testbit_BIT by lia.
      destruct (Z.eqb_spec n 5) as [-> | _]; [now rewrite E | apply andb_false_r]. }
  split; [|split; [|split]].
  - unfold rtl8365mb_port_pre_bridge_flags.
    destruct (Z.eqb_spec (Z.land mask (Z.lnot BR_LEARNING)) 0) as [E | E]; cbn [negb].
    + split; [intros _ | reflexivity].
      destruct (Z.testbit mask 5) eqn:E5; [right | left]; apply Z.bits_inj'; intros n Hn.
      * unfold BR_LEARNING. rewrite testbit_BIT by lia.
        destruct (Z.eqb_spec n 5) as [-> | Hne]; [exact E5|].
        apply (f_equal (fun z => Z.testbit z n)) in E.
        rewrite Z.land_spec, Z.lnot_spec, Z.bits_0 in E by lia.
        unfold BR_LEARNING in E. rewrite testbit_BIT in E by lia.
        destruct (Z.eqb_spec n 5); [contradiction|]. now rewrite andb_true_r in E.
      * rewrite Z.bits_0.
        destruct (Z.eqb_spec n 5) as [-> | Hne]; [exact E5|].
        apply (f_equal (fun z => Z.testbit z n)) in E.
        rewrite Z.land_spec, Z.lnot_spec, Z.bits_0 in E by lia.
        unfold BR_LEARNING in E. rewrite testbit_BIT in E by lia.
        destruct (Z.eqb_spec n 5); [contradiction|]. now rewrite andb_true_r in E.
    + split; [intros H; discriminate H|].
      intros [-> | ->]; exfalso; apply E; reflexivity.
  - unfold rtl8365mb_port_pre_bridge_flags.
    destruct (negb (Z.land mask (Z.lnot BR_LEARNING) =? 0)); [reflexivity | congruence].
  - intros E5. unfold rtl8365mb_port_bridge_flags. rewrite Hbit, E5. reflexivity.
  - intros E5. unfold rtl8365mb_port_bridge_flags, rtl8365mb_port_set_learning, learn_limit.
    rewrite !Hbit, E5. cbn [negb]. rewrite Bool.negb_involutive.
    destruct (write_plain_ok (RTL8365MB_LUT_PORT_LEARN_LIMIT_REG port)
                (if Z.testbit val 5 then RTL8365MB_LEARN_LIMIT_MAX else 0) st Hf
                (learn_limit_plain port Hp)) as (st' & E & _ & _ & R & O & _).
    exists st'. split; [exact E|]. split; [|exact O].
    rewrite R. destruct (Z.testbit val 5); reflexivity.
Qed.

Lemma bridge_flags_learning_witness :
  rtl8365mb_port_pre_bridge_flags BR_LEARNING = 0
  /\ rtl8365mb_port_pre_bridge_flags 3 = - EINVAL
  /\ exists st',
       rtl8365mb_port_bridge_flags 2 BR_LEARNING BR_LEARNING fresh_chip = (Ok tt, st')
       /\ learn_limit st' 2 = 2112.
Proof.
  destruct (bridge_flags_learning 2 BR_LEARNING BR_LEARNING fresh_chip
              eq_refl ltac:(lia)) as (H1 & _ & _ & H4).
  split; [apply H1; right; reflexivity|].
  split; [reflexivity|].
  destruct (H4 eq_refl) as (st' & E & L & _).
  exists st'. split; [exact E | exact L].
Defined.

Lemma set_irq_enable_effect_witness :
  exists st', rtl8365mb_irq_enable fresh_chip = (Ok tt, st') /\ irq_enabled st' = true.
Proof.
  destruct (set_irq_enable_effect true fresh_chip eq_refl) as (st' & E & _ & _ & H & _).
  exists st'. split; [exact E | exact H].
Defined.

(** ** Counters handed to ethtool *)

Lemma mib_window_start_range offset length : 0 <= mib_window_start offset length < 4.
Proof.
  unfold mib_window_start. destruct (length =? 4); [lia|]. apply Z.mod_pos_bound. lia.
Qed.

Lemma mib_window_not_address offset length i :
  0 <= i < 4 ->
  RTL8365MB_MIB_COUNTER_REG (u32 (mib_window_start offset length - i))
  <> RTL8365MB_MIB_ADDRESS_REG.
Proof.
  intros Hi. pose proof (mib_window_start_range offset length) as Hs.
  apply mib_window_reg_plain. unfold u32.
  destruct (Z.lt_ge_cases (mib_window_start offset length - i) 0).
  - right.
    assert (mib_window_start offset length - i = -1
            \/ mib_window_start offset length - i = -2
            \/ mib_window_start offset length - i = -3) as [-> | [-> | ->]] by lia; auto.
  - left. rewrite Z.mod_small by lia. lia.
Qed.

Lemma mib_value_congr st st0 offset length :
  (forall b, b <> RTL8365MB_MIB_ADDRESS_REG -> reg st b = reg st0 b) ->
  mib_value st offset length = mib_value st0 offset length.
Proof.
  intros H. unfold mib_value.
  rewrite !H by (apply mib_window_not_address; lia). reflexivity.
Qed.

Lemma mib_counter_read_value port offset length st :
  mib_ready st -> length = 1 \/ length = 2 \/ length = 4 ->
  exists st',
    rtl8365mb_mib_counter_read port offset length st = (Ok (mib_value st offset length), st')
    /\ faults st' = []
    /\ (forall b, b <> RTL8365MB_MIB_ADDRESS_REG -> reg st' b = reg st b).
Proof.
  intros (Hf & Hbusy & Hreset) Hlen.
  set (st1 := record (Wr RTL8365MB_MIB_ADDRESS_REG (u16 (RTL8365MB_MIB_ADDRESS port offset)))
                (chip_store RTL8365MB_MIB_ADDRESS_REG
                   (u16 (RTL8365MB_MIB_ADDRESS port offset)) st)).
  assert (Hf1 : faults st1 = []) by (subst st1; no_faults).
  assert (Hreg : forall b, b <> RTL8365MB_MIB_ADDRESS_REG -> reg st1 b = reg st b).
  { intros b Hb. subst st1. rewrite reg_record, chip_store_plain by reflexivity.
    apply reg_set_reg_ne. congruence. }
  assert (Hctl : reg st1 RTL8365MB_MIB_CTRL0_REG = reg st RTL8365MB_MIB_CTRL0_REG)
    by (apply Hreg; discriminate).
  set (word := fun i : Z =>
         reg st (RTL8365MB_MIB_COUNTER_REG (u32 (mib_window_start offset length - i)))).
  assert (Hword : forall i, 0 <= i < 4 ->
            reg st1 (RTL8365MB_MIB_COUNTER_REG (u32 (mib_window_start offset length - i)))
            = word i).
  { intros i Hi. apply Hreg. now apply mib_window_not_address. }
  assert (Hpoll : regmap_read_poll_timeout RTL8365MB_MIB_CTRL0_REG
                    (fun val => Z.land val RTL8365MB_MIB_CTRL0_BUSY_MASK =? 0) 10 100 st1
                  = (Ok (reg st RTL8365MB_MIB_CTRL0_REG), record (Rd RTL8365MB_MIB_CTRL0_REG) st1)).
  { rewrite <- Hctl. apply poll_first; [exact Hf1|]. rewrite Hctl, Hbusy. reflexivity. }
  unfold rtl8365mb_mib_counter_read, bind.
  rewrite (regmap_write_ok _ _ _ Hf). fold st1. rewrite Hpoll, Hreset.
  change (negb (0 =? 0)) with false. cbv iota.
  fold (mib_window_start offset length).
  set (st2 := record (Rd RTL8365MB_MIB_CTRL0_REG) st1).
  assert (Hf2 : faults st2 = []) by exact Hf1.
  assert (Hreg2 : forall b, b <> RTL8365MB_MIB_ADDRESS_REG -> reg st2 b = reg st b)
    by exact Hreg.
  assert (Hword2 : forall i, 0 <= i < 4 ->
            reg st2 (RTL8365MB_MIB_COUNTER_REG (u32 (mib_window_start offset length - i)))
            = word i) by exact Hword.
  assert (Hw : forall i, 0 <= word i < 2 ^ 16) by (intros; apply reg_range).
  assert (Hval : mib_value st offset length
                 = if length =? 4
                   then word 0 * 2 ^ 48 + word 1 * 2 ^ 32 + word 2 * 2 ^ 16 + word 3
                   else if length =? 2 then word 0 * 2 ^ 16 + word 1 else word 0)
    by reflexivity.
  rewrite Hval. clear Hval.
  clearbody st2 st1 word.
  assert (Hfin : forall (s : chip) (a b : Z),
            a = b -> faults s = [] -> (forall e, reg s e = reg st2 e) ->
            exists st',
              (Ok a, s) = (Ok b, st')
              /\ faults st' = []
              /\ (forall e, e <> RTL8365MB_MIB_ADDRESS_REG -> reg st' e = reg st e)).
  { intros s a b -> Hfs Hrs. exists s. split; [reflexivity|]. split; [exact Hfs|].
    intros e He. rewrite Hrs. now apply Hreg2. }
  destruct Hlen as [El | [El | El]]; rewrite El in *; simpl; unfold bind.
  - rewrite (regmap_read_ok _ _ Hf2). rewrite Hword2 by lia.
    unfold ret. apply Hfin; [|no_faults|intros; now rewrite ?reg_record].
    pose proof (Hw 0). rewrite be_step by lia. lia.
  - rewrite (regmap_read_ok _ _ Hf2). rewrite Hword2 by lia.
    rewrite regmap_read_ok by no_faults. rewrite reg_record.
    change (0 + 1) with 1. rewrite Hword2 by lia.
    unfold ret. apply Hfin; [|no_faults|intros; now rewrite ?reg_record].
    pose proof (Hw 0); pose proof (Hw 1).
    rewrite (be_step 0) by lia. rewrite be_step by lia. lia.
  - rewrite (regmap_read_ok _ _ Hf2). rewrite Hword2 by lia.
    rewrite regmap_read_ok by no_faults. rewrite reg_record.
    change (0 + 1) with 1. rewrite Hword2 by lia.
    rewrite regmap_read_ok by no_faults. rewrite !reg_record.
    change (1 + 1) with 2. rewrite Hword2 by lia.
    rewrite regmap_read_ok by no_faults. rewrite !reg_record.
    change (2 + 1) with 3. rewrite Hword2 by lia.
    unfold ret. apply Hfin; [|no_faults|intros; now rewrite ?reg_record].
    pose proof (Hw 0); pose proof (Hw 1); pose proof (Hw 2); pose proof (Hw 3).
    rewrite (be_step 0) by lia. rewrite (be_step (0 * 2 ^ 16 + word 0)) by lia.
    rewrite (be_step ((0 * 2 ^ 16 + word 0) * 2 ^ 16 + word 1)) by lia.
    rewrite be_step by lia. lia.
Qed.

Lemma mib_counter_lengths i :
  (i < RTL8365MB_MIB_END)%nat ->
  mib_length (mib_counter i) = 1 \/ mib_length (mib_counter i) = 2
  \/ mib_length (mib_counter i) = 4.
Proof.
  intros Hi.
  assert (H : forallb (fun i => let l := mib_length (mib_counter i) in
                                (l =? 1) || (l =? 2) || (l =? 4))
                      (seq 0 RTL8365MB_MIB_END) = true) by (vm_compute; reflexivity).
  rewrite forallb_forall in H. specialize (H i). cbv zeta in H.
  assert (Hin : In i (seq 0 RTL8365MB_MIB_END)) by (apply in_seq; lia).
  apply H in Hin. apply orb_prop in Hin as [Hin | Hin]; [apply orb_prop in Hin as [Hin | Hin]|];
    apply Z.eqb_eq in Hin; auto.
Qed.

Lemma ethtool_fetch_ready port st0 : forall idxs data st,
  faults st = [] ->
  (forall b, b <> RTL8365MB_MIB_ADDRESS_REG -> reg st b = reg st0 b) ->
  mib_ready st0 ->
  Forall (fun i => (i < RTL8365MB_MIB_END)%nat) idxs -> List.NoDup idxs ->
  length data = RTL8365MB_MIB_END ->
  let r := ethtool_fetch port idxs data st in
  length (fst r) = RTL8365MB_MIB_END
  /\ (forall i, In i idxs -> nth i (fst r) 0 = counter_value st0 i)
  /\ (forall i, ~ In i idxs -> nth i (fst r) 0 = nth i data 0).
Proof.
  induction idxs as [|i rest IH]; intros data st Hf Hreg Hrdy Hall Hnd Hlen.
  - cbn. split; [exact Hlen|]. split; [contradiction|reflexivity].
  - inversion Hall as [|? ? Hi Hall']; subst. inversion Hnd as [|? ? Hni Hnd']; subst.
    assert (Hrdy' : mib_ready st).
    { destruct Hrdy as (_ & Hb & Hr). split; [exact Hf|].
      rewrite (Hreg RTL8365MB_MIB_CTRL0_REG) by discriminate. split; assumption. }
    destruct (mib_counter_read_value port (mib_offset (mib_counter i))
                (mib_length (mib_counter i)) st Hrdy' (mib_counter_lengths i Hi))
      as (st' & E & Hf' & Hreg').
    cbn [ethtool_fetch]. fold (mib_counter i). rewrite E.
    assert (Hreg'' : forall b, b <> RTL8365MB_MIB_ADDRESS_REG -> reg st' b = reg st0 b).
    { intros b Hb. rewrite Hreg' by exact Hb. now apply Hreg. }
    assert (Hlen' : length (<[i := mib_value st (mib_offset (mib_counter i))
                                      (mib_length (mib_counter i))]> data)
                    = RTL8365MB_MIB_END) by (rewrite length_insert; exact Hlen).
    destruct (IH _ st' Hf' Hreg'' Hrdy Hall' Hnd' Hlen') as (L & Hin & Hout).
    split; [exact L|]. split.
    + intros j [<- | Hj].
      * rewrite Hout by exact Hni. rewrite nth_insert_eq by lia.
        unfold counter_value. now apply mib_value_congr.
      * now apply Hin.
    + intros j Hj. rewrite Hout by (intros H; apply Hj; now right).
      apply nth_insert_ne. intros ->. apply Hj. now left.
Qed.

Lemma ethtool_names :
  rtl8365mb_get_strings ETH_SS_STATS []
  = map (fun i => substring 0 (Z.to_nat (ETH_GSTRING_LEN - 1)) (mib_name (mib_counter i)))
        (seq 0 RTL8365MB_MIB_END).
Proof. vm_compute. reflexivity. Qed.

Lemma ethtool_names_count :
  Z.of_nat (length (rtl8365mb_get_strings ETH_SS_STATS []))
  = rtl8365mb_get_sset_count ETH_SS_STATS.
Proof. vm_compute. reflexivity. Qed.

Lemma ethtool_names_nth i :
  (i < RTL8365MB_MIB_END)%nat ->
  nth i (rtl8365mb_get_strings ETH_SS_STATS []) EmptyString
  = substring 0 (Z.to_nat (ETH_GSTRING_LEN - 1)) (mib_name (mib_counter i)).
Proof.
  intros Hi. rewrite ethtool_names.
  rewrite (nth_indep _ EmptyString
             (substring 0 (Z.to_nat (ETH_GSTRING_LEN - 1))
                (mib_name (mib_counter RTL8365MB_MIB_END))))
    by (rewrite length_map, length_seq; exact Hi).
  rewrite (map_nth (fun i => substring 0 (Z.to_nat (ETH_GSTRING_LEN - 1))
                               (mib_name (mib_counter i)))), seq_nth by exact Hi.
  reflexivity.
Qed.

Lemma ethtool_names_whole i :
  (i < RTL8365MB_MIB_END)%nat ->
  (substring 0 (Z.to_nat (ETH_GSTRING_LEN - 1)) (mib_name (mib_counter i))
   = mib_name (mib_counter i)
   <-> i <> RTL8365MB_MIB_dot3StatsMultipleCollisionFrames).
Proof.
  intros Hi.
  assert (H : forallb (fun i =>
                Bool.eqb (String.eqb (substring 0 (Z.to_nat (ETH_GSTRING_LEN - 1))
                                        (mib_name (mib_counter i)))
                                     (mib_name (mib_counter i)))
                         (negb (Nat.eqb i RTL8365MB_MIB_dot3StatsMultipleCollisionFrames)))
                (seq 0 RTL8365MB_MIB_END) = true) by (vm_compute; reflexivity).
  rewrite forallb_forall in H. specialize (H i ltac:(apply in_seq; lia)).
  apply Bool.eqb_prop in H. rewrite <- String.eqb_eq, H, Bool.negb_true_iff.
  apply Nat.eqb_neq.
Qed.

Lemma ethtool_names_distinct : List.NoDup (rtl8365mb_get_strings ETH_SS_STATS []).
Proof.
  assert (E : nodup string_dec (rtl8365mb_get_strings ETH_SS_STATS [])
              = rtl8365mb_get_strings ETH_SS_STATS []) by (vm_compute; reflexivity).
  rewrite <- E. apply NoDup_nodup.
Qed.

Lemma ethtool_stats_ready port data st :
  length data = RTL8365MB_MIB_END -> mib_ready st ->
  length (fst (rtl8365mb_get_ethtool_stats port data st)) = RTL8365MB_MIB_END
  /\ forall i, (i < RTL8365MB_MIB_END)%nat ->
       nth i (fst (rtl8365mb_get_ethtool_stats port data st)) 0 = counter_value st i.
Proof.
  intros Hlen Hrdy. unfold rtl8365mb_get_ethtool_stats.
  destruct (ethtool_fetch_ready port st (seq 0 RTL8365MB_MIB_END) data st
              (proj1 Hrdy) (fun _ _ => eq_refl) Hrdy) as (L & Hin & _).
  - apply List.Forall_forall. intros i Hi. apply in_seq in Hi. lia.
  - apply seq_NoDup.
  - exact Hlen.
  - split; [exact L|]. intros i Hi. apply Hin, in_seq. lia.
Qed.

Lemma seq_mib_end : seq 0 RTL8365MB_MIB_END = 0%nat :: seq 1 (RTL8365MB_MIB_END - 1).
Proof. reflexivity. Qed.

Lemma ethtool_stats_first_fails port data st e :
  fst (rtl8365mb_mib_counter_read port (mib_offset (mib_counter 0))
         (mib_length (mib_counter 0)) st) = Err e ->
  fst (rtl8365mb_get_ethtool_stats port data st) = data.
Proof.
  intros He. unfold rtl8365mb_get_ethtool_stats. rewrite seq_mib_end.
  cbn [ethtool_fetch]. fold (mib_counter 0).
  destruct (rtl8365mb_mib_counter_read port (mib_offset (mib_counter 0))
              (mib_length (mib_counter 0)) st) as [[v | e'] st']; [discriminate He|].
  reflexivity.
Qed.

(** X28 (rtl8365mb_get_ethtool_stats, rtl8365mb_get_strings,
    rtl8365mb_get_sset_count): for the statistics string set the driver
    announces as many entries as it names, and entry [i] of the names is
    the name of counter [i] of its table cut to the 31 characters an
    ethtool string holds: every name is kept whole but that of counter 30,
    which loses its last character, and the names stay pairwise distinct.
    On a chip whose bus works and whose counter engine is ready, entry [i]
    of the values is the value the counter window holds for that counter;
    when the read of the first counter fails, the caller's buffer is handed
    back as it was. *)
Theorem ethtool_stats_outcome port data st :
  length data = RTL8365MB_MIB_END ->
  let names := rtl8365mb_get_strings ETH_SS_STATS [] in
  let data' := fst (rtl8365mb_get_ethtool_stats port data st) in
  Z.of_nat (length names) = rtl8365mb_get_sset_count ETH_SS_STATS
  /\ (forall i, (i < RTL8365MB_MIB_END)%nat ->
        nth i names EmptyString
        = substring 0 (Z.to_nat (ETH_GSTRING_LEN - 1)) (mib_name (mib_counter i))
        /\ (nth i names EmptyString = mib_name (mib_counter i)
            <-> i <> RTL8365MB_MIB_dot3StatsMultipleCollisionFrames))
  /\ List.NoDup names
  /\ (mib_ready st ->
        length data' = RTL8365MB_MIB_END
        /\ forall i, (i < RTL8365MB_MIB_END)%nat -> nth i data' 0 = counter_value st i)
  /\ (forall e,
        fst (rtl8365mb_mib_counter_read port (mib_offset (mib_counter 0))
               (mib_length (mib_counter 0)) st) = Err e ->
        data' = data).
Proof.
  intros Hlen names data'.
  split; [exact ethtool_names_count|].
  split.
  { intros i Hi. subst names. split; [exact (ethtool_names_nth i Hi)|].
    rewrite (ethtool_names_nth i Hi). exact (ethtool_names_whole i Hi). }
  split; [exact ethtool_names_distinct|].
  split; [exact (ethtool_stats_ready port data st Hlen)|].
  exact (ethtool_stats_first_fails port data st).
Qed.

(** ** IEEE 802.3 MAC statistics *)

Lemma mac_first_marked : (nth 0 mac_stats_cnt 0 =? 0) = false.
Proof. vm_compute. reflexivity. Qed.

Lemma mac_stats_marks mac_stats :
  mac_stats_from_counters mac_stats_cnt mac_stats = mac_stats_of_marks mac_stats.
Proof. vm_compute. reflexivity. Qed.

Lemma mac_fetch_cons_fail port i rest cnt st e st1 :
  (nth i cnt 0 =? 0) = false ->
  rtl8365mb_mib_counter_read port (mib_offset (mib_counter i)) (mib_length (mib_counter i)) st
  = (Err e, st1) ->
  mac_fetch port (i :: rest) cnt st = (cnt, st1).
Proof.
  intros H E. cbn [mac_fetch]. rewrite H. unfold mib_counter in E. rewrite E. reflexivity.
Qed.

(** X29 (rtl8365mb_get_mac_stats): when the read of the first counter
    fails, the statistics are still filled in, from the marks of the
    counter array: 3 frames sent, 4 frames received, the octet counts
    wrapped around below zero, and 1 everywhere else. *)
Theorem mac_stats_failed_read port mac_stats st e :
  fst (rtl8365mb_mib_counter_read port (mib_offset (mib_counter RTL8365MB_MIB_ifInOctets))
         (mib_length (mib_counter RTL8365MB_MIB_ifInOctets)) st) = Err e ->
  fst (rtl8365mb_get_mac_stats port mac_stats st) = mac_stats_of_marks mac_stats.
Proof.
  intros He. unfold rtl8365mb_get_mac_stats. rewrite seq_mib_end.
  change RTL8365MB_MIB_ifInOctets with 0%nat in He.
  destruct (rtl8365mb_mib_counter_read port (mib_offset (mib_counter 0))
              (mib_length (mib_counter 0)) st) as [[v | e'] st'] eqn:E; [discriminate He|].
  rewrite (mac_fetch_cons_fail port 0 _ mac_stats_cnt st e' st' mac_first_marked E).
  cbn [fst]. apply mac_stats_marks.
Qed.

Lemma counting_chip_ready : mib_ready counting_chip.
Proof. split; [reflexivity|]. split; vm_compute; reflexivity. Qed.

Lemma ethtool_stats_outcome_witness :
  nth 0 (fst (rtl8365mb_get_ethtool_stats 2 (repeat 0 RTL8365MB_MIB_END) counting_chip)) 0
  = counter_value counting_chip 0
  /\ fst (rtl8365mb_get_ethtool_stats 2 (repeat 7 RTL8365MB_MIB_END)
            (rearm [- EIO] counting_chip))
     = repeat 7 RTL8365MB_MIB_END.
Proof.
  split.
  - pose proof (ethtool_stats_outcome 2 (repeat 0 RTL8365MB_MIB_END) counting_chip eq_refl)
      as H.
    cbv zeta in H. destruct H as (_ & _ & _ & H & _).
    destruct (H counting_chip_ready) as (_ & Hv). apply Hv.
    unfold RTL8365MB_MIB_END. lia.
  - pose proof (ethtool_stats_outcome 2 (repeat 7 RTL8365MB_MIB_END)
                  (rearm [- EIO] counting_chip) eq_refl) as H.
    cbv zeta in H. destruct H as (_ & _ & _ & _ & H).
    apply (H (- EIO)). vm_compute. reflexivity.
Defined.

Lemma mac_stats_failed_read_witness :
  FramesTransmittedOK
    (fst (rtl8365mb_get_mac_stats 2 mac_stats_zero (rearm [- EIO] counting_chip))) = 3
  /\ OctetsReceivedOK
       (fst (rtl8365mb_get_mac_stats 2 mac_stats_zero (rearm [- EIO] counting_chip)))
     = 2 ^ 64 - 71.
Proof.
  assert (E : fst (rtl8365mb_mib_counter_read 2
                     (mib_offset (mib_counter RTL8365MB_MIB_ifInOctets))
                     (mib_length (mib_counter RTL8365MB_MIB_ifInOctets))
                     (rearm [- EIO] counting_chip))
              = Err (- EIO)) by (vm_compute; reflexivity).
  rewrite (mac_stats_failed_read 2 mac_stats_zero (rearm [- EIO] counting_chip) (- EIO) E).
  split; reflexivity.
Defined.

(** * Properties of whole operations *)

(** ** A statistics cycle and the counter reads it makes *)

Lemma mib_fetch_reads port : forall idxs cnt st,
  List.NoDup idxs ->
  let batch := List.filter (fun i => negb (nth i cnt 0 =? 0)) idxs in
  match fst (mib_fetch port idxs cnt st) with
  | Err e => In (Err e) (counter_reads port batch st)
  | Ok cnt' =>
      counter_reads port batch st = map (fun i => Ok (nth i cnt' 0)) batch
      /\ (forall j, ~ In j batch -> nth j cnt' 0 = nth j cnt 0)
  end.
Proof.
  induction idxs as [|i rest IH]; intros cnt st Hnd batch.
  - cbn. split; [reflexivity|]. reflexivity.
  - inversion Hnd as [|? ? Hni Hnd']; subst. subst batch.
    cbn [mib_fetch List.filter].
    destruct (nth i cnt 0 =? 0) eqn:Emark; cbn [negb].
    + apply (IH cnt st Hnd').
    + cbn [counter_reads]. unfold bind.
      destruct (rtl8365mb_mib_counter_read port _ _ st) as [[v | e] st'] eqn:E.
      * assert (Hsame : List.filter (fun j => negb (nth j (<[i := v]> cnt) 0 =? 0)) rest
                        = List.filter (fun j => negb (nth j cnt 0 =? 0)) rest).
        { apply List.filter_ext_in. intros j Hj.
          rewrite nth_insert_ne; [reflexivity|]. intros ->. contradiction. }
        specialize (IH (<[i := v]> cnt) st' Hnd'). cbv zeta in IH. rewrite Hsame in IH.
        destruct (fst (mib_fetch port rest (<[i := v]> cnt) st')) as [cnt' | e'].
        -- destruct IH as [Hr Ho]. split.
           ++ cbn [map]. rewrite Hr. f_equal. f_equal.
              rewrite Ho.
              ** symmetry. apply nth_insert_eq.
                 destruct (Nat.lt_ge_cases i (length cnt)) as [Hlt | Hge]; [exact Hlt|].
                 rewrite nth_overflow in Emark by exact Hge. discriminate Emark.
              ** intros Hin. apply List.filter_In in Hin. destruct Hin. contradiction.
           ++ intros j Hj. rewrite Ho.
              ** apply nth_insert_ne. intros ->. apply Hj. now left.
              ** intros Hin. apply Hj. now right.
        -- now right.
      * cbn [fst]. now left.
Qed.

Lemma counter_reads_all_ok port idxs st vals :
  counter_reads port idxs st = map Ok vals -> forall e, ~ In (Err e) (counter_reads port idxs st).
Proof.
  intros -> e Hin. apply in_map_iff in Hin. destruct Hin as (v & Hv & _). discriminate Hv.
Qed.

Lemma stats_fetch_reads port hwc :
  match fst (mib_fetch port (seq 0 RTL8365MB_MIB_END) stats_update_cnt hwc) with
  | Err e => In (Err e) (counter_reads port stats_batch hwc)
  | Ok cnt' =>
      counter_reads port stats_batch hwc = map (fun i => Ok (nth i cnt' 0)) stats_batch
  end.
Proof.
  pose proof (mib_fetch_reads port (seq 0 RTL8365MB_MIB_END) stats_update_cnt hwc
                (seq_NoDup _ _)) as H.
  cbv zeta in H.
  destruct (fst (mib_fetch port (seq 0 RTL8365MB_MIB_END) stats_update_cnt hwc)).
  - exact (proj1 H).
  - exact H.
Qed.

Lemma stats_update_by_fetch port mb :
  port_stats (rtl8365mb_stats_update port mb)
  = match fst (mib_fetch port (seq 0 RTL8365MB_MIB_END) stats_update_cnt (hw mb)) with
    | Err _ => port_stats mb
    | Ok cnt => alter (stats_from_counters cnt) (Z.to_nat port) (port_stats mb)
    end.
Proof.
  unfold rtl8365mb_stats_update.
  destruct (mib_fetch port (seq 0 RTL8365MB_MIB_END) stats_update_cnt (hw mb))
    as [[cnt|e] st']; reflexivity.
Qed.

Lemma get_stats64_port_stats mb mb' q :
  port_stats mb' = port_stats mb -> rtl8365mb_get_stats64 mb' q = rtl8365mb_get_stats64 mb q.
Proof. unfold rtl8365mb_get_stats64. now intros ->. Qed.

(** C7: one scheduled statistics cycle reads the marked counters one
    after the other.  If one of these reads fails, the published statistics
    of every port are exactly what they were.  If none fails, the snapshot
    of the port is rebuilt from the values read in this cycle alone: every
    field the engine publishes is assigned, whatever the snapshot held
    before, and the other ports keep theirs. *)
Theorem stats_update_all_or_nothing (port : Z) (mb : rtl8365mb) :
  0 <= port < Z.of_nat (length (port_stats mb)) ->
  let mb' := rtl8365mb_stats_update port mb in
  let outcomes := counter_reads port stats_batch (hw mb) in
  ((exists e, In (Err e) outcomes) -> port_stats mb' = port_stats mb)
  /\ ((forall e, ~ In (Err e) outcomes) ->
      exists cnt,
        outcomes = map (fun i => Ok (nth i cnt 0)) stats_batch
        /\ rtl8365mb_get_stats64 mb' port
           = stats_from_counters cnt (rtl8365mb_get_stats64 mb port)
        /\ (forall old old', untouched old = untouched old' ->
              stats_from_counters cnt old = stats_from_counters cnt old')
        /\ (forall q, 0 <= q -> q <> port ->
              rtl8365mb_get_stats64 mb' q = rtl8365mb_get_stats64 mb q)).
Proof.
  intros Hp mb' outcomes. subst mb' outcomes.
  pose proof (stats_fetch_reads port (hw mb)) as H.
  pose proof (stats_update_by_fetch port mb) as Hs.
  destruct (fst (mib_fetch port (seq 0 RTL8365MB_MIB_END) stats_update_cnt (hw mb)))
    as [cnt|e].
  - split.
    + intros [e He]. rewrite H in He. apply in_map_iff in He.
      destruct He as (i & Hi & _). discriminate Hi.
    + intros _. exists cnt. split; [exact H|].
      assert (Hg : forall q, rtl8365mb_get_stats64 (rtl8365mb_stats_update port mb) q
                   = rtl8365mb_get_stats64
                       (mkMb (hw mb) (alter (stats_from_counters cnt) (Z.to_nat port)
                                        (port_stats mb))) q).
      { intros q. apply get_stats64_port_stats. exact Hs. }
      split; [|split].
      * rewrite Hg. destruct mb as [hwc l]. now apply get_stats64_alter_eq.
      * intros old old' Hu. unfold stats_from_counters. now rewrite Hu.
      * intros q Hq Hne. rewrite Hg. destruct mb as [hwc l].
        apply get_stats64_alter_ne; lia.
  - split; [intros _; exact Hs|]. intros Hno. exfalso. exact (Hno e H).
Qed.
Lemma stats_update_all_or_nothing_witness :
  In (Err (- EIO)) (counter_reads 2 stats_batch mib_fail_chip)
  /\ length (counter_reads 2 stats_batch mib_fail_chip) = 5%nat
  /\ port_stats (rtl8365mb_stats_update 2 (mb_with mib_fail_chip))
     = port_stats (mb_with mib_fail_chip)
  /\ rx_packets (rtl8365mb_get_stats64 (rtl8365mb_stats_update 2 (mb_with mib_chip)) 2)
     = 262146
  /\ rtl8365mb_get_stats64 (rtl8365mb_stats_update 2 (mb_with mib_chip)) 3
     = rtl8365mb_get_stats64 (mb_with mib_chip) 3.
Proof.
  assert (Hp : forall st, 0 <= 2 < Z.of_nat (length (port_stats (mb_with st))))
    by (intros st; simpl; lia).
  assert (Efail : counter_reads 2 stats_batch mib_fail_chip = mib_fail_reads)
    by (vm_compute; reflexivity).
  assert (Eok : counter_reads 2 stats_batch mib_chip = mib_chip_reads)
    by (vm_compute; reflexivity).
  assert (Hin : In (Err (- EIO)) (counter_reads 2 stats_batch mib_fail_chip)).
  { rewrite Efail. unfold mib_fail_reads. simpl. tauto. }
  split; [exact Hin|]. split; [rewrite Efail; reflexivity|]. split; [|split].
  - apply (proj1 (stats_update_all_or_nothing 2 (mb_with mib_fail_chip) (Hp _))).
    exists (- EIO). exact Hin.
  - destruct (proj2 (stats_update_all_or_nothing 2 (mb_with mib_chip) (Hp _)))
      as (cnt & Hr & Hs & _).
    + intros e He. change (hw (mb_with mib_chip)) with mib_chip in He.
      rewrite Eok in He. unfold mib_chip_reads in He. simpl in He.
      repeat (destruct He as [He | He]; [discriminate He|]). exact He.
    + rewrite Hs. change (hw (mb_with mib_chip)) with mib_chip in Hr.
      rewrite Eok in Hr. unfold mib_chip_reads in Hr.
      assert (Eb : stats_batch = [0; 1; 5; 6; 7; 8; 9; 10; 28; 32; 33; 36; 38; 39; 40]%nat)
        by (vm_compute; reflexivity).
      rewrite Eb in Hr. cbn [map] in Hr.
      injection Hr as H0 H1 H5 H6 H7 H8 H9 H10 H28 H32 H33 H36 H38 H39 H40.
      unfold stats_from_counters. cbn [rx_packets].
      unfold RTL8365MB_MIB_ifInUcastPkts, RTL8365MB_MIB_ifInMulticastPkts,
        RTL8365MB_MIB_ifInBroadcastPkts, RTL8365MB_MIB_ifOutDiscards.
      rewrite <- H7, <- H9, <- H10, <- H36. reflexivity.
  - destruct (proj2 (stats_update_all_or_nothing 2 (mb_with mib_chip) (Hp _)))
      as (cnt & _ & _ & _ & Ho).
    + intros e He. change (hw (mb_with mib_chip)) with mib_chip in He.
      rewrite Eok in He. unfold mib_chip_reads in He. simpl in He.
      repeat (destruct He as [He | He]; [discriminate He|]). exact He.
    + apply Ho; [lia | discriminate].
Defined.

(** ** Accepted frame type across a whole add or delete *)

Lemma vlanmc_target_same st st' vid flags :
  (forall b, 0x700 <= b < 0x7ac -> reg st' b = reg st b) ->
  vlanmc_target st' vid flags = vlanmc_target st vid flags.
Proof.
  intros H.
  assert (Hev : forall i, In i vlanmc_slots -> slot_evid st' i = slot_evid st i).
  { intros i Hi. apply slots_from_range in Hi.
    change (Z.of_nat (Z.to_nat (RTL8365MB_VLAN_MC_CONF_SIZE - 1))) with 31 in Hi.
    unfold slot_evid, slot_entry. f_equal. f_equal. f_equal.
    apply regs_at_ext. intros b Hb. apply H.
    destruct (slot_regs_range i ltac:(lia)). lia. }
  assert (Hfind : forall (f g : Z -> bool) l,
            (forall x, In x l -> f x = g x) -> List.find f l = List.find g l).
  { intros f g l. induction l as [|x l IH]; intros Hfg; [reflexivity|].
    cbn [List.find]. rewrite (Hfg x) by (now left). rewrite IH; [reflexivity|].
    intros y Hy. apply Hfg. now right. }
  unfold vlanmc_target, slot_lookup, slot_first_free.
  rewrite (Hfind (fun i => slot_evid st' i =? vid) (fun i => slot_evid st i =? vid))
    by (intros i Hi; now rewrite Hev).
  rewrite (Hfind (fun i => slot_evid st' i =? 0) (fun i => slot_evid st i =? 0))
    by (intros i Hi; now rewrite Hev).
  reflexivity.
Qed.

Lemma frame_flip_same st st' port vid flags include :
  0 <= port < 16 ->
  (forall b, 0x700 <= b < 0x7ac -> reg st' b = reg st b) ->
  frame_flip st' port vid flags include = frame_flip st port vid flags include.
Proof.
  intros Hp H. unfold frame_flip. rewrite (vlanmc_target_same st st' vid flags H).
  destruct (port_regs_range port Hp) as [Hpr Hfr].
  rewrite (frame_type_same st st' port) by (apply H; lia).
  rewrite (pvid_index_same st st' port) by (apply H; lia).
  reflexivity.
Qed.

(** One run of the slot reconciliation on a quiet chip: it ends on a quiet
    chip, fails only for want of a slot, and leaves alone every register
    outside the VLAN registers and the table window. *)
Lemma vlanmc_set_quiet ds port vid flags include st :
  quiet st -> 0 <= port < 16 -> 0 <= vid <= RTL8365MB_MAX_MC_VID ->
  exists r st',
    rtl8365mb_vlanmc_set ds port vid flags include st = (r, st')
    /\ quiet st'
    /\ (r = Ok tt \/ (r = Err (- EINVAL) /\ vlanmc_target st vid flags = None))
    /\ (forall b, ~ table_window b -> ~ 0x700 <= b < 0x7ac -> reg st' b = reg st b).
Proof.
  intros [Hf Hbusy] Hp Hvid.
  destruct (vlanmc_target st vid flags) as [idx|] eqn:Htgt.
  2:{ destruct (vlanmc_set_no_target ds port vid flags include st Hf Hvid Htgt)
        as (d & E & _).
      eexists _, _. split; [exact E|]. split; [split; [reflexivity | exact Hbusy]|].
      split; [destruct (has_pvid_flag flags); auto|]. reflexivity. }
  pose proof (vlanmc_target_range _ _ _ _ Htgt) as Hidx.
  destruct (port_regs_range port Hp) as [Hpr Hfr].
  destruct (slot_regs_range idx ltac:(lia)) as [Hs1 Hs2].
  unfold rtl8365mb_vlanmc_set.
  destruct (Z.gtb_spec vid RTL8365MB_MAX_MC_VID); [lia|].
  destruct (vlanmc_scan_ok (Z.to_nat (RTL8365MB_VLAN_MC_CONF_SIZE - 1)) 1 (-1)
              [0; 0; 0; 0] vid st Hf ltac:(lia)) as (r & d & E & Hd & Hr).
  unfold bind at 1. rewrite E.
  set (s1 := mkChip (regs st) (tables st) [] (log st ++ d)).
  assert (Hstep : forall entry vlan4k s2,
            faults s2 = [] ->
            (forall b, ~ table_window b -> reg s2 b = reg st b) ->
            length entry = 4%nat ->
            exists r' st',
              vlanmc_set_slot ds port vid flags include idx entry vlan4k s2 = (r', st')
              /\ quiet st'
              /\ (r' = Ok tt \/ (r' = Err (- EINVAL) /\ Some idx = None))
              /\ (forall b, ~ table_window b -> ~ 0x700 <= b < 0x7ac -> reg st' b = reg st b)).
  { intros entry vlan4k s2 Hf2 Hr2 Hlen.
    destruct (vlanmc_set_slot_ok ds port vid flags include idx entry vlan4k s2 Hf2 Hp
                ltac:(lia) Hlen) as (st' & ne & E' & Hf' & _ & _ & _ & _ & _ & Hk).
    assert (Hreg : forall b, ~ table_window b -> ~ 0x700 <= b < 0x7ac -> reg st' b = reg st b).
    { intros b Hb1 Hb2. rewrite Hk by lia. now apply Hr2. }
    exists (Ok tt), st'. split; [exact E'|]. split; [|split; [now left | exact Hreg]].
    split; [exact Hf'|]. rewrite Hreg; [exact Hbusy| |];
      unfold table_window, RTL8365MB_TABLE_LUT_REG, RTL8365MB_TABLE_CONTROL_REG,
        RTL8365MB_TABLE_ACCESS_ADDR_REG, RTL8365MB_TABLE_WRITE_DATA_REG_BASE,
        RTL8365MB_TABLE_READ_DATA_REG_BASE; lia. }
  unfold vlanmc_target, slot_lookup, slot_first_free, vlanmc_slots in Htgt.
  destruct (List.find (fun i => slot_evid st i =? vid) _) as [i|] eqn:Efind.
  - injection Htgt as ->. destruct Hr as [fu' ->].
    destruct (Z.eqb_spec idx RTL8365MB_VLAN_MC_CONF_SIZE);
      [unfold RTL8365MB_VLAN_MC_CONF_SIZE in *; lia|].
    apply (Hstep (slot_entry st idx) vlan4k_zero s1); reflexivity.
  - destruct Hr as [e' ->].
    change (1 + Z.of_nat (Z.to_nat (RTL8365MB_VLAN_MC_CONF_SIZE - 1))
            =? RTL8365MB_VLAN_MC_CONF_SIZE) with true. cbv iota.
    destruct (Z.land flags BRIDGE_VLAN_INFO_PVID =? 0) eqn:Eflag; [discriminate|].
    change (-1 <? 0) with true. cbv iota. rewrite Htgt.
    change (default (-1) (Some idx)) with idx.
    destruct (Z.ltb_spec idx 0); [lia|].
    destruct (Z.leb_spec vid RTL8365MB_MAX_4K_VID).
    + destruct (table_read_ok rtl8365mb_table_entry_size RTL8365MB_TABLE_CVLAN vid
                  [0; 0; 0; 0] s1 eq_refl Hbusy)
        as (s2 & E2 & Hf2 & Ht2 & Hr2 & Hl2);
        [ vm_compute; intuition discriminate
        | unfold RTL8365MB_MAX_4K_VID in *; lia
        | vm_compute; intuition discriminate |].
      unfold bind at 1. unfold rtl8365mb_table_access. rewrite E2.
      change (rtl8365mb_table_entry_size RTL8365MB_TABLE_CVLAN =? 10) with false. cbv iota.
      apply Hstep; [exact Hf2 | exact Hr2 | reflexivity].
    + apply (Hstep [0; 0; 0; 0] vlan4k_zero s1); reflexivity.
Qed.

Lemma frame_type_outside_window st st' q :
  0 <= q < 16 ->
  (forall b, ~ table_window b -> reg st' b = reg st b) ->
  frame_type st' q = frame_type st q.
Proof.
  intros Hq H. apply frame_type_same, H, not_in_table_window.
  destruct (port_regs_range q Hq). lia.
Qed.

Lemma vlan_add_frame_type ds port vid flags st :
  quiet st -> 0 <= port < RTL8365MB_MAX_NUM_PORTS -> 0 <= vid <= RTL8365MB_MAX_4K_VID ->
  forall q, 0 <= q < RTL8365MB_MAX_NUM_PORTS ->
    frame_type (snd (rtl8365mb_vlan_add ds port vid flags st)) q
    = frame_type (snd (rtl8365mb_vlanmc_set ds port vid flags true st)) q.
Proof.
  intros Hq Hp Hvid q Hqr. unfold RTL8365MB_MAX_NUM_PORTS in *.
  destruct (vlanmc_set_quiet ds port vid flags true st Hq ltac:(lia)
              ltac:(unfold RTL8365MB_MAX_4K_VID, RTL8365MB_MAX_MC_VID in *; lia))
    as (r & s1 & E & Hq1 & Hr & _).
  unfold rtl8365mb_vlan_add. rewrite E. cbn [snd].
  destruct Hr as [-> | [-> _]]; [|reflexivity].
  destruct (vlan4k_set_ok ds port vid flags true s1 Hq1 Hvid Hp)
    as (s2 & E2 & _ & _ & _ & _ & _ & Hk).
  rewrite E2. cbn [snd]. apply frame_type_outside_window; [lia | exact Hk].
Qed.

Lemma vlan_del_frame_type ds port vid flags st :
  quiet st -> 0 <= port < RTL8365MB_MAX_NUM_PORTS -> 0 <= vid <= RTL8365MB_MAX_MC_VID ->
  exists s1,
    quiet s1
    /\ (forall b, 0x700 <= b < 0x7ac -> reg s1 b = reg st b)
    /\ snd (rtl8365mb_vlan_del ds port vid flags st)
       = snd (rtl8365mb_vlanmc_set ds port vid flags false s1).
Proof.
  intros Hq Hp Hvid. unfold rtl8365mb_vlan_del.
  destruct (Z.le_gt_cases vid RTL8365MB_MAX_4K_VID) as [Hle | Hgt].
  - destruct (vlan4k_set_ok ds port vid flags false st Hq ltac:(lia) Hp)
      as (s1 & E1 & Hq1 & _ & _ & _ & _ & Hk).
    rewrite E1. exists s1. split; [exact Hq1|]. split.
    + intros b Hb. apply Hk, not_in_table_window, Hb.
    + destruct (rtl8365mb_vlanmc_set ds port vid flags false s1). reflexivity.
  - exists st. split; [exact Hq|]. split; [reflexivity|].
    unfold rtl8365mb_vlan4k_set.
    destruct (Z.gtb_spec vid RTL8365MB_MAX_4K_VID); [|lia].
    unfold fail.
    destruct (rtl8365mb_vlanmc_set ds port vid flags false st). reflexivity.
Qed.

(** C4: on a quiet chip.  An add whose VID the by-ID table can hold turns
    the port's accepted frame type into any-frame exactly when it carries
    the PVID flag, finds a slot for the VID and the type was tagged-only.  A
    delete turns it into tagged-only exactly when it finds the slot of the
    VID, the port's PVID points to that slot and the type was any-frame.
    In every other case, an add without the PVID flag among them, the type
    stays what it was, and the types of the other ports are never
    touched. *)
Theorem frame_type_changes_per_operation (ds : dsa_switch) (port vid flags : Z)
    (st : chip) :
  quiet st -> 0 <= port < RTL8365MB_MAX_NUM_PORTS -> 0 <= vid <= RTL8365MB_MAX_MC_VID ->
  let added := snd (rtl8365mb_vlan_add ds port vid flags st) in
  let deleted := snd (rtl8365mb_vlan_del ds port vid flags st) in
  (vid <= RTL8365MB_MAX_4K_VID ->
     frame_type added port
     = (if frame_flip st port vid flags true then RTL8365MB_FRAME_TYPE_ANY_FRAME
        else frame_type st port)
     /\ (frame_type added port <> frame_type st port
         <-> frame_flip st port vid flags true = true)
     /\ (has_pvid_flag flags = false -> frame_type added port = frame_type st port)
     /\ (forall q, 0 <= q < RTL8365MB_MAX_NUM_PORTS -> q <> port ->
           frame_type added q = frame_type st q))
  /\ frame_type deleted port
     = (if frame_flip st port vid flags false then RTL8365MB_FRAME_TYPE_TAGGED_ONLY
        else frame_type st port)
  /\ (frame_type deleted port <> frame_type st port
      <-> frame_flip st port vid flags false = true)
  /\ (forall q, 0 <= q < RTL8365MB_MAX_NUM_PORTS -> q <> port ->
        frame_type deleted q = frame_type st q).
Proof.
  intros Hq Hp Hvid added deleted. subst added deleted.
  split.
  - intros Hle.
    destruct (vlanmc_set_frame_type ds port vid flags true st (proj1 Hq) (proj2 Hq) Hp Hvid)
      as (H1 & H2 & H3 & H4).
    rewrite !(vlan_add_frame_type ds port vid flags st Hq Hp ltac:(lia) port Hp).
    split; [exact H1|]. split; [exact H2|]. split; [intros Hfl; now apply H3|].
    intros q Hqr Hne.
    rewrite (vlan_add_frame_type ds port vid flags st Hq Hp ltac:(lia) q Hqr).
    now apply H4.
  - destruct (vlan_del_frame_type ds port vid flags st Hq Hp Hvid) as (s1 & Hq1 & Hk & ->).
    destruct (vlanmc_set_frame_type ds port vid flags false s1 (proj1 Hq1) (proj2 Hq1) Hp Hvid)
      as (H1 & H2 & _ & H4).
    assert (Hp16 : 0 <= port < 16) by (unfold RTL8365MB_MAX_NUM_PORTS in Hp; lia).
    assert (Hft : forall q, 0 <= q < RTL8365MB_MAX_NUM_PORTS ->
                    frame_type s1 q = frame_type st q).
    { intros q Hqr. unfold RTL8365MB_MAX_NUM_PORTS in Hqr.
      apply frame_type_same, Hk. destruct (port_regs_range q ltac:(lia)). lia. }
    rewrite (frame_flip_same st s1 port vid flags false Hp16 Hk) in H1, H2.
    rewrite (Hft port Hp) in H1, H2.
    split; [exact H1|]. split; [exact H2|].
    intros q Hqr Hne. rewrite H4 by assumption. now apply Hft.
Qed.

(** C4, as stated, fails: an add with the PVID flag on a tagged-only port
    that finds every slot taken leaves the port tagged-only; and an add
    whose by-ID step fails, for a VID the by-ID table cannot hold or on a
    transport failure, is taken back through the delete step, which leaves
    a port that accepted any frame before the add tagged-only. *)
Lemma vlan_add_frame_type_not_as_claimed :
  (has_pvid_flag BRIDGE_VLAN_INFO_PVID = true
   /\ frame_type tagged_only_full_chip 2 = RTL8365MB_FRAME_TYPE_TAGGED_ONLY
   /\ frame_type (snd (rtl8365mb_vlan_add ds11 2 10 BRIDGE_VLAN_INFO_PVID
                         tagged_only_full_chip)) 2
      = RTL8365MB_FRAME_TYPE_TAGGED_ONLY)
  /\ (frame_type fresh_chip 2 = RTL8365MB_FRAME_TYPE_ANY_FRAME
      /\ fst (rtl8365mb_vlan_add ds11 2 5000 BRIDGE_VLAN_INFO_PVID fresh_chip)
         = Err (- EINVAL)
      /\ frame_type (snd (rtl8365mb_vlan_add ds11 2 5000 BRIDGE_VLAN_INFO_PVID fresh_chip)) 2
         = RTL8365MB_FRAME_TYPE_TAGGED_ONLY)
  /\ (frame_type by_id_fail_chip 2 = RTL8365MB_FRAME_TYPE_ANY_FRAME
      /\ fst (rtl8365mb_vlan_add ds11 2 10 BRIDGE_VLAN_INFO_PVID by_id_fail_chip)
         = Err (- EIO)
      /\ frame_type (snd (rtl8365mb_vlan_add ds11 2 10 BRIDGE_VLAN_INFO_PVID
                            by_id_fail_chip)) 2
         = RTL8365MB_FRAME_TYPE_TAGGED_ONLY).
Proof. vm_compute. repeat split. Qed.

Lemma quiet_tagged_only_chip : quiet tagged_only_chip.
Proof. split; vm_compute; reflexivity. Qed.

Lemma quiet_pvid10_chip : quiet pvid10_chip.
Proof. split; vm_compute; reflexivity. Qed.

Lemma frame_type_changes_per_operation_witness :
  frame_type tagged_only_chip 2 = RTL8365MB_FRAME_TYPE_TAGGED_ONLY
  /\ frame_type (snd (rtl8365mb_vlan_add ds11 2 10 BRIDGE_VLAN_INFO_PVID tagged_only_chip)) 2
     = RTL8365MB_FRAME_TYPE_ANY_FRAME
  /\ frame_type (snd (rtl8365mb_vlan_add ds11 2 10 0 tagged_only_chip)) 2
     = RTL8365MB_FRAME_TYPE_TAGGED_ONLY
  /\ frame_type pvid10_chip 2 = RTL8365MB_FRAME_TYPE_ANY_FRAME
  /\ frame_type (snd (rtl8365mb_vlan_del ds11 2 10 0 pvid10_chip)) 2
     = RTL8365MB_FRAME_TYPE_TAGGED_ONLY.
Proof.
  assert (Hp : 0 <= 2 < RTL8365MB_MAX_NUM_PORTS) by (unfold RTL8365MB_MAX_NUM_PORTS; lia).
  assert (Hv : 0 <= 10 <= RTL8365MB_MAX_MC_VID) by (unfold RTL8365MB_MAX_MC_VID; lia).
  assert (H4 : 10 <= RTL8365MB_MAX_4K_VID) by (unfold RTL8365MB_MAX_4K_VID; lia).
  assert (F0 : frame_type tagged_only_chip 2 = RTL8365MB_FRAME_TYPE_TAGGED_ONLY)
    by (vm_compute; reflexivity).
  assert (F1 : frame_flip tagged_only_chip 2 10 BRIDGE_VLAN_INFO_PVID true = true)
    by (vm_compute; reflexivity).
  assert (F2 : frame_flip tagged_only_chip 2 10 0 true = false)
    by (vm_compute; reflexivity).
  assert (F3 : frame_type pvid10_chip 2 = RTL8365MB_FRAME_TYPE_ANY_FRAME)
    by (vm_compute; reflexivity).
  assert (F4 : frame_flip pvid10_chip 2 10 0 false = true)
    by (vm_compute; reflexivity).
  pose proof (frame_type_changes_per_operation ds11 2 10 BRIDGE_VLAN_INFO_PVID
                tagged_only_chip quiet_tagged_only_chip Hp Hv) as A.
  pose proof (frame_type_changes_per_operation ds11 2 10 0
                tagged_only_chip quiet_tagged_only_chip Hp Hv) as B.
  pose proof (frame_type_changes_per_operation ds11 2 10 0
                pvid10_chip quiet_pvid10_chip Hp Hv) as C.
  cbv zeta in A, B, C.
  destruct A as (A & _). destruct (A H4) as (A1 & _). rewrite F1 in A1.
  destruct B as (B & _). destruct (B H4) as (B1 & _). rewrite F2, F0 in B1.
  destruct C as (_ & C1 & _). rewrite F4 in C1.
  split; [exact F0|]. split; [exact A1|]. split; [exact B1|]. split; [exact F3 | exact C1].
Defined.
